(** * Wanderlust AI planner: the generation pipeline, embedded and verified

    A shallow embedding of the orchestration code of the travel planner
    (services/glmService.ts, services/agent/dayAgent.ts,
    services/agent/intentAgent.ts, services/agent/feedbackAgent.ts and the
    edit and version handlers of App.tsx), with the properties its
    specification states about it.

    Conventions.
    - A JavaScript string is a [string]: the bytes of its UTF-8 encoding.
      Searching, slicing and comparing substrings of well-formed text give
      the same text in UTF-8 as in UTF-16; indices count bytes here and are
      only fed back into slicing.
    - A JavaScript [number] that holds a day index, a version or a
      percentage is a [Z].
    - A rejected promise or a thrown exception is [Throw e]; [await] of a
      fulfilled promise is [Ok v].  The answers of the three external
      collaborators are inputs of the model.
    - [JSON.parse], [String.prototype.toLowerCase] and
      [encodeURIComponent] belong to the runtime and are parameters. *)

From Stdlib Require Import String Ascii List ZArith QArith Bool Lia Arith.
From Stdlib Require Import DecimalString Qround.
From Stdlib Require Import Permutation Sorted.
Import ListNotations.

Open Scope string_scope.
Open Scope Z_scope.

(** ** Exceptions and results *)

Inductive exn : Type :=
| Error (message : string)
| SyntaxError (message : string)
| TypeError (message : string).

Inductive result (A : Type) : Type :=
| Ok (value : A)
| Throw (e : exn).

Arguments Ok {A} value.
Arguments Throw {A} e.

Definition is_ok {A} (r : result A) : bool :=
  match r with Ok _ => true | Throw _ => false end.

(** ** JavaScript string operations *)

Module JsString.

Definition char (c : ascii) : string := String c EmptyString.

Definition bytes (l : list nat) : string :=
  string_of_list_ascii (map ascii_of_nat l).

(** The double quote, which cannot stand inside a literal here. *)
Definition dq : string := bytes [34%nat].
Definition quoted (s : string) : string := dq ++ s ++ dq.
Definition nl : string := bytes [10%nat].

Fixpoint drop (n : nat) (s : string) : string :=
  match n, s with
  | O, _ => s
  | S _, EmptyString => EmptyString
  | S n', String _ s' => drop n' s'
  end.

Fixpoint take (n : nat) (s : string) : string :=
  match n, s with
  | O, _ => EmptyString
  | S _, EmptyString => EmptyString
  | S n', String c s' => String c (take n' s')
  end.

Definition len (s : string) : Z := Z.of_nat (String.length s).

(** [s.startsWith(p)] and [s.endsWith(p)]. *)
Definition startsWith (s p : string) : bool := String.prefix p s.

Definition endsWith (s p : string) : bool :=
  (String.length p <=? String.length s)%nat
  && String.eqb (drop (String.length s - String.length p) s) p.

(** Relative index of [slice]: negative counts from the end, then clamp. *)
Definition rel_index (l i : Z) : Z :=
  if i <? 0 then Z.max (l + i) 0 else Z.min i l.

(** [s.slice(start, end)]; [end] omitted is [None]. *)
Definition slice (s : string) (start : Z) (end_ : option Z) : string :=
  let l := len s in
  let from := rel_index l start in
  let to := match end_ with Some e => rel_index l e | None => l end in
  take (Z.to_nat (to - from)) (drop (Z.to_nat from) s).

(** [s.substring(a, b)]: clamp both to [0, length], swap if needed. *)
Definition substring (s : string) (a b : Z) : string :=
  let l := len s in
  let a' := Z.min (Z.max a 0) l in
  let b' := Z.min (Z.max b 0) l in
  let lo := Z.min a' b' in
  let hi := Z.max a' b' in
  take (Z.to_nat (hi - lo)) (drop (Z.to_nat lo) s).

(** [s.indexOf(needle)] and [s.lastIndexOf(needle)], [-1] when absent. *)
Fixpoint indexOf_from (needle s : string) (i : Z) : Z :=
  if String.prefix needle s then i
  else match s with
       | EmptyString => -1
       | String _ s' => indexOf_from needle s' (i + 1)
       end.

Definition indexOf (s needle : string) : Z := indexOf_from needle s 0.

Fixpoint lastIndexOf_from (needle s : string) (i : Z) : Z :=
  match s with
  | EmptyString => if String.prefix needle s then i else -1
  | String _ s' =>
      let r := lastIndexOf_from needle s' (i + 1) in
      if r =? -1 then (if String.prefix needle s then i else -1) else r
  end.

Definition lastIndexOf (s needle : string) : Z := lastIndexOf_from needle s 0.

(** [s.includes(needle)]. *)
Definition includes (s needle : string) : bool :=
  negb (indexOf s needle =? -1).

(** [l.join(sep)]. *)
Definition join (sep : string) (l : list string) : string :=
  String.concat sep l.

(** White space and line terminators of ECMAScript, as UTF-8. *)
Definition whitespace : list string :=
  [ bytes [9%nat]; bytes [10%nat]; bytes [11%nat]; bytes [12%nat];
    bytes [13%nat]; bytes [32%nat];
    bytes [194; 160]%nat;                       (* U+00A0 *)
    bytes [225; 154; 128]%nat;                  (* U+1680 *)
    bytes [226; 128; 128]%nat; bytes [226; 128; 129]%nat;
    bytes [226; 128; 130]%nat; bytes [226; 128; 131]%nat;
    bytes [226; 128; 132]%nat; bytes [226; 128; 133]%nat;
    bytes [226; 128; 134]%nat; bytes [226; 128; 135]%nat;
    bytes [226; 128; 136]%nat; bytes [226; 128; 137]%nat;
    bytes [226; 128; 138]%nat;                  (* U+2000 .. U+200A *)
    bytes [226; 128; 168]%nat; bytes [226; 128; 169]%nat; (* U+2028, U+2029 *)
    bytes [226; 128; 175]%nat;                  (* U+202F *)
    bytes [226; 129; 159]%nat;                  (* U+205F *)
    bytes [227; 128; 128]%nat;                  (* U+3000 *)
    bytes [239; 187; 191]%nat ].                (* U+FEFF *)

Definition leading_space (s : string) : option string :=
  find (startsWith s) whitespace.

Definition trailing_space (s : string) : option string :=
  find (endsWith s) whitespace.

Fixpoint trimStart_loop (fuel : nat) (s : string) : string :=
  match fuel with
  | O => s
  | S fuel' =>
      match leading_space s with
      | Some w => trimStart_loop fuel' (drop (String.length w) s)
      | None => s
      end
  end.

Fixpoint trimEnd_loop (fuel : nat) (s : string) : string :=
  match fuel with
  | O => s
  | S fuel' =>
      match trailing_space s with
      | Some w => trimEnd_loop fuel' (take (String.length s - String.length w) s)
      | None => s
      end
  end.

(** [s.trim()]: every round removes at least one byte, so [length s]
    rounds reach the fixed point. *)
Definition trim (s : string) : string :=
  let s1 := trimStart_loop (String.length s) s in
  trimEnd_loop (String.length s1) s1.

(** Occurrence of a character. *)
Definition has (c : ascii) (s : string) : Prop :=
  In c (list_ascii_of_string s).

End JsString.

Import JsString.

(** ** The response parser (glmService.ts, parseAIJsonResponse) *)

(** [JSON.parse] read at the TypeScript type the call site declares for the
    value: the code uses the parsed value at that type without validating
    its shape. *)
Class JsonType (A : Type) : Type :=
  JSON_parse : string -> result A.

Section ResponseParser.

Context {A : Type} {parse : JsonType A}.

(** The first half of [parseAIJsonResponse]: trim, drop the markdown
    fence at either end, trim again. *)
Definition strip_markdown (text : string) : string :=
  let cleaned := trim text in
  let cleaned :=
    if startsWith cleaned "```json" then slice cleaned 7 None
    else if startsWith cleaned "```" then slice cleaned 3 None
    else cleaned in
  let cleaned :=
    if endsWith cleaned "```" then slice cleaned 0 (Some (-3))
    else cleaned in
  trim cleaned.

Definition parseAIJsonResponse (text : string) : result A :=
  let cleaned := strip_markdown text in
  let firstBrace := indexOf cleaned "{" in
  let lastBrace := lastIndexOf cleaned "}" in
  if (firstBrace =? -1) || (lastBrace =? -1) || (firstBrace >=? lastBrace)
  then Throw (Error "No valid JSON object found in response")
  else
    let jsonStr := substring cleaned firstBrace (lastBrace + 1) in
    JSON_parse jsonStr.

End ResponseParser.

(** What the specification says of the parser, in its own words. *)
Module ParserSpec.

(** A leading fence token is removed if present, then a trailing one. *)
Inductive fenced (s : string) (mid : string) : Prop :=
| Fenced (lead trail : string) :
    s = lead ++ mid ++ trail ->
    (lead = "```json" \/
     (lead = "```" /\ startsWith s "```json" = false) \/
     (lead = "" /\ startsWith s "```" = false)) ->
    (trail = "```" \/ (trail = "" /\ endsWith mid "```" = false)) ->
    fenced s mid.

(** The slice from the first opening brace to the last closing brace,
    both included. *)
Inductive brace_slice (body : string) : string -> Prop :=
| BraceSlice (pre mid post : string) :
    body = pre ++ "{" ++ mid ++ "}" ++ post ->
    ~ has "{" pre ->
    ~ has "}" post ->
    brace_slice body ("{" ++ mid ++ "}").

(** No opening brace that comes before a closing one: the text splits
    into a part without "{" followed by a part without "}".  The first
    part is everything when "{" is missing, the second when "}" is. *)
Definition no_brace_pair (body : string) : Prop :=
  exists u v, body = u ++ v /\ ~ has "{" u /\ ~ has "}" v.

End ParserSpec.

(** ** Scene types (types.ts) and the keyword table (intentAgent.ts) *)

Inductive SceneType : Type :=
| ROMANTIC | FAMILY | ADVENTURE | BUSINESS
| FOODIE | CULTURE | RELAXATION | SOLO.

(** The string value of each member of the enum. *)
Definition SceneType_value (s : SceneType) : string :=
  match s with
  | ROMANTIC => "romantic"
  | FAMILY => "family"
  | ADVENTURE => "adventure"
  | BUSINESS => "business"
  | FOODIE => "foodie"
  | CULTURE => "culture"
  | RELAXATION => "relaxation"
  | SOLO => "solo"
  end.

(** The keys of a record literal over the enum, in the order [Object.entries]
    lists them: the order in which the literal names them. *)
Definition SceneType_keys : list SceneType :=
  [ROMANTIC; FAMILY; ADVENTURE; BUSINESS; FOODIE; CULTURE; RELAXATION; SOLO].

Definition SCENE_KEYWORDS (s : SceneType) : list string :=
  match s with
  | ROMANTIC =>
      ["情侣"; "蜜月"; "纪念日"; "求婚"; "浪漫"; "二人世界"; "情人节";
       "honeymoon"; "anniversary"; "romantic"; "couple"; "proposal"]
  | FAMILY =>
      ["亲子"; "家庭"; "小孩"; "孩子"; "儿童"; "带娃"; "全家"; "老人";
       "family"; "kids"; "children"; "parents"; "baby"; "toddler"]
  | ADVENTURE =>
      ["探险"; "徒步"; "登山"; "露营"; "户外"; "极限"; "越野"; "攀岩";
       "adventure"; "hiking"; "climbing"; "camping"; "outdoor"; "extreme"]
  | BUSINESS =>
      ["商务"; "出差"; "会议"; "考察"; "团建"; "客户"; "展览";
       "business"; "work"; "meeting"; "conference"; "corporate"]
  | FOODIE =>
      ["美食"; "吃货"; "餐厅"; "小吃"; "美食之旅"; "品鉴"; "料理";
       "food"; "foodie"; "cuisine"; "culinary"; "restaurant"; "gastronomy"]
  | CULTURE =>
      ["文化"; "历史"; "博物馆"; "古迹"; "艺术"; "建筑"; "人文";
       "culture"; "history"; "museum"; "heritage"; "art"; "architecture"]
  | RELAXATION =>
      ["度假"; "休闲"; "放松"; "海滩"; "海岛"; "温泉"; "度假村"; "疗养";
       "relax"; "vacation"; "beach"; "resort"; "spa"; "island"; "leisure"]
  | SOLO =>
      ["独行"; "独自"; "一个人"; "solo"; "独自旅行"; "穷游"; "背包客";
       "solo"; "alone"; "backpack"; "independent"]
  end.

(** [toLowerCase] on the letters A to Z, every other byte kept: what the
    runtime does on text whose only cased letters are ASCII.  It runs the
    examples of the scene classifier, whose properties hold for any
    lowering function, and it is the case folding of a pattern with the
    [i] flag whose letters are ASCII. *)
Definition ascii_lower (c : ascii) : ascii :=
  let n := nat_of_ascii c in
  if ((65 <=? n) && (n <=? 90))%nat then ascii_of_nat (n + 32) else c.

Fixpoint ascii_toLowerCase (s : string) : string :=
  match s with
  | EmptyString => EmptyString
  | String c s' => String (ascii_lower c) (ascii_toLowerCase s')
  end.

(** ** IntentAgent.quickPredict (intentAgent.ts) *)

Section IntentAgent.

Variable toLowerCase : string -> string.

(** The inner loop: one point per keyword of the scene found in the input. *)
Definition keyword_score (lowerInput : string) (keywords : list string) : Z :=
  fold_left
    (fun score keyword =>
       if includes lowerInput (toLowerCase keyword) then score + 1 else score)
    keywords 0.

Definition scene_scores (lowerInput : string) : list (SceneType * Z) :=
  map (fun scene => (scene, keyword_score lowerInput (SCENE_KEYWORDS scene)))
      SceneType_keys.

(** The second loop: a strictly greater score replaces the current best. *)
Definition best_scene (scores : list (SceneType * Z)) : Z * SceneType :=
  fold_left
    (fun (best : Z * SceneType) (entry : SceneType * Z) =>
       let '(maxScore, predictedScene) := best in
       let '(scene, score) := entry in
       if score >? maxScore then (score, scene)
       else (maxScore, predictedScene))
    scores (0, RELAXATION).

Definition quickPredict (input : string) : SceneType :=
  let lowerInput := toLowerCase input in
  snd (best_scene (scene_scores lowerInput)).

End IntentAgent.

(** The instant tier as the specification words it: the first category, in
    table order, one of whose keywords occurs in the lowered input, and
    [RELAXATION] when there is none. *)
Module SceneSpec.

Definition first_hit (toLowerCase : string -> string) (input : string)
  : SceneType :=
  let lowerInput := toLowerCase input in
  match find (fun scene =>
                existsb (fun keyword => includes lowerInput (toLowerCase keyword))
                        (SCENE_KEYWORDS scene))
             SceneType_keys with
  | Some scene => scene
  | None => RELAXATION
  end.

(** The number of keywords of a category that occur in the lowered input,
    a keyword listed twice counting twice. *)
Definition hits (toLowerCase : string -> string) (input : string)
  (scene : SceneType) : nat :=
  List.length
    (filter (fun keyword => includes (toLowerCase input) (toLowerCase keyword))
            (SCENE_KEYWORDS scene)).

(** Position of a category in the table. *)
Definition rank (s : SceneType) : nat :=
  match s with
  | ROMANTIC => 0 | FAMILY => 1 | ADVENTURE => 2 | BUSINESS => 3
  | FOODIE => 4 | CULTURE => 5 | RELAXATION => 6 | SOLO => 7
  end.

End SceneSpec.

(** ** Numbers in text *)

(** [String(n)] and template interpolation of an integer. *)
Definition show_Z (n : Z) : string :=
  DecimalString.NilZero.string_of_int (Z.to_int n).

(** [a || b] on strings: the empty string and an absent value are falsy. *)
Definition or_else (a : option string) (b : string) : string :=
  match a with
  | Some s => if String.eqb s "" then b else s
  | None => b
  end.

(** ** Data model (types.ts) *)

Record FontConfig : Type := {
  headingFont : string;
  bodyFont : string;
  googleFontUrl : string
}.

Inductive HeroStyle : Type := centered | magazine | minimal.

Record VisualIdentity : Type := {
  destination : string;
  duration : Z;
  vibe : string;
  palette : string;
  heroStyle : HeroStyle;
  fontConfig : FontConfig;
  heroImage : option string;
  sceneType : option SceneType
}.

Record DayPlanSkeleton : Type := {
  day : Z;
  title : string;
  theme : string;
  city : string;
  visualKeyword : string
}.

Record Highlight : Type := {
  icon : string;
  highlight_title : string;
  desc : string
}.

Record ItineraryStructure : Type := {
  summary : string;
  highlights : list Highlight;
  days : list DayPlanSkeleton
}.

(** [interface TripSkeleton extends VisualIdentity, ItineraryStructure]. *)
Record TripSkeleton : Type := {
  identity :> VisualIdentity;
  itinerary :> ItineraryStructure
}.

(** The properties of the visual identity for which the answer to the
    structure prompt holds a value of its own. *)
Record IdentityOverrides : Type := {
  own_destination : option string;
  own_duration : option Z;
  own_vibe : option string;
  own_palette : option string;
  own_heroStyle : option HeroStyle;
  own_fontConfig : option FontConfig;
  own_heroImage : option string;
  own_sceneType : option SceneType
}.

(** The object of the answer to the structure prompt, at the shape the code
    reads: the structure asked for, and whatever it holds of the visual
    identity. *)
Record StructureAnswer : Type := {
  asked :> ItineraryStructure;
  own : IdentityOverrides
}.

Definition no_overrides : IdentityOverrides :=
  {| own_destination := None; own_duration := None; own_vibe := None;
     own_palette := None; own_heroStyle := None; own_fontConfig := None;
     own_heroImage := None; own_sceneType := None |}.

(** A property that is spread later wins. *)
Definition later {A : Type} (given : option A) (earlier : A) : A :=
  match given with
  | Some v => v
  | None => earlier
  end.

(** [{ ...visual, ...data }]. *)
Definition spread (visual : VisualIdentity) (data : StructureAnswer)
  : TripSkeleton :=
  {| identity :=
       {| destination := later (own_destination (own data)) (destination visual);
          duration := later (own_duration (own data)) (duration visual);
          vibe := later (own_vibe (own data)) (vibe visual);
          palette := later (own_palette (own data)) (palette visual);
          heroStyle := later (own_heroStyle (own data)) (heroStyle visual);
          fontConfig := later (own_fontConfig (own data)) (fontConfig visual);
          heroImage :=
            match own_heroImage (own data) with
            | Some image => Some image
            | None => heroImage visual
            end;
          sceneType :=
            match own_sceneType (own data) with
            | Some scene => Some scene
            | None => sceneType visual
            end |};
     itinerary := asked data |}.

(** Coordinates are decimal fractions. *)
Definition coordinate : Type := Q.

Record LocationData : Type := {
  name : string;
  lat : option coordinate;
  lng : option coordinate;
  address : option string
}.

Record Activity : Type := {
  activity_title : string;
  description : string;
  time : string;
  location : LocationData;
  tips : option string
}.

Record DayPlan : Type := {
  plan_day : Z;
  plan_title : string;
  plan_theme : string;
  plan_city : string;
  activities : list Activity
}.

(** amapService.ts *)
Record AmapLocation : Type := {
  poi_name : string;
  poi_lat : coordinate;
  poi_lng : coordinate;
  poi_address : string;
  poi_city : string
}.

Inductive ImageOrientation : Type := landscape | portrait | square.

(** dayAgent.ts *)
Record DayGenerationResult : Type := {
  dayNumber : Z;
  skeleton : DayPlanSkeleton;
  dayPlan : DayPlan;
  html : string;
  generatedAt : Z
}.

Inductive ChangeScope : Type := global | local.

Record VersionChange : Type := {
  change_type : ChangeScope;
  change_day : option Z;
  change_description : string;
  change_timestamp : Z
}.

Record VersionHistory : Type := {
  version_id : string;
  version : Z;
  version_timestamp : Z;
  author : string;
  changes : list VersionChange;
  version_skeleton : option TripSkeleton;
  version_summary : string
}.

Inductive RenderPhase : Type :=
| SKELETON | HEADER | OVERVIEW | DAY_1 | REMAINING | SHARE_VIEW | COMPLETE.

Record TripDetails : Type := {
  prompt : string
}.

Record SocialLink : Type := {
  link_id : string;
  url : string
}.

Inductive MediaKind : Type := image | video.

Record UploadedFile : Type := {
  file_id : string;
  file_name : string;
  base64 : option string;
  mimeType : string;
  media_type : MediaKind
}.

Inductive MediaItem : Type :=
| Link (link : SocialLink)
| Upload (file : UploadedFile).

Record SceneAnalysis : Type := {
  analysis_sceneType : SceneType;
  confidence : Q;
  quickSummary : string;
  recommendedTemplate : string;
  keyHighlights : list string;
  detectedKeywords : list string
}.

(** ** The collaborators *)

(** Every place of the code that awaits the text generation collaborator. *)
Inductive CallSite : Type :=
| SceneCall                    (* IntentAgent.analyzeScene *)
| MediaCall (file : nat)       (* analyzeUserMedia, one per uploaded file *)
| VisualCall                   (* generateVisualIdentity *)
| StructureCall                (* generateItineraryStructure *)
| ActivityCall (worker : nat)  (* DayAgent.generateActivities, by position *)
| RegenerateCall               (* regenerateDayPlan *)
| QACall.                      (* generateQAReply *)

(** What the outside world answers during one run.  [generateContent] is
    the outcome of [GLMClient.generateContent] at each call site: the
    response text, or the exception of a transport or HTTP failure.
    Prompts are not modelled. *)
Record World : Type := {
  apiKey : string;
  generateContent : CallSite -> result string;
  amap_lookup : string -> string -> result (option AmapLocation);
  fetchImages : string -> Z -> ImageOrientation -> result (list string);
  readAsDataURL : nat -> result string;
  elapsed : nat -> Z
}.

(** ** Asynchronous code: a trace and a settled promise *)

Inductive chunk_log : Type :=
| LogIntentStart
| LogMediaInsights (count : Z)
| LogScene (scene : SceneType) (percent : Z)
| LogSummary (text : string)
| LogArtDirector
| LogVisualStyle (vibe palette : string)
| LogPlanner
| LogDayAgentStart
| LogDayDone (day : Z) (title : string) (ms : Z)
| LogComplete
| LogFailure (message : string).

(** One constructor per kind of string the generator yields. *)
Inductive chunk : Type :=
| Progress (phase : RenderPhase) (progress : Z) (day : option Z)
| Log (line : chunk_log)
| HtmlStart (visual : VisualIdentity)
| SkeletonPayload (fullSkeleton : TripSkeleton)
| OverviewHtml (palette : string) (skeleton : TripSkeleton)
| DayHtml (html : string)
| FooterHtml (palette : string).

Inductive event : Type :=
| CallGenerateContent (site : CallSite)
| CallAmap (keyword city : string)
| CallImages (keyword : string) (count : Z) (orientation : ImageOrientation)
| ReadFile (file : nat)
| Yield (c : chunk).

(** How a promise ends; [Pending] is a loop that ran out of its bound. *)
Inductive promise (A : Type) : Type :=
| Fulfilled (value : A)
| Rejected (reason : exn)
| Pending.

Arguments Fulfilled {A} value.
Arguments Rejected {A} reason.
Arguments Pending {A}.

Definition M (A : Type) : Type := (list event * promise A)%type.

Definition ret {A} (a : A) : M A := ([], Fulfilled a).

Definition bind {A B} (m : M A) (k : A -> M B) : M B :=
  match m with
  | (t, Fulfilled a) => let '(t', r) := k a in ((t ++ t')%list, r)
  | (t, Rejected e) => (t, Rejected e)
  | (t, Pending) => (t, Pending)
  end.

Definition throw {A} (e : exn) : M A := ([], Rejected e).

(** [try { m } catch (e) { handler e }]. *)
Definition try_catch {A} (m : M A) (handler : exn -> M A) : M A :=
  match m with
  | (t, Rejected e) => let '(t', r) := handler e in ((t ++ t')%list, r)
  | _ => m
  end.

Definition emit (c : chunk) : M unit := ([Yield c], Fulfilled tt).

(** A synchronous computation inside asynchronous code. *)
Definition lift {A} (r : result A) : M A :=
  match r with
  | Ok a => ret a
  | Throw e => throw e
  end.

(** [await] of a collaborator: the call is recorded, then its outcome. *)
Definition await {A} (call : event) (r : result A) : M A :=
  match r with
  | Ok a => ([call], Fulfilled a)
  | Throw e => ([call], Rejected e)
  end.

Declare Scope async_scope.
Delimit Scope async_scope with async.
Notation "x <- m ;; k" := (bind m (fun x => k))
  (at level 61, m at next level, right associativity) : async_scope.
Notation "m ;; k" := (bind m (fun _ => k))
  (at level 61, right associativity) : async_scope.
Open Scope async_scope.

(** [Promise.all]: every promise runs; the result is the list of values, or
    a rejection when one of them rejects.  The runs are laid out in list
    order; which rejection wins when several reject is a matter of timing
    and is taken here to be the first in list order. *)
Fixpoint Promise_all {A} (ps : list (M A)) : M (list A) :=
  match ps with
  | [] => ret []
  | p :: ps' =>
      let '(t, r) := p in
      let '(t', rs) := Promise_all ps' in
      ((t ++ t')%list,
       match r, rs with
       | Fulfilled a, Fulfilled l => Fulfilled (a :: l)
       | Rejected e, _ => Rejected e
       | Pending, Rejected e => Rejected e
       | Pending, _ => Pending
       | Fulfilled _, Rejected e => Rejected e
       | Fulfilled _, Pending => Pending
       end)
  end.

(** ** Regular expressions of the agents *)

(** The result of [String.prototype.match]: the whole match and group 1. *)
Record RegExpMatch : Type := {
  whole : string;
  group1 : option string
}.

(** [s.match(/```json\n?([\s\S]*?)\n?```/)].  The match starts at the first
    opening fence; an optional newline is taken; the lazy group ends where
    the first closing fence begins, or at the newline just before it. *)
Definition match_json_fence (s : string) : option RegExpMatch :=
  let i := indexOf s "```json" in
  if i =? -1 then None
  else
    let rest := slice s (i + 7) None in
    let newline := if startsWith rest nl then nl else "" in
    let body := slice rest (len newline) None in
    let j := indexOf body "```" in
    if j =? -1 then None
    else
      let k := if endsWith (slice body 0 (Some j)) nl then j - 1 else j in
      Some {| whole := "```json" ++ newline ++ slice body 0 (Some (j + 3));
              group1 := Some (slice body 0 (Some k)) |}.

(** [s.match(/\[[\s\S]*\]/)] and [s.match(/\{[\s\S]*\}/)]: from the first
    opening character to the last closing one after it. *)
Definition match_span (s opening closing : string) : option RegExpMatch :=
  let a := indexOf s opening in
  let b := lastIndexOf s closing in
  if (a =? -1) || (b <=? a) then None
  else Some {| whole := substring s a (b + 1); group1 := None |}.

(** [a || b] on match results. *)
Definition or_match (a b : option RegExpMatch) : option RegExpMatch :=
  match a with Some m => Some m | None => b end.

(** [jsonMatch[1] || jsonMatch[0]]. *)
Definition matched_json (m : RegExpMatch) : string :=
  or_else (group1 m) (whole m).

(** ** glmService.ts: the client *)

Definition template (pieces : list string) : string := String.concat "" pieces.

Definition missing_key_message : string :=
  template
    [ "GLM API Key 未配置。"; nl; nl; "请按以下步骤配置："; nl;
      "1. 复制 .env.example 为 .env.local"; nl;
      "2. 设置 ANTHROPIC_AUTH_TOKEN 为你的 GLM API 密钥"; nl;
      "3. 获取 API 密钥: https://open.bigmodel.cn/"; nl; nl;
      "⚠️ 安全提示：此应用使用前端架构，API 密钥会在浏览器中使用。请确保使用有配额限制的密钥。" ].

(** The client itself carries no state the model needs. *)
Inductive GLMClient : Type := glmClient.

Definition getGlmClient (W : World) : result GLMClient :=
  if String.eqb (apiKey W) "" then Throw (Error missing_key_message)
  else Ok glmClient.

(** ** amapService.ts *)

Definition searchPlace (W : World) (keyword city : string)
  : M (option AmapLocation) :=
  try_catch (await (CallAmap keyword city) (amap_lookup W keyword city))
            (fun _ => ret None).

(** ** dayAgent.ts: the day worker *)

(** An element of the array the activity prompt asks for, at the shape the
    code reads: each property a string, or absent. *)
Record RawActivity : Type := {
  raw_time : option string;
  raw_title : option string;
  raw_description : option string;
  raw_location : option string
}.

(** [x || 0] on an optional number. *)
Definition number_or_zero (x : option coordinate) : coordinate :=
  match x with
  | Some q => if Qeq_bool q 0 then 0%Q else q
  | None => 0%Q
  end.

Definition truthy_number (x : option coordinate) : bool :=
  match x with
  | Some q => negb (Qeq_bool q 0)
  | None => false
  end.

Definition truthy_string (s : string) : bool := negb (String.eqb s "").

Section DayAgent.

Variable W : World.
Context {parse_activities : JsonType (list RawActivity)}.
Variable encodeURIComponent : string -> string.
Variable Number_toString : coordinate -> string.

(** The fields of the agent, and its position among the workers. *)
Variable daySkeleton : DayPlanSkeleton.
Variable tripSkeleton : TripSkeleton.
Variable position : nat.

Definition getDefaultActivities : list Activity :=
  [ {| time := "09:00";
       activity_title := "探索" ++ city daySkeleton;
       description := "开始一天的精彩旅程";
       location := {| name := city daySkeleton; lat := None; lng := None;
                      address := None |};
       tips := None |};
    {| time := "12:00";
       activity_title := "午餐时间";
       description := "品尝当地特色美食";
       location := {| name := "当地餐厅"; lat := None; lng := None;
                      address := None |};
       tips := None |};
    {| time := "14:00";
       activity_title := "文化体验";
       description := "深入了解当地文化";
       location := {| name := "文化景点"; lat := None; lng := None;
                      address := None |};
       tips := None |};
    {| time := "18:00";
       activity_title := "晚餐与休闲";
       description := "享受轻松的晚餐时光";
       location := {| name := "美食街区"; lat := None; lng := None;
                      address := None |};
       tips := None |} ].

(** The body of the [try] of [parseActivities]. *)
Definition parseActivities_try (response : string) : result (list Activity) :=
  let jsonMatch :=
    or_match (match_json_fence response) (match_span response "[" "]") in
  match jsonMatch with
  | None => Throw (Error "No JSON array found in response")
  | Some m =>
      match JSON_parse (matched_json m) with
      | Throw e => Throw e
      | Ok activities =>
          Ok (map (fun act =>
                     {| time := or_else (raw_time act) "09:00";
                        activity_title := or_else (raw_title act) "活动";
                        description := or_else (raw_description act) "";
                        location :=
                          {| name := or_else (raw_location act) "";
                             lat := None; lng := None; address := None |};
                        tips := None |})
                  activities)
      end
  end.

Definition parseActivities (response : string) : list Activity :=
  match parseActivities_try response with
  | Ok activities => activities
  | Throw _ => getDefaultActivities
  end.

Definition generateActivities : M (list Activity) :=
  response <- await (CallGenerateContent (ActivityCall position))
                    (generateContent W (ActivityCall position)) ;;
  ret (parseActivities response).

Definition enrichActivity (activity : Activity) : M Activity :=
  if truthy_string (name (location activity)) then
    try_catch
      (poi <- searchPlace W (name (location activity)) (city daySkeleton) ;;
       match poi with
       | Some poi =>
           ret {| time := time activity;
                  activity_title := activity_title activity;
                  description := description activity;
                  location :=
                    {| name := poi_name poi;
                       lat := Some (poi_lat poi);
                       lng := Some (poi_lng poi);
                       address := Some (or_else (Some (poi_address poi))
                                                (poi_city poi)) |};
                  tips := tips activity |}
       | None => ret activity
       end)
      (fun _ => ret activity)
  else ret activity.

Definition enrichWithPOI (activities : list Activity) : M (list Activity) :=
  Promise_all (map enrichActivity activities).

Definition fetchDayImages : M (list string) :=
  try_catch
    (await (CallImages (visualKeyword daySkeleton) 3 landscape)
           (fetchImages W (visualKeyword daySkeleton) 3 landscape))
    (fun _ => ret []).

Definition generateMapUrl (lat lng : coordinate) (city : string) : string :=
  template
    [ "https://uri.amap.com/marker?position="; Number_toString lng; ",";
      Number_toString lat; "&name="; encodeURIComponent city ].

Definition generateActivityHtml (activity : Activity) : string :=
  let mapUrl :=
    match lat (location activity), lng (location activity) with
    | Some la, Some ln =>
        if truthy_number (Some la) && truthy_number (Some ln)
        then generateMapUrl la ln (city daySkeleton) else "#"
    | _, _ => "#"
    end in
  let locationLink :=
    if truthy_string (name (location activity)) then
      template [
        nl;
        "              <a href="; dq; mapUrl; dq; " target="; dq; "_blank"; dq; " class="; dq;
          "inline-flex items-center mt-2 text-sm text-blue-600 hover:text-blue-800"; dq; ">"; nl;
        "                <svg class="; dq; "w-4 h-4 mr-1"; dq; " fill="; dq; "none"; dq; " stroke=";
          dq; "currentColor"; dq; " viewBox="; dq; "0 0 24 24"; dq; ">"; nl;
        "                  <path strokeLinecap="; dq; "round"; dq; " strokeLinejoin="; dq; "round";
          dq; " strokeWidth={2} d="; dq;
          "M17.657 16.657L13.414 20.9a1.998 1.998 0 01-2.827 0l-4.244-4.243a8 8 0 1111.314 0z"; dq;
          " />"; nl;
        "                  <path strokeLinecap="; dq; "round"; dq; " strokeLinejoin="; dq; "round";
          dq; " strokeWidth={2} d="; dq; "M15 11a3 3 0 11-6 0 3 3 0 016 0z"; dq; " />"; nl;
        "                </svg>"; nl;
        "                "; name (location activity); nl;
        "              </a>"; nl;
        "            " ]
    else "" in
  let tipsBox :=
    match tips activity with
    | Some tip =>
        if truthy_string tip then
          template [
          nl;
          "              <div class="; dq; "mt-2 p-2 bg-yellow-50 rounded-lg"; dq; ">"; nl;
          "                <p class="; dq; "text-xs text-yellow-800"; dq; ">💡 "; tip; "</p>"; nl;
          "              </div>"; nl;
          "            " ]
        else ""
    | None => ""
    end in
  template [
    nl;
    "      <div class="; dq; "activity-item bg-"; palette tripSkeleton;
      "-50 rounded-xl p-4 hover:shadow-md transition-shadow"; dq; ">"; nl;
    "        <div class="; dq; "flex items-start space-x-3"; dq; ">"; nl;
    "          <!-- 时间 -->"; nl;
    "          <div class="; dq; "flex-shrink-0 w-16 text-center"; dq; ">"; nl;
    "            <span class="; dq; "inline-block bg-"; palette tripSkeleton;
      "-500 text-white px-3 py-1 rounded-full text-sm font-medium"; dq; ">"; nl;
    "              "; time activity; nl;
    "            </span>"; nl;
    "          </div>"; nl;
    nl;
    "          <!-- 内容 -->"; nl;
    "          <div class="; dq; "flex-1"; dq; ">"; nl;
    "            <h3 class="; dq; "font-bold text-lg text-slate-800"; dq; ">";
      activity_title activity; "</h3>"; nl;
    "            <p class="; dq; "text-slate-600 text-sm mt-1"; dq; ">"; description activity;
      "</p>"; nl;
    nl;
    "            "; locationLink; nl;
    nl;
    "            "; tipsBox; nl;
    "          </div>"; nl;
    "        </div>"; nl;
    "      </div>"; nl;
    "    " ].

Definition generateHTML (dayPlan : DayPlan) (images : list string) : string :=
  let activitiesHtml := join nl (map generateActivityHtml (activities dayPlan)) in
  let imagesHtml :=
    join nl
      (map (fun img =>
              template
                [ "<img src="; dq; img; dq; " alt="; dq; plan_theme dayPlan; dq;
                  " class="; dq; "w-full h-32 object-cover rounded-lg"; dq; " />" ])
           images) in
  let first := option_map location (hd_error (activities dayPlan)) in
  let mapUrl :=
    generateMapUrl
      (number_or_zero (match first with Some l => lat l | None => None end))
      (number_or_zero (match first with Some l => lng l | None => None end))
      (plan_city dayPlan) in
  template [
    nl;
    "      <section class="; dq; "day-section mb-8"; dq; " data-day="; dq;
      show_Z (plan_day dayPlan); dq; ">"; nl;
    "        <div class="; dq; "bg-white rounded-2xl shadow-lg overflow-hidden"; dq; ">"; nl;
    "          <!-- 天数标题 -->"; nl;
    "          <div class="; dq; "bg-"; palette tripSkeleton; "-500 text-white p-6"; dq; ">"; nl;
    "            <h2 class="; dq; "text-2xl font-bold"; dq; ">Day "; show_Z (plan_day dayPlan);
      ": "; plan_title dayPlan; "</h2>"; nl;
    "            <p class="; dq; "text-"; palette tripSkeleton; "-100 mt-1"; dq; ">";
      plan_theme dayPlan; "</p>"; nl;
    "          </div>"; nl;
    nl;
    "          <div class="; dq; "grid lg:grid-cols-2 gap-6 p-6"; dq; ">"; nl;
    "            <!-- 左侧：视觉内容 -->"; nl;
    "            <div class="; dq; "space-y-4"; dq; ">"; nl;
    "              <!-- 图片网格 -->"; nl;
    "              <div class="; dq; "grid grid-cols-2 gap-3"; dq; ">"; nl;
    "                "; imagesHtml; nl;
    "              </div>"; nl;
    nl;
    "              <!-- 地图卡片 -->"; nl;
    "              <a href="; dq; mapUrl; dq; " target="; dq; "_blank"; dq; " class="; dq;
      "block bg-blue-50 hover:bg-blue-100 rounded-xl p-4 transition-colors"; dq; ">"; nl;
    "                <div class="; dq; "flex items-center space-x-3"; dq; ">"; nl;
    "                  <svg class="; dq; "w-6 h-6 text-blue-600"; dq; " fill="; dq; "none"; dq;
      " stroke="; dq; "currentColor"; dq; " viewBox="; dq; "0 0 24 24"; dq; ">"; nl;
    "                    <path strokeLinecap="; dq; "round"; dq; " strokeLinejoin="; dq; "round";
      dq; " strokeWidth={2} d="; dq;
      "M9 20l-5.447-2.724A1 1 0 013 16.382V5.618a1 1 0 011.447-.894L9 7m0 13l6-3m-6 3V7m6 10l4.553 2.276A1 1 0 0021 18.382V7.618a1 1 0 00-.553-.894L15 4m0 13V4m0 0L9 7";
      dq; " />"; nl;
    "                  </svg>"; nl;
    "                  <div>"; nl;
    "                    <p class="; dq; "font-medium text-blue-900"; dq; ">在高德地图中查看</p>"; nl;
    "                    <p class="; dq; "text-sm text-blue-600"; dq; ">一键导航至第一天起点</p>"; nl;
    "                  </div>"; nl;
    "                </div>"; nl;
    "              </a>"; nl;
    nl;
    "              <!-- 修改按钮 -->"; nl;
    "              <button onclick="; dq; "window.parent.postMessage({type:'modify_day', day:";
      show_Z (plan_day dayPlan); "}, '*')"; dq; " class="; dq;
      "w-full bg-slate-100 hover:bg-slate-200 text-slate-700 rounded-xl p-4 transition-colors"; dq;
      ">"; nl;
    "                <span class="; dq; "font-medium"; dq; ">我想修改 Day "; show_Z (plan_day dayPlan);
      "</span>"; nl;
    "              </button>"; nl;
    "            </div>"; nl;
    nl;
    "            <!-- 右侧：活动详情 -->"; nl;
    "            <div class="; dq; "space-y-4"; dq; ">"; nl;
    "              "; activitiesHtml; nl;
    "            </div>"; nl;
    "          </div>"; nl;
    "        </div>"; nl;
    "      </section>"; nl;
    "    " ].

(** [generate]: its [catch] logs and throws the error again. *)
Definition generate : M DayGenerationResult :=
  try_catch
    (activities <- generateActivities ;;
     enrichedActivities <- enrichWithPOI activities ;;
     images <- fetchDayImages ;;
     let dayPlan :=
       {| plan_day := day daySkeleton;
          plan_title := title daySkeleton;
          plan_theme := theme daySkeleton;
          plan_city := city daySkeleton;
          activities := enrichedActivities |} in
     let html := generateHTML dayPlan images in
     ret {| dayNumber := day daySkeleton;
            skeleton := daySkeleton;
            dayPlan := dayPlan;
            html := html;
            generatedAt := elapsed W position |})
    (fun error => throw error).

(** [new DayAgent(skeleton, tripSkeleton)] without a client builds one with
    [getGlmClient]; then [agent.generate()]. *)
Definition DayAgent_run : M DayGenerationResult :=
  lift (getGlmClient W) ;; generate.

End DayAgent.

(** ** Array.prototype.sort with a comparator: a stable sort *)

Section ArraySort.

Context {A : Type}.
Variable compareFn : A -> A -> Z.

(** [x] goes before the first element it does not exceed. *)
Fixpoint sort_insert (x : A) (sorted : list A) : list A :=
  match sorted with
  | [] => [x]
  | y :: rest =>
      if compareFn x y <=? 0 then x :: sorted else y :: sort_insert x rest
  end.

Definition Array_sort (l : list A) : list A := fold_right sort_insert [] l.

End ArraySort.

(** ** dayAgent.ts: generateDaysParallel *)

Section ParallelDays.

Variable W : World.
Context {parse_activities : JsonType (list RawActivity)}.
Variable encodeURIComponent : string -> string.
Variable Number_toString : coordinate -> string.

Variable daySkeletons : list DayPlanSkeleton.
Variable tripSkeleton : TripSkeleton.
Variable concurrency : nat.

(** [batch.map(skeleton => new DayAgent(skeleton, tripSkeleton).generate())]
    for the batch that starts at index [i]. *)
Fixpoint start_batch (i : nat) (batch : list DayPlanSkeleton)
  : list (M DayGenerationResult) :=
  match batch with
  | [] => []
  | skeleton :: rest =>
      DayAgent_run W encodeURIComponent Number_toString skeleton tripSkeleton i
      :: start_batch (S i) rest
  end.

(** The [for] loop; [fuel] bounds the number of rounds. *)
Fixpoint batch_loop (fuel i : nat) (results : list DayGenerationResult)
  : M (list DayGenerationResult) :=
  if (i <? List.length daySkeletons)%nat then
    match fuel with
    | O => ([], Pending)
    | S fuel' =>
        let batch := firstn concurrency (skipn i daySkeletons) in
        batchResults <- Promise_all (start_batch i batch) ;;
        batch_loop fuel' (i + concurrency) (results ++ batchResults)%list
    end
  else ret results.

Definition generateDaysParallel (fuel : nat) : M (list DayGenerationResult) :=
  results <- batch_loop fuel 0 [] ;;
  ret (Array_sort (fun a b => dayNumber a - dayNumber b) results).

End ParallelDays.

(** ** glmService.ts: the stages *)

Record QAReply : Type := {
  reply : string;
  suggestions : option (list string)
}.

(** [s.padStart(n, pad)] for a one-character pad. *)
Definition padStart (s : string) (n : nat) (pad : ascii) : string :=
  string_of_list_ascii (repeat pad (n - String.length s)) ++ s.

Definition zero : ascii := "0"%char.

(** A [for ... of] loop whose body awaits. *)
Fixpoint for_each {A B} (body : A -> M B) (l : list A) : M (list B) :=
  match l with
  | [] => ret []
  | a :: rest =>
      b <- body a ;;
      bs <- for_each body rest ;;
      ret (b :: bs)
  end.

Section GlmService.

Variable W : World.
Context {parse_visual : JsonType VisualIdentity}
        {parse_structure : JsonType StructureAnswer}
        {parse_day : JsonType DayPlan}
        {parse_reply : JsonType QAReply}.
Variable encodeURIComponent : string -> string.

Definition renderDayToHtml (dayData : DayPlan) (palette : string)
  (stockImages : list string) : string :=
  let mainActivity := hd_error (activities dayData) in
  let mapLink :=
    match mainActivity with
    | Some a =>
        if truthy_number (lat (location a)) && truthy_number (lng (location a))
        then "https://www.amap.com/search?query="
             ++ encodeURIComponent (name (location a))
        else "https://www.amap.com/search?query="
             ++ encodeURIComponent (plan_city dayData ++ " " ++ plan_title dayData)
    | None =>
        "https://www.amap.com/search?query="
        ++ encodeURIComponent (plan_city dayData ++ " " ++ plan_title dayData)
    end in
  let mapLabel :=
    match mainActivity with
    | Some a => name (location a)
    | None => plan_city dayData
    end in
  let imageHtml (idx : nat) (imgUrl : string) : string :=
    template [
      nl;
      "                     <div class="; dq; "relative bg-"; palette; "-50 ";
        (if Nat.eqb idx 0 then "col-span-2 row-span-2" else ""); " overflow-hidden group/img"; dq;
        ">"; nl;
      "                       <img"; nl;
      "                         src="; dq; imgUrl; dq; nl;
      "                         alt="; dq; "Day Visual"; dq; nl;
      "                         class="; dq;
        "w-full h-full object-cover transition-transform duration-700 group-hover/img:scale-105";
        dq; nl;
      "                         loading="; dq; "lazy"; dq; nl;
      "                         decoding="; dq; "async"; dq; nl;
      "                         onerror="; dq;
        "this.style.opacity='0';this.nextElementSibling?.remove();"; dq; nl;
      "                       />"; nl;
      "                       <div class="; dq; "absolute inset-0 bg-"; palette;
        "-100/50 animate-pulse pointer-events-none"; dq; " style="; dq; "animation-duration: 1.5s;";
        dq; "></div>"; nl;
      "                     </div>"; nl;
      "                     " ] in
  let imagesHtml :=
    join "" (map (fun entry => imageHtml (fst entry) (snd entry))
                 (combine (seq 0 3) (firstn 3 stockImages))) in
  let activityHtml (act : Activity) : string :=
    let tipsHtml :=
      match tips act with
      | Some tip =>
          if truthy_string tip then
            template [
            "<div class="; dq; "mt-3 text-xs text-"; palette; "-500 italic bg-"; palette;
              "-50/50 p-2 rounded border-l-2 border-"; palette; "-300"; dq; ">"; tip; "</div>" ]
          else ""
      | None => ""
      end in
    template [
      nl;
      "                    <div class="; dq;
        "relative pl-12 md:pl-0 md:group-even:flex-row-reverse group/item"; dq; ">"; nl;
      "                       <div class="; dq; "md:flex items-center justify-between w-full"; dq;
        ">"; nl;
      "                          <div class="; dq;
        "absolute left-6 md:left-0 md:relative w-3 h-3 rounded-full border-2 border-white bg-";
        palette; "-400 z-10 -translate-x-1.5 md:mx-auto shadow-sm"; dq; "></div>"; nl;
      nl;
      "                          <div class="; dq; "md:w-[45%] mb-2 md:mb-0 md:text-right md:pr-8";
        dq; ">"; nl;
      "                             <span class="; dq; "inline-block px-3 py-1 rounded-full bg-";
        palette; "-50 text-"; palette; "-600 text-xs font-bold mb-2"; dq; ">"; time act; "</span>";
        nl;
      "                             <h3 class="; dq; "text-xl font-bold text-"; palette; "-900"; dq;
        ">"; activity_title act; "</h3>"; nl;
      "                          </div>"; nl;
      nl;
      "                          <div class="; dq; "md:w-[45%] md:pl-8"; dq; ">"; nl;
      "                             <p class="; dq; "text-"; palette;
        "-700 text-sm leading-relaxed mb-3"; dq; ">"; description act; "</p>"; nl;
      "                             <div class="; dq; "flex flex-wrap gap-2"; dq; ">"; nl;
      "                                <a href="; dq; "https://www.amap.com/search?query=";
        encodeURIComponent (name (location act)); dq; " target="; dq; "_blank"; dq; " class="; dq;
        "inline-flex items-center gap-1 text-[10px] text-"; palette; "-500 bg-white border border-";
        palette; "-100 px-2 py-1 rounded hover:bg-"; palette; "-50 transition-colors"; dq; ">"; nl;
      "                                   <svg width="; dq; "10"; dq; " height="; dq; "10"; dq;
        " viewBox="; dq; "0 0 24 24"; dq; " fill="; dq; "none"; dq; " stroke="; dq; "currentColor";
        dq; " stroke-width="; dq; "2"; dq; "><path d="; dq;
        "M21 10c0 7-9 13-9 13s-9-6-9-13a9 9 0 0 1 18 0z"; dq; "/><circle cx="; dq; "12"; dq; " cy=";
        dq; "10"; dq; " r="; dq; "3"; dq; "/></svg>"; nl;
      "                                   "; name (location act); nl;
      "                                </a>"; nl;
      "                             </div>"; nl;
      "                             "; tipsHtml; nl;
      "                          </div>"; nl;
      "                       </div>"; nl;
      "                    </div>"; nl;
      "                  " ] in
  let activitiesHtml := join "" (map activityHtml (activities dayData)) in
  template [
    nl;
    "    <section id="; dq; "day-"; show_Z (plan_day dayData); dq; " class="; dq;
      "mb-32 break-inside-avoid relative group transition-all duration-500"; dq; ">"; nl;
    "       <!-- 1. Header -->"; nl;
    "       <div class="; dq; "flex items-end gap-6 mb-10 relative px-2"; dq; ">"; nl;
    "          <div class="; dq; "text-9xl font-black text-"; palette;
      "-100 absolute -top-12 -left-6 z-0 opacity-40 select-none font-heading"; dq; ">";
      padStart (show_Z (plan_day dayData)) 2 zero; "</div>"; nl;
    "          <div class="; dq; "relative z-10 pl-6 border-l-4 border-"; palette; "-400"; dq; ">";
      nl;
    "             <h2 class="; dq; "text-4xl md:text-5xl font-bold text-"; palette;
      "-900 leading-none font-heading tracking-tight"; dq; ">"; plan_title dayData; "</h2>"; nl;
    "             <p class="; dq; "text-"; palette;
      "-600 font-serif text-xl mt-3 italic flex items-center gap-2"; dq; ">"; nl;
    "                <span class="; dq; "w-8 h-px bg-"; palette; "-400"; dq; "></span>"; nl;
    "                "; plan_theme dayData; nl;
    "             </p>"; nl;
    "          </div>"; nl;
    "       </div>"; nl;
    nl;
    "       <div class="; dq; "grid grid-cols-1 lg:grid-cols-12 gap-12"; dq; ">"; nl;
    "           <!-- 2. LEFT: Visuals -->"; nl;
    "           <div class="; dq; "lg:col-span-5 flex flex-col gap-6 sticky top-8 self-start"; dq;
      ">"; nl;
    "               <div class="; dq;
      "grid grid-cols-2 gap-2 w-full rounded-2xl overflow-hidden shadow-xl bg-"; palette;
      "-100 aspect-[4/5] group-hover:shadow-2xl transition-shadow duration-500"; dq; ">"; nl;
    "                   "; imagesHtml; nl;
    "               </div>"; nl;
    nl;
    "               <!-- Map Card (Gaode) -->"; nl;
    "               <a href="; dq; mapLink; dq; " target="; dq; "_blank"; dq; " class="; dq;
      "flex items-center p-5 bg-white/80 backdrop-blur rounded-xl border border-"; palette;
      "-100 shadow-sm hover:shadow-md hover:border-"; palette;
      "-300 transition-all group/map no-underline cursor-pointer"; dq; ">"; nl;
    "                  <div class="; dq; "bg-"; palette; "-50 p-3 rounded-full text-"; palette;
      "-600 mr-4 group-hover/map:bg-"; palette; "-100 transition-colors"; dq; ">"; nl;
    "                     <!-- Gaode Icon Style -->"; nl;
    "                     <svg xmlns="; dq; "http://www.w3.org/2000/svg"; dq; " width="; dq; "24";
      dq; " height="; dq; "24"; dq; " viewBox="; dq; "0 0 24 24"; dq; " fill="; dq; "none"; dq;
      " stroke="; dq; "currentColor"; dq; " stroke-width="; dq; "2"; dq; " stroke-linecap="; dq;
      "round"; dq; " stroke-linejoin="; dq; "round"; dq; "><polygon points="; dq;
      "3 11 22 2 13 21 11 13 3 11"; dq; "/></svg>"; nl;
    "                  </div>"; nl;
    "                  <div class="; dq; "flex-1"; dq; ">"; nl;
    "                      <span class="; dq; "block font-bold text-"; palette; "-900 text-sm"; dq;
      ">高德地图导航</span>"; nl;
    "                      <span class="; dq; "text-xs text-"; palette;
      "-500 truncate max-w-[200px]"; dq; ">"; mapLabel; " 及周边</span>"; nl;
    "                  </div>"; nl;
    "                  <div class="; dq; "text-"; palette;
      "-400 group-hover/map:translate-x-1 transition-transform"; dq; ">"; nl;
    "                    <svg xmlns="; dq; "http://www.w3.org/2000/svg"; dq; " width="; dq; "20";
      dq; " height="; dq; "20"; dq; " viewBox="; dq; "0 0 24 24"; dq; " fill="; dq; "none"; dq;
      " stroke="; dq; "currentColor"; dq; " stroke-width="; dq; "2"; dq; " stroke-linecap="; dq;
      "round"; dq; " stroke-linejoin="; dq; "round"; dq; "><path d="; dq; "M5 12h14"; dq;
      "/><path d="; dq; "m12 5 7 7-7 7"; dq; "/></svg>"; nl;
    "                  </div>"; nl;
    "               </a>"; nl;
    "           </div>"; nl;
    nl;
    "           <!-- 3. RIGHT: Content -->"; nl;
    "           <div class="; dq; "lg:col-span-7 pt-4 flex flex-col"; dq; ">"; nl;
    "               <div class="; dq;
      "relative space-y-12 before:absolute before:inset-0 before:ml-6 before:-translate-x-px md:before:mx-auto md:before:translate-x-0 before:h-full before:w-0.5 before:bg-gradient-to-b before:from-";
      palette; "-200 before:via-"; palette; "-100 before:to-transparent flex-1"; dq; ">"; nl;
    "                  "; activitiesHtml; nl;
    "               </div>"; nl;
    nl;
    "               <!-- MODIFY BUTTON AREA -->"; nl;
    "               <div class="; dq; "mt-8 border-t border-"; palette;
      "-100 pt-6 flex justify-end print:hidden"; dq; ">"; nl;
    "                  <button onclick="; dq;
      "window.parent.postMessage({type: 'MODIFY_DAY', day: "; show_Z (plan_day dayData);
      "}, window.location.origin)"; dq; " class="; dq;
      "flex items-center gap-2 px-5 py-2.5 rounded-full bg-white/80 border border-"; palette;
      "-200 text-"; palette; "-600 hover:bg-"; palette; "-50 hover:border-"; palette;
      "-300 shadow-sm transition-all text-sm font-medium backdrop-blur-sm group/btn"; dq; ">"; nl;
    "                    <svg xmlns="; dq; "http://www.w3.org/2000/svg"; dq; " width="; dq; "16";
      dq; " height="; dq; "16"; dq; " viewBox="; dq; "0 0 24 24"; dq; " fill="; dq; "none"; dq;
      " stroke="; dq; "currentColor"; dq; " stroke-width="; dq; "2"; dq; " stroke-linecap="; dq;
      "round"; dq; " stroke-linejoin="; dq; "round"; dq; " class="; dq;
      "group-hover/btn:scale-110 transition-transform"; dq; "><path d="; dq; "M12 20h9"; dq;
      "/><path d="; dq; "M16.5 3.5a2.12 2.12 0 0 1 3 3L7 19l-4 1 1-4Z"; dq; "/></svg>"; nl;
    "                    <span>我想修改 Day "; show_Z (plan_day dayData); "</span>"; nl;
    "                  </button>"; nl;
    "               </div>"; nl;
    "           </div>"; nl;
    "       </div>"; nl;
    "    </section>"; nl;
    "  " ].

Definition generateQAReply : M QAReply :=
  lift (getGlmClient W) ;;
  try_catch
    (response <- await (CallGenerateContent QACall) (generateContent W QACall) ;;
     lift (parseAIJsonResponse response))
    (fun _ =>
       ret {| reply := "抱歉，我暂时无法回答这个问题。您可以尝试调整行程，或提供更多细节。";
              suggestions := Some ["调整某一天的行程"; "更换某个景点"] |}).

Definition generateVisualIdentity : M VisualIdentity :=
  response <- await (CallGenerateContent VisualCall)
                    (generateContent W VisualCall) ;;
  lift (parseAIJsonResponse response).

(** [return { ...visual, ...data }]. *)
Definition generateItineraryStructure (visual : VisualIdentity)
  : M TripSkeleton :=
  response <- await (CallGenerateContent StructureCall)
                    (generateContent W StructureCall) ;;
  data <- lift (parseAIJsonResponse response) ;;
  ret (spread visual data).

Definition regenerateDayPlan (skeleton : TripSkeleton) (dayIndex : Z)
  (modificationPrompt : string) : M string :=
  lift (getGlmClient W) ;;
  match find (fun d => day d =? dayIndex) (days skeleton) with
  | None => throw (Error "Day not found")
  | Some daySkeleton =>
      let keyword := visualKeyword daySkeleton ++ " " ++ modificationPrompt in
      stockImages <- await (CallImages keyword 3 portrait)
                           (fetchImages W keyword 3 portrait) ;;
      response <- await (CallGenerateContent RegenerateCall)
                        (generateContent W RegenerateCall) ;;
      dayData <- lift (parseAIJsonResponse response) ;;
      located <-
        for_each
          (fun activity =>
             if truthy_string (name (location activity)) then
               amapResult <-
                 searchPlace W (name (location activity))
                   (or_else (Some (plan_city dayData)) (destination skeleton)) ;;
               match amapResult with
               | Some r =>
                   ret {| time := time activity;
                          activity_title := activity_title activity;
                          description := description activity;
                          location :=
                            {| name := name (location activity);
                               lat := Some (poi_lat r);
                               lng := Some (poi_lng r);
                               address := Some (poi_address r) |};
                          tips := tips activity |}
               | None => ret activity
               end
             else ret activity)
          (activities dayData) ;;
      ret (renderDayToHtml
             {| plan_day := plan_day dayData;
                plan_title := plan_title dayData;
                plan_theme := plan_theme dayData;
                plan_city := plan_city dayData;
                activities := located |}
             (palette skeleton) stockImages)
  end.

End GlmService.

(** Enrichment keeps the text of an activity; only the location changes. *)
Definition same_text (a b : Activity) : Prop :=
  time a = time b /\ activity_title a = activity_title b
  /\ description a = description b /\ tips a = tips b.

(** What the orchestrator is specified to return is stated over the
    outcomes of the workers taken in input order. *)
Module OrchestratorSpec.

Section Outputs.

Variable run : DayPlanSkeleton -> nat -> M DayGenerationResult.

(** [worker_outputs i batch rs]: the workers started for [batch] at
    positions [i], [i+1], ... all fulfil, with the values [rs] in order. *)
Inductive worker_outputs
  : nat -> list DayPlanSkeleton -> list DayGenerationResult -> Prop :=
| outputs_nil (i : nat) : worker_outputs i [] []
| outputs_cons (i : nat) (sk : DayPlanSkeleton) (rest : list DayPlanSkeleton)
    (r : DayGenerationResult) (rs : list DayGenerationResult) :
    snd (run sk i) = Fulfilled r ->
    worker_outputs (S i) rest rs ->
    worker_outputs i (sk :: rest) (r :: rs).

End Outputs.

Definition ascending (results : list DayGenerationResult) : Prop :=
  StronglySorted (fun a b => dayNumber a <= dayNumber b) results.

End OrchestratorSpec.

(** ** Sample runs *)

Module Sample.

(** Stand-ins for the runtime where its output is not looked at. *)
Definition plain (s : string) : string := s.
Definition no_digits (q : coordinate) : string := "0".

(** [JSON.parse] on texts that are not JSON. *)
Definition not_json {A : Type} : JsonType A :=
  fun _ => Throw (SyntaxError "Unexpected token").

Definition kyoto : VisualIdentity :=
  {| destination := "Kyoto"; duration := 2; vibe := "calm"; palette := "stone";
     heroStyle := centered;
     fontConfig := {| headingFont := "Noto Serif SC"; bodyFont := "Noto Sans SC";
                      googleFontUrl := "https://fonts.googleapis.com/css2" |};
     heroImage := None; sceneType := None |}.

Definition day1 : DayPlanSkeleton :=
  {| day := 1; title := "Temples"; theme := "quiet"; city := "Kyoto";
     visualKeyword := "kyoto temple" |}.

Definition day2 : DayPlanSkeleton :=
  {| day := 2; title := "Markets"; theme := "lively"; city := "Kyoto";
     visualKeyword := "nishiki market" |}.

Definition trip : TripSkeleton :=
  {| identity := kyoto;
     itinerary := {| summary := "Two days in Kyoto"; highlights := [];
                     days := [day1; day2] |} |}.

(** Every collaborator answers; the activity text holds no JSON. *)
Definition calm : World :=
  {| apiKey := "key";
     generateContent := fun _ => Ok "no plan today";
     amap_lookup := fun _ _ => Ok None;
     fetchImages := fun _ _ _ => Ok [];
     readAsDataURL := fun _ => Ok "data:image/png;base64,AAAA";
     elapsed := fun _ => 1200 |}.

(** The same, but the network call of the second worker fails. *)
Definition second_worker_down : World :=
  {| apiKey := "key";
     generateContent := fun site =>
       match site with
       | ActivityCall 1 => Throw (Error "GLM API Error (500): upstream")
       | _ => Ok "no plan today"
       end;
     amap_lookup := fun _ _ => Ok None;
     fetchImages := fun _ _ _ => Ok [];
     readAsDataURL := fun _ => Ok "data:image/png;base64,AAAA";
     elapsed := fun _ => 1200 |}.

(** No API key in the build: [GLM_CONFIG.apiKey] is the empty string. *)
Definition unconfigured : World :=
  {| apiKey := "";
     generateContent := fun _ => Ok "no plan today";
     amap_lookup := fun _ _ => Ok None;
     fetchImages := fun _ _ _ => Ok [];
     readAsDataURL := fun _ => Ok "data:image/png;base64,AAAA";
     elapsed := fun _ => 1200 |}.

End Sample.

(** ** intentAgent.ts: the confirmation tier *)

(** The object the analysis prompt asks for, at the shape the code reads. *)
Record RawSceneAnalysis : Type := {
  raw_sceneType : option SceneType;
  raw_confidence : option Q;
  raw_quickSummary : option string;
  raw_keyHighlights : option (list string);
  raw_detectedKeywords : option (list string)
}.

Record IntentAgent : Type := {
  agent_client : option GLMClient;
  cache : list (string * SceneAnalysis)
}.

Definition new_IntentAgent (client : option GLMClient) : IntentAgent :=
  {| agent_client := client; cache := [] |}.

Definition cache_get (key : string) (c : list (string * SceneAnalysis))
  : option SceneAnalysis :=
  option_map snd (find (fun entry => String.eqb (fst entry) key) c).

(** [Map.set]: a key already present keeps its place and takes the value. *)
Fixpoint cache_set (key : string) (value : SceneAnalysis)
  (c : list (string * SceneAnalysis)) : list (string * SceneAnalysis) :=
  match c with
  | [] => [(key, value)]
  | (k, v) :: rest =>
      if String.eqb k key then (k, value) :: rest
      else (k, v) :: cache_set key value rest
  end.

Definition getDefaultSummary (sceneType : SceneType) : string :=
  match sceneType with
  | ROMANTIC => "浪漫之旅，与爱人共度美好时光"
  | FAMILY => "温馨家庭游，创造美好回忆"
  | ADVENTURE => "勇敢探险，挑战自我极限"
  | BUSINESS => "高效商务出行，工作与体验兼顾"
  | FOODIE => "舌尖上的旅程，品味地道美食"
  | CULTURE => "深度文化之旅，感受历史底蕴"
  | RELAXATION => "放松身心，享受悠闲时光"
  | SOLO => "独自出发，遇见未知的自己"
  end.

Definition getDefaultHighlights (sceneType : SceneType) : list string :=
  match sceneType with
  | ROMANTIC => ["浪漫餐厅"; "日落观景"; "双人活动"]
  | FAMILY => ["亲子友好"; "老少皆宜"; "轻松舒适"]
  | ADVENTURE => ["刺激体验"; "自然风光"; "挑战自我"]
  | BUSINESS => ["高效行程"; "交通便利"; "品质住宿"]
  | FOODIE => ["地道美食"; "特色餐厅"; "美食探索"]
  | CULTURE => ["历史古迹"; "文化体验"; "艺术熏陶"]
  | RELAXATION => ["悠闲节奏"; "舒适环境"; "放松体验"]
  | SOLO => ["自由探索"; "深度体验"; "独立冒险"]
  end.

Definition getTemplateName (sceneType : SceneType) : string :=
  SceneType_value sceneType ++ "_template".

Definition getFallbackAnalysis (sceneType : SceneType) : SceneAnalysis :=
  {| analysis_sceneType := sceneType;
     confidence := 0.6%Q;
     quickSummary := getDefaultSummary sceneType;
     recommendedTemplate := getTemplateName sceneType;
     keyHighlights := getDefaultHighlights sceneType;
     detectedKeywords := [] |}.

Section IntentAgentAnalysis.

Variable W : World.
Context {parse_analysis : JsonType RawSceneAnalysis}.
Variable toLowerCase : string -> string.

Definition parseAnalysisResponse (response : string) (fallbackScene : SceneType)
  : SceneAnalysis :=
  let jsonMatch :=
    or_match (match_json_fence response) (match_span response "{" "}") in
  match jsonMatch with
  | None => getFallbackAnalysis fallbackScene
  | Some m =>
      match JSON_parse (matched_json m) with
      | Throw _ => getFallbackAnalysis fallbackScene
      | Ok parsed =>
          let scene :=
            match raw_sceneType parsed with
            | Some s => s
            | None => fallbackScene
            end in
          {| analysis_sceneType := scene;
             confidence :=
               match raw_confidence parsed with
               | Some c => if Qeq_bool c 0 then 0.7%Q else c
               | None => 0.7%Q
               end;
             quickSummary := or_else (raw_quickSummary parsed) "精彩旅程等你来探索";
             recommendedTemplate := getTemplateName scene;
             keyHighlights :=
               match raw_keyHighlights parsed with Some l => l | None => [] end;
             detectedKeywords :=
               match raw_detectedKeywords parsed with Some l => l | None => [] end |}
      end
  end.

(** [analyzeScene]: the analysis and the agent with its cache afterwards. *)
Definition analyzeScene (agent : IntentAgent) (input : string)
  (mediaContext : option string) : M (SceneAnalysis * IntentAgent) :=
  let cacheKey := input ++ "-" ++ or_else mediaContext "" in
  match cache_get cacheKey (cache agent) with
  | Some cached => ret (cached, agent)
  | None =>
      let predictedScene := quickPredict toLowerCase input in
      match agent_client agent with
      | None => ret (getFallbackAnalysis predictedScene, agent)
      | Some _ =>
          try_catch
            (response <- await (CallGenerateContent SceneCall)
                               (generateContent W SceneCall) ;;
             let analysis := parseAnalysisResponse response predictedScene in
             ret (analysis,
                  {| agent_client := agent_client agent;
                     cache := cache_set cacheKey analysis (cache agent) |}))
            (fun _ => ret (getFallbackAnalysis predictedScene, agent))
      end
  end.

End IntentAgentAnalysis.

(** ** glmService.ts: media analysis and the main generator *)

Record MediaInsights : Type := {
  media_summary : string;
  insights : list string
}.

(** JavaScript numbers are IEEE 754 doubles. [binary64 q] is the double
    nearest to the rational [q], ties going to the even significand; below
    the normal range the spacing is that of the subnormals. Overflow to
    Infinity is not modelled: the numbers rounded here are percentages. *)
Definition round_half_even (a b : Z) : Z :=
  let floor := a / b in
  match 2 * (a mod b) ?= b with
  | Lt => floor
  | Gt => floor + 1
  | Eq => if Z.even floor then floor else floor + 1
  end.

(** The exponent [e] with [2^e <= n/d < 2^(e+1)], for [n] positive. *)
Definition binade (n : Z) (d : positive) : Z :=
  let e := Z.log2 n - Z.log2 (Zpos d) in
  if n * 2 ^ Z.max (- e) 0 <? Zpos d * 2 ^ Z.max e 0 then e - 1 else e.

Definition binary64 (q : Q) : Q :=
  let n := Z.abs (Qnum q) in
  if n =? 0 then 0%Q
  else
    let ulp := Z.max (binade n (Qden q) - 52) (-1074) in
    let significand :=
      round_half_even (n * 2 ^ Z.max (- ulp) 0)
                      (Zpos (Qden q) * 2 ^ Z.max ulp 0) in
    let magnitude :=
      if 0 <=? ulp then inject_Z (significand * 2 ^ ulp)
      else Qmake significand (Z.to_pos (2 ^ (- ulp))) in
    Qred (if Qnum q <? 0 then Qopp magnitude else magnitude).

(** The product and the quotient of two numbers, each rounded once. *)
Definition fmul (a b : Q) : Q := binary64 (binary64 a * binary64 b)%Q.
Definition fdiv (a b : Q) : Q := binary64 (binary64 a / binary64 b)%Q.
Arguments fmul : simpl never.
Arguments fdiv : simpl never.

(** [Math.round] of a double: the nearest integer, halves going up. This
    rounding is exact. *)
Definition Math_round (x : Q) : Z := Qfloor (Qplus x (Qmake 1 2)).

Definition exn_message (e : exn) : string :=
  match e with
  | Error m => m
  | SyntaxError m => m
  | TypeError m => m
  end.

(** [Promise.all] of two promises of different types. *)
Definition Promise_both {A B} (a : M A) (b : M B) : M (A * B) :=
  let '(ta, ra) := a in
  let '(tb, rb) := b in
  ((ta ++ tb)%list,
   match ra, rb with
   | Fulfilled x, Fulfilled y => Fulfilled (x, y)
   | Rejected e, _ => Rejected e
   | Pending, Rejected e => Rejected e
   | Pending, _ => Pending
   | Fulfilled _, Rejected e => Rejected e
   | Fulfilled _, Pending => Pending
   end).

Section Generator.

Variable W : World.
Context {parse_visual : JsonType VisualIdentity}
        {parse_structure : JsonType StructureAnswer}
        {parse_activities : JsonType (list RawActivity)}
        {parse_analysis : JsonType RawSceneAnalysis}.
Variable toLowerCase : string -> string.
Variable encodeURIComponent : string -> string.
Variable Number_toString : coordinate -> string.

(** The loop body of [analyzeUserMedia] for the file at index [k]. *)
Definition analyzeFile (k : nat) (file : UploadedFile) : M string :=
  try_catch
    (match base64 file with
     | Some data =>
         if truthy_string data then ret data
         else await (ReadFile k) (readAsDataURL W k)
     | None => await (ReadFile k) (readAsDataURL W k)
     end ;;
     response <- await (CallGenerateContent (MediaCall k))
                       (generateContent W (MediaCall k)) ;;
     ret (trim response))
    (fun _ => ret ("文件 " ++ file_name file ++ " 分析失败")).

Definition analyzeUserMedia (files : list UploadedFile) : M MediaInsights :=
  match files with
  | [] => ret {| media_summary := ""; insights := [] |}
  | _ =>
      found <- for_each (fun entry => analyzeFile (fst entry) (snd entry))
                        (combine (seq 0 (List.length files)) files) ;;
      let summary :=
        match found with
        | [] => ""
        | _ => "用户上传了 " ++ show_Z (Z.of_nat (List.length files))
               ++ " 个媒体文件作为参考：" ++ nl ++ join nl found
        end in
      ret {| media_summary := summary; insights := found |}
  end.

Definition with_heroImage (visual : VisualIdentity) (image : option string)
  : VisualIdentity :=
  {| destination := destination visual;
     duration := duration visual;
     vibe := vibe visual;
     palette := palette visual;
     heroStyle := heroStyle visual;
     fontConfig := fontConfig visual;
     heroImage := image;
     sceneType := sceneType visual |}.

(** The loop that streams the day results, from index [i]. *)
Fixpoint stream_days (i total : nat) (dayResults : list DayGenerationResult)
  : M unit :=
  match dayResults with
  | [] => ret tt
  | result :: rest =>
      let progress :=
        30 + Math_round (fmul (fdiv (inject_Z (Z.of_nat (i + 1)))
                                    (inject_Z (Z.of_nat total))) 60) in
      emit (Progress (if Nat.eqb i 0 then DAY_1 else REMAINING) progress
                     (Some (dayNumber result))) ;;
      emit (Log (LogDayDone (dayNumber result) (title (skeleton result))
                            (generatedAt result))) ;;
      emit (DayHtml (html result)) ;;
      stream_days (S i) total rest
  end.

Definition generateTravelPlanStream (details : TripDetails)
  (mediaItems : list MediaItem) : M unit :=
  ai <- lift (getGlmClient W) ;;
  let uploadedFiles :=
    flat_map (fun m => match m with Upload f => [f] | Link _ => [] end)
             mediaItems in
  try_catch
    (emit (Progress SKELETON 5 None) ;;
     emit (Log LogIntentStart) ;;
     let intentAgent := new_IntentAgent (Some ai) in
     analyses <-
       Promise_both
         (analyzeScene W toLowerCase intentAgent (prompt details) (Some ""))
         (match uploadedFiles with
          | [] => ret {| media_summary := ""; insights := [] |}
          | _ => analyzeUserMedia uploadedFiles
          end) ;;
     let sceneAnalysis := fst (fst analyses) in
     let mediaAnalysis := snd analyses in
     match insights mediaAnalysis with
     | [] => ret tt
     | found => emit (Log (LogMediaInsights (Z.of_nat (List.length found))))
     end ;;
     emit (Log (LogScene (analysis_sceneType sceneAnalysis)
                         (Math_round (fmul (confidence sceneAnalysis) 100)))) ;;
     emit (Log (LogSummary (quickSummary sceneAnalysis))) ;;
     emit (Progress HEADER 10 None) ;;
     emit (Log LogArtDirector) ;;
     visual <- generateVisualIdentity W ;;
     emit (Log (LogVisualStyle (vibe visual) (palette visual))) ;;
     heroImages <-
       await (CallImages (destination visual ++ " landscape") 1 landscape)
             (fetchImages W (destination visual ++ " landscape") 1 landscape) ;;
     let visual := with_heroImage visual (hd_error heroImages) in
     emit (HtmlStart visual) ;;
     emit (Progress OVERVIEW 20 None) ;;
     emit (Log LogPlanner) ;;
     skeleton <- generateItineraryStructure W visual ;;
     (* [{ ...visual, ...skeleton }]: the skeleton holds every property of
        the visual identity already, and its values win. *)
     let fullSkeleton := skeleton in
     emit (SkeletonPayload fullSkeleton) ;;
     emit (OverviewHtml (palette visual) skeleton) ;;
     emit (Progress DAY_1 30 None) ;;
     emit (Log LogDayAgentStart) ;;
     dayResults <-
       generateDaysParallel W encodeURIComponent Number_toString
         (days skeleton) fullSkeleton 3 (List.length (days skeleton)) ;;
     stream_days 0 (List.length dayResults) dayResults ;;
     emit (Progress COMPLETE 100 None) ;;
     emit (FooterHtml (palette visual)) ;;
     emit (Log LogComplete))
    (fun error =>
       emit (Log (LogFailure (exn_message error))) ;;
       throw error).

End Generator.

(** What the specification says of a stream and of a skeleton. *)
Module StreamSpec.

(** The chunks a trace yields, in order. *)
Definition yields (t : list event) : list chunk :=
  flat_map (fun ev => match ev with Yield c => [c] | _ => [] end) t.

(** [plan] is what the planner made of [visual]: the collaborator's answer
    to the structure call, read as JSON and spread over the identity. *)
Definition planned_from (W : World) {parse_structure : JsonType StructureAnswer}
  (visual : VisualIdentity) (plan : TripSkeleton) : Prop :=
  exists response data,
    generateContent W StructureCall = Ok response
    /\ parseAIJsonResponse response = Ok data
    /\ plan = spread visual data.

(** Progress markers and log lines, as opposed to the skeleton payload and
    the markup fragments. *)
Definition is_status (c : chunk) : bool :=
  match c with
  | Progress _ _ _ | Log _ => true
  | _ => false
  end.

(** The calls of the stages that come before the visual identity. *)
Definition early_call (ev : event) : bool :=
  match ev with
  | CallGenerateContent SceneCall => true
  | CallGenerateContent (MediaCall _) => true
  | ReadFile _ => true
  | _ => false
  end.

(** What may happen in a run that has not got past the visual identity:
    status chunks may be yielded, and the text collaborator may be called
    for the scene, the media and the visual identity; no markup, no
    skeleton payload, no call for the skeleton or for a day. *)
Definition before_overview (ev : event) : bool :=
  match ev with
  | Yield c => is_status c
  | CallGenerateContent VisualCall => true
  | _ => early_call ev
  end.

(** [len(days) == duration], the day fields being [1..duration] without
    duplicates or gaps. *)
Definition days_match_duration (d : Z) (l : list DayPlanSkeleton) : Prop :=
  Z.of_nat (List.length l) = d
  /\ Permutation (map day l) (map Z.of_nat (seq 1 (List.length l))).

End StreamSpec.

(** [JSON.parse] on the texts of a table, each with the value it denotes;
    any other text is taken not to be JSON. *)
Definition parse_table {A : Type} (table : list (string * A)) : JsonType A :=
  fun text =>
    match find (fun entry => String.eqb (fst entry) text) table with
    | Some entry => Ok (snd entry)
    | None => Throw (SyntaxError "Unexpected token")
    end.

Module SampleStream.

Definition tokyo : VisualIdentity :=
  {| destination := "Tokyo"; duration := 3; vibe := "lively"; palette := "rose";
     heroStyle := magazine;
     fontConfig := {| headingFont := "Noto Sans SC"; bodyFont := "Noto Sans SC";
                      googleFontUrl := "https://fonts.googleapis.com/css2" |};
     heroImage := None; sceneType := None |}.

Definition arrival : DayPlanSkeleton :=
  {| day := 1; title := "Arrival"; theme := "easy"; city := "Tokyo";
     visualKeyword := "tokyo" |}.

(** The text of a skeleton answer with a single day. *)
Definition one_day_text : string :=
  template
    [ "{"; quoted "summary"; ":"; quoted "Tokyo at a glance"; ",";
      quoted "highlights"; ":[],"; quoted "days"; ":[{";
      quoted "day"; ":1,"; quoted "title"; ":"; quoted "Arrival"; ",";
      quoted "theme"; ":"; quoted "easy"; ","; quoted "city"; ":"; quoted "Tokyo"; ",";
      quoted "visualKeyword"; ":"; quoted "tokyo"; "}]}" ].

Definition one_day : ItineraryStructure :=
  {| summary := "Tokyo at a glance"; highlights := []; days := [arrival] |}.

(** The one-day answer holds nothing of the visual identity. *)
Definition one_day_answer : StructureAnswer :=
  {| asked := one_day; own := no_overrides |}.

(** The text of an answer that also names a destination and a number of
    days. *)
Definition osaka_week_text : string :=
  template
    [ "{"; quoted "destination"; ":"; quoted "Osaka"; ","; quoted "duration"; ":7,";
      quoted "summary"; ":"; quoted "A week in Osaka"; ",";
      quoted "highlights"; ":[],"; quoted "days"; ":[{";
      quoted "day"; ":1,"; quoted "title"; ":"; quoted "Arrival"; ",";
      quoted "theme"; ":"; quoted "easy"; ","; quoted "city"; ":"; quoted "Tokyo"; ",";
      quoted "visualKeyword"; ":"; quoted "tokyo"; "}]}" ].

Definition osaka_week : StructureAnswer :=
  {| asked := {| summary := "A week in Osaka"; highlights := []; days := [arrival] |};
     own := {| own_destination := Some "Osaka"; own_duration := Some 7;
               own_vibe := None; own_palette := None; own_heroStyle := None;
               own_fontConfig := None; own_heroImage := None;
               own_sceneType := None |} |}.

Definition structures : JsonType StructureAnswer :=
  parse_table [ (one_day_text, one_day_answer);
                (osaka_week_text, osaka_week) ].

(** The collaborator answers the skeleton prompt with one day. *)
Definition short_answer : World :=
  {| apiKey := "key";
     generateContent := fun _ => Ok one_day_text;
     amap_lookup := fun _ _ => Ok None;
     fetchImages := fun _ _ _ => Ok [];
     readAsDataURL := fun _ => Ok "data:image/png;base64,AAAA";
     elapsed := fun _ => 1200 |}.

(** The collaborator answers the skeleton prompt with a destination and a
    number of days of its own. *)
Definition own_answer : World :=
  {| apiKey := "key";
     generateContent := fun _ => Ok osaka_week_text;
     amap_lookup := fun _ _ => Ok None;
     fetchImages := fun _ _ _ => Ok [];
     readAsDataURL := fun _ => Ok "data:image/png;base64,AAAA";
     elapsed := fun _ => 1200 |}.

(** A one-day identity, which the one-day answer fits. *)
Definition stopover : VisualIdentity := with_heroImage
  {| destination := "Tokyo"; duration := 1; vibe := "lively"; palette := "rose";
     heroStyle := magazine; fontConfig := fontConfig tokyo;
     heroImage := None; sceneType := None |} None.

End SampleStream.

(** ** The strings of the stream (glmService.ts) and their reading (App.tsx) *)

Definition RenderPhase_value (p : RenderPhase) : string :=
  match p with
  | SKELETON => "skeleton"
  | HEADER => "header"
  | OVERVIEW => "overview"
  | DAY_1 => "day_1"
  | REMAINING => "remaining"
  | SHARE_VIEW => "share_view"
  | COMPLETE => "complete"
  end.

Definition headerHtml (visual : VisualIdentity) : string :=
  let heroImageText :=
    match heroImage visual with Some u => u | None => "undefined" end in
  template [
    nl;
    "      <!DOCTYPE html>"; nl;
    "      <html lang="; dq; "zh-CN"; dq; " class="; dq; "scroll-smooth"; dq; ">"; nl;
    "      <head>"; nl;
    "        <meta charset="; dq; "UTF-8"; dq; "><meta name="; dq; "viewport"; dq; " content="; dq;
      "width=device-width, initial-scale=1.0"; dq; ">"; nl;
    "        <script src="; dq; "https://cdn.tailwindcss.com"; dq; "></script>"; nl;
    "        <link href="; dq; googleFontUrl (fontConfig visual); dq; " rel="; dq; "stylesheet"; dq;
      ">"; nl;
    "        <style>"; nl;
    "            :root { --font-heading: '"; headingFont (fontConfig visual);
      "', serif; --font-body: '"; bodyFont (fontConfig visual); "', sans-serif; }"; nl;
    "            body { font-family: var(--font-body); }"; nl;
    "            h1, h2, h3, .font-heading { font-family: var(--font-heading); }"; nl;
    "        </style>"; nl;
    "      </head>"; nl;
    "      <body class="; dq; "bg-"; palette visual; "-50 text-"; palette visual;
      "-900 antialiased selection:bg-"; palette visual; "-200 selection:text-"; palette visual;
      "-900"; dq; ">"; nl;
    "        <header class="; dq; "relative w-full aspect-video flex flex-col overflow-hidden bg-";
      palette visual; "-900 print-aspect-auto"; dq; ">"; nl;
    "            <div class="; dq; "absolute inset-0 bg-"; palette visual; "-800"; dq; ">"; nl;
    "              <img"; nl;
    "                src="; dq; heroImageText; dq; nl;
    "                class="; dq;
      "absolute inset-0 w-full h-full object-cover opacity-90 transition-opacity duration-700"; dq;
      nl;
    "                alt="; dq; destination visual; dq; nl;
    "                loading="; dq; "eager"; dq; nl;
    "                decoding="; dq; "async"; dq; nl;
    "                fetchpriority="; dq; "high"; dq; nl;
    "                onerror="; dq;
      "this.style.opacity='0';this.parentElement.style.background='linear-gradient(135deg, ";
      palette visual; "-900 0%, "; palette visual; "-700 100%)';"; dq; nl;
    "                onload="; dq; "this.classList.add('opacity-90')"; dq; nl;
    "              />"; nl;
    "              <div class="; dq; "absolute inset-0 bg-"; palette visual;
      "-900/50 animate-pulse"; dq; " style="; dq; "animation-duration: 2s;"; dq; "></div>"; nl;
    "            </div>"; nl;
    "            <div class="; dq; "absolute inset-0 bg-gradient-to-t from-"; palette visual;
      "-950/90 via-"; palette visual; "-900/40 to-transparent z-10"; dq; "></div>"; nl;
    "            <div class="; dq;
      "relative z-20 w-full h-full max-w-7xl mx-auto flex flex-col items-center justify-center text-center pb-20 px-6";
      dq; ">"; nl;
    "                <h1 class="; dq;
      "text-5xl md:text-8xl tracking-tight mb-6 font-heading text-white mix-blend-overlay drop-shadow-lg max-w-5xl";
      dq; ">"; nl;
    "                    "; destination visual; nl;
    "                </h1>"; nl;
    "                <div class="; dq;
      "mx-auto bg-white/10 backdrop-blur-md border border-white/20 text-white px-6 py-3 rounded-full flex items-center gap-4 shadow-xl";
      dq; ">"; nl;
    "                    <span class="; dq;
      "font-bold tracking-widest uppercase text-sm opacity-90"; dq; ">"; show_Z (duration visual);
      " 天</span>"; nl;
    "                    <span class="; dq; "w-px h-4 bg-white/40"; dq; "></span>"; nl;
    "                    <span class="; dq; "font-serif italic text-lg opacity-90"; dq; ">";
      vibe visual; "</span>"; nl;
    "                </div>"; nl;
    "            </div>"; nl;
    "        </header>"; nl;
    "    " ].

Definition overviewHtml (palette : string) (skeleton : TripSkeleton) : string :=
  let highlightsHtml :=
    join ""
      (map (fun h =>
              template [
        nl;
        "        <div class="; dq; "bg-"; palette;
          "-50/60 backdrop-blur-sm p-6 rounded-2xl text-center border border-"; palette; "-100"; dq;
          ">"; nl;
        "            <div class="; dq; "text-"; palette;
          "-500 mb-4 flex justify-center font-bold text-3xl opacity-80"; dq; ">";
          or_else (Some (icon h)) "✦"; "</div>"; nl;
        "            <span class="; dq; "block font-bold text-lg text-"; palette;
          "-900 mb-2 font-heading tracking-wide"; dq; ">"; highlight_title h; "</span>"; nl;
        "            <span class="; dq; "text-sm text-"; palette; "-600 leading-relaxed"; dq; ">";
          desc h; "</span>"; nl;
        "        </div>"; nl;
        "    " ])
           (highlights skeleton)) in
  template [
    nl;
    "        <div class="; dq; "relative z-30 -mt-24 px-4 md:px-8 mb-24"; dq; ">"; nl;
    "            <div class="; dq;
      "max-w-6xl mx-auto bg-white/95 backdrop-blur-xl p-8 md:p-12 rounded-[2rem] shadow-[0_20px_50px_rgba(0,0,0,0.1)] border border-white/50";
      dq; ">"; nl;
    "                <div class="; dq; "max-w-3xl mx-auto text-center mb-16"; dq; ">"; nl;
    "                    <h2 class="; dq; "text-3xl md:text-5xl font-bold text-"; palette;
      "-900 mb-6 font-heading leading-tight"; dq; ">旅程概览</h2>"; nl;
    "                    <p class="; dq; "text-xl text-"; palette;
      "-600 leading-relaxed font-light font-serif"; dq; ">"; dq; summary skeleton; dq; "</p>"; nl;
    "                </div>"; nl;
    "                <div class="; dq; "grid grid-cols-1 md:grid-cols-2 lg:grid-cols-4 gap-6"; dq;
      ">"; nl;
    "                    "; highlightsHtml; nl;
    "                </div>"; nl;
    "            </div>"; nl;
    "        </div>"; nl;
    "        <main class="; dq; "max-w-6xl mx-auto px-6 pb-20"; dq; ">"; nl;
    "    " ].

Definition footerHtml (palette : string) : string :=
  template [
    nl;
    "        </main>"; nl;
    "        <footer class="; dq; "bg-"; palette; "-900 text-"; palette;
      "-100 py-24 mt-12 text-center relative overflow-hidden"; dq; ">"; nl;
    "            <p class="; dq; "font-heading italic text-5xl mb-8 text-white/90"; dq;
      ">Wanderlust AI</p>"; nl;
    "            <p class="; dq; "text-sm opacity-60"; dq;
      ">由 GLM 4.7 深度思考模式驱动 × 高德地图实时数据支持 × 并行Agent架构</p>"; nl;
    "        </footer>"; nl;
    "      </body>"; nl;
    "      </html>"; nl;
    "    " ].

Definition log_text (line : chunk_log) : string :=
  match line with
  | LogIntentStart => ">>> 📡 IntentAgent: 正在分析你的旅行需求..." ++ nl
  | LogMediaInsights count =>
      ">>> 📸 视觉智能体：已提取 " ++ show_Z count ++ " 条旅行灵感" ++ nl
  | LogScene scene percent =>
      ">>> 🎯 场景识别：" ++ SceneType_value scene ++ " (置信度: "
      ++ show_Z percent ++ "%)" ++ nl
  | LogSummary text => ">>> 📝 快速摘要：" ++ text ++ nl
  | LogArtDirector => ">>> 🎨 艺术总监：正在为你的旅程定制专属视觉风格..." ++ nl
  | LogVisualStyle vibe palette =>
      ">>> 🎨 视觉风格：" ++ vibe ++ "（" ++ palette ++ " 色系）" ++ nl
  | LogPlanner => ">>> 🗺️ 行程规划师：正在构建你的专属行程框架..." ++ nl
  | LogDayAgentStart => ">>> 🚀 DayAgent: 启动并行生成，正在规划所有天数..." ++ nl
  | LogDayDone day title ms =>
      ">>> 🗓️ Day " ++ show_Z day ++ ": " ++ title ++ " 已生成 ("
      ++ show_Z ms ++ "ms)" ++ nl
  | LogComplete => ">>> ✨ 行程规划完成！"
  | LogFailure message => ">>> ❌ 哎呀出错了：" ++ message
  end.

Section StreamText.

(** [JSON.stringify] of a skeleton. *)
Variable JSON_stringify : TripSkeleton -> string.

(** The string the generator yields for a chunk. *)
Definition chunk_text (c : chunk) : string :=
  match c with
  | Progress phase progress day =>
      ">>> {" ++ quoted "phase" ++ ":" ++ quoted (RenderPhase_value phase)
      ++ "," ++ quoted "progress" ++ ":" ++ show_Z progress
      ++ match day with
         | Some d => "," ++ quoted "day" ++ ":" ++ show_Z d
         | None => ""
         end
      ++ "}" ++ nl
  | Log line => log_text line
  | HtmlStart visual => "<<<HTML_START>>>" ++ headerHtml visual
  | SkeletonPayload fullSkeleton => "<<<SKELETON>>>" ++ JSON_stringify fullSkeleton
  | OverviewHtml palette skeleton => overviewHtml palette skeleton
  | DayHtml html => html
  | FooterHtml palette => footerHtml palette
  end.

End StreamText.

(** [s.replace(search, replacement)] with a string to search for and a
    replacement free of dollar signs: the first occurrence goes. *)
Definition replace_first (s search replacement : string) : string :=
  let i := indexOf s search in
  if i =? -1 then s
  else slice s 0 (Some i) ++ replacement ++ slice s (i + len search) None.

(** The [fullContent] variable of [handleGenerate] after one more chunk. *)
Definition accumulate (fullContent chunk : string) : string :=
  if startsWith chunk "<<<HTML_START>>>" then
    replace_first chunk "<<<HTML_START>>>" ""
  else if startsWith chunk "<<<SKELETON>>>" then fullContent
  else if startsWith chunk ">>>" then fullContent
  else if String.eqb fullContent "" then
    (if startsWith (trim chunk) ">>>" then fullContent else fullContent ++ chunk)
  else fullContent ++ chunk.

(** The document [handleGenerate] stores once the stream has ended. *)
Definition assembled_document (chunks : list string) : string :=
  fold_left accumulate chunks "".

(** ** feedbackAgent.ts: version snapshots *)

Definition is_scope (s : ChangeScope) (c : VersionChange) : bool :=
  match s, change_type c with
  | global, global => true
  | local, local => true
  | _, _ => false
  end.

Definition generateVersionSummary (changes : list VersionChange) : string :=
  let globalChanges := Z.of_nat (List.length (filter (is_scope global) changes)) in
  let localChanges := Z.of_nat (List.length (filter (is_scope local) changes)) in
  let globalPart := show_Z globalChanges ++ "项全局修改" in
  let localPart := show_Z localChanges ++ "天调整" in
  let parts :=
    List.app (if 0 <? globalChanges then [globalPart] else [])
             (if 0 <? localChanges then [localPart] else []) in
  or_else (Some (join "，" parts)) "行程更新".

(** [createVersionHistory]; the two readings of the clock are arguments. *)
Definition createVersionHistory (id_time now : Z) (skeleton : TripSkeleton)
  (changes : list VersionChange) (author : string)
  (previousVersion : option VersionHistory) : VersionHistory :=
  let number :=
    match previousVersion with
    | Some previous => version previous + 1
    | None => 1
    end in
  {| version_id := "v" ++ show_Z number ++ "_" ++ show_Z id_time;
     version := number;
     version_timestamp := now;
     author := author;
     changes := changes;
     version_skeleton := Some skeleton;
     version_summary := generateVersionSummary changes |}.

(** ** App.tsx: state, the single-day edit and the rollback *)

Inductive Role : Type := user | assistant.

(** A chat message; its id and time stamp are not modelled. *)
Record ChatMessage : Type := {
  role : Role;
  content : string
}.

(** The state variables of [App] that the handlers below read or write;
    [alerts] collects the texts passed to [alert]. *)
Record AppState : Type := {
  tripSkeleton : option TripSkeleton;
  generatedHtml : option string;
  modifyingDay : option Z;
  modifyInput : string;
  isRegenerating : bool;
  chatMessages : list ChatMessage;
  showDaySelector : bool;
  showDayConfirmation : bool;
  versionHistory : list VersionHistory;
  showVersionHistory : bool;
  alerts : list string
}.

Definition setTripSkeleton (v : option TripSkeleton) (st : AppState) : AppState :=
  {| tripSkeleton := v; generatedHtml := generatedHtml st;
     modifyingDay := modifyingDay st; modifyInput := modifyInput st;
     isRegenerating := isRegenerating st; chatMessages := chatMessages st;
     showDaySelector := showDaySelector st;
     showDayConfirmation := showDayConfirmation st;
     versionHistory := versionHistory st;
     showVersionHistory := showVersionHistory st; alerts := alerts st |}.

Definition setGeneratedHtml (v : option string) (st : AppState) : AppState :=
  {| tripSkeleton := tripSkeleton st; generatedHtml := v;
     modifyingDay := modifyingDay st; modifyInput := modifyInput st;
     isRegenerating := isRegenerating st; chatMessages := chatMessages st;
     showDaySelector := showDaySelector st;
     showDayConfirmation := showDayConfirmation st;
     versionHistory := versionHistory st;
     showVersionHistory := showVersionHistory st; alerts := alerts st |}.

Definition setModifyingDay (v : option Z) (st : AppState) : AppState :=
  {| tripSkeleton := tripSkeleton st; generatedHtml := generatedHtml st;
     modifyingDay := v; modifyInput := modifyInput st;
     isRegenerating := isRegenerating st; chatMessages := chatMessages st;
     showDaySelector := showDaySelector st;
     showDayConfirmation := showDayConfirmation st;
     versionHistory := versionHistory st;
     showVersionHistory := showVersionHistory st; alerts := alerts st |}.

Definition setIsRegenerating (v : bool) (st : AppState) : AppState :=
  {| tripSkeleton := tripSkeleton st; generatedHtml := generatedHtml st;
     modifyingDay := modifyingDay st; modifyInput := modifyInput st;
     isRegenerating := v; chatMessages := chatMessages st;
     showDaySelector := showDaySelector st;
     showDayConfirmation := showDayConfirmation st;
     versionHistory := versionHistory st;
     showVersionHistory := showVersionHistory st; alerts := alerts st |}.

Definition addChatMessage (m : ChatMessage) (st : AppState) : AppState :=
  {| tripSkeleton := tripSkeleton st; generatedHtml := generatedHtml st;
     modifyingDay := modifyingDay st; modifyInput := modifyInput st;
     isRegenerating := isRegenerating st;
     chatMessages := (chatMessages st ++ [m])%list;
     showDaySelector := showDaySelector st;
     showDayConfirmation := showDayConfirmation st;
     versionHistory := versionHistory st;
     showVersionHistory := showVersionHistory st; alerts := alerts st |}.

Definition setShowDaySelector (v : bool) (st : AppState) : AppState :=
  {| tripSkeleton := tripSkeleton st; generatedHtml := generatedHtml st;
     modifyingDay := modifyingDay st; modifyInput := modifyInput st;
     isRegenerating := isRegenerating st; chatMessages := chatMessages st;
     showDaySelector := v;
     showDayConfirmation := showDayConfirmation st;
     versionHistory := versionHistory st;
     showVersionHistory := showVersionHistory st; alerts := alerts st |}.

Definition setShowDayConfirmation (v : bool) (st : AppState) : AppState :=
  {| tripSkeleton := tripSkeleton st; generatedHtml := generatedHtml st;
     modifyingDay := modifyingDay st; modifyInput := modifyInput st;
     isRegenerating := isRegenerating st; chatMessages := chatMessages st;
     showDaySelector := showDaySelector st;
     showDayConfirmation := v;
     versionHistory := versionHistory st;
     showVersionHistory := showVersionHistory st; alerts := alerts st |}.

Definition setVersionHistory (v : list VersionHistory) (st : AppState) : AppState :=
  {| tripSkeleton := tripSkeleton st; generatedHtml := generatedHtml st;
     modifyingDay := modifyingDay st; modifyInput := modifyInput st;
     isRegenerating := isRegenerating st; chatMessages := chatMessages st;
     showDaySelector := showDaySelector st;
     showDayConfirmation := showDayConfirmation st;
     versionHistory := v;
     showVersionHistory := showVersionHistory st; alerts := alerts st |}.

Definition setShowVersionHistory (v : bool) (st : AppState) : AppState :=
  {| tripSkeleton := tripSkeleton st; generatedHtml := generatedHtml st;
     modifyingDay := modifyingDay st; modifyInput := modifyInput st;
     isRegenerating := isRegenerating st; chatMessages := chatMessages st;
     showDaySelector := showDaySelector st;
     showDayConfirmation := showDayConfirmation st;
     versionHistory := versionHistory st;
     showVersionHistory := v; alerts := alerts st |}.

Definition alert (text : string) (st : AppState) : AppState :=
  {| tripSkeleton := tripSkeleton st; generatedHtml := generatedHtml st;
     modifyingDay := modifyingDay st; modifyInput := modifyInput st;
     isRegenerating := isRegenerating st; chatMessages := chatMessages st;
     showDaySelector := showDaySelector st;
     showDayConfirmation := showDayConfirmation st;
     versionHistory := versionHistory st;
     showVersionHistory := showVersionHistory st;
     alerts := (alerts st ++ [text])%list |}.

Definition handleRestoreVersion (v : VersionHistory) (st : AppState) : AppState :=
  match version_skeleton v with
  | None => st
  | Some restored =>
      let st := setTripSkeleton (Some restored) st in
      let st :=
        addChatMessage
          {| role := assistant;
             content := "已回滚到版本 " ++ show_Z (version v) ++ " ("
                        ++ version_summary v ++ ")" |} st in
      setShowVersionHistory false st
  end.

(** The text that opens the section of day [d] in the pattern of the edit
    handlers. *)
Definition day_section_opening (d : Z) : string :=
  "<section id=" ++ quoted ("day-" ++ show_Z d).

(** [new RegExp(`<section id="day-${d}"[\\s\\S]*?<\\/section>`, 'i')] run
    on [html]: where the match starts and where it ends.  Letters match
    without regard to ASCII case; the lazy middle part stops at the first
    closing tag after the opening text. *)
Definition match_day_section (html : string) (d : Z) : option (Z * Z) :=
  let lower := ascii_toLowerCase html in
  let opening := ascii_toLowerCase (day_section_opening d) in
  let i := indexOf lower opening in
  if i =? -1 then None
  else
    let j := indexOf (slice lower (i + len opening) None) "</section>" in
    if j =? -1 then None
    else Some (i, i + len opening + j + len "</section>").

(** The replacement text of [String.prototype.replace]: [$$], [$&], the
    text before the match and the text after it are substituted; there is
    no capture group. *)
Fixpoint expand_replacement (replacement matched before after : string)
  : string :=
  match replacement with
  | EmptyString => EmptyString
  | String "$" (String "$" rest) =>
      "$" ++ expand_replacement rest matched before after
  | String "$" (String "&" rest) =>
      matched ++ expand_replacement rest matched before after
  | String "$" (String "`" rest) =>
      before ++ expand_replacement rest matched before after
  | String "$" (String "'" rest) =>
      after ++ expand_replacement rest matched before after
  | String c rest => String c (expand_replacement rest matched before after)
  end.

(** [html.replace(regex, newDayHtml)]. *)
Definition replace_day_section (html : string) (d : Z) (newDayHtml : string)
  : string :=
  match match_day_section html d with
  | None => html
  | Some (a, b) =>
      let before := slice html 0 (Some a) in
      let matched := slice html a (Some b) in
      let after := slice html b None in
      before ++ expand_replacement newDayHtml matched before after ++ after
  end.

Section AppEdits.

Variable W : World.
Context {parse_day : JsonType DayPlan}.
Variable encodeURIComponent : string -> string.

Definition submitModification (st : AppState) : M AppState :=
  match tripSkeleton st, modifyingDay st, generatedHtml st with
  | Some skeleton, Some d, Some generated =>
      if negb (truthy_string (trim (modifyInput st)))
         || negb (truthy_string generated)
      then ret st
      else
        let st := setIsRegenerating true st in
        st <-
          try_catch
            (newDayHtml <-
               regenerateDayPlan W encodeURIComponent skeleton d (modifyInput st) ;;
             match match_day_section generated d with
             | Some _ =>
                 let updatedHtml := replace_day_section generated d newDayHtml in
                 ret (setModifyingDay None (setGeneratedHtml (Some updatedHtml) st))
             | None => ret (alert "无法定位原始行程代码，请重试" st)
             end)
            (fun e => ret (alert ("修改失败: " ++ exn_message e) st)) ;;
        ret (setIsRegenerating false st)
  | _, _, _ => ret st
  end.

Definition regenerateDayWithConfirmation (d : Z) (input : string)
  (st : AppState) : M AppState :=
  match tripSkeleton st, generatedHtml st with
  | Some skeleton, Some generated =>
      if negb (truthy_string generated) then ret st
      else
        let st := setIsRegenerating true st in
        let st := setShowDayConfirmation false st in
        let st := setShowDaySelector false st in
        st <-
          try_catch
            (newDayHtml <-
               regenerateDayPlan W encodeURIComponent skeleton d input ;;
             match match_day_section generated d with
             | Some _ =>
                 let updatedHtml := replace_day_section generated d newDayHtml in
                 ret (addChatMessage
                        {| role := assistant;
                           content := "第" ++ show_Z d
                                      ++ "天的行程已更新！还有其他需要调整的吗？" |}
                        (setGeneratedHtml (Some updatedHtml) st))
             | None => throw (Error "无法定位原始行程代码")
             end)
            (fun _ =>
               ret (addChatMessage
                      {| role := assistant; content := "修改失败，请重试。" |} st)) ;;
        ret (setIsRegenerating false st)
  | _, _ => ret st
  end.

End AppEdits.

(** A full run, then a single-day edit. *)
Module SampleEdit.

(** JSON text of an object and of a string without special characters. *)
Definition object (fields : list (string * string)) : string :=
  "{" ++ join "," (map (fun f => quoted (fst f) ++ ":" ++ snd f) fields) ++ "}".

Definition visual_text : string :=
  object
    [ ("destination", quoted "Kyoto"); ("duration", "2");
      ("vibe", quoted "calm"); ("palette", quoted "stone");
      ("heroStyle", quoted "centered");
      ("fontConfig",
       object [ ("headingFont", quoted "Noto Serif SC");
                ("bodyFont", quoted "Noto Sans SC");
                ("googleFontUrl", quoted "https://fonts.googleapis.com/css2") ]) ].

Definition day_text (d : DayPlanSkeleton) : string :=
  object
    [ ("day", show_Z (day d)); ("title", quoted (title d));
      ("theme", quoted (theme d)); ("city", quoted (city d));
      ("visualKeyword", quoted (visualKeyword d)) ].

Definition structure_text : string :=
  object
    [ ("summary", quoted "Two days in Kyoto"); ("highlights", "[]");
      ("days", "[" ++ day_text Sample.day1 ++ "," ++ day_text Sample.day2 ++ "]") ].

(** The regenerated second day: one activity, no coordinates. *)
Definition relaxed_day_text : string :=
  object
    [ ("day", "2"); ("title", quoted "Slow morning"); ("theme", quoted "relaxed");
      ("city", quoted "Kyoto");
      ("activities",
       "[" ++ object [ ("time", quoted "10:00"); ("title", quoted "Tea house");
                       ("description", quoted "A long tea");
                       ("location", object [("name", quoted "")]) ] ++ "]") ].

Definition relaxed_day : DayPlan :=
  {| plan_day := 2; plan_title := "Slow morning"; plan_theme := "relaxed";
     plan_city := "Kyoto";
     activities :=
       [ {| time := "10:00"; activity_title := "Tea house";
            description := "A long tea";
            location := {| name := ""; lat := None; lng := None; address := None |};
            tips := None |} ] |}.

Definition visuals : JsonType VisualIdentity :=
  parse_table [(visual_text, Sample.kyoto)].

Definition structures : JsonType StructureAnswer :=
  parse_table
    [(structure_text, {| asked := itinerary Sample.trip; own := no_overrides |})].

Definition day_plans : JsonType DayPlan :=
  parse_table [(relaxed_day_text, relaxed_day)].

Definition planner : World :=
  {| apiKey := "key";
     generateContent := fun site =>
       match site with
       | VisualCall => Ok visual_text
       | StructureCall => Ok structure_text
       | RegenerateCall => Ok relaxed_day_text
       | _ => Ok "no plan today"
       end;
     amap_lookup := fun _ _ => Ok None;
     fetchImages := fun _ _ _ => Ok [];
     readAsDataURL := fun _ => Ok "data:image/png;base64,AAAA";
     elapsed := fun _ => 1200 |}.

(** The stream of one run, as the strings it yields. *)
Definition stream : M unit :=
  generateTravelPlanStream planner
    (parse_visual := visuals) (parse_structure := structures)
    (parse_activities := Sample.not_json) (parse_analysis := Sample.not_json)
    ascii_toLowerCase Sample.plain Sample.no_digits
    {| prompt := "Kyoto, 2 days, quiet" |} [].

Definition document : string :=
  assembled_document
    (map (chunk_text (fun _ => "{}")) (StreamSpec.yields (fst stream))).

(** The state of the application when the user asks to edit day 2. *)
Definition editing : AppState :=
  {| tripSkeleton := Some Sample.trip;
     generatedHtml := Some document;
     modifyingDay := Some 2;
     modifyInput := "make day 2 more relaxed";
     isRegenerating := false;
     chatMessages := [];
     showDaySelector := false;
     showDayConfirmation := false;
     versionHistory := [];
     showVersionHistory := false;
     alerts := [] |}.

End SampleEdit.

(** A ledger of two snapshots. *)
Module SampleLedger.

Definition initial : VersionHistory :=
  createVersionHistory 1000 1000 Sample.trip
    [ {| change_type := global; change_day := None;
         change_description := "初始生成行程"; change_timestamp := 1000 |} ]
    "AI Planner" None.

Definition shorter : TripSkeleton :=
  {| identity := Sample.kyoto;
     itinerary := {| summary := "One day in Kyoto"; highlights := [];
                     days := [Sample.day1] |} |}.

Definition second : VersionHistory :=
  createVersionHistory 2000 2000 shorter
    [ {| change_type := local; change_day := Some 2;
         change_description := "drop the market day"; change_timestamp := 2000 |} ]
    "traveler" (Some initial).

Definition showing_second : AppState :=
  {| tripSkeleton := Some shorter;
     generatedHtml := None;
     modifyingDay := None;
     modifyInput := "";
     isRegenerating := false;
     chatMessages := [];
     showDaySelector := false;
     showDayConfirmation := false;
     versionHistory := [initial; second];
     showVersionHistory := true;
     alerts := [] |}.

End SampleLedger.

(** ** intentAgent.ts: the factory *)

(** [createIntentAgent]: without a client one is built; when that fails
    (no API key) the agent is created without one. *)
Definition createIntentAgent (W : World) (client : option GLMClient)
  : IntentAgent :=
  match client with
  | Some c => new_IntentAgent (Some c)
  | None =>
      match getGlmClient W with
      | Ok c => new_IntentAgent (Some c)
      | Throw _ => new_IntentAgent None
      end
  end.

(** ** App.tsx: the question handler *)

Section AppChat.

Variable W : World.
Context {parse_reply : JsonType QAReply}.

(** [handleQA]: the reply of [generateQAReply] goes to the chat. *)
Definition handleQA (st : AppState) : M AppState :=
  try_catch
    (result <- generateQAReply W ;;
     ret (addChatMessage {| role := assistant; content := reply result |} st))
    (fun _ =>
       ret (addChatMessage
              {| role := assistant;
                 content := "抱歉，我暂时无法回答这个问题。您可以尝试调整行程，或提供更多细节。" |}
              st)).

End AppChat.

(** ** Vocabulary for the properties of the agents and of the stream *)

Module AnalysisSpec.

(** The template named is the one of the scene, and the confidence is not
    zero. *)
Definition consistent (a : SceneAnalysis) : Prop :=
  recommendedTemplate a = getTemplateName (analysis_sceneType a)
  /\ ~ (confidence a == 0)%Q.

End AnalysisSpec.

Module WorkerSpec.

(** The file carries its data already: nothing has to be read. *)
Definition has_base64 (file : UploadedFile) : bool :=
  match base64 file with
  | Some data => truthy_string data
  | None => false
  end.

(** One place lookup for each activity whose location has a name, in the
    order of the activities, in the city given. *)
Definition place_lookups (city : string) (activities : list Activity)
  : list event :=
  flat_map (fun a =>
              if truthy_string (name (location a))
              then [CallAmap (name (location a)) city] else [])
           activities.

(** The positions of the workers whose text generation call is in a trace. *)
Definition worker_calls (t : list event) : list nat :=
  flat_map (fun ev => match ev with
                      | CallGenerateContent (ActivityCall j) => [j]
                      | _ => []
                      end) t.

(** What enrichment does to one activity: the text stays; the location is
    that of the place found, when the lookup is made and finds one. *)
Definition enriched (W : World) (ds : DayPlanSkeleton) (a a' : Activity)
  : Prop :=
  same_text a a'
  /\ match (if truthy_string (name (location a))
            then amap_lookup W (name (location a)) (city ds)
            else Ok None) with
     | Ok (Some poi) =>
         name (location a') = poi_name poi
         /\ lat (location a') = Some (poi_lat poi)
         /\ lng (location a') = Some (poi_lng poi)
     | _ => a' = a
     end.

End WorkerSpec.

Module DocumentSpec.

(** The chunks that carry the document: everything but status lines. *)
Definition markup (l : list chunk) : list chunk :=
  filter (fun c => negb (StreamSpec.is_status c)) l.

Definition is_failure_line (c : chunk) : bool :=
  match c with
  | Log (LogFailure _) => true
  | _ => false
  end.

(** What the section a worker generates for day [d] opens with. *)
Definition generated_day_opening (d : Z) : string :=
  template [ nl; "      <section class="; dq; "day-section mb-8"; dq;
             " data-day="; dq; show_Z d; dq; ">" ].

(** What a run may have yielded before it ends: no day fragment, no footer,
    no completion line, no failure line. *)
Definition unfinished (c : chunk) : bool :=
  match c with
  | DayHtml _ | FooterHtml _ | Log LogComplete | Log (LogFailure _) => false
  | _ => true
  end.

End DocumentSpec.

(** ** More sample data *)

Module SampleActivities.

(** An answer of the activity prompt with one element; its title is
    missing. *)
Definition text : string :=
  "[" ++ SampleEdit.object
           [ ("time", quoted "10:00"); ("location", quoted "Kinkaku-ji") ]
  ++ "]".

Definition raws : list RawActivity :=
  [ {| raw_time := Some "10:00"; raw_title := None;
       raw_description := None; raw_location := Some "Kinkaku-ji" |} ].

Definition table : JsonType (list RawActivity) := parse_table [(text, raws)].

End SampleActivities.

Module SampleSplice.

(** A document whose second day is marked the way the edit handlers look
    for it. *)
Definition page : string :=
  "<main><section id=" ++ quoted "day-1" ++ ">one</section><SECTION ID="
  ++ quoted "day-2" ++ " class=" ++ quoted "d" ++ ">two</SECTION><footer/></main>".

Definition relaxed : string :=
  "<section id=" ++ quoted "day-2" ++ ">slow</section>".

End SampleSplice.

(** ** Asynchronous code with other events *)

(** The same monad as [M], over any type of events: [Task.t E A] is a trace
    of events of [E] and a settled promise. *)
Module Task.

Section Ops.

Context {E : Type}.

Definition t (A : Type) : Type := (list E * promise A)%type.

Definition ret {A} (a : A) : t A := ([], Fulfilled a).

Definition bind {A B} (m : t A) (k : A -> t B) : t B :=
  match m with
  | (tr, Fulfilled a) => let '(tr', r) := k a in ((tr ++ tr')%list, r)
  | (tr, Rejected e) => (tr, Rejected e)
  | (tr, Pending) => (tr, Pending)
  end.

Definition throw {A} (e : exn) : t A := ([], Rejected e).

Definition try_catch {A} (m : t A) (handler : exn -> t A) : t A :=
  match m with
  | (tr, Rejected e) => let '(tr', r) := handler e in ((tr ++ tr')%list, r)
  | _ => m
  end.

Definition lift {A} (r : result A) : t A :=
  match r with
  | Ok a => ret a
  | Throw e => throw e
  end.

Definition await {A} (call : E) (r : result A) : t A :=
  match r with
  | Ok a => ([call], Fulfilled a)
  | Throw e => ([call], Rejected e)
  end.

End Ops.

Arguments t E A : clear implicits.

(** A run over the events of [E], seen among the events of [E']. *)
Definition embed {E E' A} (f : E -> E') (m : t E A) : t E' A :=
  (map f (fst m), snd m).

End Task.

Declare Scope task_scope.
Delimit Scope task_scope with task.
Notation "x <- m ;; k" := (Task.bind m (fun x => k))
  (at level 61, m at next level, right associativity) : task_scope.
Notation "m ;; k" := (Task.bind m (fun _ => k))
  (at level 61, right associativity) : task_scope.

(** ** glmService.ts: the helpers of the chat *)

(** The places where the chat awaits the text generation collaborator. *)
Inductive AssistantSite : Type :=
| ValidateCall
| EnhancedCall
| FeedbackCall
| ResponseCall.

(** The readings of the clock. *)
Inductive ClockSite : Type :=
| ChangeStamp (k : nat)
| DefaultStamp
| VersionIdStamp
| VersionStamp.

(** The answers of the collaborator at those places, the readings of the
    clock, and the number [Math.random()] gives. *)
Record Assistant : Type := {
  answer : AssistantSite -> result string;
  Date_now : ClockSite -> Z;
  Math_random : Q
}.

(** The events of the chat: those of the pipeline, and its own calls. *)
Inductive action : Type :=
| Core (ev : event)
| CallAssistant (site : AssistantSite).

(** [s.length]: the UTF-16 code units of a text held as UTF-8 bytes.  A
    continuation byte adds nothing; the lead byte of a four-byte sequence
    stands for a surrogate pair. *)
Definition utf16_units (c : ascii) : nat :=
  let n := nat_of_ascii c in
  if (n <? 128)%nat then 1%nat
  else if (n <? 192)%nat then 0%nat
  else if (n <? 240)%nat then 1%nat
  else 2%nat.

Fixpoint utf16_length (s : string) : nat :=
  match s with
  | EmptyString => 0%nat
  | String c rest => (utf16_units c + utf16_length rest)%nat
  end.

(** The object the validation prompt asks for, at the shape the code
    reads. *)
Record RawValidation : Type := {
  raw_hasDestination : option bool;
  raw_validation_message : option string
}.

Record TripIntentCheck : Type := {
  isValid : bool;
  check_message : option string
}.

Section Validation.

Local Open Scope task_scope.

Variable W : World.
Variable A : Assistant.
Context {parse_validation : JsonType RawValidation}.

Definition validateTripIntent (prompt : string) : Task.t action TripIntentCheck :=
  if negb (truthy_string prompt) || (utf16_length prompt <? 2)%nat then
    Task.ret {| isValid := false; check_message := Some "请输入您的旅行计划。" |}
  else
    Task.try_catch
      (Task.lift (getGlmClient W) ;;
       response <- Task.await (CallAssistant ValidateCall) (answer A ValidateCall) ;;
       result <- Task.lift (parseAIJsonResponse response) ;;
       Task.ret {| isValid := match raw_hasDestination result with
                              | Some true => true
                              | _ => false
                              end;
                   check_message := raw_validation_message result |})
      (fun _ => Task.ret {| isValid := true; check_message := None |}).

End Validation.

(** The object the intent prompt asks for, at the shape the code reads. *)
Record ExtractedParams : Type := {
  newDestination : option string;
  newDuration : option Z;
  modifiedActivities : option (list string)
}.

Record RawIntent : Type := {
  raw_intent : option string;
  raw_ui_action : option string;
  raw_targetDay : option Z;
  raw_intent_confidence : option Q;
  raw_reasoning : option string;
  raw_suggestedAction : option string;
  raw_extractedParams : option ExtractedParams;
  raw_chatType : option string;
  raw_searchQuery : option string;
  raw_searchCategory : option string;
  raw_suggestedDay : option Z;
  raw_dayConfidence : option Q;
  raw_requiresConfirmation : option bool;
  raw_confirmationPrompt : option string;
  raw_confirmationOptions : option (list string)
}.

(** [EnhancedFollowUpAnalysis]; the enumerations are kept as the strings
    that are compared at run time. *)
Record EnhancedFollowUpAnalysis : Type := {
  intent : string;
  ui_action : string;
  targetDay : option Z;
  intent_confidence : Q;
  reasoning : string;
  suggestedAction : string;
  extractedParams : option ExtractedParams;
  chatType : option string;
  searchQuery : option string;
  searchCategory : option string;
  suggestedDay : option Z;
  dayConfidence : option Q;
  requiresConfirmation : bool;
  confirmationPrompt : option string;
  confirmationOptions : option (list string)
}.

(** A number that is present and not zero. *)
Definition truthy_day (d : option Z) : option Z :=
  match d with
  | Some n => if n =? 0 then None else Some n
  | None => None
  end.

Definition intent_fallback : EnhancedFollowUpAnalysis :=
  {| intent := "QA_QUERY"; ui_action := "chat_reply"; targetDay := None;
     intent_confidence := 0.5%Q; reasoning := "意图分析失败";
     suggestedAction := "请重新描述"; extractedParams := None;
     chatType := None; searchQuery := None; searchCategory := None;
     suggestedDay := None; dayConfidence := None;
     requiresConfirmation := false; confirmationPrompt := None;
     confirmationOptions := None |}.

Section EnhancedIntent.

Local Open Scope task_scope.

Variable W : World.
Variable A : Assistant.
Context {parse_intent : JsonType RawIntent}.

Definition analyzeEnhancedIntent : Task.t action EnhancedFollowUpAnalysis :=
  Task.lift (getGlmClient W) ;;
  Task.try_catch
    (response <- Task.await (CallAssistant EnhancedCall) (answer A EnhancedCall) ;;
     result <- Task.lift (parseAIJsonResponse response) ;;
     Task.ret
       {| intent := or_else (raw_intent result) "REGENERATE_GLOBAL";
          ui_action := or_else (raw_ui_action result) "stream_loading";
          targetDay :=
            match truthy_day (raw_targetDay result) with
            | Some d => Some d
            | None => truthy_day (raw_suggestedDay result)
            end;
          intent_confidence :=
            match raw_intent_confidence result with
            | Some c => if Qeq_bool c 0 then 0.5%Q else c
            | None => 0.5%Q
            end;
          reasoning := or_else (raw_reasoning result) "";
          suggestedAction := or_else (raw_suggestedAction result) "";
          extractedParams := raw_extractedParams result;
          chatType := raw_chatType result;
          searchQuery := raw_searchQuery result;
          searchCategory := raw_searchCategory result;
          suggestedDay := raw_suggestedDay result;
          dayConfidence := raw_dayConfidence result;
          requiresConfirmation :=
            match raw_requiresConfirmation result with
            | Some b => b
            | None => false
            end;
          confirmationPrompt := raw_confirmationPrompt result;
          confirmationOptions := raw_confirmationOptions result |})
    (fun _ => Task.ret intent_fallback).

End EnhancedIntent.

(** ** App.tsx: the follow-up handlers *)

Inductive LoadingState : Type := IDLE | GENERATING | SUCCESS | ERROR.

(** What a timer does when it fires. *)
Inductive TimerCallback : Type := ResetToInput.

(** The state the follow-up handlers work on: that of the edit handlers,
    and the variables only the chat uses; [timers] holds the delay and the
    callback of each [setTimeout] made. *)
Record ChatState : Type := {
  base : AppState;
  loadingState : LoadingState;
  isAnalyzingIntent : bool;
  suggestedDayForConfirmation : option Z;
  showFeedbackCollector : bool;
  feedbackTargetDay : option Z;
  timers : list (Z * TimerCallback)
}.

Definition with_app (a : AppState) (st : ChatState) : ChatState :=
  {| base := a; loadingState := loadingState st;
     isAnalyzingIntent := isAnalyzingIntent st;
     suggestedDayForConfirmation := suggestedDayForConfirmation st;
     showFeedbackCollector := showFeedbackCollector st;
     feedbackTargetDay := feedbackTargetDay st;
     timers := timers st |}.

Definition setIsAnalyzingIntent (v : bool) (st : ChatState) : ChatState :=
  {| base := base st; loadingState := loadingState st;
     isAnalyzingIntent := v;
     suggestedDayForConfirmation := suggestedDayForConfirmation st;
     showFeedbackCollector := showFeedbackCollector st;
     feedbackTargetDay := feedbackTargetDay st;
     timers := timers st |}.

Definition setSuggestedDayForConfirmation (v : option Z) (st : ChatState)
  : ChatState :=
  {| base := base st; loadingState := loadingState st;
     isAnalyzingIntent := isAnalyzingIntent st;
     suggestedDayForConfirmation := v;
     showFeedbackCollector := showFeedbackCollector st;
     feedbackTargetDay := feedbackTargetDay st;
     timers := timers st |}.

Definition setTimeout (callback : TimerCallback) (delay : Z) (st : ChatState)
  : ChatState :=
  {| base := base st; loadingState := loadingState st;
     isAnalyzingIntent := isAnalyzingIntent st;
     suggestedDayForConfirmation := suggestedDayForConfirmation st;
     showFeedbackCollector := showFeedbackCollector st;
     feedbackTargetDay := feedbackTargetDay st;
     timers := (timers st ++ [(delay, callback)])%list |}.

Definition setShowFeedbackCollector (v : bool) (st : ChatState) : ChatState :=
  {| base := base st; loadingState := loadingState st;
     isAnalyzingIntent := isAnalyzingIntent st;
     suggestedDayForConfirmation := suggestedDayForConfirmation st;
     showFeedbackCollector := v;
     feedbackTargetDay := feedbackTargetDay st;
     timers := timers st |}.

Definition setFeedbackTargetDay (v : option Z) (st : ChatState) : ChatState :=
  {| base := base st; loadingState := loadingState st;
     isAnalyzingIntent := isAnalyzingIntent st;
     suggestedDayForConfirmation := suggestedDayForConfirmation st;
     showFeedbackCollector := showFeedbackCollector st;
     feedbackTargetDay := v;
     timers := timers st |}.

Definition say (text : string) (st : ChatState) : ChatState :=
  with_app (addChatMessage {| role := assistant; content := text |} (base st)) st.

(** [setChatMessages([])]. *)
Definition clearChatMessages (st : AppState) : AppState :=
  {| tripSkeleton := tripSkeleton st; generatedHtml := generatedHtml st;
     modifyingDay := modifyingDay st; modifyInput := modifyInput st;
     isRegenerating := isRegenerating st; chatMessages := [];
     showDaySelector := showDaySelector st;
     showDayConfirmation := showDayConfirmation st;
     versionHistory := versionHistory st;
     showVersionHistory := showVersionHistory st; alerts := alerts st |}.

(** The body of the timer of [handleRegenerate] and of the global branch of
    [handleFeedbackSubmit]. *)
Definition fire (callback : TimerCallback) (st : ChatState) : ChatState :=
  match callback with
  | ResetToInput =>
      {| base := clearChatMessages
                  (setTripSkeleton None (setGeneratedHtml None (base st)));
         loadingState := IDLE;
         isAnalyzingIntent := isAnalyzingIntent st;
         suggestedDayForConfirmation := suggestedDayForConfirmation st;
         showFeedbackCollector := showFeedbackCollector st;
         feedbackTargetDay := feedbackTargetDay st;
         timers := timers st |}
  end.

(** What a follow-up leaves alone: the document, the plan, the ledger and
    the loading state. *)
Definition same_plan (st st' : ChatState) : Prop :=
  generatedHtml (base st') = generatedHtml (base st)
  /\ tripSkeleton (base st') = tripSkeleton (base st)
  /\ versionHistory (base st') = versionHistory (base st)
  /\ loadingState st' = loadingState st.

Definition chat_responses : list string :=
  [ "不客气！如果您有其他问题或需要调整行程，随时告诉我～";
    "好的！有任何需要帮助的地方请说～";
    "明白了！还有其他想了解的吗？";
    "收到～如果您对行程有任何想法，随时告诉我！" ].

Section FollowUp.

Local Open Scope task_scope.

Variable W : World.
Variable A : Assistant.
Context {parse_intent : JsonType RawIntent} {parse_reply : JsonType QAReply}.

(** [dayConfidence && dayConfidence > 0.7 && suggestedDay && tripSkeleton]. *)
Definition confident_day (analysis : EnhancedFollowUpAnalysis) (st : ChatState)
  : option Z :=
  match dayConfidence analysis, truthy_day (suggestedDay analysis),
        tripSkeleton (base st) with
  | Some c, Some d, Some _ => if Qlt_le_dec 0.7 c then Some d else None
  | _, _, _ => None
  end.

Definition handleUpdateLocal (analysis : EnhancedFollowUpAnalysis)
  (st : ChatState) : ChatState :=
  match confident_day analysis st with
  | Some d =>
      let st := setSuggestedDayForConfirmation (Some d) st in
      with_app (setShowDayConfirmation true (base st)) st
  | None => with_app (setShowDaySelector true (base st)) st
  end.

Definition handleSearch (input : string) (analysis : EnhancedFollowUpAnalysis)
  (st : ChatState) : Task.t action ChatState :=
  let searchQuery := or_else (searchQuery analysis) input in
  let st := say ("正在为您搜索" ++ quoted searchQuery ++ "...") st in
  Task.try_catch
    (found <-
       Task.embed Core
         (searchPlace W searchQuery
            (or_else (option_map destination
                        (option_map identity (tripSkeleton (base st)))) "")) ;;
     match found with
     | Some place =>
         Task.ret
           (say ("为您找到1个相关结果：" ++ nl ++ nl ++ poi_name place ++ nl
                 ++ or_else (Some (poi_address place)) "") st)
     | None =>
         Task.ret
           (say ("未找到与" ++ quoted searchQuery
                 ++ "相关的结果。您可以尝试其他关键词，或者告诉我您想搜索什么类型的地点。")
                st)
     end)
    (fun _ => Task.ret (say "搜索失败，请重试。您可以尝试描述更具体的位置名称。" st)).

(** [responses[Math.floor(Math.random() * responses.length)]];
    [Math.random()] is at least 0 and less than 1. *)
Definition handleChat (st : ChatState) : ChatState :=
  say (nth (Z.to_nat (Qfloor (Math_random A * 4)%Q)) chat_responses "") st.

Definition handleRegenerate (st : ChatState) : ChatState :=
  setTimeout ResetToInput 1000
    (say "好的，我来重新为您规划整个行程..." st).

Definition handleFollowUpSubmit (input : string) (st : ChatState)
  : Task.t action ChatState :=
  if negb (truthy_string (trim input)) then Task.ret st
  else
    match tripSkeleton (base st) with
    | None => Task.ret st
    | Some _ =>
        let st := setIsAnalyzingIntent true st in
        let st :=
          with_app (addChatMessage {| role := user; content := input |} (base st))
                   st in
        st <-
          Task.try_catch
            (analysis <- analyzeEnhancedIntent W A ;;
             if String.eqb (intent analysis) "REGENERATE_GLOBAL" then
               Task.ret (handleRegenerate st)
             else if String.eqb (intent analysis) "UPDATE_LOCAL" then
               Task.ret (handleUpdateLocal analysis st)
             else if String.eqb (intent analysis) "SEARCH" then
               handleSearch input analysis st
             else if String.eqb (intent analysis) "CHAT" then
               Task.ret (handleChat st)
             else
               a <- Task.embed Core (handleQA W (base st)) ;;
               Task.ret (with_app a st))
            (fun _ => Task.ret (say "抱歉，处理您的请求时出错了。请重试。" st)) ;;
        Task.ret (setIsAnalyzingIntent false st)
    end.

End FollowUp.

(** ** feedbackAgent.ts: the analysis of a feedback *)

(** A change as the analysis prompt asks for it; the time stamp may be
    missing. *)
Record RawChange : Type := {
  raw_change_type : ChangeScope;
  raw_change_day : option Z;
  raw_change_description : string;
  raw_change_timestamp : option Z
}.

(** The object the analysis prompt asks for, at the shape the code
    reads. *)
Record RawFeedbackAnalysis : Type := {
  raw_feedbackType : option string;
  raw_severity : option string;
  raw_targetDays : option (list Z);
  raw_suggestedChanges : option (list RawChange);
  raw_requiresGlobalRegeneration : option bool;
  raw_estimatedImpact : option string
}.

(** [FeedbackAnalysis] as [parseAnalysisResponse] returns it: the parsed
    object with its changes stamped, whatever else it holds. *)
Record FeedbackAnalysis : Type := {
  feedbackType : option string;
  severity : option string;
  targetDays : option (list Z);
  suggestedChanges : list VersionChange;
  requiresGlobalRegeneration : option bool;
  estimatedImpact : option string
}.

Record FeedbackAgent : Type := new_FeedbackAgent {
  feedback_client : GLMClient
}.

Record VersionDiff : Type := {
  added : list string;
  removed : list string;
  modified : list string
}.

(** [versionHistory[versionHistory.length - 1]]. *)
Definition last_version (ledger : list VersionHistory) : option VersionHistory :=
  nth_error ledger (List.length ledger - 1).

Module Feedback.

(** [c1.day === c2.day && c1.type === c2.type]. *)
Definition same_target (c1 c2 : VersionChange) : bool :=
  match change_day c1, change_day c2 with
  | Some a, Some b => a =? b
  | None, None => true
  | _, _ => false
  end && is_scope (change_type c1) c2.

Definition compareVersions (version1 version2 : VersionHistory) : VersionDiff :=
  let changes1 := changes version1 in
  let changes2 := changes version2 in
  {| added :=
       map change_description
         (filter (fun c2 => negb (existsb (fun c1 => same_target c1 c2) changes1))
                 changes2);
     removed :=
       map change_description
         (filter (fun c1 => negb (existsb (fun c2 => same_target c2 c1) changes2))
                 changes1);
     modified := [] |}.

Section Analysis.

Local Open Scope task_scope.

Variable W : World.
Variable A : Assistant.
Context {parse_feedback : JsonType RawFeedbackAnalysis}.

(** [createFeedbackAgent]: the handler of the failed construction
    constructs again. *)
Definition createFeedbackAgent (client : option GLMClient) : result FeedbackAgent :=
  match client with
  | Some c => Ok (new_FeedbackAgent c)
  | None =>
      match getGlmClient W with
      | Ok c => Ok (new_FeedbackAgent c)
      | Throw _ =>
          match getGlmClient W with
          | Ok c => Ok (new_FeedbackAgent c)
          | Throw e => Throw e
          end
      end
  end.

Definition getDefaultAnalysis (targetDay : option Z) : FeedbackAnalysis :=
  match truthy_day targetDay with
  | Some d =>
      {| feedbackType := Some "suggestion"; severity := Some "medium";
         targetDays := Some [d];
         suggestedChanges :=
           [ {| change_type := local; change_day := Some d;
                change_description := "根据用户反馈调整行程";
                change_timestamp := Date_now A DefaultStamp |} ];
         requiresGlobalRegeneration := Some false;
         estimatedImpact := Some "影响单日行程" |}
  | None =>
      {| feedbackType := Some "suggestion"; severity := Some "medium";
         targetDays := Some [];
         suggestedChanges :=
           [ {| change_type := global; change_day := None;
                change_description := "根据用户反馈调整整体行程";
                change_timestamp := Date_now A DefaultStamp |} ];
         requiresGlobalRegeneration := Some true;
         estimatedImpact := Some "影响整体行程" |}
  end.

(** [{ ...change, timestamp: change.timestamp || Date.now() }] for the
    change at position [k]. *)
Definition stamp (k : nat) (change : RawChange) : VersionChange :=
  {| change_type := raw_change_type change;
     change_day := raw_change_day change;
     change_description := raw_change_description change;
     change_timestamp :=
       match truthy_day (raw_change_timestamp change) with
       | Some t => t
       | None => Date_now A (ChangeStamp k)
       end |}.

Fixpoint stamp_from (k : nat) (l : list RawChange) : list VersionChange :=
  match l with
  | [] => []
  | change :: rest => stamp k change :: stamp_from (S k) rest
  end.

(** [parseAnalysisResponse]: a missing list of changes makes [.map] throw
    inside the [try], so the default analysis is returned then as well. *)
Definition parseAnalysisResponse (response : string) (targetDay : option Z)
  : FeedbackAnalysis :=
  let jsonMatch :=
    or_match (match_json_fence response) (match_span response "{" "}") in
  match jsonMatch with
  | None => getDefaultAnalysis targetDay
  | Some m =>
      match JSON_parse (matched_json m) with
      | Throw _ => getDefaultAnalysis targetDay
      | Ok parsed =>
          match raw_suggestedChanges parsed with
          | None => getDefaultAnalysis targetDay
          | Some l =>
              {| feedbackType := raw_feedbackType parsed;
                 severity := raw_severity parsed;
                 targetDays := raw_targetDays parsed;
                 suggestedChanges := stamp_from 0 l;
                 requiresGlobalRegeneration := raw_requiresGlobalRegeneration parsed;
                 estimatedImpact := raw_estimatedImpact parsed |}
          end
      end
  end.

Definition analyzeFeedback (agent : FeedbackAgent) (targetDay : option Z)
  : Task.t action FeedbackAnalysis :=
  response <- Task.await (CallAssistant FeedbackCall) (answer A FeedbackCall) ;;
  Task.ret (parseAnalysisResponse response targetDay).

Definition generateModificationResponse (agent : FeedbackAgent)
  : Task.t action string :=
  Task.await (CallAssistant ResponseCall) (answer A ResponseCall).

End Analysis.

End Feedback.

(** ** App.tsx: the feedback handler *)

(** What the feedback form hands over. *)
Record FeedbackDraft : Type := {
  draft_type : string;
  draft_targetDay : option Z;
  draft_content : string;
  draft_author : string
}.

Section FeedbackHandler.

Local Open Scope task_scope.

Variable W : World.
Variable A : Assistant.
Context {parse_feedback : JsonType RawFeedbackAnalysis} {parse_day : JsonType DayPlan}.
Variable encodeURIComponent : string -> string.

Definition feedback_apology : string := "处理反馈时出错，请重试。".

(** The last two statements of the [try]. *)
Definition close_collector (st : ChatState) : ChatState :=
  setFeedbackTargetDay None (setShowFeedbackCollector false st).

(** The branch that regenerates one day; the document and the plan are the
    ones the handler was created with. *)
Definition regenerate_feedback_day (skeleton : TripSkeleton)
  (generated : option string) (d : Z) (content : string) (st : ChatState)
  : Task.t action ChatState :=
  let st := with_app (setIsRegenerating true (base st)) st in
  st <-
    Task.try_catch
      (newDayHtml <-
         Task.embed Core (regenerateDayPlan W encodeURIComponent skeleton d content) ;;
       match generated with
       | Some html =>
           if truthy_string html then
             match match_day_section html d with
             | Some _ =>
                 let updatedHtml := replace_day_section html d newDayHtml in
                 Task.ret
                   (say ("第" ++ show_Z d ++ "天的行程已更新！还有其他需要调整的吗？")
                        (with_app (setGeneratedHtml (Some updatedHtml) (base st)) st))
             | None => Task.ret st
             end
           else Task.ret st
       | None => Task.ret st
       end)
      (fun _ => Task.ret (say "修改失败，请重试。" st)) ;;
  Task.ret (with_app (setIsRegenerating false (base st)) st).

(** [handleFeedbackSubmit].  The agent is created before the [try].  Inside
    it the two calls reject before anything is written; reading
    [analysis.targetDays] when the analysis has none throws after the reply
    and the snapshot are written, and the handler of the [try] then adds
    its message to that state. *)
Definition handleFeedbackSubmit (feedback : FeedbackDraft) (st : ChatState)
  : Task.t action ChatState :=
  match tripSkeleton (base st) with
  | None => Task.ret st
  | Some skeleton =>
      let ledger := versionHistory (base st) in
      let generated := generatedHtml (base st) in
      feedbackAgent <- Task.lift (Feedback.createFeedbackAgent W None) ;;
      Task.try_catch
        (analysis <-
           Feedback.analyzeFeedback A feedbackAgent
             (truthy_day (draft_targetDay feedback)) ;;
         response <- Feedback.generateModificationResponse A feedbackAgent ;;
         let st := say response st in
         let previousVersion := last_version ledger in
         let newVersion :=
           createVersionHistory (Date_now A VersionIdStamp) (Date_now A VersionStamp)
             skeleton (suggestedChanges analysis) (draft_author feedback)
             previousVersion in
         let st :=
           with_app (setVersionHistory (ledger ++ [newVersion])%list (base st)) st in
         match requiresGlobalRegeneration analysis with
         | Some true =>
             let st := say "需要重新规划整体行程，请稍候..." st in
             Task.ret (close_collector (setTimeout ResetToInput 1500 st))
         | _ =>
             match truthy_day (draft_targetDay feedback) with
             | None => Task.ret (close_collector st)
             | Some d =>
                 match targetDays analysis with
                 | None => Task.ret (say feedback_apology st)
                 | Some affected =>
                     if existsb (Z.eqb d) affected then
                       st <- regenerate_feedback_day skeleton generated d
                               (draft_content feedback) st ;;
                       Task.ret (close_collector st)
                     else Task.ret (close_collector st)
                 end
             end
         end)
        (fun _ => Task.ret (say feedback_apology st))
  end.

End FeedbackHandler.

(** ** Vocabulary for the properties of the ledger and of the feedback *)

Module LedgerSpec.

(** Each snapshot is numbered one more than the one before it. *)
Fixpoint consecutive (ledger : list VersionHistory) : Prop :=
  match ledger with
  | a :: (b :: _) as rest => version b = version a + 1 /\ consecutive rest
  | _ => True
  end.

(** The number [createVersionHistory] gives to the next snapshot. *)
Definition next_number (ledger : list VersionHistory) : Z :=
  match last_version ledger with
  | Some previous => version previous + 1
  | None => 1
  end.

End LedgerSpec.

Module FeedbackSpec.

(** The answer holds no object the analysis can be read from: nothing
    matches, or what matches is not JSON, or it has no list of changes. *)
Definition unreadable {parse_feedback : JsonType RawFeedbackAnalysis}
  (text : string) : Prop :=
  match or_match (match_json_fence text) (match_span text "{" "}") with
  | None => True
  | Some m =>
      match JSON_parse (matched_json m) with
      | Throw _ => True
      | Ok parsed => raw_suggestedChanges parsed = None
      end
  end.

(** Two changes are about the same day and of the same kind. *)
Definition same_place (c1 c2 : VersionChange) : Prop :=
  change_day c1 = change_day c2 /\ change_type c1 = change_type c2.

(** The messages of the feedback handler. *)
Definition said (text : string) : ChatMessage :=
  {| role := assistant; content := text |}.

Definition updated_message (d : Z) : ChatMessage :=
  said ("第" ++ show_Z d ++ "天的行程已更新！还有其他需要调整的吗？").

End FeedbackSpec.

(** A chat on a finished plan. *)
Module SampleChat.

Definition clock (site : ClockSite) : Z := 1700000000000.

Definition local_edit_text : string :=
  SampleEdit.object
    [ ("intent", quoted "UPDATE_LOCAL"); ("suggestedDay", "2");
      ("dayConfidence", "0.9") ].

Definition no_intent : RawIntent :=
  {| raw_intent := None; raw_ui_action := None; raw_targetDay := None;
     raw_intent_confidence := None; raw_reasoning := None;
     raw_suggestedAction := None; raw_extractedParams := None;
     raw_chatType := None; raw_searchQuery := None; raw_searchCategory := None;
     raw_suggestedDay := None; raw_dayConfidence := None;
     raw_requiresConfirmation := None; raw_confirmationPrompt := None;
     raw_confirmationOptions := None |}.

Definition local_edit : RawIntent :=
  {| raw_intent := Some "UPDATE_LOCAL"; raw_ui_action := None;
     raw_targetDay := None; raw_intent_confidence := None;
     raw_reasoning := None; raw_suggestedAction := None;
     raw_extractedParams := None; raw_chatType := None;
     raw_searchQuery := None; raw_searchCategory := None;
     raw_suggestedDay := Some 2; raw_dayConfidence := Some 0.9%Q;
     raw_requiresConfirmation := None; raw_confirmationPrompt := None;
     raw_confirmationOptions := None |}.

Definition intents : JsonType RawIntent :=
  parse_table [(local_edit_text, local_edit); ("{}", no_intent)].

(** The analysis of a feedback on day 2; the change carries no time
    stamp. *)
Definition second_day_text : string :=
  SampleEdit.object
    [ ("feedbackType", quoted "suggestion"); ("targetDays", "[2]");
      ("suggestedChanges",
       "[" ++ SampleEdit.object
                [ ("type", quoted "local"); ("day", "2");
                  ("description", quoted "slower morning") ] ++ "]");
      ("requiresGlobalRegeneration", "false") ].

Definition second_day_analysis : RawFeedbackAnalysis :=
  {| raw_feedbackType := Some "suggestion"; raw_severity := None;
     raw_targetDays := Some [2];
     raw_suggestedChanges :=
       Some [ {| raw_change_type := local; raw_change_day := Some 2;
                 raw_change_description := "slower morning";
                 raw_change_timestamp := None |} ];
     raw_requiresGlobalRegeneration := Some false;
     raw_estimatedImpact := None |}.

Definition analyses : JsonType RawFeedbackAnalysis :=
  parse_table [(second_day_text, second_day_analysis)].

(** The collaborator of the chat: its answer to the intent prompt and to
    the analysis prompt are given. *)
Definition helper (intent_answer analysis_answer : string) : Assistant :=
  {| answer := fun site =>
       match site with
       | EnhancedCall => Ok intent_answer
       | FeedbackCall => Ok analysis_answer
       | ResponseCall => Ok "收到，马上调整。"
       | ValidateCall => Ok "{}"
       end;
     Date_now := clock;
     Math_random := 0%Q |}.

(** The plan is shown; [page] is its document. *)
Definition showing (page : string) : ChatState :=
  {| base :=
       {| tripSkeleton := Some Sample.trip;
          generatedHtml := Some page;
          modifyingDay := None;
          modifyInput := "";
          isRegenerating := false;
          chatMessages := [];
          showDaySelector := false;
          showDayConfirmation := false;
          versionHistory := [SampleLedger.initial];
          showVersionHistory := false;
          alerts := [] |};
     loadingState := SUCCESS;
     isAnalyzingIntent := false;
     suggestedDayForConfirmation := None;
     showFeedbackCollector := true;
     feedbackTargetDay := Some 2;
     timers := [] |}.

Definition on_day_2 : FeedbackDraft :=
  {| draft_type := "suggestion"; draft_targetDay := Some 2;
     draft_content := "slower"; draft_author := "Mei" |}.

Definition on_the_trip : FeedbackDraft :=
  {| draft_type := "objection"; draft_targetDay := None;
     draft_content := "too busy"; draft_author := "Mei" |}.

End SampleChat.

(** ** imageService.ts *)

Module ImageService.

Inductive SourceName : Type := Unsplash | Pexels | Pixabay.

(** The places where the service reads the clock. *)
Inductive ClockRead : Type :=
| AtGet
| AtSeed (i : nat)
| AtSet
| AtCleanup.

(** What one call of [fetchImages] meets: the answer of each source at
    each attempt (its own check of the key included), the readings of the
    clock, and whether [localStorage.setItem] throws. *)
Record Env : Type := {
  source_fetch : SourceName -> nat -> result (list string);
  now : ClockRead -> Z;
  storage_full : bool
}.

Inductive call : Type :=
| CallSource (source : SourceName) (keyword : string) (count : Z)
    (orientation : ImageOrientation)
| Delay (ms : Z).

Record ImageCacheEntry : Type := {
  urls : list string;
  timestamp : Z;
  entry_keyword : string;
  entry_orientation : ImageOrientation
}.

Record ImageServiceStats : Type := {
  cacheHits : Z;
  cacheMisses : Z;
  apiCalls : Z;
  failures : Z
}.

(** The cache object, the items of [localStorage] (each the entry its text
    denotes) and the counters of the module. *)
Record State : Type := {
  enabled : bool;
  localStorage : list (string * ImageCacheEntry);
  stats : ImageServiceStats
}.

Record ImageFetchOptions : Type := {
  keyword : string;
  count : option Z;
  orientation : option ImageOrientation;
  useCache : option bool;
  retries : option Z
}.

Definition CACHE_TTL : Z := 7 * 24 * 60 * 60 * 1000.
Definition MAX_RETRIES : Z := 2.
Definition CACHE_PREFIX : string := "wanderlust_img_".

(** The defaults of the destructured options. *)
Definition count_of (options : ImageFetchOptions) : Z :=
  match count options with Some n => n | None => 1 end.

Definition orientation_of (options : ImageFetchOptions) : ImageOrientation :=
  match orientation options with Some o => o | None => portrait end.

Definition useCache_of (options : ImageFetchOptions) : bool :=
  match useCache options with Some b => b | None => true end.

Definition retries_of (options : ImageFetchOptions) : Z :=
  match retries options with Some n => n | None => MAX_RETRIES end.

Definition orientation_text (o : ImageOrientation) : string :=
  match o with
  | landscape => "landscape"
  | portrait => "portrait"
  | square => "square"
  end.

Definition with_storage (items : list (string * ImageCacheEntry)) (st : State)
  : State :=
  {| enabled := enabled st; localStorage := items; stats := stats st |}.

Definition with_stats (s : ImageServiceStats) (st : State) : State :=
  {| enabled := enabled st; localStorage := localStorage st; stats := s |}.

Definition count_hit (st : State) : State :=
  with_stats {| cacheHits := cacheHits (stats st) + 1;
                cacheMisses := cacheMisses (stats st);
                apiCalls := apiCalls (stats st);
                failures := failures (stats st) |} st.

Definition count_miss (st : State) : State :=
  with_stats {| cacheHits := cacheHits (stats st);
                cacheMisses := cacheMisses (stats st) + 1;
                apiCalls := apiCalls (stats st);
                failures := failures (stats st) |} st.

Definition count_call (st : State) : State :=
  with_stats {| cacheHits := cacheHits (stats st);
                cacheMisses := cacheMisses (stats st);
                apiCalls := apiCalls (stats st) + 1;
                failures := failures (stats st) |} st.

Definition count_failure (st : State) : State :=
  with_stats {| cacheHits := cacheHits (stats st);
                cacheMisses := cacheMisses (stats st);
                apiCalls := apiCalls (stats st);
                failures := failures (stats st) + 1 |} st.

(** [localStorage.getItem], [removeItem] and [setItem]. *)
Definition getItem (key : string) (items : list (string * ImageCacheEntry))
  : option ImageCacheEntry :=
  option_map snd (find (fun item => String.eqb (fst item) key) items).

Definition removeItem (key : string) (items : list (string * ImageCacheEntry))
  : list (string * ImageCacheEntry) :=
  filter (fun item => negb (String.eqb (fst item) key)) items.

Definition setItem (key : string) (entry : ImageCacheEntry)
  (items : list (string * ImageCacheEntry)) : list (string * ImageCacheEntry) :=
  (removeItem key items ++ [(key, entry)])%list.

(** [result.includes(img)]. *)
Definition Array_includes (l : list string) (s : string) : bool :=
  existsb (String.eqb s) l.

(** [Array.from(new Set(l))]: the first occurrence of each element, in
    order. *)
Definition Set_of (l : list string) : list string :=
  fold_left (fun seen x => if Array_includes seen x then seen else (seen ++ [x])%list)
            l [].

(** [l.slice(0, n)]; a negative [n] counts from the end. *)
Definition Array_slice0 (l : list string) (n : Z) : list string :=
  if 0 <=? n then firstn (Z.to_nat n) l
  else firstn (List.length l - Z.to_nat (- n)) l.

Section Service.

Local Open Scope task_scope.

Variable encodeURIComponent : string -> string.
Variable E : Env.

Definition expired (reading : ClockRead) (entry : ImageCacheEntry) : bool :=
  CACHE_TTL <? now E reading - timestamp entry.

Definition makeKey (keyword : string) (orientation : ImageOrientation) : string :=
  CACHE_PREFIX ++ encodeURIComponent keyword ++ "_" ++ orientation_text orientation.

(** [ImageCache.get]: what it returns and the state afterwards. *)
Definition cache_get (keyword : string) (orientation : ImageOrientation)
  (st : State) : option (list string) * State :=
  if negb (enabled st) then (None, st)
  else
    let key := makeKey keyword orientation in
    match getItem key (localStorage st) with
    | None => (None, st)
    | Some entry =>
        if expired AtGet entry
        then (None, with_storage (removeItem key (localStorage st)) st)
        else (Some (urls entry), count_hit st)
    end.

(** [ImageCache.cleanup]. *)
Definition cleanup (st : State) : State :=
  if negb (enabled st) then st
  else
    with_storage
      (filter (fun item =>
                 negb (startsWith (fst item) CACHE_PREFIX
                       && expired AtCleanup (snd item)))
              (localStorage st))
      st.

(** [ImageCache.set]: when [setItem] throws nothing is written and the
    clean-up is not reached. *)
Definition cache_set (keyword : string) (orientation : ImageOrientation)
  (found : list string) (st : State) : State :=
  if negb (enabled st) then st
  else
    let key := makeKey keyword orientation in
    let entry :=
      {| urls := found; timestamp := now E AtSet; entry_keyword := keyword;
         entry_orientation := orientation |} in
    if storage_full E then st
    else cleanup (with_storage (setItem key entry (localStorage st)) st).

Definition dimensions (orientation : ImageOrientation) : Z * Z :=
  match orientation with
  | landscape => (1600, 900)
  | square => (1200, 1200)
  | portrait => (800, 1200)
  end.

(** The fallback source: [count] addresses, made without a request. *)
Definition pollinations_url (keyword : string) (orientation : ImageOrientation)
  (i : nat) : string :=
  "https://image.pollinations.ai/prompt/" ++ encodeURIComponent keyword ++ "+"
  ++ show_Z (Z.of_nat i + 1) ++ "?width=" ++ show_Z (fst (dimensions orientation))
  ++ "&height=" ++ show_Z (snd (dimensions orientation))
  ++ "&nologo=true&seed=" ++ show_Z (now E (AtSeed i) + Z.of_nat i).

Definition pollinationsFallback (keyword : string) (count : Z)
  (orientation : ImageOrientation) : Task.t call (list string) :=
  Task.ret (map (pollinations_url keyword orientation) (seq 0 (Z.to_nat count))).

Section Fetch.

Variable keyword : string.
Variable count : Z.
Variable orientation : ImageOrientation.
Variable retries : Z.

(** One turn of the inner loop: the images so far, and whether the loop is
    left. *)
Definition attempt_once (source : SourceName) (attempt : nat)
  (result : list string) : Task.t call (list string * bool) :=
  Task.try_catch
    (images <-
       Task.await
         (CallSource source keyword (count - Z.of_nat (List.length result))
                     orientation)
         (source_fetch E source attempt) ;;
     if (0 <? List.length images)%nat then
       let newImages := filter (fun img => negb (Array_includes result img)) images in
       let result := (result ++ newImages)%list in
       Task.ret (result, count <=? Z.of_nat (List.length result))
     else Task.ret (result, false))
    (fun _ =>
       (if Z.of_nat attempt <? retries
        then Task.await (Delay (1000 * (Z.of_nat attempt + 1))) (Ok tt)
        else Task.ret tt) ;;
       Task.ret (result, false)).

(** The inner loop from [attempt] on, [remaining] turns at most. *)
Fixpoint attempts (source : SourceName) (attempt remaining : nat)
  (result : list string) (st : State) : Task.t call (list string * State) :=
  match remaining with
  | O => Task.ret (result, st)
  | S remaining' =>
      let st := count_call st in
      turn <- attempt_once source attempt result ;;
      if snd turn then Task.ret (fst turn, st)
      else attempts source (S attempt) remaining' (fst turn) st
  end.

(** The outer loop. *)
Fixpoint each_source (sources : list SourceName) (result : list string)
  (st : State) : Task.t call (list string * State) :=
  match sources with
  | [] => Task.ret (result, st)
  | source :: rest =>
      after <- attempts source 0 (Z.to_nat (retries + 1)) result st ;;
      if count <=? Z.of_nat (List.length (fst after)) then Task.ret after
      else each_source rest (fst after) (snd after)
  end.

(** [fetchImages] after the look at the cache. *)
Definition fetch_from_sources (useCache : bool) (st : State)
  : Task.t call (list string * State) :=
  let st := count_miss st in
  after <- each_source [Unsplash; Pexels; Pixabay] [] st ;;
  after <-
    (if Z.of_nat (List.length (fst after)) <? count then
       let st := count_failure (snd after) in
       Task.try_catch
         (fallbackImages <-
            pollinationsFallback keyword
              (count - Z.of_nat (List.length (fst after))) orientation ;;
          Task.ret ((fst after ++ fallbackImages)%list, st))
         (fun _ => Task.ret (fst after, st))
     else Task.ret after) ;;
  let result := Array_slice0 (Set_of (fst after)) count in
  let st :=
    if (0 <? List.length result)%nat && useCache
    then cache_set keyword orientation result (snd after)
    else snd after in
  Task.ret (result, st).

End Fetch.

(** [ImageServiceClass.fetchImages]. *)
Definition fetchImages (options : ImageFetchOptions) (st : State)
  : Task.t call (list string * State) :=
  let count := count_of options in
  let orientation := orientation_of options in
  let useCache := useCache_of options in
  let retries := retries_of options in
  let looked :=
    if useCache then cache_get (keyword options) orientation st else (None, st) in
  match fst looked with
  | Some cached =>
      if count <=? Z.of_nat (List.length cached)
      then Task.ret (Array_slice0 cached count, snd looked)
      else fetch_from_sources (keyword options) count orientation retries useCache
             (snd looked)
  | None =>
      fetch_from_sources (keyword options) count orientation retries useCache
        (snd looked)
  end.

(** The exported [fetchImages(keyword, count, orientation)]. *)
Definition fetchImages_of (keyword : string) (count : Z)
  (orientation : ImageOrientation) (st : State)
  : Task.t call (list string * State) :=
  fetchImages {| keyword := keyword; count := Some count;
                 orientation := Some orientation; useCache := None;
                 retries := None |} st.

End Service.

End ImageService.

Module ImageSpec.

Import ImageService.

(** Every list of addresses in the cache is free of repetitions. *)
Definition tidy (st : State) : Prop :=
  Forall (fun item => NoDup (urls (snd item))) (localStorage st).

(** The requests made to the sources among the calls of a run. *)
Definition requests (trace : list call) : list call :=
  filter (fun c => match c with CallSource _ _ _ _ => true | Delay _ => false end)
         trace.

Definition pauses (trace : list call) : list Z :=
  flat_map (fun c => match c with Delay ms => [ms] | CallSource _ _ _ _ => [] end)
           trace.

(** What the loops over the sources leave as it is, and what they count. *)
Definition counted (st st' : State) (trace : list call) : Prop :=
  enabled st' = enabled st
  /\ localStorage st' = localStorage st
  /\ cacheHits (stats st') = cacheHits (stats st)
  /\ cacheMisses (stats st') = cacheMisses (stats st)
  /\ failures (stats st') = failures (stats st)
  /\ apiCalls (stats st')
     = apiCalls (stats st) + Z.of_nat (List.length (requests trace)).

(** An address that a source gave at some attempt. *)
Definition delivered (E : Env) (x : string) : Prop :=
  exists source attempt images,
    source_fetch E source attempt = Ok images /\ In x images.

(** The waits between attempts: none longer than the number of retries
    allows, and no more of them than requests. *)
Definition paused (retries : Z) (trace : list call) : Prop :=
  Forall (fun ms => 1000 <= ms <= 1000 * retries) (pauses trace)
  /\ (List.length (pauses trace) <= List.length (requests trace))%nat.

(** An address of the fallback source. *)
Definition fallback_address (encodeURIComponent : string -> string) (E : Env)
  (keyword : string) (orientation : ImageOrientation) (x : string) : Prop :=
  exists i, x = pollinations_url encodeURIComponent E keyword orientation i.

(** No source gives an address, at any attempt. *)
Definition barren (E : Env) : Prop :=
  forall source attempt,
    source_fetch E source attempt = Ok []
    \/ exists e, source_fetch E source attempt = Throw e.

(** The cache has nothing to answer the request with. *)
Definition uncached (encodeURIComponent : string -> string)
  (options : ImageFetchOptions) (st : State) : Prop :=
  useCache_of options = false
  \/ enabled st = false
  \/ getItem (makeKey encodeURIComponent (keyword options) (orientation_of options))
             (localStorage st) = None.

(** A text of decimal digits. *)
Definition digit (c : ascii) : Prop :=
  In c ["0"; "1"; "2"; "3"; "4"; "5"; "6"; "7"; "8"; "9"]%char.

Fixpoint all_digits (s : string) : Prop :=
  match s with
  | EmptyString => True
  | String c rest => digit c /\ all_digits rest
  end.

(** The options of a second request for the same images. *)
Definition asking (m : Z) (options : ImageFetchOptions) : ImageFetchOptions :=
  {| keyword := keyword options; count := Some m;
     orientation := orientation options; useCache := useCache options;
     retries := retries options |}.

End ImageSpec.

(** A first request for images. *)
Module SampleImages.

Import ImageService.

(** No source can be reached. *)
Definition offline : Env :=
  {| source_fetch := fun _ _ => Throw (Error "Failed to fetch");
     now := fun _ => 1700000000000;
     storage_full := false |}.

(** The first source answers at once, with the same address twice. *)
Definition repeating : Env :=
  {| source_fetch := fun source attempt =>
       match source, attempt with
       | Unsplash, O =>
           Ok [ "https://images.unsplash.com/photo-1";
                "https://images.unsplash.com/photo-1" ]
       | _, _ => Ok []
       end;
     now := fun _ => 1700000000000;
     storage_full := false |}.

Definition fresh : State :=
  {| enabled := true; localStorage := [];
     stats := {| cacheHits := 0; cacheMisses := 0; apiCalls := 0; failures := 0 |} |}.

Definition grid (n : Z) : ImageFetchOptions :=
  {| keyword := "kyoto temple"; count := Some n; orientation := Some landscape;
     useCache := None; retries := None |}.

End SampleImages.

(** * Properties *)

(** ** Strings *)

Section StringFacts.

Lemma append_empty_r (s : string) : s ++ "" = s.
Proof. induction s as [|c s IH]; simpl; [reflexivity | now rewrite IH]. Qed.

Lemma append_assoc (a b c : string) : (a ++ b) ++ c = a ++ (b ++ c).
Proof. induction a as [|x a IH]; simpl; [reflexivity | now rewrite IH]. Qed.

Lemma length_append (a b : string) :
  String.length (a ++ b) = (String.length a + String.length b)%nat.
Proof. induction a as [|x a IH]; simpl; [reflexivity | now rewrite IH]. Qed.

Lemma drop_append (p r : string) : drop (String.length p) (p ++ r) = r.
Proof. induction p as [|x p IH]; simpl; [now destruct r | exact IH]. Qed.

Lemma take_append (p r : string) : take (String.length p) (p ++ r) = p.
Proof.
  induction p as [|x p IH]; simpl; [now destruct r | now rewrite IH].
Qed.

Lemma take_length (s : string) : take (String.length s) s = s.
Proof. induction s as [|x s IH]; simpl; [reflexivity | now rewrite IH]. Qed.

Lemma take_drop (n : nat) (s : string) : take n s ++ drop n s = s.
Proof.
  revert s; induction n as [|n IH]; intros [|c s]; simpl; try reflexivity.
  now rewrite IH.
Qed.

Lemma prefix_append (p r : string) : String.prefix p (p ++ r) = true.
Proof.
  induction p as [|x p IH]; simpl; [now destruct r |].
  destruct (ascii_dec x x); [exact IH | contradiction].
Qed.

Lemma prefix_inv (p s : string) :
  String.prefix p s = true -> exists r, s = p ++ r.
Proof.
  revert s; induction p as [|x p IH]; intros s Hp.
  - now exists s.
  - destruct s as [|y s]; simpl in Hp; [discriminate |].
    destruct (ascii_dec x y) as [->|]; [| discriminate].
    destruct (IH _ Hp) as [r ->]. now exists r.
Qed.

Lemma startsWith_iff (s p : string) :
  startsWith s p = true <-> exists r, s = p ++ r.
Proof.
  split; [apply prefix_inv | intros [r ->]; apply prefix_append].
Qed.

Lemma endsWith_iff (s p : string) :
  endsWith s p = true <-> exists r, s = r ++ p.
Proof.
  unfold endsWith. split.
  - intros Hs. apply andb_true_iff in Hs as [Hl He].
    apply String.eqb_eq in He. apply Nat.leb_le in Hl.
    exists (take (String.length s - String.length p) s).
    rewrite <- He at 2. now rewrite take_drop.
  - intros [r ->]. rewrite length_append.
    replace (String.length r + String.length p - String.length p)%nat
      with (String.length r) by lia.
    rewrite drop_append, String.eqb_refl.
    apply andb_true_iff; split; [apply Nat.leb_le; lia | reflexivity].
Qed.

Lemma has_append (c : ascii) (a b : string) :
  has c (a ++ b) <-> has c a \/ has c b.
Proof.
  unfold has. induction a as [|x a IH]; simpl; [tauto |].
  rewrite IH. tauto.
Qed.

Lemma has_dec (c : ascii) (s : string) : {has c s} + {~ has c s}.
Proof. apply in_dec, ascii_dec. Qed.

(** Cutting a text at the first, or at the last, occurrence. *)
Lemma first_occurrence (c : ascii) (s : string) :
  has c s -> exists pre post, s = pre ++ String c post /\ ~ has c pre.
Proof.
  induction s as [|x s IH]; intros Hc; [destruct Hc |].
  destruct (ascii_dec x c) as [->|Hx].
  - exists "", s. split; [reflexivity | intros []].
  - destruct Hc as [Hc|Hc]; [contradiction |].
    destruct (IH Hc) as (pre & post & -> & Hpre).
    exists (String x pre), post. split; [reflexivity |].
    intros [E|E]; [contradiction | exact (Hpre E)].
Qed.

Lemma last_occurrence (c : ascii) (s : string) :
  has c s -> exists pre post, s = pre ++ String c post /\ ~ has c post.
Proof.
  induction s as [|x s IH]; intros Hc; [destruct Hc |].
  destruct (has_dec c s) as [Hs|Hs].
  - destruct (IH Hs) as (pre & post & -> & Hpost).
    now exists (String x pre), post.
  - destruct Hc as [->|Hc]; [| contradiction].
    now exists "", s.
Qed.

(** Two ways of cutting one text share the shorter prefix. *)
Lemma append_cut (a b c d : string) :
  a ++ b = c ++ d -> (String.length a <= String.length c)%nat ->
  exists w, c = a ++ w /\ b = w ++ d.
Proof.
  revert c; induction a as [|x a IH]; intros c E L.
  - now exists c.
  - destruct c as [|y c]; simpl in L; [lia |].
    simpl in E. injection E as -> E.
    destruct (IH c E ltac:(lia)) as (w & -> & ->). now exists w.
Qed.

Lemma indexOf_from_char (c : ascii) (pre post : string) (i : Z) :
  ~ has c pre ->
  indexOf_from (char c) (pre ++ String c post) i = i + len pre.
Proof.
  unfold len. revert i; induction pre as [|x pre IH]; intros i Hp; simpl.
  - destruct (ascii_dec c c); [| contradiction].
    destruct post; simpl; lia.
  - destruct (ascii_dec c x) as [->|Hx]; [exfalso; apply Hp; now left |].
    rewrite IH; [lia |]. intros E; apply Hp; now right.
Qed.

Lemma indexOf_from_absent (c : ascii) (s : string) (i : Z) :
  ~ has c s -> indexOf_from (char c) s i = -1.
Proof.
  revert i; induction s as [|x s IH]; intros i Hs; simpl; [reflexivity |].
  destruct (ascii_dec c x) as [->|Hx]; [exfalso; apply Hs; now left |].
  apply IH. intros E; apply Hs; now right.
Qed.

Lemma lastIndexOf_from_absent (c : ascii) (s : string) (i : Z) :
  ~ has c s -> lastIndexOf_from (char c) s i = -1.
Proof.
  revert i; induction s as [|x s IH]; intros i Hs; simpl; [reflexivity |].
  rewrite IH by (intros E; apply Hs; now right). simpl.
  destruct (ascii_dec c x) as [->|Hx]; [exfalso; apply Hs; now left |].
  reflexivity.
Qed.

Lemma lastIndexOf_from_char (c : ascii) (pre post : string) (i : Z) :
  ~ has c post -> 0 <= i ->
  lastIndexOf_from (char c) (pre ++ String c post) i = i + len pre.
Proof.
  unfold len. revert i; induction pre as [|x pre IH]; intros i Hp Hi; simpl.
  - rewrite lastIndexOf_from_absent by exact Hp. simpl.
    destruct (ascii_dec c c); [| contradiction].
    destruct post; simpl; lia.
  - rewrite IH by (trivial; lia).
    destruct (_ =? -1) eqn:E; [apply Z.eqb_eq in E; lia | lia].
Qed.

Lemma substring_middle (a m b : string) :
  substring (a ++ m ++ b) (len a) (len a + len m) = m.
Proof.
  unfold substring, len. cbv zeta. rewrite !length_append.
  set (la := String.length a). set (lm := String.length m).
  set (lb := String.length b).
  replace (Z.min (Z.max (Z.of_nat la) 0) (Z.of_nat (la + (lm + lb))))
    with (Z.of_nat la) by lia.
  replace (Z.min (Z.max (Z.of_nat la + Z.of_nat lm) 0)
             (Z.of_nat (la + (lm + lb))))
    with (Z.of_nat la + Z.of_nat lm) by lia.
  replace (Z.min (Z.of_nat la) (Z.of_nat la + Z.of_nat lm))
    with (Z.of_nat la) by lia.
  replace (Z.max (Z.of_nat la) (Z.of_nat la + Z.of_nat lm) - Z.of_nat la)
    with (Z.of_nat lm) by lia.
  rewrite !Nat2Z.id. subst la lm. rewrite drop_append. apply take_append.
Qed.

End StringFacts.

(** ** The response parser *)

Section ResponseParserFacts.

Import ParserSpec.

Lemma slice_after (p r : string) : slice (p ++ r) (len p) None = r.
Proof.
  unfold slice, rel_index, len. rewrite length_append.
  destruct (Z.of_nat (String.length p) <? 0) eqn:E;
    [apply Z.ltb_lt in E; lia |].
  rewrite Z.min_l by lia. rewrite Nat2Z.id, drop_append.
  replace (Z.to_nat _) with (String.length r) by lia.
  apply take_length.
Qed.

Lemma slice_before (r p : string) :
  p <> "" -> slice (r ++ p) 0 (Some (- len p)) = r.
Proof.
  intros Hp. unfold slice, rel_index, len. rewrite length_append. simpl.
  assert (0 < String.length p)%nat by (destruct p; simpl; [contradiction | lia]).
  destruct (- Z.of_nat (String.length p) <? 0) eqn:E;
    [| apply Z.ltb_ge in E; lia].
  rewrite Z.max_l, Z.min_l by lia. simpl.
  replace (Z.to_nat _) with (String.length r) by lia.
  apply take_append.
Qed.

(** The fences go as the specification says. *)
Lemma strip_markdown_fenced (text : string) :
  exists mid, fenced (trim text) mid /\ strip_markdown text = trim mid.
Proof.
  unfold strip_markdown. set (s := trim text). clearbody s.
  assert (Htrail : forall lead rest, s = lead ++ rest ->
            (lead = "```json" \/
             (lead = "```" /\ startsWith s "```json" = false) \/
             (lead = "" /\ startsWith s "```" = false)) ->
            exists mid, fenced s mid /\
              trim (if endsWith rest "```" then slice rest 0 (Some (-3))
                    else rest) = trim mid).
  { intros lead rest Es Hl. destruct (endsWith rest "```") eqn:Ee.
    - apply endsWith_iff in Ee as [mid ->]. exists mid. split.
      + apply (Fenced s mid lead "```"); [exact Es | exact Hl | now left].
      + assert (Hs := slice_before mid "```" ltac:(discriminate)).
        change (- len "```") with (-3) in Hs. now rewrite Hs.
    - exists rest. split; [| reflexivity].
      apply (Fenced s rest lead ""); [| exact Hl | now right].
      now rewrite append_empty_r. }
  destruct (startsWith s "```json") eqn:E1.
  - destruct (proj1 (startsWith_iff _ _) E1) as [r Er].
    assert (Hr : slice s 7 None = r)
      by (rewrite Er; apply (slice_after "```json" r)).
    rewrite Hr.
    apply (Htrail "```json" r Er). now left.
  - destruct (startsWith s "```") eqn:E2.
    + destruct (proj1 (startsWith_iff _ _) E2) as [r Er].
      assert (Hr : slice s 3 None = r)
        by (rewrite Er; apply (slice_after "```" r)).
      rewrite Hr.
      apply (Htrail "```" r Er). right; left; now split.
    + apply (Htrail "" s eq_refl). right; right; now split.
Qed.

(** The two index searches of the parser, read on the text. *)
Lemma brace_search (body : string) :
  (exists pre mid post,
      body = pre ++ "{" ++ mid ++ "}" ++ post /\
      ~ has "{" pre /\ ~ has "}" post /\
      indexOf body "{" = len pre /\
      lastIndexOf body "}" = len pre + 1 + len mid)
  \/ (no_brace_pair body /\
      (indexOf body "{" = -1 \/ lastIndexOf body "}" = -1 \/
       indexOf body "{" >= lastIndexOf body "}")).
Proof.
  destruct (has_dec "{" body) as [Ho|Ho].
  2:{ right. split.
      - exists body, "". rewrite append_empty_r. repeat split; auto.
      - left. now apply indexOf_from_absent. }
  destruct (has_dec "}" body) as [Hc|Hc].
  2:{ right. split.
      - exists "", body. repeat split; auto.
      - right; left. now apply lastIndexOf_from_absent. }
  destruct (first_occurrence _ _ Ho) as (p1 & q1 & E1 & Hp1).
  destruct (last_occurrence _ _ Hc) as (p2 & q2 & E2 & Hq2).
  assert (I1 : indexOf body "{" = len p1).
  { rewrite E1. unfold indexOf. now rewrite (indexOf_from_char "{"). }
  assert (I2 : lastIndexOf body "}" = len p2).
  { rewrite E2. unfold lastIndexOf.
    now rewrite (lastIndexOf_from_char "}") by (trivial; lia). }
  destruct (le_lt_dec (String.length p2) (String.length p1)) as [L|L].
  - right. split; [| right; right; rewrite I1, I2; unfold len; lia].
    exists p1, (String "{" q1). repeat split; [exact E1 | exact Hp1 |].
    assert (E : p2 ++ String "}" q2 = p1 ++ String "{" q1) by congruence.
    destruct (append_cut _ _ _ _ E L) as (w & Ew & Eq).
    destruct w as [|x w]; simpl in Eq; [discriminate |].
    injection Eq as <- Eq. intros Hin. apply Hq2. rewrite Eq.
    apply has_append. now right.
  - left.
    assert (E : p1 ++ String "{" q1 = p2 ++ String "}" q2) by congruence.
    destruct (append_cut _ _ _ _ E ltac:(lia)) as (w & Ew & Eq).
    destruct w as [|x w].
    { rewrite append_empty_r in Ew. subst p2. lia. }
    simpl in Eq. injection Eq as <- Eq.
    exists p1, w, q2. repeat split; trivial.
    + rewrite E2, Ew. now rewrite append_assoc.
    + rewrite I2, Ew. unfold len. rewrite length_append. simpl. lia.
Qed.

(** A text with a brace pair is not one without. *)
Lemma brace_slice_excludes (body js : string) :
  brace_slice body js -> ~ no_brace_pair body.
Proof.
  intros [pre mid post E Hpre Hpost] (u & v & E' & Hu & Hv).
  destruct (le_lt_dec (String.length u) (String.length pre)) as [L|L].
  - assert (E2 : u ++ v = pre ++ "{" ++ mid ++ "}" ++ post) by congruence.
    destruct (append_cut _ _ _ _ E2 L) as (w & _ & ->).
    apply Hv. rewrite !has_append. right; right; right; left. now left.
  - assert (E2 : pre ++ "{" ++ mid ++ "}" ++ post = u ++ v) by congruence.
    destruct (append_cut _ _ _ _ E2 ltac:(lia)) as (w & -> & Ew).
    destruct w as [|x w].
    { rewrite append_empty_r in L. lia. }
    simpl in Ew. injection Ew as <- _.
    apply Hu. rewrite has_append. right. now left.
Qed.

(** C2. For every input string the parser removes a leading and a trailing
    fence token when present, cuts the text from the first opening brace to
    the last closing brace, both included, and hands exactly that slice to
    JSON.parse.  When there is no such pair of braces it throws the fixed
    error; when JSON.parse throws, its error is the outcome; a value is
    returned in no other way than from JSON.parse of the slice.  The error
    is an ordinary exception: the handler of a surrounding try/catch
    receives it. *)
Theorem parseAIJsonResponse_spec {A : Type} {parse : JsonType A}
  (text : string) :
  exists mid,
    fenced (trim text) mid
    /\ ((exists js, brace_slice (trim mid) js
                    /\ parseAIJsonResponse text = JSON_parse js)
        \/ (no_brace_pair (trim mid)
            /\ (forall js, ~ brace_slice (trim mid) js)
            /\ parseAIJsonResponse text
               = Throw (Error "No valid JSON object found in response")))
    /\ (forall v, parseAIJsonResponse text = Ok v ->
                  exists js, brace_slice (trim mid) js /\ JSON_parse js = Ok v)
    /\ (forall e (handler : exn -> M A),
           parseAIJsonResponse text = Throw e ->
           try_catch (lift (parseAIJsonResponse text)) handler = handler e).
Proof.
  destruct (strip_markdown_fenced text) as (mid & Hf & Hs).
  exists mid. split; [exact Hf |].
  assert (Hcases :
            (exists js, brace_slice (trim mid) js
                        /\ parseAIJsonResponse text = JSON_parse js)
            \/ (no_brace_pair (trim mid)
                /\ (forall js, ~ brace_slice (trim mid) js)
                /\ parseAIJsonResponse text
                   = Throw (Error "No valid JSON object found in response"))).
  { unfold parseAIJsonResponse. rewrite Hs.
    destruct (brace_search (trim mid))
      as [(pre & m & post & E & Hpre & Hpost & I1 & I2)|(Hno & Hidx)].
    - left. exists ("{" ++ m ++ "}"). split; [now apply (BraceSlice _ pre m post) |].
      rewrite I1, I2.
      assert (E1 : (len pre =? -1) = false)
        by (apply Z.eqb_neq; unfold len; lia).
      assert (E2 : (len pre + 1 + len m =? -1) = false)
        by (apply Z.eqb_neq; unfold len; lia).
      assert (E3 : (len pre >=? len pre + 1 + len m) = false)
        by (rewrite Z.geb_leb; apply Z.leb_gt; unfold len; lia).
      rewrite E1, E2, E3. simpl orb. cbv iota. f_equal.
      rewrite E at 1.
      replace (len pre + 1 + len m + 1) with (len pre + len ("{" ++ m ++ "}")).
      2:{ unfold len. rewrite !length_append. simpl. lia. }
      replace ("{" ++ m ++ "}" ++ post) with (("{" ++ m ++ "}") ++ post).
      2:{ simpl. now rewrite append_assoc. }
      apply substring_middle.
    - right. split; [exact Hno |]. split.
      { intros js Hjs. exact (brace_slice_excludes _ _ Hjs Hno). }
      destruct Hidx as [->|[->|Hge]]; simpl; trivial.
      + now rewrite orb_true_r.
      + assert (E3 : (indexOf (trim mid) "{" >=? lastIndexOf (trim mid) "}") = true)
          by (rewrite Z.geb_leb; apply Z.leb_le; lia).
        rewrite E3. now rewrite orb_true_r. }
  split; [exact Hcases |]. split.
  - intros v Hv. destruct Hcases as [(js & Hjs & E)|(_ & _ & E)].
    + exists js. split; [exact Hjs | congruence].
    + congruence.
  - intros e handler He. rewrite He. simpl. now destruct (handler e).
Qed.

End ResponseParserFacts.

(** ** The scene classifier, instant tier *)

Section IntentAgentFacts.

Import SceneSpec.

Example quickPredict_foodie :
  quickPredict ascii_toLowerCase "Tokyo, 3 days, food focus" = FOODIE.
Proof. vm_compute. reflexivity. Qed.

Example quickPredict_default :
  quickPredict ascii_toLowerCase "Lisbon next spring" = RELAXATION.
Proof. vm_compute. reflexivity. Qed.

Example quickPredict_counts :
  quickPredict ascii_toLowerCase "romantic family kids" = FAMILY
  /\ first_hit ascii_toLowerCase "romantic family kids" = ROMANTIC.
Proof. vm_compute. split; reflexivity. Qed.

Lemma keyword_score_from (lower : string -> string) (text : string)
  (keywords : list string) (start : Z) :
  fold_left
    (fun score keyword =>
       if includes text (lower keyword) then score + 1 else score)
    keywords start
  = start + Z.of_nat
      (List.length (filter (fun keyword => includes text (lower keyword)) keywords)).
Proof.
  revert start; induction keywords as [|k ks IH]; intros start; simpl; [lia |].
  rewrite IH. destruct (includes text (lower k)); simpl; lia.
Qed.

Lemma keyword_score_hits (lower : string -> string) (input : string)
  (scene : SceneType) :
  keyword_score lower (lower input) (SCENE_KEYWORDS scene)
  = Z.of_nat (hits lower input scene).
Proof. unfold keyword_score, hits. now rewrite keyword_score_from. Qed.

(** The second loop over any eight scores. *)
Lemma best_scene_highest (h : SceneType -> Z) :
  (forall s, 0 <= h s) ->
  let p := snd (best_scene (map (fun s => (s, h s)) SceneType_keys)) in
  (forall s, h s <= h p)
  /\ (0 < h p -> forall s, (rank s < rank p)%nat -> h s < h p)
  /\ (h p = 0 -> p = RELAXATION).
Proof.
  intros Hnn.
  pose proof (Hnn ROMANTIC). pose proof (Hnn FAMILY).
  pose proof (Hnn ADVENTURE). pose proof (Hnn BUSINESS).
  pose proof (Hnn FOODIE). pose proof (Hnn CULTURE).
  pose proof (Hnn RELAXATION). pose proof (Hnn SOLO).
  unfold best_scene, SceneType_keys. cbn [map fold_left].
  repeat match goal with
         | |- context [?a >? ?b] => destruct (Z.gtb_spec a b); cbn iota beta
         end;
    cbn [snd]; (split; [| split]);
    try (intros s; destruct s; cbn [rank]; lia);
    try (intros ? s; destruct s; cbn [rank]; lia);
    try reflexivity; try lia.
Qed.

(** C7, as stated, fails.  On "romantic family kids" the first category
    with a keyword in the input is ROMANTIC ("romantic"), but quickPredict
    returns FAMILY, which has two keywords in it ("family", "kids"). *)
Lemma quickPredict_is_not_first_hit :
  quickPredict ascii_toLowerCase "romantic family kids"
  <> first_hit ascii_toLowerCase "romantic family kids".
Proof. vm_compute. discriminate. Qed.

(** C7, amended.  For every input string, and whatever the lowering
    function of the runtime, quickPredict lowers the input, counts for each
    of the eight categories the keywords of its list that occur in it, and
    returns a category with the highest count: the earliest such category
    in table order when some keyword occurs, and RELAXATION when none does.
    It is a plain function of its input: no collaborator is consulted. *)
Theorem quickPredict_highest_score (toLowerCase : string -> string)
  (input : string) :
  let score := hits toLowerCase input in
  let predicted := quickPredict toLowerCase input in
  (forall s, score s <= score predicted)%nat
  /\ ((0 < score predicted)%nat ->
      forall s, (rank s < rank predicted)%nat -> (score s < score predicted)%nat)
  /\ (score predicted = 0%nat -> predicted = RELAXATION).
Proof.
  intros score predicted.
  pose proof (best_scene_highest (fun s => Z.of_nat (score s))
                (fun s => Nat2Z.is_nonneg (score s))) as Hbest.
  assert (E : quickPredict toLowerCase input
              = snd (best_scene
                       (map (fun s => (s, Z.of_nat (score s))) SceneType_keys))).
  { unfold quickPredict, scene_scores. f_equal. f_equal.
    apply map_ext. intros s. now rewrite keyword_score_hits. }
  fold predicted in E. cbv zeta beta in Hbest. rewrite <- E in Hbest.
  destruct Hbest as (H1 & H2 & H3). repeat split.
  - intros s. specialize (H1 s). lia.
  - intros Hpos s Hs. specialize (H2 ltac:(lia) s Hs). lia.
  - intros Hz. apply H3. lia.
Qed.

End IntentAgentFacts.

(** ** Asynchronous code *)

Section AsyncFacts.

Context {A B : Type}.

Lemma bind_fulfilled (m : M A) (k : A -> M B) (a : A) :
  snd m = Fulfilled a -> snd (bind m k) = snd (k a).
Proof.
  destruct m as [t r]; simpl; intros ->. now destruct (k a).
Qed.

Lemma bind_rejected (m : M A) (k : A -> M B) (e : exn) :
  snd m = Rejected e -> snd (bind m k) = Rejected e.
Proof. destruct m as [t r]; simpl; now intros ->. Qed.

Lemma bind_pending (m : M A) (k : A -> M B) :
  snd m = Pending -> snd (bind m k) = Pending.
Proof. destruct m as [t r]; simpl; now intros ->. Qed.

Lemma bind_fulfilled_inv (m : M A) (k : A -> M B) (b : B) :
  snd (bind m k) = Fulfilled b ->
  exists a, snd m = Fulfilled a /\ snd (k a) = Fulfilled b.
Proof.
  destruct m as [t [a|e|]]; simpl; try discriminate.
  destruct (k a) as [t' r] eqn:E; simpl. intros ->. exists a. now rewrite E.
Qed.

Lemma bind_trace_fulfilled (m : M A) (k : A -> M B) (a : A) :
  snd m = Fulfilled a -> fst (bind m k) = (fst m ++ fst (k a))%list.
Proof.
  destruct m as [t r]; simpl; intros ->. now destruct (k a).
Qed.

Lemma bind_trace_rejected (m : M A) (k : A -> M B) (e : exn) :
  snd m = Rejected e -> fst (bind m k) = fst m.
Proof. destruct m as [t r]; simpl; now intros ->. Qed.

End AsyncFacts.

Lemma bind_ret {A B} (a : A) (k : A -> M B) : bind (ret a) k = k a.
Proof. unfold bind, ret. now destruct (k a). Qed.

Lemma try_catch_rethrow {A} (m : M A) :
  try_catch m (fun e => throw e) = m.
Proof.
  destruct m as [t [a|e|]]; simpl; try reflexivity.
  now rewrite app_nil_r.
Qed.

Lemma try_catch_settles {A} (m : M A) (handler : exn -> M A) :
  snd m <> Pending ->
  (forall e, exists a, snd (handler e) = Fulfilled a) ->
  exists a, snd (try_catch m handler) = Fulfilled a.
Proof.
  destruct m as [t [a|e|]]; simpl; intros Hp Hh.
  - now exists a.
  - destruct (Hh e) as [a Ha]. destruct (handler e); simpl in *. now exists a.
  - contradiction.
Qed.

Lemma await_outcome {A} (call : event) (r : result A) :
  snd (await call r) = match r with Ok a => Fulfilled a | Throw e => Rejected e end.
Proof. now destruct r. Qed.

(** A run that starts by awaiting a collaborator starts with that call. *)
Lemma await_bind_first {A B} (call : event) (r : result A) (k : A -> M B) :
  exists rest, fst (bind (await call r) k) = call :: rest.
Proof.
  destruct r as [a|e]; simpl.
  - destruct (k a) as [t p]. now exists t.
  - now exists [].
Qed.

Lemma Promise_all_fulfilled {A} (ps : list (M A)) (vs : list A) :
  Forall2 (fun p v => snd p = Fulfilled v) ps vs ->
  snd (Promise_all ps) = Fulfilled vs.
Proof.
  induction 1 as [|p v ps vs Hp _ IH]; simpl; [reflexivity |].
  destruct p as [t r]; simpl in Hp; subst r.
  destruct (Promise_all ps) as [t' rs]; simpl in *. now subst rs.
Qed.

(** One rejection among promises that all settle rejects the whole. *)
Lemma Promise_all_rejected {A} (ps : list (M A)) :
  Forall (fun p => snd p <> Pending) ps ->
  Exists (fun p => exists e, snd p = Rejected e) ps ->
  exists e, snd (Promise_all ps) = Rejected e.
Proof.
  induction 1 as [|p ps Hp Hps IH]; intros Hex; [inversion Hex |].
  simpl. destruct p as [t [a|e|]]; simpl in Hp; try contradiction.
  - destruct (Promise_all ps) as [t' rs]; simpl in *.
    inversion Hex as [? ? [e He]|? ? Hex']; subst; [discriminate |].
    destruct (IH Hex') as [e ->]. now exists e.
  - destruct (Promise_all ps) as [t' rs]; simpl. now exists e.
Qed.

Lemma Promise_all_settles {A} (ps : list (M A)) :
  Forall (fun p => snd p <> Pending) ps ->
  snd (Promise_all ps) <> Pending.
Proof.
  induction 1 as [|p ps Hp Hps IH]; simpl; [discriminate |].
  destruct p as [t [a|e|]]; simpl in Hp; try contradiction;
    destruct (Promise_all ps) as [t' [l|e'|]]; simpl in *;
    congruence.
Qed.

(** ** The day worker *)

Section DayAgentFacts.

Variable W : World.
Context {parse_activities : JsonType (list RawActivity)}.
Variable encodeURIComponent : string -> string.
Variable Number_toString : coordinate -> string.

Lemma searchPlace_settles (keyword city : string) :
  exists r, snd (searchPlace W keyword city) = Fulfilled r.
Proof.
  unfold searchPlace. destruct (amap_lookup W keyword city) as [r|e]; simpl.
  - now exists r.
  - now exists None.
Qed.

Lemma enrichActivity_settles (ds : DayPlanSkeleton) (a : Activity) :
  exists a', snd (enrichActivity W ds a) = Fulfilled a' /\ same_text a a'.
Proof.
  unfold enrichActivity, same_text.
  destruct (truthy_string (name (location a))); [| now exists a].
  destruct (searchPlace_settles (name (location a)) (city ds)) as [r Hr].
  destruct (searchPlace W (name (location a)) (city ds)) as [t p].
  simpl in Hr; subst p. destruct r as [poi|]; simpl.
  - eexists; split; [reflexivity |]. simpl. tauto.
  - now exists a.
Qed.

Lemma enrichWithPOI_settles (ds : DayPlanSkeleton) (l : list Activity) :
  exists l', snd (enrichWithPOI W ds l) = Fulfilled l' /\ Forall2 same_text l l'.
Proof.
  unfold enrichWithPOI.
  assert (Hall : exists l', Forall2 (fun p v => snd p = Fulfilled v)
                              (map (enrichActivity W ds) l) l'
                            /\ Forall2 same_text l l').
  { induction l as [|a l IH]; simpl.
    - exists []. split; constructor.
    - destruct IH as (l' & H1 & H2).
      destruct (enrichActivity_settles ds a) as (a' & Ha & Hs).
      exists (a' :: l'). split; constructor; assumption. }
  destruct Hall as (l' & H1 & H2). exists l'. split; [| exact H2].
  now apply Promise_all_fulfilled.
Qed.

Lemma fetchDayImages_settles (ds : DayPlanSkeleton) :
  exists images, snd (fetchDayImages W ds) = Fulfilled images.
Proof.
  unfold fetchDayImages.
  destruct (fetchImages W (visualKeyword ds) 3 landscape) as [l|e]; simpl.
  - now exists l.
  - now exists [].
Qed.

(** Once the activities are there, the rest of [generate] goes through. *)
Lemma generate_after_activities (ds : DayPlanSkeleton) (ts : TripSkeleton)
  (i : nat) (response : string) :
  generateContent W (ActivityCall i) = Ok response ->
  exists r,
    snd (generate W encodeURIComponent Number_toString ds ts i) = Fulfilled r
    /\ dayNumber r = day ds /\ skeleton r = ds
    /\ plan_day (dayPlan r) = day ds
    /\ Forall2 same_text (parseActivities ds response) (activities (dayPlan r)).
Proof.
  intros Hresp. unfold generate. rewrite try_catch_rethrow.
  unfold generateActivities. rewrite Hresp. cbn [await bind ret].
  destruct (enrichWithPOI_settles ds (parseActivities ds response))
    as (l' & Hl & Hsame).
  destruct (enrichWithPOI W ds (parseActivities ds response)) as [t1 p1].
  simpl in Hl; subst p1. cbn [bind].
  destruct (fetchDayImages_settles ds) as (images & Hi).
  destruct (fetchDayImages W ds) as [t2 p2]. simpl in Hi; subst p2.
  cbn [bind ret snd]. eexists. split; [reflexivity |]. simpl.
  repeat split; trivial.
Qed.

Lemma generate_network_failure (ds : DayPlanSkeleton) (ts : TripSkeleton)
  (i : nat) (e : exn) :
  generateContent W (ActivityCall i) = Throw e ->
  snd (generate W encodeURIComponent Number_toString ds ts i) = Rejected e.
Proof.
  intros Hresp. unfold generate. rewrite try_catch_rethrow.
  unfold generateActivities. now rewrite Hresp.
Qed.

Lemma parseActivities_fallback (ds : DayPlanSkeleton) (response : string) (e : exn) :
  parseActivities_try response = Throw e ->
  parseActivities ds response = getDefaultActivities ds.
Proof. unfold parseActivities. now intros ->. Qed.

Lemma parseActivities_try_fails (response : string) :
  (match or_match (match_json_fence response) (match_span response "[" "]") with
   | None => True
   | Some m => exists e, JSON_parse (A := list RawActivity) (matched_json m) = Throw e
   end) ->
  exists e, parseActivities_try response = Throw e.
Proof.
  unfold parseActivities_try.
  destruct (or_match _ _) as [m|]; [| intros _; eexists; reflexivity].
  intros [e He]. rewrite He. now exists e.
Qed.

Lemma same_text_map (l l' : list Activity) :
  Forall2 same_text l l' ->
  map (fun a => (time a, activity_title a, description a, tips a)) l
  = map (fun a => (time a, activity_title a, description a, tips a)) l'.
Proof.
  induction 1 as [|a b l l' (Ht & Hti & Hd & Hp) _ IH]; [reflexivity |].
  simpl. now rewrite Ht, Hti, Hd, Hp, IH.
Qed.

(** C5. When the network call of step 1 returns and its text cannot be
    parsed (no JSON array is found, or JSON.parse throws), parseActivities
    gives exactly the four default activities and generate() completes:
    its day plan holds those four, with their time, title and description
    (place lookup may still add coordinates).  The four are: at 09:00 the
    exploration of the day's city, at 12:00 lunch at a local restaurant, at
    14:00 the cultural visit and at 18:00 dinner and leisure, with the
    titles, descriptions and place names of the source and no tips.
    generate() rejects in one case only, with one error only: when that
    network call throws.  The strings are well-formed text, on which
    encodeURIComponent is total. *)
Theorem generate_fallback_and_only_rejection (ds : DayPlanSkeleton)
  (ts : TripSkeleton) (i : nat) :
  let outcome := snd (generate W encodeURIComponent Number_toString ds ts i) in
  (forall response e,
      generateContent W (ActivityCall i) = Ok response ->
      parseActivities_try response = Throw e ->
      parseActivities ds response = getDefaultActivities ds
      /\ parseActivities ds response
         = [ {| time := "09:00"; activity_title := "探索" ++ city ds;
             description := "开始一天的精彩旅程";
             location := {| name := city ds; lat := None; lng := None;
                            address := None |};
             tips := None |};
          {| time := "12:00"; activity_title := "午餐时间";
             description := "品尝当地特色美食";
             location := {| name := "当地餐厅"; lat := None; lng := None;
                            address := None |};
             tips := None |};
          {| time := "14:00"; activity_title := "文化体验";
             description := "深入了解当地文化";
             location := {| name := "文化景点"; lat := None; lng := None;
                            address := None |};
             tips := None |};
          {| time := "18:00"; activity_title := "晚餐与休闲";
             description := "享受轻松的晚餐时光";
             location := {| name := "美食街区"; lat := None; lng := None;
                            address := None |};
             tips := None |} ]
      /\ exists r,
          outcome = Fulfilled r
          /\ Forall2 same_text (getDefaultActivities ds) (activities (dayPlan r))
          /\ List.length (activities (dayPlan r)) = 4%nat
          /\ map (fun a => (time a, activity_title a, description a, tips a))
                 (activities (dayPlan r))
             = [ ("09:00", "探索" ++ city ds, "开始一天的精彩旅程", None);
               ("12:00", "午餐时间", "品尝当地特色美食", None);
               ("14:00", "文化体验", "深入了解当地文化", None);
               ("18:00", "晚餐与休闲", "享受轻松的晚餐时光", None) ])
  /\ (forall e, outcome = Rejected e <-> generateContent W (ActivityCall i) = Throw e)
  /\ outcome <> Pending.
Proof.
  intros outcome.
  assert (Hsettled :
            forall response, generateContent W (ActivityCall i) = Ok response ->
            exists r, outcome = Fulfilled r
                      /\ Forall2 same_text (parseActivities ds response)
                                 (activities (dayPlan r))).
  { intros response Hresp.
    destruct (generate_after_activities ds ts i response Hresp)
      as (r & Hr & _ & _ & _ & Hsame).
    now exists r. }
  split; [| split].
  - intros response e Hresp Hparse.
    pose proof (parseActivities_fallback ds response e Hparse) as Hdefault.
    split; [exact Hdefault |]. split; [exact Hdefault |].
    destruct (Hsettled response Hresp) as (r & Hr & Hsame).
    rewrite Hdefault in Hsame. exists r. split; [exact Hr |].
    split; [exact Hsame |].
    split; [apply Forall2_length in Hsame; now rewrite <- Hsame |].
    rewrite <- (same_text_map _ _ Hsame). reflexivity.
  - intros e. split.
    + intros Hrej.
      destruct (generateContent W (ActivityCall i)) as [response|e'] eqn:E.
      * destruct (Hsettled response eq_refl) as (r & Hr & _). congruence.
      * pose proof (generate_network_failure ds ts i e' E) as Hr.
        unfold outcome in Hrej. congruence.
    + apply generate_network_failure.
  - destruct (generateContent W (ActivityCall i)) as [response|e'] eqn:E.
    + destruct (Hsettled response eq_refl) as (r & Hr & _). congruence.
    + pose proof (generate_network_failure ds ts i e' E) as Hr.
      unfold outcome. congruence.
Qed.

End DayAgentFacts.

(** ** Sorting by a numeric key *)

Section ArraySortFacts.

Context {A : Type}.
Variable key : A -> Z.

Let compareFn (a b : A) : Z := key a - key b.
Let le_key (a b : A) : Prop := key a <= key b.

Lemma sort_insert_perm (x : A) (l : list A) :
  Permutation (sort_insert compareFn x l) (x :: l).
Proof.
  induction l as [|y l IH]; simpl; [reflexivity |].
  destruct (compareFn x y <=? 0); [reflexivity |].
  rewrite IH. apply perm_swap.
Qed.

Lemma Array_sort_perm (l : list A) : Permutation (Array_sort compareFn l) l.
Proof.
  induction l as [|x l IH]; simpl; [reflexivity |].
  rewrite sort_insert_perm. now constructor.
Qed.

Lemma sort_insert_sorted (x : A) (l : list A) :
  StronglySorted le_key l -> StronglySorted le_key (sort_insert compareFn x l).
Proof.
  induction 1 as [|y l Hs IH Hy]; simpl; [repeat constructor |].
  unfold compareFn at 1. destruct (Z.leb_spec (key x - key y) 0) as [L|L].
  - constructor; [now constructor |].
    constructor; [unfold le_key; lia |].
    eapply Forall_impl; [| exact Hy]. unfold le_key. intros; lia.
  - constructor; [exact IH |].
    rewrite (sort_insert_perm x l). constructor; [unfold le_key; lia | exact Hy].
Qed.

Lemma Array_sort_sorted (l : list A) :
  StronglySorted le_key (Array_sort compareFn l).
Proof.
  induction l as [|x l IH]; simpl; [constructor |].
  now apply sort_insert_sorted.
Qed.

End ArraySortFacts.

(** ** The parallel day orchestrator *)

Section ParallelDaysFacts.

Import OrchestratorSpec.

Variable W : World.
Context {parse_activities : JsonType (list RawActivity)}.
Variable encodeURIComponent : string -> string.
Variable Number_toString : coordinate -> string.
Variable tripSkeleton : TripSkeleton.

Let run (sk : DayPlanSkeleton) (i : nat) : M DayGenerationResult :=
  DayAgent_run W encodeURIComponent Number_toString sk tripSkeleton i.

Lemma DayAgent_run_cases (sk : DayPlanSkeleton) (i : nat) :
  (exists r, snd (run sk i) = Fulfilled r /\ dayNumber r = day sk /\ skeleton r = sk)
  \/ (exists e, snd (run sk i) = Rejected e).
Proof.
  unfold run, DayAgent_run, getGlmClient.
  destruct (String.eqb (apiKey W) ""); simpl.
  - right. eexists; reflexivity.
  - destruct (generateContent W (ActivityCall i)) as [response|e] eqn:E.
    + left.
      destruct (generate_after_activities W encodeURIComponent Number_toString
                  sk tripSkeleton i response E) as (r & Hr & Hd & Hs & _).
      exists r. destruct (generate _ _ _ _ _ _) as [t p]; simpl in *. tauto.
    + right. exists e.
      pose proof (generate_network_failure W encodeURIComponent Number_toString
                    sk tripSkeleton i e E) as Hr.
      destruct (generate _ _ _ _ _ _) as [t p]; simpl in *. exact Hr.
Qed.

Lemma DayAgent_run_settles (sk : DayPlanSkeleton) (i : nat) :
  snd (run sk i) <> Pending.
Proof.
  destruct (DayAgent_run_cases sk i) as [(r & -> & _)|(e & ->)]; discriminate.
Qed.

Lemma worker_outputs_length i batch rs :
  worker_outputs run i batch rs -> List.length rs = List.length batch.
Proof. induction 1; simpl; congruence. Qed.

Lemma worker_outputs_firstn c i batch rs :
  worker_outputs run i batch rs ->
  worker_outputs run i (firstn c batch) (firstn c rs).
Proof.
  intros Ho; revert c; induction Ho; intros [|c]; simpl; constructor; auto.
Qed.

Lemma worker_outputs_skipn c i batch rs :
  worker_outputs run i batch rs ->
  worker_outputs run (i + c) (skipn c batch) (skipn c rs).
Proof.
  intros Ho; revert c; induction Ho as [i|i sk rest r rs Hr Ho IH]; intros [|c];
    simpl; try rewrite Nat.add_0_r; try constructor; auto.
  replace (i + S c)%nat with (S i + c)%nat by lia. apply IH.
Qed.

Lemma worker_outputs_start i batch rs :
  worker_outputs run i batch rs ->
  Forall2 (fun p v => snd p = Fulfilled v)
          (start_batch W encodeURIComponent Number_toString tripSkeleton i batch) rs.
Proof. induction 1; simpl; constructor; assumption. Qed.

Lemma worker_outputs_results i batch rs :
  worker_outputs run i batch rs ->
  map skeleton rs = batch /\ Forall (fun r => dayNumber r = day (skeleton r)) rs.
Proof.
  induction 1 as [|i sk rest r rs Hr _ [IH1 IH2]]; simpl; [split; constructor |].
  destruct (DayAgent_run_cases sk i) as [(r' & Hr' & Hd & Hs)|(e & He)];
    [| congruence].
  assert (r' = r) by congruence. subst r'.
  split; [now rewrite Hs, IH1 | constructor; [congruence | exact IH2]].
Qed.

Lemma all_succeed_outputs (base : nat) (l : list DayPlanSkeleton) :
  (forall j sk, nth_error l j = Some sk ->
                exists r, snd (run sk (base + j)) = Fulfilled r) ->
  exists rs, worker_outputs run base l rs.
Proof.
  revert base; induction l as [|sk rest IH]; intros base Hall.
  - exists []. constructor.
  - destruct (Hall 0%nat sk eq_refl) as [r Hr]. rewrite Nat.add_0_r in Hr.
    destruct (IH (S base)) as [rs Hrs].
    { intros j sk' Hj. replace (S base + j)%nat with (base + S j)%nat by lia.
      now apply Hall. }
    exists (r :: rs). now constructor.
Qed.

Lemma start_batch_nth (i j : nat) (batch : list DayPlanSkeleton) :
  nth_error (start_batch W encodeURIComponent Number_toString tripSkeleton i batch) j
  = option_map (fun sk => run sk (i + j)) (nth_error batch j).
Proof.
  revert i j; induction batch as [|sk rest IH]; intros i [|j]; simpl; trivial.
  - now rewrite Nat.add_0_r.
  - rewrite IH. now replace (S i + j)%nat with (i + S j)%nat by lia.
Qed.

Lemma start_batch_settles (i : nat) (batch : list DayPlanSkeleton) :
  Forall (fun p => snd p <> Pending)
         (start_batch W encodeURIComponent Number_toString tripSkeleton i batch).
Proof.
  revert i; induction batch as [|sk rest IH]; intros i; simpl; constructor.
  - apply DayAgent_run_settles.
  - apply IH.
Qed.

Section Loop.

Variable daySkeletons : list DayPlanSkeleton.
Variable concurrency : nat.

Let loop :=
  batch_loop W encodeURIComponent Number_toString daySkeletons tripSkeleton
             concurrency.

(** Whatever the batch size and the bound: if the loop ends, it has
    gathered the values of the workers in input order. *)
Lemma batch_loop_outputs (rs : list DayGenerationResult) :
  worker_outputs run 0 daySkeletons rs ->
  forall fuel i acc res,
    snd (loop fuel i acc) = Fulfilled res -> res = (acc ++ skipn i rs)%list.
Proof.
  intros Hout. pose proof (worker_outputs_length _ _ _ Hout) as Hlen.
  assert (Hdone : forall i acc res,
             (List.length daySkeletons <= i)%nat ->
             Fulfilled acc = Fulfilled res -> res = (acc ++ skipn i rs)%list).
  { intros i acc res Hi [= <-]. now rewrite skipn_all2, app_nil_r by lia. }
  induction fuel as [|fuel IH]; intros i acc res; unfold loop; simpl;
    destruct (Nat.ltb_spec i (List.length daySkeletons)) as [Hi|Hi];
    simpl; try discriminate; try (now apply Hdone).
  assert (Hb : worker_outputs run i
                 (firstn concurrency (skipn i daySkeletons))
                 (firstn concurrency (skipn i rs))).
  { apply worker_outputs_firstn.
    apply (worker_outputs_skipn i 0 daySkeletons rs Hout). }
  apply worker_outputs_start, Promise_all_fulfilled in Hb.
  rewrite (bind_fulfilled _ _ _ Hb). fold loop. intros Hres.
  rewrite (IH _ _ _ Hres), <- app_assoc. f_equal.
  rewrite <- (firstn_skipn concurrency (skipn i rs)) at 2.
  f_equal. rewrite skipn_skipn. f_equal. lia.
Qed.

(** A batch size of zero never advances. *)
Lemma batch_loop_stuck :
  concurrency = 0%nat -> daySkeletons <> [] ->
  forall fuel acc, snd (loop fuel 0 acc) = Pending.
Proof.
  intros -> Hne. assert (Hlt : (0 <? List.length daySkeletons)%nat = true).
  { apply Nat.ltb_lt. destruct daySkeletons; [contradiction | simpl; lia]. }
  induction fuel as [|fuel IH]; intros acc; unfold loop; simpl; rewrite Hlt;
    [reflexivity |].
  simpl. unfold loop in IH. specialize (IH (acc ++ [])%list).
  destruct (batch_loop _ _ _ _ _ _ fuel 0 _) as [t p]. simpl in *. exact IH.
Qed.

Hypothesis concurrency_positive : (0 < concurrency)%nat.

(** With every worker fulfilled the loop gathers their values in input
    order, whatever the batch size. *)
Lemma batch_loop_fulfilled (rs : list DayGenerationResult) :
  worker_outputs run 0 daySkeletons rs ->
  forall fuel i acc,
    (List.length daySkeletons <= fuel + i)%nat ->
    snd (loop fuel i acc) = Fulfilled (acc ++ skipn i rs)%list.
Proof.
  intros Hout. pose proof (worker_outputs_length _ _ _ Hout) as Hlen.
  induction fuel as [|fuel IH]; intros i acc Hfuel; unfold loop; simpl.
  - destruct (Nat.ltb_spec i (List.length daySkeletons)); [lia |].
    simpl. now rewrite skipn_all2, app_nil_r by lia.
  - destruct (Nat.ltb_spec i (List.length daySkeletons)) as [Hi|Hi].
    + assert (Hb : worker_outputs run i
                     (firstn concurrency (skipn i daySkeletons))
                     (firstn concurrency (skipn i rs))).
      { apply worker_outputs_firstn.
        apply (worker_outputs_skipn i 0 daySkeletons rs Hout). }
      apply worker_outputs_start, Promise_all_fulfilled in Hb.
      rewrite (bind_fulfilled _ _ _ Hb).
      fold loop. rewrite IH by lia.
      rewrite <- app_assoc. f_equal. f_equal.
      rewrite <- (firstn_skipn concurrency (skipn i rs)) at 2.
      f_equal. rewrite skipn_skipn. f_equal. lia.
    + simpl. now rewrite skipn_all2, app_nil_r by lia.
Qed.

(** A rejecting worker at or after the current index rejects the loop. *)
Lemma batch_loop_rejected (k : nat) (sk : DayPlanSkeleton) (e : exn) :
  nth_error daySkeletons k = Some sk ->
  snd (run sk k) = Rejected e ->
  forall fuel i acc,
    (List.length daySkeletons <= fuel + i)%nat -> (i <= k)%nat ->
    exists e', snd (loop fuel i acc) = Rejected e'.
Proof.
  intros Hk He.
  assert (Hkn : (k < List.length daySkeletons)%nat)
    by (apply nth_error_Some; congruence).
  induction fuel as [|fuel IH]; intros i acc Hfuel Hik; unfold loop; simpl.
  - lia.
  - destruct (Nat.ltb_spec i (List.length daySkeletons)) as [Hi|Hi]; [| lia].
    set (batch := firstn concurrency (skipn i daySkeletons)).
    pose proof (start_batch_settles i batch) as Hset.
    destruct (le_lt_dec (i + concurrency) k) as [Hlater|Hnow].
    + destruct (Promise_all (start_batch _ _ _ _ i batch)) as [t [vs|e'|]] eqn:E.
      * simpl. fold loop. destruct (IH (i + concurrency)%nat (acc ++ vs)%list)
          as [e' He']; [lia | lia |].
        destruct (loop fuel _ _) as [t' p']; simpl in *. now exists e'.
      * simpl. now exists e'.
      * exfalso. apply (Promise_all_settles _ Hset). now rewrite E.
    + assert (Hex : Exists (fun p => exists e, snd p = Rejected e)
                      (start_batch W encodeURIComponent Number_toString
                                   tripSkeleton i batch)).
      { apply Exists_exists. exists (run sk k). split; [| now exists e].
        apply (nth_error_In _ (k - i)). rewrite start_batch_nth.
        unfold batch. rewrite nth_error_firstn.
        destruct (Nat.ltb_spec (k - i) concurrency); [| lia].
        rewrite nth_error_skipn.
        replace (i + (k - i))%nat with k by lia. rewrite Hk. simpl.
        now replace (i + (k - i))%nat with k by lia. }
      destruct (Promise_all_rejected _ Hset Hex) as [e' He'].
      exists e'. now apply bind_rejected.
Qed.

End Loop.

End ParallelDaysFacts.

Section OrchestratorClaims.

Import OrchestratorSpec.

Variable W : World.
Context {parse_activities : JsonType (list RawActivity)}.
Variable encodeURIComponent : string -> string.
Variable Number_toString : coordinate -> string.
Variable tripSkeleton : TripSkeleton.

Let run (sk : DayPlanSkeleton) (i : nat) : M DayGenerationResult :=
  DayAgent_run W encodeURIComponent Number_toString sk tripSkeleton i.

(** C6. When every day worker succeeds, the list generateDaysParallel
    returns holds one result per input skeleton (the workers' values,
    rearranged), is sorted in ascending order of dayNumber, and the
    dayNumber of each result is the day field of the skeleton it was
    generated from.  The order of the results does not depend on when the
    workers complete: Promise.all hands their values over in input order
    and the sort orders them by day.  With a batch size of at least one the
    list is returned, the loop needing no more rounds than there are
    skeletons. *)
Theorem generateDaysParallel_sorted_complete
  (daySkeletons : list DayPlanSkeleton) (concurrency : nat) :
  (forall i sk, nth_error daySkeletons i = Some sk ->
                exists r, snd (run sk i) = Fulfilled r) ->
  exists outputs,
    worker_outputs run 0 daySkeletons outputs
    /\ (forall fuel results,
           snd (generateDaysParallel W encodeURIComponent Number_toString
                  daySkeletons tripSkeleton concurrency fuel) = Fulfilled results ->
           Permutation results outputs
           /\ List.length results = List.length daySkeletons
           /\ Permutation (map skeleton results) daySkeletons
           /\ ascending results
           /\ Forall (fun r => dayNumber r = day (skeleton r)) results)
    /\ ((0 < concurrency)%nat ->
        forall fuel, (List.length daySkeletons <= fuel)%nat ->
        exists results,
          snd (generateDaysParallel W encodeURIComponent Number_toString
                 daySkeletons tripSkeleton concurrency fuel) = Fulfilled results).
Proof.
  intros Hall.
  destruct (all_succeed_outputs W encodeURIComponent Number_toString
              tripSkeleton 0 daySkeletons Hall) as [outputs Hout].
  destruct (worker_outputs_results W encodeURIComponent Number_toString
              tripSkeleton _ _ _ Hout) as [Hsk Hday].
  exists outputs. split; [exact Hout |]. split.
  - intros fuel results Hres. unfold generateDaysParallel in Hres.
    apply bind_fulfilled_inv in Hres as (gathered & Hloop & Hsort).
    apply (batch_loop_outputs W encodeURIComponent Number_toString
             tripSkeleton daySkeletons concurrency outputs Hout) in Hloop.
    simpl in Hloop, Hsort. subst gathered. injection Hsort as <-.
    set (results := Array_sort (fun a b => dayNumber a - dayNumber b) outputs).
    assert (Hperm : Permutation results outputs) by apply Array_sort_perm.
    repeat split.
    + exact Hperm.
    + rewrite (Permutation_length Hperm).
      apply (worker_outputs_length W encodeURIComponent Number_toString
               tripSkeleton _ _ _ Hout).
    + rewrite <- Hsk. now apply Permutation_map.
    + apply Array_sort_sorted.
    + eapply Permutation_Forall; [symmetry; exact Hperm | exact Hday].
  - intros Hc fuel Hfuel.
    pose proof (batch_loop_fulfilled W encodeURIComponent Number_toString
                  tripSkeleton daySkeletons concurrency Hc outputs
                  Hout fuel 0%nat [] ltac:(lia)) as Hloop.
    eexists. unfold generateDaysParallel.
    rewrite (bind_fulfilled _ _ _ Hloop). reflexivity.
Qed.

(** C1, on the code.  One worker whose generate() throws makes
    generateDaysParallel reject: the batches are joined with Promise.all,
    nothing catches the rejection and no fallback result is produced, so
    the caller gets no list at all. *)
Theorem generateDaysParallel_rejects_with_failed_worker
  (daySkeletons : list DayPlanSkeleton) (concurrency fuel k : nat)
  (sk : DayPlanSkeleton) (e : exn) :
  (0 < concurrency)%nat ->
  (List.length daySkeletons <= fuel)%nat ->
  nth_error daySkeletons k = Some sk ->
  snd (run sk k) = Rejected e ->
  exists e',
    snd (generateDaysParallel W encodeURIComponent Number_toString
           daySkeletons tripSkeleton concurrency fuel) = Rejected e'.
Proof.
  intros Hc Hfuel Hk He.
  destruct (batch_loop_rejected W encodeURIComponent Number_toString
              tripSkeleton daySkeletons concurrency Hc k sk e Hk He
              fuel 0%nat [] ltac:(lia) ltac:(lia)) as [e' He'].
  exists e'. unfold generateDaysParallel. now apply bind_rejected.
Qed.

End OrchestratorClaims.

Lemma generateDaysParallel_sorted_complete_witness :
  let run := fun sk i =>
    DayAgent_run Sample.calm (parse_activities := Sample.not_json)
      Sample.plain Sample.no_digits sk Sample.trip i in
  let parallel :=
    generateDaysParallel Sample.calm (parse_activities := Sample.not_json)
      Sample.plain Sample.no_digits [Sample.day2; Sample.day1] Sample.trip 3 in
  exists outputs,
    OrchestratorSpec.worker_outputs run 0 [Sample.day2; Sample.day1] outputs
    /\ (forall fuel results,
           snd (parallel fuel) = Fulfilled results ->
           Permutation results outputs
           /\ List.length results = 2%nat
           /\ Permutation (map skeleton results) [Sample.day2; Sample.day1]
           /\ OrchestratorSpec.ascending results
           /\ Forall (fun r => dayNumber r = day (skeleton r)) results)
    /\ ((0 < 3)%nat ->
        forall fuel, (2 <= fuel)%nat ->
        exists results, snd (parallel fuel) = Fulfilled results).
Proof.
  apply (generateDaysParallel_sorted_complete Sample.calm
           (parse_activities := Sample.not_json)
           Sample.plain Sample.no_digits Sample.trip
           [Sample.day2; Sample.day1] 3).
  intros i sk Hi. destruct i as [|[|i]]; simpl in Hi.
  - injection Hi as <-. eexists. vm_compute. reflexivity.
  - injection Hi as <-. eexists. vm_compute. reflexivity.
  - destruct i; discriminate.
Defined.

Lemma generateDaysParallel_rejects_with_failed_worker_witness :
  exists e',
    snd (generateDaysParallel Sample.second_worker_down (parse_activities := Sample.not_json)
           Sample.plain Sample.no_digits
           [Sample.day1; Sample.day2] Sample.trip 3 2) = Rejected e'.
Proof.
  apply (generateDaysParallel_rejects_with_failed_worker
           Sample.second_worker_down (parse_activities := Sample.not_json)
           Sample.plain Sample.no_digits Sample.trip
           [Sample.day1; Sample.day2] 3 2 1 Sample.day2
           (Error "GLM API Error (500): upstream")).
  - lia.
  - simpl; lia.
  - reflexivity.
  - vm_compute. reflexivity.
Defined.

Example generateDaysParallel_second_worker_down :
  snd (generateDaysParallel Sample.second_worker_down (parse_activities := Sample.not_json)
         Sample.plain Sample.no_digits
         [Sample.day1; Sample.day2] Sample.trip 3 2)
  = Rejected (Error "GLM API Error (500): upstream").
Proof. vm_compute. reflexivity. Qed.

Example generateDaysParallel_sorts :
  match snd (generateDaysParallel Sample.calm (parse_activities := Sample.not_json)
               Sample.plain Sample.no_digits
               [Sample.day2; Sample.day1] Sample.trip 3 2) with
  | Fulfilled results => map dayNumber results = [1; 2]
  | _ => False
  end.
Proof. vm_compute. reflexivity. Qed.

(** ** The itinerary skeleton generator *)

Section SkeletonFacts.

Import StreamSpec.

Variable W : World.
Context {parse_structure : JsonType StructureAnswer}.

(** C3, amended.  A TripSkeleton produced by the Itinerary Skeleton
    Generator is the spread of the Visual Identity and of the collaborator's
    JSON, the JSON winning: it carries the day list (and the summary and the
    highlights) of the JSON as they are, and its duration is the JSON's own
    duration when the JSON holds one and the duration of the Visual
    Identity otherwise; the same goes for the destination, the palette and
    the other properties of the identity.  Nothing is truncated and nothing
    is padded, so len(days) == duration with the day fields exactly
    1..duration holds for the skeleton exactly when the day list of the
    JSON satisfies it against that duration. *)
Theorem generateItineraryStructure_days_as_returned
  (visual : VisualIdentity) (skeleton : TripSkeleton) :
  snd (generateItineraryStructure W visual) = Fulfilled skeleton ->
  exists response data,
    generateContent W StructureCall = Ok response
    /\ parseAIJsonResponse response = Ok data
    /\ (forall n, own_duration (own data) = Some n -> duration skeleton = n)
    /\ (own_duration (own data) = None -> duration skeleton = duration visual)
    /\ days skeleton = days data
    /\ summary skeleton = summary data
    /\ highlights skeleton = highlights data
    /\ List.length (days skeleton) = List.length (days data)
    /\ (days_match_duration (duration skeleton) (days skeleton)
        <-> days_match_duration (duration skeleton) (days data))
    /\ (own_duration (own data) = None ->
        days_match_duration (duration visual) (days data) ->
        days_match_duration (duration skeleton) (days skeleton))
    /\ (forall s, own_destination (own data) = Some s -> destination skeleton = s)
    /\ (own_destination (own data) = None ->
        destination skeleton = destination visual)
    /\ (forall s, own_palette (own data) = Some s -> palette skeleton = s)
    /\ (own_palette (own data) = None -> palette skeleton = palette visual)
    /\ skeleton = spread visual data.
Proof.
  unfold generateItineraryStructure.
  destruct (generateContent W StructureCall) as [response|e]; simpl;
    [| discriminate].
  destruct (parseAIJsonResponse response) as [data|e] eqn:E; simpl;
    [| discriminate].
  intros [= <-]. exists response, data. unfold spread, later. simpl.
  split; [reflexivity |]. split; [exact E |].
  split; [now intros n -> |]. split; [now intros -> |].
  do 4 (split; [reflexivity |]). split; [reflexivity |].
  split; [now intros -> |].
  split; [now intros s -> |]. split; [now intros -> |].
  split; [now intros s -> |]. split; [now intros -> | reflexivity].
Qed.

End SkeletonFacts.

Lemma generateItineraryStructure_days_as_returned_witness :
  exists response data,
    generateContent SampleStream.own_answer StructureCall = Ok response
    /\ parseAIJsonResponse (parse := SampleStream.structures) response = Ok data
    /\ own_duration (own data) = Some 7
    /\ duration (spread SampleStream.tokyo SampleStream.osaka_week) = 7
    /\ destination (spread SampleStream.tokyo SampleStream.osaka_week) = "Osaka"
    /\ days (spread SampleStream.tokyo SampleStream.osaka_week) = days data.
Proof.
  destruct (generateItineraryStructure_days_as_returned
              SampleStream.own_answer (parse_structure := SampleStream.structures)
              SampleStream.tokyo (spread SampleStream.tokyo SampleStream.osaka_week))
    as (response & data & Hr & Hp & Hown & _ & Hdays & _).
  - vm_compute. reflexivity.
  - exists response, data. split; [exact Hr |]. split; [exact Hp |].
    assert (Hd : data = SampleStream.osaka_week).
    { vm_compute in Hr. injection Hr as <-. vm_compute in Hp. now injection Hp as <-. }
    split; [now rewrite Hd |]. split; [apply Hown; now rewrite Hd |].
    split; [reflexivity | exact Hdays].
Defined.

(** C3, as stated, fails.  The Visual Identity says three days, the
    collaborator's JSON lists one: the skeleton that comes out has duration
    3 and the single day of the JSON. *)
Lemma generateItineraryStructure_keeps_mismatch :
  exists skeleton,
    snd (generateItineraryStructure SampleStream.short_answer
           (parse_structure := SampleStream.structures) SampleStream.tokyo)
    = Fulfilled skeleton
    /\ duration skeleton = 3
    /\ map day (days skeleton) = [1]
    /\ ~ StreamSpec.days_match_duration (duration skeleton) (days skeleton).
Proof.
  eexists. split; [vm_compute; reflexivity |].
  repeat split. intros [Hlen _]. discriminate Hlen.
Qed.

(** ** The generator *)

Section GeneratorFacts.

Import StreamSpec.

Variable W : World.
Context {parse_visual : JsonType VisualIdentity}
        {parse_structure : JsonType StructureAnswer}
        {parse_activities : JsonType (list RawActivity)}
        {parse_analysis : JsonType RawSceneAnalysis}.
Variable toLowerCase : string -> string.
Variable encodeURIComponent : string -> string.
Variable Number_toString : coordinate -> string.

Lemma yields_app (t t' : list event) :
  yields (t ++ t') = (yields t ++ yields t')%list.
Proof. apply flat_map_app. Qed.

Lemma early_call_before_overview (t : list event) :
  forallb early_call t = true -> forallb before_overview t = true.
Proof.
  induction t as [|ev t IH]; simpl; [reflexivity |].
  intros Ht. apply andb_true_iff in Ht as [Hev Ht].
  rewrite (IH Ht), andb_true_r.
  destruct ev as [site| | | |]; try discriminate; trivial.
  now destruct site.
Qed.

Lemma before_overview_yields (t : list event) :
  forallb before_overview t = true -> forallb is_status (yields t) = true.
Proof.
  induction t as [|ev t IH]; simpl; [reflexivity |].
  intros Ht. apply andb_true_iff in Ht as [Hev Ht].
  destruct ev; simpl in *; auto. now rewrite Hev, (IH Ht).
Qed.

Lemma forallb_app_true {X} (f : X -> bool) (l l' : list X) :
  forallb f l = true -> forallb f l' = true -> forallb f (l ++ l') = true.
Proof. intros Hl Hl'. rewrite forallb_app, Hl, Hl'. reflexivity. Qed.

(** The scene analysis of a fresh agent always comes back, and only calls. *)
Lemma analyzeScene_settles (agent : IntentAgent) (input : string)
  (mediaContext : option string) :
  exists t a,
    analyzeScene W toLowerCase agent input mediaContext = (t, Fulfilled a)
    /\ forallb early_call t = true.
Proof.
  unfold analyzeScene.
  destruct (cache_get _ _); [now eexists _, _ |].
  destruct (agent_client agent); [| now eexists _, _].
  destruct (generateContent W SceneCall); simpl; now eexists _, _.
Qed.

Lemma analyzeFile_settles (k : nat) (file : UploadedFile) :
  exists t s, analyzeFile W k file = (t, Fulfilled s) /\ forallb early_call t = true.
Proof.
  unfold analyzeFile.
  assert (Hread : exists t r, await (ReadFile k) (readAsDataURL W k) = (t, r)
                              /\ forallb early_call t = true /\ r <> Pending).
  { destruct (readAsDataURL W k); simpl; eexists _, _;
      (split; [reflexivity | split; [reflexivity | discriminate]]). }
  assert (Hdata : exists t r,
             match base64 file with
             | Some data =>
                 if truthy_string data then ret data
                 else await (ReadFile k) (readAsDataURL W k)
             | None => await (ReadFile k) (readAsDataURL W k)
             end = (t, r) /\ forallb early_call t = true /\ r <> Pending).
  { destruct (base64 file) as [data|]; [| exact Hread].
    destruct (truthy_string data); [| exact Hread].
    eexists _, _. split; [reflexivity | split; [reflexivity | discriminate]]. }
  destruct Hdata as (t & r & -> & Ht & Hr).
  destruct r as [data|e|]; [| | contradiction].
  - destruct (generateContent W (MediaCall k)); simpl; eexists _, _;
      (split; [reflexivity |]); rewrite ?app_nil_r;
      apply forallb_app_true; trivial.
  - simpl. eexists _, _. split; [reflexivity |]. now rewrite app_nil_r.
Qed.

Lemma for_each_settles {X Y} (body : X -> M Y) (l : list X) :
  (forall x, exists t y, body x = (t, Fulfilled y) /\ forallb early_call t = true) ->
  exists t ys, for_each body l = (t, Fulfilled ys) /\ forallb early_call t = true.
Proof.
  intros Hbody. induction l as [|x l IH]; simpl.
  - now eexists _, _.
  - destruct (Hbody x) as (t & y & -> & Ht).
    destruct IH as (t' & ys & -> & Ht'). simpl.
    eexists _, _. split; [reflexivity |].
    rewrite app_nil_r. now apply forallb_app_true.
Qed.

Lemma analyzeUserMedia_settles (files : list UploadedFile) :
  exists t m, analyzeUserMedia W files = (t, Fulfilled m)
              /\ forallb early_call t = true.
Proof.
  unfold analyzeUserMedia. destruct files as [|f files]; [now eexists _, _ |].
  destruct (for_each_settles
              (fun entry => analyzeFile W (fst entry) (snd entry))
              (combine (seq 0 (List.length (f :: files))) (f :: files)))
    as (t & ys & -> & Ht).
  { intros [k file]. apply analyzeFile_settles. }
  simpl. eexists _, _. split; [reflexivity |]. now rewrite app_nil_r.
Qed.

(** C4. When the response of the Visual Identity stage cannot be parsed
    (the stage is reached, so the client is configured and the call of the
    stage has returned), generateTravelPlanStream rejects with the parser's
    error.  Up to the
    failure it has yielded progress markers and log lines only, and it has
    called the collaborator for the scene, the media and the visual
    identity only; after the failure it yields one log line, the failure
    message, and throws.  No VisualIdentity is substituted: no header
    markup, no skeleton payload and no day fragment is ever yielded, and
    the skeleton and day stages are never called. *)
Theorem generateTravelPlanStream_aborts_on_visual_identity
  (details : TripDetails) (mediaItems : list MediaItem)
  (response : string) (e : exn) :
  getGlmClient W = Ok glmClient ->
  generateContent W VisualCall = Ok response ->
  parseAIJsonResponse (A := VisualIdentity) response = Throw e ->
  let run := generateTravelPlanStream W toLowerCase encodeURIComponent
               Number_toString details mediaItems in
  snd run = Rejected e
  /\ (exists before,
         fst run = (before ++ [Yield (Log (LogFailure (exn_message e)))])%list
         /\ forallb before_overview before = true)
  /\ forallb is_status (yields (fst run)) = true
  /\ ~ In (CallGenerateContent StructureCall) (fst run)
  /\ (forall k, ~ In (CallGenerateContent (ActivityCall k)) (fst run)).
Proof.
  intros Hclient Hresp Hparse run.
  assert (Hrun : snd run = Rejected e
                 /\ exists before,
                     fst run = (before ++ [Yield (Log (LogFailure (exn_message e)))])%list
                     /\ forallb before_overview before = true).
  { subst run. unfold generateTravelPlanStream. rewrite Hclient.
    change (lift (Ok glmClient)) with (ret glmClient). rewrite bind_ret.
    set (files := flat_map _ mediaItems).
    destruct (analyzeScene_settles (new_IntentAgent (Some glmClient))
                (prompt details) (Some "")) as (ts & sa & Es & Hts).
    assert (Hmedia : exists tm ma,
               match files with
               | [] => ret {| media_summary := ""; insights := [] |}
               | _ => analyzeUserMedia W files
               end = (tm, Fulfilled ma) /\ forallb early_call tm = true).
    { destruct files; [now eexists _, _ | apply analyzeUserMedia_settles]. }
    destruct Hmedia as (tm & ma & Em & Htm).
    apply early_call_before_overview in Hts, Htm.
    rewrite Es, Em. unfold generateVisualIdentity. rewrite Hresp.
    cbn [lift bind ret emit Promise_both await fst snd]. rewrite Hparse.
    destruct (insights ma) as [|found1 found];
      cbn -[Math_round]; (split; [reflexivity |]);
      match goal with
      | |- exists before, ?a :: ?b :: ?X ++ _ = _ /\ _ => exists (a :: b :: X)
      end;
      (split; [reflexivity |]);
      cbn [forallb before_overview is_status early_call andb];
      rewrite !forallb_app, Hts, Htm; reflexivity. }
  destruct Hrun as (Hout & before & Etrace & Hbefore).
  assert (Hall : forallb before_overview (fst run) = true).
  { rewrite Etrace. now apply forallb_app_true. }
  split; [exact Hout |]. split; [now exists before |].
  split; [now apply before_overview_yields |].
  rewrite forallb_forall in Hall. split.
  - intros Hin. now specialize (Hall _ Hin).
  - intros k Hin. now specialize (Hall _ Hin).
Qed.

End GeneratorFacts.

Lemma generateTravelPlanStream_aborts_on_visual_identity_witness :
  let run :=
    generateTravelPlanStream Sample.calm
      (parse_visual := Sample.not_json) (parse_structure := Sample.not_json)
      (parse_activities := Sample.not_json) (parse_analysis := Sample.not_json)
      ascii_toLowerCase Sample.plain Sample.no_digits
      {| prompt := "Kyoto, 2 days, quiet" |} [] in
  let e := Error "No valid JSON object found in response" in
  snd run = Rejected e
  /\ (exists before,
         fst run = (before ++ [Yield (Log (LogFailure (exn_message e)))])%list
         /\ forallb StreamSpec.before_overview before = true)
  /\ forallb StreamSpec.is_status (StreamSpec.yields (fst run)) = true
  /\ ~ In (CallGenerateContent StructureCall) (fst run)
  /\ (forall k, ~ In (CallGenerateContent (ActivityCall k)) (fst run)).
Proof.
  apply (generateTravelPlanStream_aborts_on_visual_identity Sample.calm
           (parse_visual := Sample.not_json) (parse_structure := Sample.not_json)
           (parse_activities := Sample.not_json)
           (parse_analysis := Sample.not_json)
           ascii_toLowerCase Sample.plain Sample.no_digits
           {| prompt := "Kyoto, 2 days, quiet" |} [] "no plan today").
  - reflexivity.
  - reflexivity.
  - vm_compute. reflexivity.
Defined.

Example stream_run_completes :
  snd SampleEdit.stream = Fulfilled tt
  /\ map StreamSpec.is_status (StreamSpec.yields (fst SampleEdit.stream))
     = [true; true; true; true; true; true; true; false; true; true; false;
        false; true; true; true; true; false; true; true; false; true; false;
        true].
Proof. vm_compute. split; reflexivity. Qed.

(** ** Regenerating one day *)

Section RegenerateFacts.

Variable W : World.
Context {parse_day : JsonType DayPlan}.
Variable encodeURIComponent : string -> string.

(** C10. regenerateDayPlan obtains the client before it looks the day up.
    A day index that no entry of skeleton.days carries makes it reject
    before any call to a collaborator: with "Day not found" when the client
    is configured, with the error of getGlmClient when it is not.  When some
    entry carries the index and the client is configured, the lookup finds
    the first such entry, the error branch is not taken, and the run goes
    on to fetch the images for that entry. *)
Theorem regenerateDayPlan_day_lookup (skeleton : TripSkeleton)
  (dayIndex : Z) (modificationPrompt : string) :
  let run :=
    regenerateDayPlan W encodeURIComponent skeleton dayIndex modificationPrompt in
  ((forall d, In d (days skeleton) -> day d <> dayIndex) ->
   fst run = []
   /\ (getGlmClient W = Ok glmClient ->
       snd run = Rejected (Error "Day not found"))
   /\ (forall e, getGlmClient W = Throw e -> snd run = Rejected e))
  /\ (getGlmClient W = Ok glmClient ->
      (exists d, In d (days skeleton) /\ day d = dayIndex) ->
      exists daySkeleton rest,
        find (fun d => day d =? dayIndex) (days skeleton) = Some daySkeleton
        /\ In daySkeleton (days skeleton)
        /\ day daySkeleton = dayIndex
        /\ fst run
           = CallImages (visualKeyword daySkeleton ++ " " ++ modificationPrompt)
                        3 portrait :: rest
        /\ run <> ([], Rejected (Error "Day not found"))).
Proof.
  intros run. subst run. unfold regenerateDayPlan. split.
  - intros Hnone.
    assert (E : find (fun d => day d =? dayIndex) (days skeleton) = None).
    { destruct (find _ _) as [d|] eqn:E; [| reflexivity].
      apply find_some in E as [Hin Hd]. apply Z.eqb_eq in Hd.
      now destruct (Hnone d Hin). }
    rewrite E. destruct (getGlmClient W) as [[]|e0]; simpl.
    + split; [reflexivity | split; [reflexivity | discriminate]].
    + split; [reflexivity | split; [discriminate | now intros e [= <-]]].
  - intros Hclient (d & Hin & Hd). rewrite Hclient.
    change (lift (Ok glmClient)) with (ret glmClient). rewrite bind_ret.
    destruct (find (fun d => day d =? dayIndex) (days skeleton))
      as [daySkeleton|] eqn:E.
    + pose proof (find_some _ _ E) as [Hin' Hd']. apply Z.eqb_eq in Hd'.
      match goal with
      | |- context [bind (await ?call ?r) ?k] =>
          destruct (await_bind_first call r k) as [rest Hrest]
      end.
      exists daySkeleton, rest. repeat split; trivial.
      intros Habs. rewrite Habs in Hrest. discriminate Hrest.
    + exfalso. apply (find_none _ _ E) in Hin.
      apply Z.eqb_neq in Hin. contradiction.
Qed.

End RegenerateFacts.

Lemma regenerateDayPlan_day_lookup_witness :
  let run :=
    regenerateDayPlan SampleEdit.planner (parse_day := SampleEdit.day_plans)
      Sample.plain Sample.trip 5 "more museums" in
  (forall d, In d (days Sample.trip) -> day d <> 5)
  /\ getGlmClient SampleEdit.planner = Ok glmClient
  /\ fst run = []
  /\ snd run = Rejected (Error "Day not found").
Proof.
  assert (Hnone : forall d, In d (days Sample.trip) -> day d <> 5).
  { intros d [<-|[<-|[]]]; discriminate. }
  destruct (regenerateDayPlan_day_lookup SampleEdit.planner
              (parse_day := SampleEdit.day_plans) Sample.plain Sample.trip 5
              "more museums") as [Hmissing _].
  destruct (Hmissing Hnone) as (Hcalls & Hconfigured & _).
  exact (conj Hnone (conj eq_refl (conj Hcalls (Hconfigured eq_refl)))).
Defined.

(** C10, as worded, does not hold of a build without an API key: the day
    index 5 is absent from the two-day skeleton, and regenerateDayPlan
    rejects with the missing-key error of getGlmClient, not with
    "Day not found". *)
Lemma regenerateDayPlan_missing_key_first :
  (forall d, In d (days Sample.trip) -> day d <> 5)
  /\ regenerateDayPlan Sample.unconfigured (parse_day := SampleEdit.day_plans)
       Sample.plain Sample.trip 5 "more museums"
     = ([], Rejected (Error missing_key_message))
  /\ regenerateDayPlan Sample.unconfigured (parse_day := SampleEdit.day_plans)
       Sample.plain Sample.trip 5 "more museums"
     <> ([], Rejected (Error "Day not found")).
Proof.
  split; [| split].
  - intros d [<-|[<-|[]]]; discriminate.
  - vm_compute. reflexivity.
  - vm_compute. discriminate.
Qed.

Example regenerateDayPlan_unknown_day :
  regenerateDayPlan SampleEdit.planner (parse_day := SampleEdit.day_plans)
    Sample.plain Sample.trip 5 "more museums"
  = ([], Rejected (Error "Day not found")).
Proof. vm_compute. reflexivity. Qed.

Example regenerateDayPlan_known_day :
  match regenerateDayPlan SampleEdit.planner (parse_day := SampleEdit.day_plans)
          Sample.plain Sample.trip 2 "make day 2 more relaxed" with
  | (trace, Fulfilled newDayHtml) =>
      trace = [ CallImages "nishiki market make day 2 more relaxed" 3 portrait;
                CallGenerateContent RegenerateCall ]
      /\ includes newDayHtml (day_section_opening 2) = true
  | _ => False
  end.
Proof. vm_compute. split; reflexivity. Qed.

(** ** The single-day edit *)

Section EditFacts.

Variable W : World.
Context {parse_day : JsonType DayPlan}.
Variable encodeURIComponent : string -> string.

(** When the pattern of the edit finds no section for the day, the
    document is left as it was, whatever the regeneration produced. *)
Lemma submitModification_unlocated (st st' : AppState)
  (skeleton : TripSkeleton) (d : Z) (generated : string) :
  tripSkeleton st = Some skeleton ->
  modifyingDay st = Some d ->
  generatedHtml st = Some generated ->
  match_day_section generated d = None ->
  snd (submitModification W encodeURIComponent st) = Fulfilled st' ->
  generatedHtml st' = Some generated /\ modifyingDay st' = Some d.
Proof.
  intros Hs Hd Hg Hm. unfold submitModification. rewrite Hs, Hd, Hg, Hm.
  destruct (_ || _); simpl.
  - intros [= <-]. now split.
  - destruct (regenerateDayPlan _ _ _ _ _) as [t [newDayHtml|e|]]; simpl;
      try discriminate; intros [= <-]; simpl; now split.
Qed.

End EditFacts.

(** The section a day worker renders for day 2 is in the assembled
    document; it is marked by data-day, not by the id the edit looks for. *)
Example document_day_sections :
  includes SampleEdit.document
    ("<section class=" ++ quoted "day-section mb-8" ++ " data-day="
     ++ quoted "2" ++ ">") = true
  /\ includes (ascii_toLowerCase SampleEdit.document) "<section id=" = false.
Proof. vm_compute. split; reflexivity. Qed.

(** C8, on the code.  A document generated by the pipeline for a two-day
    skeleton, then an edit of day 2.  The day is regenerated (its new
    markup opens with the id of day 2), but the pattern of the edit finds
    no section of day 2 in the document, because the day workers mark
    their sections with data-day.  Through the edit dialog
    (submitModification) the document stays as it was, the dialog stays
    open and the user is told the original could not be located; through
    the confirmed follow-up (regenerateDayWithConfirmation) the document
    stays as it was and the chat reports that the modification failed.
    Day 2's section is not replaced. *)
Theorem submitModification_cannot_locate_day :
  match_day_section SampleEdit.document 2 = None
  /\ (exists st',
        snd (submitModification SampleEdit.planner
               (parse_day := SampleEdit.day_plans) Sample.plain SampleEdit.editing)
        = Fulfilled st'
        /\ generatedHtml st' = Some SampleEdit.document
        /\ modifyingDay st' = Some 2
        /\ alerts st' = ["无法定位原始行程代码，请重试"])
  /\ (exists st',
        snd (regenerateDayWithConfirmation SampleEdit.planner
               (parse_day := SampleEdit.day_plans) Sample.plain
               2 "make day 2 more relaxed" SampleEdit.editing)
        = Fulfilled st'
        /\ generatedHtml st' = Some SampleEdit.document
        /\ map content (chatMessages st') = ["修改失败，请重试。"]).
Proof.
  split; [vm_compute; reflexivity |]. split.
  - eexists. split; [vm_compute; reflexivity |].
    simpl. repeat split.
  - eexists. split; [vm_compute; reflexivity |].
    simpl. repeat split.
Qed.

(** ** The version ledger *)

Lemma handleRestoreVersion_ledger (v : VersionHistory) (st : AppState) :
  versionHistory (handleRestoreVersion v st) = versionHistory st.
Proof. unfold handleRestoreVersion. now destruct (version_skeleton v). Qed.

Lemma handleRestoreVersion_skeleton (v : VersionHistory) (st : AppState)
  (restored : TripSkeleton) :
  version_skeleton v = Some restored ->
  tripSkeleton (handleRestoreVersion v st) = Some restored
  /\ chatMessages (handleRestoreVersion v st)
     = (chatMessages st
        ++ [ {| role := assistant;
                content := "已回滚到版本 " ++ show_Z (version v) ++ " ("
                           ++ version_summary v ++ ")" |} ])%list.
Proof. unfold handleRestoreVersion. intros ->. now split. Qed.

Lemma createVersionHistory_number (id_time now : Z) (skeleton : TripSkeleton)
  (changes : list VersionChange) (author : string)
  (previous : option VersionHistory) :
  version (createVersionHistory id_time now skeleton changes author previous)
  = match previous with Some p => version p + 1 | None => 1 end
  /\ version_skeleton
       (createVersionHistory id_time now skeleton changes author previous)
     = Some skeleton.
Proof. now split. Qed.

(** C9, on the code.  The ledger holds snapshots 1 and 2 and snapshot 1 is
    restored: the skeleton shown becomes that of snapshot 1 and a chat
    message reports the rollback, but the ledger still holds exactly
    snapshots 1 and 2.  No snapshot 3 is appended. *)
Theorem handleRestoreVersion_appends_no_snapshot :
  let before := SampleLedger.showing_second in
  let after := handleRestoreVersion SampleLedger.initial before in
  map version (versionHistory before) = [1; 2]
  /\ versionHistory after = versionHistory before
  /\ map version (versionHistory after) = [1; 2]
  /\ tripSkeleton after = Some Sample.trip
  /\ map content (chatMessages after) = ["已回滚到版本 1 (1项全局修改)"].
Proof. vm_compute. repeat split. Qed.

Lemma quickPredict_highest_score_witness :
  (SceneSpec.hits ascii_toLowerCase "romantic family kids" ROMANTIC
   < SceneSpec.hits ascii_toLowerCase "romantic family kids" FAMILY)%nat.
Proof.
  apply (proj1 (proj2 (quickPredict_highest_score ascii_toLowerCase
                         "romantic family kids"))).
  - vm_compute. lia.
  - vm_compute. lia.
Defined.

Lemma generate_fallback_and_only_rejection_witness :
  parseActivities (parse_activities := Sample.not_json) Sample.day1 "no plan today"
  = getDefaultActivities Sample.day1
  /\ parseActivities (parse_activities := Sample.not_json) Sample.day1
       "no plan today"
     = [ {| time := "09:00"; activity_title := "探索" ++ city Sample.day1;
             description := "开始一天的精彩旅程";
             location := {| name := city Sample.day1; lat := None; lng := None;
                            address := None |};
             tips := None |};
          {| time := "12:00"; activity_title := "午餐时间";
             description := "品尝当地特色美食";
             location := {| name := "当地餐厅"; lat := None; lng := None;
                            address := None |};
             tips := None |};
          {| time := "14:00"; activity_title := "文化体验";
             description := "深入了解当地文化";
             location := {| name := "文化景点"; lat := None; lng := None;
                            address := None |};
             tips := None |};
          {| time := "18:00"; activity_title := "晚餐与休闲";
             description := "享受轻松的晚餐时光";
             location := {| name := "美食街区"; lat := None; lng := None;
                            address := None |};
             tips := None |} ]
  /\ exists r,
      snd (generate Sample.calm (parse_activities := Sample.not_json)
             Sample.plain Sample.no_digits Sample.day1 Sample.trip 0)
      = Fulfilled r
      /\ Forall2 same_text (getDefaultActivities Sample.day1)
                 (activities (dayPlan r))
      /\ List.length (activities (dayPlan r)) = 4%nat
      /\ map (fun a => (time a, activity_title a, description a, tips a))
             (activities (dayPlan r))
         = [ ("09:00", "探索" ++ city Sample.day1, "开始一天的精彩旅程", None);
               ("12:00", "午餐时间", "品尝当地特色美食", None);
               ("14:00", "文化体验", "深入了解当地文化", None);
               ("18:00", "晚餐与休闲", "享受轻松的晚餐时光", None) ].
Proof.
  apply (proj1 (generate_fallback_and_only_rejection Sample.calm
                  (parse_activities := Sample.not_json)
                  Sample.plain Sample.no_digits Sample.day1 Sample.trip 0)
               "no plan today" (Error "No JSON array found in response")).
  - reflexivity.
  - vm_compute. reflexivity.
Defined.

(** A confidence of 0.575 is logged as 57 percent: the double nearest to
    0.575 lies below it, and so does its product with 100. *)
Example Math_round_confidence :
  Math_round (fmul 0.575 100) = 57 /\ Math_round (fmul 0.6 100) = 60
  /\ Math_round (fmul (fdiv 1 3) 60) = 20.
Proof. vm_compute. repeat split. Qed.

Example parseAIJsonResponse_fenced :
  parseAIJsonResponse (parse := SampleStream.structures)
    ("```json" ++ nl ++ SampleStream.one_day_text ++ nl ++ "```" ++ nl)
  = Ok SampleStream.one_day_answer.
Proof. vm_compute. reflexivity. Qed.

Example parseAIJsonResponse_prose :
  parseAIJsonResponse (parse := SampleStream.structures)
    ("Here is the plan: " ++ SampleStream.one_day_text ++ " Enjoy!")
  = Ok SampleStream.one_day_answer.
Proof. vm_compute. reflexivity. Qed.

Example parseAIJsonResponse_braces_reversed :
  parseAIJsonResponse (parse := SampleStream.structures) "} nothing here {"
  = Throw (Error "No valid JSON object found in response").
Proof. vm_compute. reflexivity. Qed.

Example parseAIJsonResponse_not_json :
  parseAIJsonResponse (parse := SampleStream.structures) "{ day one }"
  = Throw (SyntaxError "Unexpected token").
Proof. vm_compute. reflexivity. Qed.

(** * Further properties of the pipeline *)

Import AnalysisSpec WorkerSpec DocumentSpec StreamSpec OrchestratorSpec.

(** ** The scene analysis and its cache *)

Lemma cache_get_set (key : string) (v : SceneAnalysis)
  (c : list (string * SceneAnalysis)) :
  cache_get key (cache_set key v c) = Some v.
Proof.
  unfold cache_get. induction c as [|[k w] c IH]; simpl.
  - now rewrite String.eqb_refl.
  - destruct (String.eqb k key) eqn:E; simpl; rewrite E; [reflexivity | exact IH].
Qed.

Section SceneAnalysisFacts.
Variable W : World.
Context {parse_analysis : JsonType RawSceneAnalysis}.
Variable toLowerCase : string -> string.

(** X1. analyzeScene always fulfils with an analysis. When the cache has
    no entry for the request and the agent has no client, or the
    confirmation call fails, the result is the fallback analysis of the
    scene quickPredict gives and the agent is left as it was; without a
    client no call is made, and an agent made by createIntentAgent when no
    API key is configured is such an agent. *)
Theorem analyzeScene_limited_mode (agent : IntentAgent) (input : string)
  (mediaContext : option string) :
  let run := analyzeScene W toLowerCase agent input mediaContext in
  let fallback := getFallbackAnalysis (quickPredict toLowerCase input) in
  (exists a agent', snd run = Fulfilled (a, agent'))
  /\ (cache_get (input ++ "-" ++ or_else mediaContext "") (cache agent) = None ->
      (agent_client agent = None -> run = ([], Fulfilled (fallback, agent)))
      /\ (forall e, agent_client agent <> None ->
                    generateContent W SceneCall = Throw e ->
                    run = ([CallGenerateContent SceneCall],
                           Fulfilled (fallback, agent))))
  /\ (forall e, getGlmClient W = Throw e ->
      analyzeScene W toLowerCase (createIntentAgent W None) input mediaContext
      = ([], Fulfilled (fallback, new_IntentAgent None))).
Proof.
  intros run fallback. subst run fallback. unfold analyzeScene. split; [| split].
  - destruct (cache_get _ _); [now eexists _, _ |].
    destruct (agent_client agent); [| now eexists _, _].
    destruct (generateContent W SceneCall); simpl; now eexists _, _.
  - intros ->. split.
    + now intros ->.
    + intros e Hc He. destruct (agent_client agent); [| contradiction].
      now rewrite He.
  - intros e He. unfold createIntentAgent. now rewrite He.
Qed.

(** X2. After a confirmed analysis (client present, nothing cached, the
    call answered), a second analyzeScene whose input and media context
    join to the same cache key makes no call and returns the same
    analysis. The key is the plain concatenation input-mediaContext, so
    two different requests that join to the same text share one entry. *)
Theorem analyzeScene_cache_hit (agent : IntentAgent) (input input' : string)
  (mediaContext mediaContext' : option string) (response : string) :
  agent_client agent <> None ->
  cache_get (input ++ "-" ++ or_else mediaContext "") (cache agent) = None ->
  generateContent W SceneCall = Ok response ->
  input ++ "-" ++ or_else mediaContext "" = input' ++ "-" ++ or_else mediaContext' "" ->
  exists agent',
    let analysis := parseAnalysisResponse response (quickPredict toLowerCase input) in
    analyzeScene W toLowerCase agent input mediaContext
    = ([CallGenerateContent SceneCall], Fulfilled (analysis, agent'))
    /\ analyzeScene W toLowerCase agent' input' mediaContext'
       = ([], Fulfilled (analysis, agent')).
Proof.
  intros Hc Hmiss Hresp Hkey.
  exists {| agent_client := agent_client agent;
            cache := cache_set (input ++ "-" ++ or_else mediaContext "")
                       (parseAnalysisResponse response
                          (quickPredict toLowerCase input))
                       (cache agent) |}.
  cbv zeta. split.
  - unfold analyzeScene. rewrite Hmiss.
    destruct (agent_client agent); [| contradiction]. rewrite Hresp. reflexivity.
  - unfold analyzeScene; cbn [cache]. rewrite <- Hkey, cache_get_set. reflexivity.
Qed.

Lemma cache_set_consistent key v c :
  consistent v -> Forall (fun entry => consistent (snd entry)) c ->
  Forall (fun entry => consistent (snd entry)) (cache_set key v c).
Proof.
  intros Hv. induction 1 as [|[k w] c Hw Hc IH]; simpl.
  - constructor; [exact Hv | constructor].
  - destruct (String.eqb k key); constructor; trivial.
Qed.

Lemma getFallbackAnalysis_consistent s : consistent (getFallbackAnalysis s).
Proof. split; [reflexivity |]. simpl. intros H. discriminate H. Qed.

Lemma parseAnalysisResponse_consistent response s :
  consistent (parseAnalysisResponse response s).
Proof.
  unfold parseAnalysisResponse.
  destruct (or_match _ _) as [m|]; [| apply getFallbackAnalysis_consistent].
  destruct (JSON_parse _) as [parsed|e]; [| apply getFallbackAnalysis_consistent].
  split; [reflexivity |]. simpl.
  destruct (raw_confidence parsed) as [c|]; [| intros H; discriminate H].
  destruct (Qeq_bool c 0) eqn:E; [intros H; discriminate H |].
  intros H. apply Qeq_bool_iff in H. congruence.
Qed.

(** X3. Invariant of the scene cache: if every cached analysis names the
    template of its own scene type and has a non-zero confidence, then so
    does the analysis analyzeScene returns and so does every entry of the
    cache afterwards; the client of the agent is unchanged. *)
Theorem analyzeScene_consistent (agent : IntentAgent) (input : string)
  (mediaContext : option string) (a : SceneAnalysis) (agent' : IntentAgent) :
  Forall (fun entry => consistent (snd entry)) (cache agent) ->
  snd (analyzeScene W toLowerCase agent input mediaContext) = Fulfilled (a, agent') ->
  consistent a
  /\ Forall (fun entry => consistent (snd entry)) (cache agent')
  /\ agent_client agent' = agent_client agent.
Proof.
  intros Hcache. unfold analyzeScene, cache_get.
  destruct (find _ (cache agent)) as [[k v]|] eqn:E; simpl.
  - intros [= <- <-]. apply find_some in E as [Hin _].
    rewrite Forall_forall in Hcache. split; [exact (Hcache _ Hin) |].
    split; [now apply Forall_forall | reflexivity].
  - destruct (agent_client agent) eqn:Ec; simpl.
    + destruct (generateContent W SceneCall) as [response|e]; simpl.
      * intros [= <- <-]. simpl.
        split; [apply parseAnalysisResponse_consistent |].
        split; [| reflexivity].
        apply cache_set_consistent; [apply parseAnalysisResponse_consistent | exact Hcache].
      * intros [= <- <-]. split; [apply getFallbackAnalysis_consistent |].
        split; [exact Hcache | exact Ec].
    + intros [= <- <-]. split; [apply getFallbackAnalysis_consistent |].
      split; [exact Hcache | exact Ec].
Qed.
End SceneAnalysisFacts.

(** ** The media analysis and the place lookups *)

Lemma for_each_values {X Y} (body : X -> M Y) (l : list X) t ys :
  for_each body l = (t, Fulfilled ys) ->
  Forall2 (fun x y => snd (body x) = Fulfilled y) l ys.
Proof.
  revert t ys; induction l as [|x l IH]; simpl; intros t ys.
  - intros [= <- <-]. constructor.
  - destruct (body x) as [t1 [y|e|]] eqn:Ex; simpl; try discriminate.
    destruct (for_each body l) as [t2 [ys'|e|]]; simpl; try discriminate.
    intros [= <- <-]. constructor; [now rewrite Ex | now apply (IH t2)].
Qed.

Lemma Forall2_nth_error {X Y} (R : X -> Y -> Prop) l l' k x :
  Forall2 R l l' -> nth_error l k = Some x ->
  exists y, nth_error l' k = Some y /\ R x y.
Proof.
  intros H; revert k; induction H as [|a b l l' Hab _ IH]; intros [|k]; simpl;
    try discriminate.
  - intros [= <-]. now exists b.
  - apply IH.
Qed.

Lemma nth_error_combine_seq {X} (l : list X) base k x :
  nth_error l k = Some x ->
  nth_error (combine (seq base (List.length l)) l) k = Some ((base + k)%nat, x).
Proof.
  revert base k; induction l as [|a l IH]; intros base [|k]; simpl; try discriminate.
  - intros [= <-]. now rewrite Nat.add_0_r.
  - intros H. rewrite (IH (S base) k H). f_equal. f_equal. lia.
Qed.

Section MediaFacts.
Variable W : World.

(** X4. analyzeUserMedia never rejects and gives one insight per file, in
    the order of the files; for no files it makes no call and the summary
    is empty. A file whose analysis call fails, or whose reading fails
    when it carries no base64 data, gets the line saying its analysis
    failed, any other file the trimmed answer; the summary is the header
    with the number of files followed by the insights, one per line. *)
Theorem analyzeUserMedia_insights (files : list UploadedFile) :
  exists t found,
    analyzeUserMedia W files = (t, Fulfilled found)
    /\ List.length (insights found) = List.length files
    /\ (files = [] -> t = [] /\ media_summary found = "")
    /\ (files <> [] ->
        media_summary found
        = "用户上传了 " ++ show_Z (Z.of_nat (List.length files))
          ++ " 个媒体文件作为参考：" ++ nl ++ join nl (insights found))
    /\ (forall k file,
           nth_error files k = Some file ->
           exists insight,
             nth_error (insights found) k = Some insight
             /\ (forall e, generateContent W (MediaCall k) = Throw e ->
                           insight = "文件 " ++ file_name file ++ " 分析失败")
             /\ (forall e, has_base64 file = false ->
                           readAsDataURL W k = Throw e ->
                           insight = "文件 " ++ file_name file ++ " 分析失败")
             /\ (forall response,
                    generateContent W (MediaCall k) = Ok response ->
                    has_base64 file = true \/ is_ok (readAsDataURL W k) = true ->
                    insight = trim response)).
Proof.
  destruct (analyzeUserMedia_settles W files) as (t & found & E & _).
  exists t, found. split; [exact E |].
  unfold analyzeUserMedia in E. destruct files as [|f files].
  - injection E as <- <-. simpl.
    split; [reflexivity |]. split; [now intros _ |].
    split; [intros Hne; now destruct Hne |].
    intros k file Hk. now destruct k.
  - set (all := f :: files) in *.
    destruct (for_each _ _) as [t' [ys|e|]] eqn:Eeach; simpl in E; try discriminate.
    pose proof (for_each_values _ _ _ _ Eeach) as Hvalues.
    assert (Hlen : List.length ys = List.length all).
    { apply Forall2_length in Hvalues.
      now rewrite <- Hvalues, length_combine, length_seq, Nat.min_id. }
    injection E as <- <-. cbn [insights media_summary].
    split; [exact Hlen |]. split; [discriminate |]. split.
    + intros _. destruct ys; [discriminate | reflexivity].
    + intros k file Hk.
      pose proof (nth_error_combine_seq all 0 k file Hk) as Hentry.
      destruct (Forall2_nth_error _ _ _ _ _ Hvalues Hentry) as (insight & Hi & Hrun).
      exists insight. split; [exact Hi |].
      cbn [fst snd Nat.add] in Hrun. unfold analyzeFile, has_base64 in *.
      destruct (base64 file) as [data|]; [destruct (truthy_string data) |];
        destruct (readAsDataURL W k) as [d|e1];
        destruct (generateContent W (MediaCall k)) as [r|e2];
        simpl in Hrun; injection Hrun as <-;
        (split; [intros ? [=]; reflexivity || discriminate |]);
        (split; [intros ? ? [=]; reflexivity || discriminate |]);
        try (intros ? [= <-] _; reflexivity);
        intros ? [=]; try discriminate; intros [|]; discriminate.
Qed.
End MediaFacts.

Section EnrichmentFacts.
Variable W : World.
Context {parse_activities : JsonType (list RawActivity)}.
Variable encodeURIComponent : string -> string.
Variable Number_toString : coordinate -> string.

Lemma searchPlace_run (keyword city : string) :
  searchPlace W keyword city
  = ([CallAmap keyword city],
     Fulfilled match amap_lookup W keyword city with
               | Ok found => found
               | Throw _ => None
               end).
Proof.
  unfold searchPlace. now destruct (amap_lookup W keyword city).
Qed.

Lemma enrichActivity_run (ds : DayPlanSkeleton) (a : Activity) :
  exists a',
    enrichActivity W ds a = (place_lookups (city ds) [a], Fulfilled a')
    /\ enriched W ds a a'.
Proof.
  unfold enrichActivity, enriched, place_lookups, same_text. simpl.
  destruct (truthy_string (name (location a))); simpl.
  - rewrite searchPlace_run.
    destruct (amap_lookup W _ _) as [[poi|]|e]; simpl; eexists;
      (split; [reflexivity |]); simpl; tauto.
  - exists a. tauto.
Qed.

Lemma enrichWithPOI_run (ds : DayPlanSkeleton)
  (activities : list Activity) :
  exists enrichedActivities,
    enrichWithPOI W ds activities
    = (place_lookups (city ds) activities, Fulfilled enrichedActivities)
    /\ Forall2 (enriched W ds) activities enrichedActivities.
Proof.
  unfold enrichWithPOI. induction activities as [|a l IH]; simpl.
  - exists []. split; [reflexivity | constructor].
  - destruct IH as (l' & El & Hl).
    destruct (enrichActivity_run ds a) as (a' & Ea & Ha).
    rewrite Ea, El. exists (a' :: l'). split.
    + unfold place_lookups; simpl. now rewrite app_nil_r.
    + now constructor.
Qed.
End EnrichmentFacts.

(** ** The activities of a day and the calls of its worker *)

Section ActivityFacts.
Variable W : World.
Context {parse_activities : JsonType (list RawActivity)}.
Variable encodeURIComponent : string -> string.
Variable Number_toString : coordinate -> string.

Lemma or_else_truthy (a : option string) (b : string) :
  b <> "" -> or_else a b <> "".
Proof.
  unfold or_else. destruct a as [s|]; trivial.
  destruct (String.eqb_spec s ""); trivial.
Qed.

(** X5. When the answer holds a JSON array that parses, parseActivities
    returns one activity per element, in order: a time or title that is
    given and not empty is kept, a missing or empty time becomes 09:00 and
    a missing or empty title the default title, description and location
    name are kept as given and are the empty string when missing, and no
    coordinates, address or tips are set. An empty array gives no
    activities at all: the four default activities are not used then. *)
Theorem parseActivities_parsed (ds : DayPlanSkeleton) (response : string)
  (m : RegExpMatch) (raws : list RawActivity) :
  or_match (match_json_fence response) (match_span response "[" "]") = Some m ->
  JSON_parse (matched_json m) = Ok raws ->
  let parsed := parseActivities ds response in
  List.length parsed = List.length raws
  /\ Forall (fun a => time a <> "" /\ activity_title a <> ""
                      /\ lat (location a) = None /\ lng (location a) = None
                      /\ tips a = None) parsed
  /\ Forall2 (fun raw a =>
                (forall s, raw_time raw = Some s -> s <> "" -> time a = s)
                /\ (forall s, raw_title raw = Some s -> s <> "" -> activity_title a = s)
                /\ (raw_time raw = None -> time a = "09:00")
                /\ (raw_title raw = None -> activity_title a = "活动")
                /\ description a = or_else (raw_description raw) ""
                /\ name (location a) = or_else (raw_location raw) ""
                /\ (raw_time raw = Some "" -> time a = "09:00")
                /\ (raw_title raw = Some "" -> activity_title a = "活动")
                /\ (forall s, raw_description raw = Some s -> description a = s)
                /\ (raw_description raw = None -> description a = "")
                /\ (forall s, raw_location raw = Some s -> name (location a) = s)
                /\ (raw_location raw = None -> name (location a) = "")
                /\ address (location a) = None)
             raws parsed
  /\ (raws = [] -> parsed = []).
Proof.
  intros Hm Hp parsed. subst parsed.
  unfold parseActivities, parseActivities_try. rewrite Hm, Hp.
  split; [apply length_map |]. split; [| split].
  - apply Forall_forall. intros a Ha. apply in_map_iff in Ha as (raw & <- & _).
    simpl. repeat split; apply or_else_truthy; discriminate.
  - clear Hp. induction raws as [|raw raws IH]; simpl; constructor; [| exact IH].
    simpl. unfold or_else. repeat split.
    + intros s -> Hs. now destruct (String.eqb_spec s "").
    + intros s -> Hs. now destruct (String.eqb_spec s "").
    + now intros ->.
    + now intros ->.
    + now intros ->.
    + now intros ->.
    + intros s ->. now destruct (String.eqb_spec s "").
    + now intros ->.
    + intros s ->. now destruct (String.eqb_spec s "").
    + now intros ->.
  - now intros ->.
Qed.

Lemma generate_calls (ds : DayPlanSkeleton) (ts : TripSkeleton) (i : nat) :
  let run := generate W encodeURIComponent Number_toString ds ts i in
  (forall e, generateContent W (ActivityCall i) = Throw e ->
             run = ([CallGenerateContent (ActivityCall i)], Rejected e))
  /\ (forall response,
         generateContent W (ActivityCall i) = Ok response ->
         exists r,
           run = ((CallGenerateContent (ActivityCall i)
                   :: place_lookups (city ds) (parseActivities ds response)
                   ++ [CallImages (visualKeyword ds) 3 landscape])%list,
                  Fulfilled r)
           /\ html r
              = generateHTML encodeURIComponent Number_toString ds ts (dayPlan r)
                  match fetchImages W (visualKeyword ds) 3 landscape with
                  | Ok images => images
                  | Throw _ => []
                  end
           /\ plan_day (dayPlan r) = day ds /\ plan_title (dayPlan r) = title ds
           /\ plan_theme (dayPlan r) = theme ds /\ plan_city (dayPlan r) = city ds
           /\ Forall2 (enriched W ds) (parseActivities ds response)
                      (activities (dayPlan r))).
Proof.
  intros run. subst run. unfold generate. rewrite try_catch_rethrow.
  unfold generateActivities. split.
  - intros e ->. reflexivity.
  - intros response ->. cbn [await bind ret].
    destruct (enrichWithPOI_run W ds (parseActivities ds response))
      as (l' & -> & Hl).
    cbn [bind]. unfold fetchDayImages.
    destruct (fetchImages W (visualKeyword ds) 3 landscape) as [images|e];
      cbn [await try_catch bind ret]; eexists;
      (split; [rewrite ?app_nil_r; reflexivity |]); simpl; repeat split; trivial.
Qed.

End ActivityFacts.

(** ** The batches of the orchestrator *)

Lemma worker_calls_app (t t' : list event) :
  worker_calls (t ++ t') = (worker_calls t ++ worker_calls t')%list.
Proof. apply flat_map_app. Qed.

Lemma worker_calls_place_lookups city l : worker_calls (place_lookups city l) = [].
Proof.
  unfold place_lookups. induction l as [|a l IH]; simpl; [reflexivity |].
  rewrite worker_calls_app, IH, app_nil_r.
  now destruct (truthy_string _).
Qed.

Lemma Promise_all_trace {A} (ps : list (M A)) :
  fst (Promise_all ps) = concat (map fst ps).
Proof.
  induction ps as [|[t r] ps IH]; simpl; [reflexivity |].
  destruct (Promise_all ps) as [t' rs]; simpl in *. now rewrite IH.
Qed.

Lemma Promise_all_fulfilled_inv {A} (ps : list (M A)) (vs : list A) :
  snd (Promise_all ps) = Fulfilled vs ->
  Forall2 (fun p v => snd p = Fulfilled v) ps vs.
Proof.
  revert vs; induction ps as [|[t r] ps IH]; simpl; intros vs.
  - intros [= <-]. constructor.
  - destruct (Promise_all ps) as [t' [l|e|]]; destruct r as [a|e'|]; simpl;
      try discriminate.
    intros [= <-]. constructor; [reflexivity | now apply IH].
Qed.

Section BatchFacts.
Variable W : World.
Context {parse_activities : JsonType (list RawActivity)}.
Variable encodeURIComponent : string -> string.
Variable Number_toString : coordinate -> string.
Variable tripSkeleton : TripSkeleton.

Let run (sk : DayPlanSkeleton) (i : nat) : M DayGenerationResult :=
  DayAgent_run W encodeURIComponent Number_toString sk tripSkeleton i.

Lemma generate_trace (ds : DayPlanSkeleton) (i : nat) :
  exists lookups images,
    fst (generate W encodeURIComponent Number_toString ds tripSkeleton i)
    = (CallGenerateContent (ActivityCall i) :: lookups ++ images)%list
    /\ worker_calls lookups = [] /\ worker_calls images = [].
Proof.
  unfold generate. rewrite try_catch_rethrow. unfold generateActivities.
  destruct (generateContent W (ActivityCall i)) as [response|e].
  - cbn [await bind ret].
    destruct (enrichWithPOI_run W ds (parseActivities ds response))
      as (l' & -> & _).
    cbn [bind]. unfold fetchDayImages.
    exists (place_lookups (city ds) (parseActivities ds response)),
           [CallImages (visualKeyword ds) 3 landscape].
    split; [| split; [apply worker_calls_place_lookups | reflexivity]].
    destruct (fetchImages W (visualKeyword ds) 3 landscape);
      cbn [await try_catch bind ret fst]; now rewrite ?app_nil_r.
  - exists [], []. now split.
Qed.

Lemma DayAgent_run_worker_calls (sk : DayPlanSkeleton) (i j : nat) :
  In j (worker_calls (fst (run sk i))) -> j = i.
Proof.
  unfold run, DayAgent_run. destruct (getGlmClient W) as [c|e]; simpl;
    [| contradiction].
  destruct (generate_trace sk i) as (lookups & images & E & Hl & Hi).
  destruct (generate _ _ _ _ _ _) as [t p]. simpl in *. subst t.
  simpl. rewrite worker_calls_app, Hl, Hi. simpl. intros [<-|[]]. reflexivity.
Qed.

Lemma start_batch_worker_calls (i : nat) (batch : list DayPlanSkeleton) (j : nat) :
  In j (worker_calls
          (fst (Promise_all
                  (start_batch W encodeURIComponent Number_toString tripSkeleton
                               i batch)))) ->
  (i <= j < i + List.length batch)%nat.
Proof.
  rewrite Promise_all_trace. revert i; induction batch as [|sk rest IH];
    intros i; simpl; [contradiction |].
  rewrite worker_calls_app, in_app_iff. intros [Hj|Hj].
  - apply DayAgent_run_worker_calls in Hj. lia.
  - apply IH in Hj. lia.
Qed.

Section BatchLoop.
Variable daySkeletons : list DayPlanSkeleton.
Variable concurrency : nat.

Let loop :=
  batch_loop W encodeURIComponent Number_toString daySkeletons tripSkeleton
             concurrency.

Lemma batch_loop_empty_trace :
  concurrency = 0%nat ->
  forall fuel acc, fst (loop fuel 0 acc) = [].
Proof.
  intros ->. induction fuel as [|fuel IH]; intros acc; unfold loop; simpl;
    destruct (0 <? List.length daySkeletons)%nat; simpl; trivial.
  unfold loop in IH. specialize (IH (acc ++ [])%list).
  destruct (batch_loop _ _ _ _ _ _ fuel 0 _) as [t p]. simpl in *. exact IH.
Qed.

Hypothesis concurrency_positive : (0 < concurrency)%nat.

Lemma batch_loop_worker_calls (k : nat) (sk : DayPlanSkeleton) (e : exn) :
  nth_error daySkeletons k = Some sk ->
  snd (run sk k) = Rejected e ->
  forall fuel i acc j,
    (exists a, i = a * concurrency)%nat -> (i <= k)%nat ->
    In j (worker_calls (fst (loop fuel i acc))) ->
    (j < k / concurrency * concurrency + concurrency)%nat.
Proof.
  intros Hk He.
  assert (Hkn : (k < List.length daySkeletons)%nat)
    by (apply nth_error_Some; congruence).
  induction fuel as [|fuel IH]; intros i acc j [a Ha] Hik; unfold loop; simpl;
    destruct (Nat.ltb_spec i (List.length daySkeletons)) as [Hi|Hi];
    simpl; try contradiction.
  set (batch := firstn concurrency (skipn i daySkeletons)).
  assert (Hbound : (i + concurrency
                    <= k / concurrency * concurrency + concurrency)%nat).
  { assert (a <= k / concurrency)%nat
      by (apply Nat.div_le_lower_bound; nia).
    nia. }
  assert (Hbatch : forall j,
             In j (worker_calls
                     (fst (Promise_all
                             (start_batch W encodeURIComponent Number_toString
                                          tripSkeleton i batch)))) ->
             (j < k / concurrency * concurrency + concurrency)%nat).
  { intros j' Hj'. apply start_batch_worker_calls in Hj'.
    assert (List.length batch <= concurrency)%nat
      by (unfold batch; rewrite length_firstn; lia).
    lia. }
  destruct (Promise_all (start_batch _ _ _ _ i batch)) as [t [vs|e'|]] eqn:E;
    simpl in *; try (apply Hbatch).
  destruct (le_lt_dec (i + concurrency) k) as [Hlater|Hnow].
  - fold loop.
    destruct (loop fuel (i + concurrency)%nat (acc ++ vs)%list) as [t' p'] eqn:El.
    simpl. rewrite worker_calls_app, in_app_iff. intros [Hj|Hj].
    + now apply Hbatch.
    + apply (IH (i + concurrency)%nat (acc ++ vs)%list j).
      * exists (S a). lia.
      * exact Hlater.
      * now rewrite El.
  - exfalso.
    assert (Hf : snd (Promise_all (start_batch W encodeURIComponent
                                     Number_toString tripSkeleton i batch))
                 = Fulfilled vs) by now rewrite E.
    apply Promise_all_fulfilled_inv in Hf.
    assert (Hnth : nth_error (start_batch W encodeURIComponent Number_toString
                                tripSkeleton i batch) (k - i)
                   = Some (run sk k)).
    { rewrite (start_batch_nth W encodeURIComponent Number_toString tripSkeleton).
      unfold batch. rewrite nth_error_firstn.
      destruct (Nat.ltb_spec (k - i) concurrency); [| lia].
      rewrite nth_error_skipn.
      replace (i + (k - i))%nat with k by lia. rewrite Hk. reflexivity. }
    destruct (Forall2_nth_error _ _ _ _ _ Hf Hnth) as (v & _ & Hv).
    congruence.
Qed.

End BatchLoop.

(** X6. With no day skeletons generateDaysParallel fulfils with the empty
    list and makes no call, whatever the batch size. With a batch size of
    0 and at least one skeleton the loop never advances: no call is made
    and the promise never settles (in the model it is pending for every
    bound on the number of turns). *)
Theorem generateDaysParallel_degenerate :
  (forall concurrency fuel,
      generateDaysParallel W encodeURIComponent Number_toString [] tripSkeleton
        concurrency fuel = ([], Fulfilled []))
  /\ (forall daySkeletons fuel,
         daySkeletons <> [] ->
         generateDaysParallel W encodeURIComponent Number_toString daySkeletons
           tripSkeleton 0 fuel = ([], Pending)).
Proof.
  split.
  - intros c [|fuel]; reflexivity.
  - intros ds fuel Hne. unfold generateDaysParallel.
    pose proof (batch_loop_stuck W encodeURIComponent Number_toString
                  tripSkeleton ds 0 eq_refl Hne fuel []) as Hs.
    pose proof (batch_loop_empty_trace ds 0 eq_refl fuel []) as Ht.
    destruct (batch_loop _ _ _ _ _ _ fuel 0 []) as [t p]. simpl in *.
    now subst t p.
Qed.

(** X7. When the worker of the skeleton at index k rejects and the batch
    size c is at least 1, no worker of a later batch is started: every
    worker call made has an index below (k div c) * c + c. *)
Theorem generateDaysParallel_stops_after_failed_batch
  (daySkeletons : list DayPlanSkeleton) (concurrency fuel k : nat)
  (sk : DayPlanSkeleton) (e : exn) :
  (0 < concurrency)%nat ->
  nth_error daySkeletons k = Some sk ->
  snd (run sk k) = Rejected e ->
  forall j,
    In j (worker_calls
            (fst (generateDaysParallel W encodeURIComponent Number_toString
                    daySkeletons tripSkeleton concurrency fuel))) ->
    (j < k / concurrency * concurrency + concurrency)%nat.
Proof.
  intros Hc Hk He j. unfold generateDaysParallel.
  pose proof (batch_loop_worker_calls daySkeletons concurrency Hc k sk e Hk He
                fuel 0%nat [] j) as Hloop.
  destruct (batch_loop _ _ _ _ _ _ fuel 0 []) as [t [rs|e'|]]; simpl in *;
    rewrite ?app_nil_r; apply Hloop; try (exists 0%nat); lia.
Qed.

End BatchFacts.

(** ** What the stream yields *)

Lemma early_call_yields (t : list event) :
  forallb early_call t = true -> yields t = [].
Proof.
  induction t as [|ev t IH]; simpl; [reflexivity |].
  intros H. apply andb_true_iff in H as [Hev Ht]. rewrite (IH Ht).
  destruct ev; try discriminate; reflexivity.
Qed.

Lemma yields_place_lookups city l : yields (place_lookups city l) = [].
Proof.
  unfold place_lookups. induction l as [|a l IH]; simpl; [reflexivity |].
  unfold yields in *. rewrite flat_map_app, IH, app_nil_r.
  now destruct (truthy_string _).
Qed.

Section StreamTraceFacts.
Variable W : World.
Context {parse_visual : JsonType VisualIdentity}
        {parse_structure : JsonType StructureAnswer}
        {parse_activities : JsonType (list RawActivity)}
        {parse_analysis : JsonType RawSceneAnalysis}.
Variable toLowerCase : string -> string.
Variable encodeURIComponent : string -> string.
Variable Number_toString : coordinate -> string.

Lemma generate_yields (ds : DayPlanSkeleton) (ts : TripSkeleton) (i : nat) :
  yields (fst (generate W encodeURIComponent Number_toString ds ts i)) = [].
Proof.
  unfold generate. rewrite try_catch_rethrow. unfold generateActivities.
  destruct (generateContent W (ActivityCall i)) as [response|e]; [| reflexivity].
  cbn [await bind ret].
  destruct (enrichWithPOI_run W ds (parseActivities ds response))
    as (l' & -> & _).
  cbn [bind]. unfold fetchDayImages.
  destruct (fetchImages W (visualKeyword ds) 3 landscape);
    cbn [await try_catch bind ret fst]; rewrite ?app_nil_r;
    cbn [yields flat_map app]; fold (yields);
    change (flat_map (fun ev => match ev with Yield c => [c] | _ => [] end))
      with yields;
    rewrite yields_app, yields_place_lookups; reflexivity.
Qed.

Lemma DayAgent_run_yields (ds : DayPlanSkeleton) (ts : TripSkeleton) (i : nat) :
  yields (fst (DayAgent_run W encodeURIComponent Number_toString ds ts i)) = [].
Proof.
  unfold DayAgent_run. destruct (getGlmClient W); simpl; [| reflexivity].
  pose proof (generate_yields ds ts i) as H.
  destruct (generate _ _ _ _ _ _) as [t p]. exact H.
Qed.

Lemma start_batch_yields (ts : TripSkeleton) (i : nat) (batch : list DayPlanSkeleton) :
  yields (fst (Promise_all
                 (start_batch W encodeURIComponent Number_toString ts i batch)))
  = [].
Proof.
  rewrite Promise_all_trace. revert i; induction batch as [|sk rest IH];
    intros i; simpl; [reflexivity |].
  now rewrite yields_app, DayAgent_run_yields, IH.
Qed.

Lemma batch_loop_yields (ts : TripSkeleton) (l : list DayPlanSkeleton) (c : nat) :
  forall fuel i acc,
    yields (fst (batch_loop W encodeURIComponent Number_toString l ts c
                   fuel i acc)) = [].
Proof.
  induction fuel as [|fuel IH]; intros i acc; simpl;
    destruct (i <? List.length l)%nat; simpl; trivial.
  pose proof (start_batch_yields ts i (firstn c (skipn i l))) as Hb.
  destruct (Promise_all _) as [t [vs|e|]]; simpl in *; trivial.
  specialize (IH (i + c)%nat (acc ++ vs)%list).
  destruct (batch_loop _ _ _ _ _ _ fuel _ _) as [t' p']. simpl in *.
  now rewrite yields_app, Hb, IH.
Qed.

Lemma generateDaysParallel_yields (ts : TripSkeleton) (l : list DayPlanSkeleton)
  (c fuel : nat) :
  yields (fst (generateDaysParallel W encodeURIComponent Number_toString l ts c
                 fuel)) = [].
Proof.
  unfold generateDaysParallel.
  pose proof (batch_loop_yields ts l c fuel 0%nat []) as H.
  destruct (batch_loop _ _ _ _ _ _ fuel _ _) as [t [vs|e|]]; simpl in *;
    rewrite ?app_nil_r; exact H.
Qed.

Lemma template_cons (x y : string) (l : list string) :
  template (x :: y :: l) = x ++ template (y :: l).
Proof. reflexivity. Qed.

Lemma generateHTML_opening (ds : DayPlanSkeleton) (ts : TripSkeleton)
  (dayPlan : DayPlan) (images : list string) :
  startsWith (generateHTML encodeURIComponent Number_toString ds ts dayPlan images)
             nl = true.
Proof.
  unfold generateHTML. cbv zeta. rewrite template_cons. apply prefix_append.
Qed.

Lemma template_app (l l' : list string) :
  template (l ++ l') = template l ++ template l'.
Proof.
  unfold template. induction l as [|x l IH]; [reflexivity |].
  destruct l as [|y l].
  - destruct l' as [|y l']; simpl; [now rewrite append_empty_r | reflexivity].
  - change (String.concat "" ((x :: y :: l) ++ l'))
      with (x ++ String.concat "" ((y :: l) ++ l')).
    rewrite IH. change (String.concat "" (x :: y :: l))
      with (x ++ String.concat "" (y :: l)).
    now rewrite append_assoc.
Qed.

Lemma generateHTML_day_opening (ds : DayPlanSkeleton) (ts : TripSkeleton)
  (dayPlan : DayPlan) (images : list string) :
  startsWith (generateHTML encodeURIComponent Number_toString ds ts dayPlan images)
             (generated_day_opening (plan_day dayPlan)) = true.
Proof.
  unfold generateHTML, generated_day_opening. cbv zeta.
  match goal with
  | |- startsWith (template (?a :: ?b :: ?c :: ?d :: ?e :: ?f :: ?g :: ?h :: ?i
                             :: ?j :: ?rest)) _ = _ =>
      change (template (a :: b :: c :: d :: e :: f :: g :: h :: i :: j :: rest))
        with (template ([a; b; c; d; e; f; g; h; i; j] ++ rest))
  end.
  rewrite template_app. apply prefix_append.
Qed.

Lemma DayAgent_run_section (ds : DayPlanSkeleton) (ts : TripSkeleton) (i : nat)
  (r : DayGenerationResult) :
  snd (DayAgent_run W encodeURIComponent Number_toString ds ts i) = Fulfilled r ->
  startsWith (html r) (generated_day_opening (day ds)) = true.
Proof.
  unfold DayAgent_run. destruct (getGlmClient W); simpl; [| discriminate].
  unfold generate. rewrite try_catch_rethrow. unfold generateActivities.
  destruct (generateContent W (ActivityCall i)) as [response|e]; [| discriminate].
  cbn [await bind ret].
  destruct (enrichWithPOI_run W ds (parseActivities ds response))
    as (l' & -> & _).
  cbn [bind]. unfold fetchDayImages.
  destruct (fetchImages W (visualKeyword ds) 3 landscape);
    cbn [await try_catch bind ret fst snd]; intros [= <-];
    exact (generateHTML_day_opening ds ts _ _).
Qed.

Lemma worker_outputs_section (ts : TripSkeleton) (base : nat)
  (l : list DayPlanSkeleton) (rs : list DayGenerationResult) :
  worker_outputs
    (fun sk i => DayAgent_run W encodeURIComponent Number_toString sk ts i)
    base l rs ->
  Forall (fun r => startsWith (html r) (generated_day_opening (day (skeleton r)))
                   = true) rs.
Proof.
  induction 1 as [|i sk rest r rs Hr _ IH]; constructor; [| exact IH].
  destruct (DayAgent_run_cases W encodeURIComponent Number_toString ts sk i)
    as [(r' & Hr' & _ & Hsk)|(e & He)]; [| congruence].
  assert (r' = r) as -> by congruence.
  rewrite Hsk. now apply DayAgent_run_section in Hr.
Qed.

Lemma DayAgent_run_html (ds : DayPlanSkeleton) (ts : TripSkeleton) (i : nat)
  (r : DayGenerationResult) :
  snd (DayAgent_run W encodeURIComponent Number_toString ds ts i) = Fulfilled r ->
  startsWith (html r) nl = true.
Proof.
  unfold DayAgent_run. destruct (getGlmClient W); simpl; [| discriminate].
  unfold generate. rewrite try_catch_rethrow. unfold generateActivities.
  destruct (generateContent W (ActivityCall i)) as [response|e]; [| discriminate].
  cbn [await bind ret].
  destruct (enrichWithPOI_run W ds (parseActivities ds response))
    as (l' & -> & _).
  cbn [bind]. unfold fetchDayImages.
  destruct (fetchImages W (visualKeyword ds) 3 landscape);
    cbn [await try_catch bind ret fst snd]; intros [= <-];
    apply generateHTML_opening.
Qed.

Lemma worker_outputs_html (ts : TripSkeleton) (base : nat)
  (l : list DayPlanSkeleton) (rs : list DayGenerationResult) :
  worker_outputs
    (fun sk i => DayAgent_run W encodeURIComponent Number_toString sk ts i)
    base l rs ->
  Forall (fun r => startsWith (html r) nl = true) rs.
Proof.
  induction 1 as [|i sk rest r rs Hr _ IH]; constructor; [| exact IH].
  now apply DayAgent_run_html in Hr.
Qed.

(** Every worker fulfils, or one of them rejects. *)
Lemma workers_outcome (ts : TripSkeleton) (base : nat) (l : list DayPlanSkeleton) :
  (exists rs,
      worker_outputs
        (fun sk i => DayAgent_run W encodeURIComponent Number_toString sk ts i)
        base l rs)
  \/ (exists k sk e,
         nth_error l k = Some sk
         /\ snd (DayAgent_run W encodeURIComponent Number_toString sk ts (base + k))
            = Rejected e).
Proof.
  revert base; induction l as [|sk rest IH]; intros base.
  - left. exists []. constructor.
  - destruct (DayAgent_run_cases W encodeURIComponent Number_toString ts sk base)
      as [(r & Hr & _)|(e & He)].
    + destruct (IH (S base)) as [(rs & Hrs)|(k & sk' & e & Hk & He)].
      * left. exists (r :: rs). now constructor.
      * right. exists (S k), sk', e. split; [exact Hk |].
        now replace (base + S k)%nat with (S base + k)%nat by lia.
    + right. exists 0%nat, sk, e. split; [reflexivity |].
      now rewrite Nat.add_0_r.
Qed.

Lemma generateDaysParallel_outcome (ts : TripSkeleton) (l : list DayPlanSkeleton) :
  let run := generateDaysParallel W encodeURIComponent Number_toString l ts 3
               (List.length l) in
  (exists outputs results,
      worker_outputs
        (fun sk i => DayAgent_run W encodeURIComponent Number_toString sk ts i)
        0 l outputs
      /\ snd run = Fulfilled results
      /\ results = Array_sort (fun a b => dayNumber a - dayNumber b) outputs
      /\ Permutation results outputs
      /\ Permutation (map skeleton results) l
      /\ ascending results
      /\ Forall (fun r => dayNumber r = day (skeleton r)) results
      /\ Forall (fun r => startsWith (html r) nl = true) results
      /\ Forall (fun r => startsWith (html r)
                             (generated_day_opening (day (skeleton r))) = true)
                results)
  \/ (exists e, snd run = Rejected e).
Proof.
  intros run. subst run.
  destruct (workers_outcome ts 0 l) as [(rs & Hrs)|(k & sk & e & Hk & He)].
  - left.
    pose proof (batch_loop_fulfilled W encodeURIComponent Number_toString ts l 3
                  ltac:(lia) rs Hrs (List.length l) 0%nat [] ltac:(lia)) as Hloop.
    destruct (worker_outputs_results W encodeURIComponent Number_toString ts
                _ _ _ Hrs) as [Hsk Hday].
    set (results := Array_sort (fun a b => dayNumber a - dayNumber b) rs).
    assert (Hperm : Permutation results rs) by apply Array_sort_perm.
    exists rs, results. split; [exact Hrs |]. unfold generateDaysParallel.
    rewrite (bind_fulfilled _ _ _ Hloop). simpl. split; [reflexivity |].
    split; [reflexivity |]. split; [exact Hperm |].
    split; [rewrite <- Hsk; now apply Permutation_map |].
    split; [apply Array_sort_sorted |].
    split; [| split]; (eapply Permutation_Forall; [symmetry; exact Hperm |]);
      [exact Hday | exact (worker_outputs_html ts 0 l rs Hrs)
       | exact (worker_outputs_section ts 0 l rs Hrs)].
  - right.
    destruct (batch_loop_rejected W encodeURIComponent Number_toString ts l 3
                ltac:(lia) k sk e Hk He (List.length l) 0%nat []
                ltac:(lia) ltac:(lia)) as [e' He'].
    exists e'. unfold generateDaysParallel. now apply bind_rejected.
Qed.

Lemma stream_days_run (total : nat) (results : list DayGenerationResult) :
  forall i,
  exists t,
    stream_days i total results = (t, Fulfilled tt)
    /\ markup (yields t) = map (fun r => DayHtml (html r)) results
    /\ forallb (fun c => negb (is_failure_line c)) (yields t) = true.
Proof.
  induction results as [|r rest IH]; intros i; simpl.
  - now exists [].
  - destruct (IH (S i)) as (t & -> & Hm & Hf). cbn -[Math_round].
    eexists. split; [reflexivity |].
    cbn -[Math_round]. unfold markup, yields in Hm, Hf. now rewrite Hm, Hf.
Qed.
End StreamTraceFacts.

Section StreamCases.
Variable W : World.
Context {parse_visual : JsonType VisualIdentity}
        {parse_structure : JsonType StructureAnswer}
        {parse_activities : JsonType (list RawActivity)}
        {parse_analysis : JsonType RawSceneAnalysis}.
Variable toLowerCase : string -> string.
Variable encodeURIComponent : string -> string.
Variable Number_toString : coordinate -> string.

Lemma yields_cons (ev : event) (t : list event) :
  yields (ev :: t)
  = (match ev with Yield c => [c] | _ => [] end ++ yields t)%list.
Proof. reflexivity. Qed.

Lemma yields_nil : yields [] = [].
Proof. reflexivity. Qed.

Ltac yields_norm :=
  repeat (rewrite yields_app || rewrite yields_cons || rewrite yields_nil);
  cbn [app].

Lemma stream_run_cases (details : TripDetails) (mediaItems : list MediaItem) :
  getGlmClient W = Ok glmClient ->
  let run := generateTravelPlanStream W toLowerCase encodeURIComponent
               Number_toString details mediaItems in
  exists status,
    forallb is_status status = true /\ forallb unfinished status = true
    /\ ((exists e,
            snd run = Rejected e
            /\ yields (fst run) = (status ++ [Log (LogFailure (exn_message e))])%list)
        \/ (exists e visual,
               snd run = Rejected e
               /\ yields (fst run)
                  = (status ++ [HtmlStart visual; Progress OVERVIEW 20 None;
                                Log LogPlanner;
                                Log (LogFailure (exn_message e))])%list)
        \/ (exists e visual plan,
               snd run = Rejected e
               /\ planned_from W visual plan
               /\ yields (fst run)
                  = (status ++ [HtmlStart visual; Progress OVERVIEW 20 None;
                                Log LogPlanner; SkeletonPayload plan;
                                OverviewHtml (palette visual) plan;
                                Progress DAY_1 30 None;
                                Log LogDayAgentStart;
                                Log (LogFailure (exn_message e))])%list)
        \/ (exists visual plan outputs results days_trace,
               snd run = Fulfilled tt
               /\ planned_from W visual plan
               /\ worker_outputs
                    (fun sk i => DayAgent_run W encodeURIComponent Number_toString
                                   sk plan i)
                    0 (days plan) outputs
               /\ results = Array_sort (fun a b => dayNumber a - dayNumber b) outputs
               /\ Permutation results outputs
               /\ stream_days 0 (List.length results) results
                  = (days_trace, Fulfilled tt)
               /\ Permutation (map skeleton results) (days plan)
               /\ ascending results
               /\ Forall (fun r => dayNumber r = day (skeleton r)) results
               /\ Forall (fun r => startsWith (html r) nl = true) results
               /\ Forall (fun r => startsWith (html r)
                                      (generated_day_opening (day (skeleton r)))
                                    = true) results
               /\ yields (fst run)
                  = (status ++ [HtmlStart visual; Progress OVERVIEW 20 None;
                                Log LogPlanner; SkeletonPayload plan;
                                OverviewHtml (palette visual) plan;
                                Progress DAY_1 30 None;
                                Log LogDayAgentStart]
                     ++ yields days_trace
                     ++ [Progress COMPLETE 100 None; FooterHtml (palette visual);
                         Log LogComplete])%list)).
Proof.
  intros Hclient run. subst run. unfold generateTravelPlanStream. rewrite Hclient.
  change (lift (Ok glmClient)) with (ret glmClient). rewrite bind_ret.
  set (files := flat_map _ mediaItems).
  destruct (analyzeScene_settles W toLowerCase (new_IntentAgent (Some glmClient))
              (prompt details) (Some "")) as (ts & sa & Es & Hts).
  assert (Hmedia : exists tm ma,
             match files with
             | [] => ret {| media_summary := ""; insights := [] |}
             | _ => analyzeUserMedia W files
             end = (tm, Fulfilled ma) /\ forallb early_call tm = true).
  { destruct files; [now eexists _, _ | apply analyzeUserMedia_settles]. }
  destruct Hmedia as (tm & ma & Em & Htm).
  apply early_call_yields in Hts, Htm.
  rewrite Es, Em. cbn [Promise_both bind emit ret fst snd].
  set (insightLine :=
         match insights ma with
         | [] => []
         | found => [Log (LogMediaInsights (Z.of_nat (List.length found)))]
         end).
  set (opening :=
         ([Progress SKELETON 5 None; Log LogIntentStart] ++ insightLine
          ++ [Log (LogScene (analysis_sceneType (fst sa))
                            (Math_round (fmul (confidence (fst sa)) 100)));
              Log (LogSummary (quickSummary (fst sa)));
              Progress HEADER 10 None; Log LogArtDirector])%list).
  assert (Hopening : forallb is_status opening = true
                     /\ forallb unfinished opening = true).
  { unfold opening, insightLine. destruct (insights ma); split; reflexivity. }
  destruct Hopening as [Hos Hou].
  unfold generateVisualIdentity.
  destruct (generateContent W VisualCall) as [response|e] eqn:Ev.
  2:{ exists opening. split; [exact Hos |]. split; [exact Hou |]. left. exists e.
      unfold opening, insightLine.
      destruct (insights ma); cbn -[Math_round]; (split; [reflexivity |]);
        yields_norm; rewrite Hts, Htm; reflexivity. }
  cbn [await bind lift ret].
  destruct (parseAIJsonResponse response) as [visual|e] eqn:Ep.
  2:{ exists opening. split; [exact Hos |]. split; [exact Hou |]. left. exists e.
      unfold opening, insightLine.
      destruct (insights ma); cbn -[Math_round]; (split; [reflexivity |]);
        yields_norm; rewrite Hts, Htm; reflexivity. }
  set (status := (opening ++ [Log (LogVisualStyle (vibe visual) (palette visual))])%list).
  assert (Hstatus : forallb is_status status = true
                    /\ forallb unfinished status = true).
  { unfold status. rewrite !forallb_app, Hos, Hou. split; reflexivity. }
  destruct Hstatus as [Hss Hsu].
  exists status. split; [exact Hss |]. split; [exact Hsu |].
  cbn [lift ret bind].
  destruct (fetchImages W (destination visual ++ " landscape") 1 landscape)
    as [heroImages|e] eqn:Ei.
  2:{ left. exists e. unfold status, opening, insightLine.
      destruct (insights ma); cbn -[Math_round]; (split; [reflexivity |]);
        yields_norm; rewrite Hts, Htm; reflexivity. }
  cbn [await bind emit].
  set (hero := with_heroImage visual (hd_error heroImages)).
  unfold generateItineraryStructure.
  destruct (generateContent W StructureCall) as [response2|e] eqn:Es2.
  2:{ right; left. exists e, hero. unfold status, opening, insightLine.
      destruct (insights ma); cbn -[Math_round]; (split; [reflexivity |]);
        yields_norm; rewrite Hts, Htm; reflexivity. }
  cbn [await bind lift ret].
  destruct (parseAIJsonResponse response2) as [data|e] eqn:Ep2.
  2:{ right; left. exists e, hero. unfold status, opening, insightLine.
      destruct (insights ma); cbn -[Math_round]; (split; [reflexivity |]);
        yields_norm; rewrite Hts, Htm; reflexivity. }
  cbn [lift ret bind emit].
  set (plan := spread hero data).
  assert (Hplan : planned_from W hero plan).
  { exists response2, data. now repeat split. }
  change (days (spread hero data)) with (days data).
  change (palette (with_heroImage visual (hd_error heroImages)))
    with (palette hero).
  pose proof (generateDaysParallel_yields W encodeURIComponent Number_toString
                plan (days data) 3 (List.length (days data))) as Hy.
  destruct (generateDaysParallel_outcome W encodeURIComponent Number_toString
              plan (days data))
    as [(outputs & results & Hout & Hr & Hsort & Hsorted & Hperm & Hasc & Hday
         & Hhtml & Hsection)|(e & He)].
  - right; right; right.
    destruct (stream_days_run (List.length results) results 0%nat)
      as (td & Ed & _).
    exists hero, plan, outputs, results, td.
    destruct (generateDaysParallel _ _ _ _ _ _ _) as [t3 p3].
    simpl in Hr, Hy. subst p3. cbn [bind]. rewrite Ed.
    unfold status, opening, insightLine.
    destruct (insights ma); cbn -[Math_round];
      (split; [reflexivity |]); (split; [exact Hplan |]);
      (split; [exact Hout |]); (split; [exact Hsort |]);
      (split; [exact Hsorted |]);
      (split; [reflexivity |]); (split; [exact Hperm |]);
      (split; [exact Hasc |]); (split; [exact Hday |]); (split; [exact Hhtml |]);
      (split; [exact Hsection |]);
      yields_norm; rewrite Hts, Htm, Hy; reflexivity.
  - right; right; left. exists e, hero, plan.
    destruct (generateDaysParallel _ _ _ _ _ _ _) as [t3 p3].
    simpl in He, Hy. subst p3.
    unfold status, opening, insightLine.
    destruct (insights ma); cbn -[Math_round];
      (split; [reflexivity |]); (split; [exact Hplan |]);
      yields_norm; rewrite Hts, Htm, Hy; reflexivity.
Qed.

End StreamCases.

Lemma markup_app (l l' : list chunk) :
  markup (l ++ l') = (markup l ++ markup l')%list.
Proof. apply filter_app. Qed.

Lemma markup_status (l : list chunk) :
  forallb is_status l = true -> markup l = [].
Proof.
  induction l as [|c l IH]; simpl; [reflexivity |].
  intros H. apply andb_true_iff in H as [Hc Hl]. now rewrite Hc, (IH Hl).
Qed.

Lemma unfinished_no_failure (l : list chunk) :
  forallb unfinished l = true ->
  forallb (fun c => negb (is_failure_line c)) l = true.
Proof.
  induction l as [|c l IH]; simpl; [reflexivity |].
  intros H. apply andb_true_iff in H as [Hc Hl]. rewrite (IH Hl), andb_true_r.
  destruct c as [| line | | | | |]; try reflexivity; try discriminate.
  now destruct line.
Qed.

Lemma day_sections_tied (l : list DayPlanSkeleton)
  (rs : list DayGenerationResult) :
  Permutation (map skeleton rs) l ->
  Forall (fun r => dayNumber r = day (skeleton r)) rs ->
  Forall (fun r => startsWith (html r) (generated_day_opening (day (skeleton r)))
                   = true) rs ->
  List.length rs = List.length l
  /\ Forall (fun r => dayNumber r = day (skeleton r)
                      /\ In (skeleton r) l
                      /\ startsWith (html r)
                                    (generated_day_opening (dayNumber r))
                         = true) rs.
Proof.
  intros Hperm Hday Hsection. split.
  - rewrite <- (length_map skeleton rs). now apply Permutation_length.
  - apply Forall_forall. intros r Hr.
    pose proof (proj1 (Forall_forall _ _) Hday r Hr) as Hd.
    pose proof (proj1 (Forall_forall _ _) Hsection r Hr) as Ho.
    cbv beta in Hd, Ho. rewrite Hd. repeat split; [| exact Ho].
    apply (Permutation_in _ Hperm), in_map, Hr.
Qed.

Section StreamFacts.
Variable W : World.
Context {parse_visual : JsonType VisualIdentity}
        {parse_structure : JsonType StructureAnswer}
        {parse_activities : JsonType (list RawActivity)}
        {parse_analysis : JsonType RawSceneAnalysis}.
Variable toLowerCase : string -> string.
Variable encodeURIComponent : string -> string.
Variable Number_toString : coordinate -> string.

(** X8. generateTravelPlanStream always ends. Without an API key it
    rejects before yielding anything; with a key, whenever it rejects with
    an error the last chunk yielded is the failure log line with that
    error's message, and before it no day section, no footer, no
    completion line and no other failure line was yielded. *)
Theorem generateTravelPlanStream_failed_run
  (details : TripDetails) (mediaItems : list MediaItem) :
  let run := generateTravelPlanStream W toLowerCase encodeURIComponent
               Number_toString details mediaItems in
  snd run <> Pending
  /\ (forall e, getGlmClient W = Throw e -> run = ([], Rejected e))
  /\ (getGlmClient W = Ok glmClient ->
      forall e, snd run = Rejected e ->
      exists before,
        yields (fst run) = (before ++ [Log (LogFailure (exn_message e))])%list
        /\ forallb unfinished before = true).
Proof.
  intros run.
  assert (Hmissing : forall e, getGlmClient W = Throw e -> run = ([], Rejected e)).
  { intros e He. subst run. unfold generateTravelPlanStream. now rewrite He. }
  assert (Hcases := stream_run_cases W toLowerCase encodeURIComponent
                      Number_toString details mediaItems).
  fold run in Hcases. cbv zeta in Hcases.
  split; [| split; [exact Hmissing |]].
  - destruct (getGlmClient W) as [[]|e0] eqn:Ec.
    + destruct (Hcases eq_refl)
        as (status & _ & _ & [(e & -> & _)|[(e & v & -> & _)
             |[(e & v & p & -> & _)|(v & p & os & rs & td & -> & _)]]]);
        discriminate.
    + rewrite (Hmissing e0 eq_refl). discriminate.
  - intros Hc e He.
    destruct (Hcases Hc)
      as (status & Hs & Hu & [(e' & He' & Hy)|[(e' & v & He' & Hy)
           |[(e' & v & p & He' & _ & Hy)|(v & p & os & rs & td & He' & _)]]]);
      rewrite He' in He; try discriminate; injection He as ->.
    + now exists status.
    + exists (status ++ [HtmlStart v; Progress OVERVIEW 20 None; Log LogPlanner])%list.
      split; [rewrite Hy, <- app_assoc; reflexivity |].
      now rewrite forallb_app, Hu.
    + exists (status ++ [HtmlStart v; Progress OVERVIEW 20 None; Log LogPlanner;
                         SkeletonPayload p; OverviewHtml (palette v) p;
                         Progress DAY_1 30 None; Log LogDayAgentStart])%list.
      split; [rewrite Hy, <- app_assoc; reflexivity |].
      now rewrite forallb_app, Hu.
Qed.

(** X9. When the stream completes, the markup chunks it yielded are, in
    order, the document start, the skeleton payload, the overview in the
    palette of the visual identity, one day section per day of the plan in
    ascending day order, and the footer. The plan is the structure answer
    spread over the visual identity. The day sections are the values the
    day workers fulfilled with, one worker per day of the plan, sorted by
    day number: each is the section of one day of the plan, carries that
    day's number and opens with the section tag of that number. No failure
    line is yielded and the last chunk is the completion log line. *)
Theorem generateTravelPlanStream_complete_run
  (details : TripDetails) (mediaItems : list MediaItem) :
  let run := generateTravelPlanStream W toLowerCase encodeURIComponent
               Number_toString details mediaItems in
  snd run = Fulfilled tt ->
  exists visual plan outputs results,
    markup (yields (fst run))
    = ([HtmlStart visual; SkeletonPayload plan;
        OverviewHtml (palette visual) plan]
       ++ map (fun r => DayHtml (html r)) results
       ++ [FooterHtml (palette visual)])%list
    /\ (exists response data,
          generateContent W StructureCall = Ok response
          /\ parseAIJsonResponse response = Ok data
          /\ plan = spread visual data
          /\ days plan = days data)
    /\ worker_outputs
         (fun sk i => DayAgent_run W encodeURIComponent Number_toString sk plan i)
         0 (days plan) outputs
    /\ map skeleton outputs = days plan
    /\ results = Array_sort (fun a b => dayNumber a - dayNumber b) outputs
    /\ Permutation results outputs
    /\ List.length results = List.length (days plan)
    /\ Permutation (map skeleton results) (days plan)
    /\ ascending results
    /\ Forall (fun r => dayNumber r = day (skeleton r)
                        /\ In (skeleton r) (days plan)
                        /\ startsWith (html r)
                                      (generated_day_opening (dayNumber r))
                           = true) results
    /\ forallb (fun c => negb (is_failure_line c)) (yields (fst run)) = true
    /\ exists before, yields (fst run) = (before ++ [Log LogComplete])%list.
Proof.
  intros run Hrun.
  assert (Hcases := stream_run_cases W toLowerCase encodeURIComponent
                      Number_toString details mediaItems).
  fold run in Hcases. cbv zeta in Hcases.
  destruct (getGlmClient W) as [[]|e0] eqn:Ec.
  2:{ subst run. unfold generateTravelPlanStream in Hrun. rewrite Ec in Hrun.
      discriminate Hrun. }
  destruct (Hcases eq_refl)
    as (status & Hs & Hu & [(e & He & _)|[(e & v & He & _)
         |[(e & v & p & He & _)
          |(v & p & os & rs & td & _ & Hid & Hout & Hsort & Hsorted & Ed & Hperm
            & Hasc & Hday & _ & Hsection & Hy)]]]);
    try (rewrite He in Hrun; discriminate Hrun).
  destruct (stream_days_run (List.length rs) rs 0%nat) as (td' & Ed' & Hm & Hf).
  assert (td' = td) by congruence. subst td'.
  destruct (day_sections_tied _ _ Hperm Hday Hsection) as [Hlen Htied].
  exists v, p, os, rs. rewrite Hy.
  split; [| split; [| split; [exact Hout | split; [| split; [exact Hsort
            | split; [exact Hsorted
            | split; [exact Hlen | split; [exact Hperm | split; [exact Hasc
            | split; [exact Htied | split]]]]]]]]]].
  - rewrite !markup_app, (markup_status _ Hs), Hm. reflexivity.
  - destruct Hid as (response & data & Hc & Hp & ->).
    now exists response, data.
  - exact (proj1 (worker_outputs_results W encodeURIComponent Number_toString p
                    _ _ _ Hout)).
  - rewrite !forallb_app, (unfinished_no_failure _ Hu), Hf. reflexivity.
  - eexists. rewrite !app_assoc.
    change [Progress COMPLETE 100 None; FooterHtml (palette v); Log LogComplete]
      with ([Progress COMPLETE 100 None; FooterHtml (palette v)]
            ++ [Log LogComplete])%list.
    rewrite !app_assoc. reflexivity.
Qed.

End StreamFacts.

(** ** The document assembled from the stream *)

Lemma indexOf_prefix (p r : string) : indexOf (p ++ r) p = 0.
Proof.
  unfold indexOf. pose proof (prefix_append p r) as H.
  destruct (p ++ r); cbn [indexOf_from]; now rewrite H.
Qed.

Lemma slice_empty (s : string) : slice s 0 (Some 0) = "".
Proof.
  unfold slice, rel_index, len. simpl.
  rewrite Z.min_l by lia. simpl. now destruct s.
Qed.

Section DocumentText.
Variable JSON_stringify : TripSkeleton -> string.

Lemma accumulate_status (full : string) (c : chunk) :
  is_status c = true -> accumulate full (chunk_text JSON_stringify c) = full.
Proof.
  destruct c as [phase progress d | line | | | | |]; try discriminate; intros _.
  - reflexivity.
  - destruct line; reflexivity.
Qed.

Lemma accumulate_skeleton (full : string) (plan : TripSkeleton) :
  accumulate full (chunk_text JSON_stringify (SkeletonPayload plan)) = full.
Proof.
  unfold accumulate, chunk_text.
  assert (H : startsWith ("<<<SKELETON>>>" ++ JSON_stringify plan)
                         "<<<SKELETON>>>" = true) by apply prefix_append.
  rewrite H. reflexivity.
Qed.

Lemma accumulate_start (full : string) (visual : VisualIdentity) :
  accumulate full (chunk_text JSON_stringify (HtmlStart visual))
  = headerHtml visual.
Proof.
  unfold accumulate, chunk_text, startsWith. rewrite prefix_append.
  unfold replace_first. rewrite indexOf_prefix. simpl (0 =? -1).
  cbv iota. rewrite slice_empty. simpl (0 + _).
  change 16 with (len "<<<HTML_START>>>"). now rewrite slice_after.
Qed.

Lemma accumulate_markup (full s : string) :
  full <> "" -> startsWith s nl = true -> accumulate full s = full ++ s.
Proof.
  intros Hfull Hs. apply startsWith_iff in Hs as [r ->].
  unfold accumulate. simpl.
  destruct (String.eqb_spec full ""); [contradiction | reflexivity].
Qed.

Lemma fold_status (full : string) (l : list chunk) :
  forallb is_status l = true ->
  fold_left accumulate (map (chunk_text JSON_stringify) l) full = full.
Proof.
  revert full; induction l as [|c l IH]; intros full; simpl; [reflexivity |].
  intros H. apply andb_true_iff in H as [Hc Hl].
  now rewrite (accumulate_status _ _ Hc), (IH _ Hl).
Qed.

Lemma append_nonempty (a b : string) : a <> "" -> a ++ b <> "".
Proof. destruct a; [contradiction | discriminate]. Qed.

Lemma stream_days_document (total : nat) (results : list DayGenerationResult) :
  Forall (fun r => startsWith (html r) nl = true) results ->
  forall i t full,
    stream_days i total results = (t, Fulfilled tt) ->
    full <> "" ->
    fold_left accumulate (map (chunk_text JSON_stringify) (yields t)) full
    = full ++ String.concat "" (map html results).
Proof.
  induction 1 as [|r rest Hr _ IH]; intros i t full; simpl.
  - intros [= <-] _. simpl. now rewrite append_empty_r.
  - destruct (stream_days (S i) total rest) as [t' p'] eqn:E.
    cbn -[Math_round accumulate chunk_text]. intros [= <- ->] Hfull.
    cbn -[Math_round accumulate chunk_text].
    repeat match goal with
           | |- context [accumulate ?f (chunk_text _ (Progress ?a ?b ?c))] =>
               rewrite (accumulate_status f (Progress a b c) eq_refl)
           | |- context [accumulate ?f (chunk_text _ (Log ?l))] =>
               rewrite (accumulate_status f (Log l) eq_refl)
           end.
    cbn [chunk_text]. rewrite (accumulate_markup _ _ Hfull Hr).
    rewrite (IH (S i) t' _ E) by now apply append_nonempty.
    rewrite append_assoc. f_equal.
    destruct rest; simpl; [now rewrite append_empty_r | reflexivity].
Qed.

End DocumentText.

Lemma headerHtml_opening (visual : VisualIdentity) :
  startsWith (headerHtml visual) nl = true.
Proof.
  unfold headerHtml. cbv zeta. rewrite template_cons. apply prefix_append.
Qed.

Lemma overviewHtml_opening (palette : string) (plan : TripSkeleton) :
  startsWith (overviewHtml palette plan) nl = true.
Proof.
  unfold overviewHtml. cbv zeta. rewrite template_cons. apply prefix_append.
Qed.

Lemma footerHtml_opening (palette : string) :
  startsWith (footerHtml palette) nl = true.
Proof.
  unfold footerHtml. rewrite template_cons. apply prefix_append.
Qed.

Lemma opening_nonempty (s : string) : startsWith s nl = true -> s <> "".
Proof. intros H ->. discriminate H. Qed.

Section DocumentFacts.
Variable W : World.
Context {parse_visual : JsonType VisualIdentity}
        {parse_structure : JsonType StructureAnswer}
        {parse_activities : JsonType (list RawActivity)}
        {parse_analysis : JsonType RawSceneAnalysis}.
Variable toLowerCase : string -> string.
Variable encodeURIComponent : string -> string.
Variable Number_toString : coordinate -> string.
Variable JSON_stringify : TripSkeleton -> string.

(** X10. The document handleGenerate assembles from a completed stream is
    the header, the overview in the palette of the visual identity, the day
    sections in ascending day order (one per day of the plan) and the
    footer, concatenated in that order; status and log chunks leave no text
    in it. The plan is the structure answer spread over the visual
    identity. The day sections are the values the day workers fulfilled
    with, one worker per day of the plan, sorted by day number: each is the
    section of one day of the plan, carries that day's number and opens
    with the section tag of that number. *)
Theorem handleGenerate_document
  (details : TripDetails) (mediaItems : list MediaItem) :
  let run := generateTravelPlanStream W toLowerCase encodeURIComponent
               Number_toString details mediaItems in
  snd run = Fulfilled tt ->
  exists visual plan outputs results,
    assembled_document (map (chunk_text JSON_stringify) (yields (fst run)))
    = headerHtml visual ++ overviewHtml (palette visual) plan
      ++ String.concat "" (map html results) ++ footerHtml (palette visual)
    /\ (exists response data,
          generateContent W StructureCall = Ok response
          /\ parseAIJsonResponse response = Ok data
          /\ plan = spread visual data
          /\ days plan = days data)
    /\ worker_outputs
         (fun sk i => DayAgent_run W encodeURIComponent Number_toString sk plan i)
         0 (days plan) outputs
    /\ map skeleton outputs = days plan
    /\ results = Array_sort (fun a b => dayNumber a - dayNumber b) outputs
    /\ Permutation results outputs
    /\ List.length results = List.length (days plan)
    /\ Permutation (map skeleton results) (days plan)
    /\ ascending results
    /\ Forall (fun r => dayNumber r = day (skeleton r)
                        /\ In (skeleton r) (days plan)
                        /\ startsWith (html r)
                                      (generated_day_opening (dayNumber r))
                           = true) results.
Proof.
  intros run Hrun.
  assert (Hcases := stream_run_cases W toLowerCase encodeURIComponent
                      Number_toString details mediaItems).
  fold run in Hcases. cbv zeta in Hcases.
  destruct (getGlmClient W) as [[]|e0] eqn:Ec.
  2:{ subst run. unfold generateTravelPlanStream in Hrun. rewrite Ec in Hrun.
      discriminate Hrun. }
  destruct (Hcases eq_refl)
    as (status & Hs & Hu & [(e & He & _)|[(e & v & He & _)
         |[(e & v & p & He & _)
          |(v & p & os & rs & td & _ & Hid & Hout & Hsort & Hsorted & Ed & Hperm
            & Hasc & Hday & Hhtml & Hsection & Hy)]]]);
    try (rewrite He in Hrun; discriminate Hrun).
  destruct (day_sections_tied _ _ Hperm Hday Hsection) as [Hlen Htied].
  exists v, p, os, rs.
  split; [| split; [| split; [exact Hout | split; [| now repeat split]]]].
  2:{ destruct Hid as (response & data & Hc & Hp & ->).
      now exists response, data. }
  2:{ exact (proj1 (worker_outputs_results W encodeURIComponent Number_toString p
                      _ _ _ Hout)). }
  remember (headerHtml v ++ _) as expected eqn:Eexpected.
  rewrite Hy. unfold assembled_document.
  rewrite !map_app, !fold_left_app, (fold_status _ _ _ Hs).
  cbn -[accumulate chunk_text].
  rewrite accumulate_start.
  repeat match goal with
         | |- context [accumulate ?f (chunk_text ?J (Progress ?a ?b ?c))] =>
             rewrite (accumulate_status J f (Progress a b c) eq_refl)
         | |- context [accumulate ?f (chunk_text ?J (Log ?l))] =>
             rewrite (accumulate_status J f (Log l) eq_refl)
         | |- context [accumulate ?f (chunk_text ?J (SkeletonPayload ?p))] =>
             rewrite (accumulate_skeleton J f p)
         end.
  pose proof (opening_nonempty _ (headerHtml_opening v)) as Hh.
  cbn [chunk_text].
  rewrite (accumulate_markup _ _ Hh (overviewHtml_opening (palette v) p)).
  rewrite (stream_days_document JSON_stringify _ _ Hhtml 0%nat td _ Ed)
    by now apply append_nonempty.
  rewrite accumulate_markup;
    [| now apply append_nonempty, append_nonempty | apply footerHtml_opening].
  subst expected. now rewrite !append_assoc.
Qed.

End DocumentFacts.

(** ** The splice of a regenerated day *)

(** Where a search finds its needle, the needle is. *)
Lemma indexOf_from_found (needle s : string) (base i : Z) :
  indexOf_from needle s base = i -> i <> -1 -> 0 <= base ->
  exists before after,
    s = before ++ needle ++ after /\ i = base + len before.
Proof.
  unfold len. revert base i; induction s as [|c s IH]; intros base i; cbn [indexOf_from].
  - destruct (String.prefix needle "") eqn:E.
    + intros <- _ _. apply prefix_inv in E as [r E]. exists "", r. split; [exact E | simpl; lia].
    + intros <- H. contradiction.
  - destruct (String.prefix needle (String c s)) eqn:E.
    + intros <- _ _. apply prefix_inv in E as [r E]. exists "", r. split; [exact E | simpl; lia].
    + intros Hi Hne Hb. destruct (IH _ _ Hi Hne ltac:(lia)) as (b & a & -> & ->).
      exists (String c b), a. split; [reflexivity | simpl String.length; lia].
Qed.

Lemma indexOf_found (s needle : string) (i : Z) :
  indexOf s needle = i -> i <> -1 ->
  exists before after, s = before ++ needle ++ after /\ i = len before.
Proof.
  intros Hi Hne. destruct (indexOf_from_found needle s 0 i Hi Hne ltac:(lia))
    as (b & a & E & ->). now exists b, a.
Qed.

Lemma ascii_toLowerCase_length (s : string) :
  String.length (ascii_toLowerCase s) = String.length s.
Proof. induction s as [|c s IH]; simpl; [reflexivity | now rewrite IH]. Qed.

Lemma ascii_toLowerCase_take (n : nat) (s : string) :
  ascii_toLowerCase (take n s) = take n (ascii_toLowerCase s).
Proof.
  revert s; induction n as [|n IH]; intros [|c s]; simpl; try reflexivity.
  now rewrite IH.
Qed.

Lemma ascii_toLowerCase_drop (n : nat) (s : string) :
  ascii_toLowerCase (drop n s) = drop n (ascii_toLowerCase s).
Proof.
  revert s; induction n as [|n IH]; intros [|c s]; simpl; try reflexivity.
  apply IH.
Qed.

Lemma drop_drop (n m : nat) (s : string) : drop n (drop m s) = drop (m + n) s.
Proof.
  revert s; induction m as [|m IH]; intros s; simpl; [reflexivity |].
  destruct s as [|c s]; [now destruct n | apply IH].
Qed.

Lemma take_take_drop (n m : nat) (s : string) :
  take n s ++ take m (drop n s) = take (n + m) s.
Proof.
  revert s; induction n as [|n IH]; intros s; simpl; [reflexivity |].
  destruct s as [|c s]; simpl; [now destruct m | now rewrite IH].
Qed.

(** [slice] between two positions inside the text. *)
Lemma slice_inside (s : string) (a b : nat) :
  (a <= b <= String.length s)%nat ->
  slice s (Z.of_nat a) (Some (Z.of_nat b)) = take (b - a) (drop a s).
Proof.
  intros H. unfold slice, rel_index, len.
  destruct (Z.of_nat a <? 0) eqn:Ea; [apply Z.ltb_lt in Ea; lia |].
  destruct (Z.of_nat b <? 0) eqn:Eb; [apply Z.ltb_lt in Eb; lia |].
  rewrite !Z.min_l by lia.
  replace (Z.to_nat (Z.of_nat b - Z.of_nat a)) with (b - a)%nat by lia.
  now rewrite Nat2Z.id.
Qed.

Lemma slice_from (s : string) (a : nat) :
  (a <= String.length s)%nat -> slice s (Z.of_nat a) None = drop a s.
Proof.
  intros H. unfold slice, rel_index, len.
  destruct (Z.of_nat a <? 0) eqn:Ea; [apply Z.ltb_lt in Ea; lia |].
  rewrite Z.min_l by lia.
  replace (Z.to_nat (Z.of_nat (String.length s) - Z.of_nat a))
    with (String.length s - a)%nat by lia.
  rewrite Nat2Z.id.
  assert (Hl : String.length (drop a s) = (String.length s - a)%nat).
  { clear H Ea. revert s; induction a as [|a IH]; intros [|c s]; simpl;
      try apply IH; lia. }
  rewrite <- Hl. apply take_length.
Qed.

Lemma expand_replacement_plain (replacement matched before after : string) :
  ~ has "$" replacement ->
  expand_replacement replacement matched before after = replacement.
Proof.
  induction replacement as [|c r IH]; intros H; [reflexivity |].
  assert (Hc : c <> "$"%char) by (intros ->; apply H; now left).
  assert (Hr : ~ has "$" r) by (intros E; apply H; now right).
  cbn [expand_replacement]. rewrite (IH Hr).
  destruct c as [[] [] [] [] [] [] [] []]; try reflexivity; now destruct Hc.
Qed.

(** X11. When the pattern of the edit handlers finds the section of day d,
    the match is a span of the document that starts with the opening text
    of that section (in any letter case) and ends with a closing section
    tag. The replacement changes that span only: the text before and after
    it is kept, and a new text without a dollar sign is inserted as it is
    (with one, the replacement patterns of String.replace are expanded). *)
Theorem replace_day_section_frame (html : string) (d : Z) (a b : Z) :
  match_day_section html d = Some (a, b) ->
  let before := slice html 0 (Some a) in
  let matched := slice html a (Some b) in
  let after := slice html b None in
  0 <= a /\ a <= b /\ b <= len html
  /\ html = before ++ matched ++ after
  /\ startsWith (ascii_toLowerCase matched)
                (ascii_toLowerCase (day_section_opening d)) = true
  /\ endsWith (ascii_toLowerCase matched) "</section>" = true
  /\ (forall newDayHtml,
        replace_day_section html d newDayHtml
        = before ++ expand_replacement newDayHtml matched before after ++ after)
  /\ (forall newDayHtml,
        ~ has "$" newDayHtml ->
        replace_day_section html d newDayHtml = before ++ newDayHtml ++ after).
Proof.
  intros Hm before matched after.
  assert (Hrep : forall newDayHtml,
             replace_day_section html d newDayHtml
             = before ++ expand_replacement newDayHtml matched before after ++ after).
  { intros n. unfold replace_day_section. now rewrite Hm. }
  unfold match_day_section in Hm. cbv zeta in Hm.
  set (lower := ascii_toLowerCase html) in *.
  set (opening := ascii_toLowerCase (day_section_opening d)) in *.
  destruct (indexOf lower opening =? -1) eqn:Ei; [discriminate |].
  apply Z.eqb_neq in Ei.
  destruct (indexOf_found lower opening _ eq_refl Ei) as (X & R & El & Hi).
  rewrite Hi in Hm.
  assert (Hrest : slice lower (len X + len opening) None = R).
  { rewrite El. rewrite <- append_assoc.
    replace (len X + len opening) with (len (X ++ opening))
      by (unfold len; rewrite length_append; lia).
    apply slice_after. }
  rewrite Hrest in Hm.
  destruct (indexOf R "</section>" =? -1) eqn:Ej; [discriminate |].
  apply Z.eqb_neq in Ej.
  destruct (indexOf_found R "</section>" _ eq_refl Ej) as (Y & Z' & ER & Hj).
  rewrite Hj in Hm. injection Hm as <- <-.
  set (x := String.length X). set (o := String.length opening).
  set (y := String.length Y).
  assert (Hlen : String.length html = (x + o + y + 10 + String.length Z')%nat).
  { rewrite <- (ascii_toLowerCase_length html). fold lower. rewrite El, ER.
    rewrite !length_append. change (String.length "</section>") with 10%nat.
    subst x o y. lia. }
  assert (Ea : len X = Z.of_nat x) by reflexivity.
  assert (Eb : len X + len opening + len Y + len "</section>"
               = Z.of_nat (x + o + y + 10)).
  { unfold len. change (String.length "</section>") with 10%nat.
    subst x o y. lia. }
  subst before matched after. rewrite Ea, Eb in *.
  change 0 with (Z.of_nat 0).
  rewrite !slice_inside, slice_from by lia.
  replace (x - 0)%nat with x by lia.
  replace (x + o + y + 10 - x)%nat with (o + y + 10)%nat by lia.
  change (drop 0 html) with html.
  split; [lia |]. split; [lia |]. split; [unfold len; lia |].
  assert (Hsplit : html = take x html ++ take (o + y + 10) (drop x html)
                          ++ drop (x + o + y + 10) html).
  { rewrite <- (take_drop x html) at 1. f_equal.
    rewrite <- (take_drop (o + y + 10) (drop x html)) at 1. f_equal.
    rewrite drop_drop. f_equal. lia. }
  assert (Hlow : ascii_toLowerCase (take (o + y + 10) (drop x html))
                 = opening ++ Y ++ "</section>").
  { rewrite ascii_toLowerCase_take, ascii_toLowerCase_drop. fold lower.
    rewrite El. subst x. rewrite drop_append, ER.
    replace (opening ++ (Y ++ "</section>" ++ Z'))
      with ((opening ++ Y ++ "</section>") ++ Z')
      by now rewrite !append_assoc.
    replace (o + y + 10)%nat with (String.length (opening ++ Y ++ "</section>"))
      by (rewrite !length_append; change (String.length "</section>") with 10%nat;
          subst o y; lia).
    apply take_append. }
  split; [exact Hsplit |].
  split; [rewrite Hlow; apply prefix_append |].
  split; [rewrite Hlow; apply endsWith_iff; exists (opening ++ Y);
          now rewrite append_assoc |].
  split.
  - intros n. rewrite Hrep. change 0 with (Z.of_nat 0).
    rewrite !slice_inside, slice_from by lia.
    replace (x - 0)%nat with x by lia.
    replace (x + o + y + 10 - x)%nat with (o + y + 10)%nat by lia.
    reflexivity.
  - intros n Hn. rewrite Hrep. change 0 with (Z.of_nat 0).
    rewrite !slice_inside, slice_from by lia.
    replace (x - 0)%nat with x by lia.
    replace (x + o + y + 10 - x)%nat with (o + y + 10)%nat by lia.
    now rewrite expand_replacement_plain.
Qed.

(** ** The edit handlers and the question handler *)

Lemma for_each_fulfils {X Y} (body : X -> M Y) (l : list X) :
  (forall x, exists y, snd (body x) = Fulfilled y) ->
  exists ys, snd (for_each body l) = Fulfilled ys.
Proof.
  intros Hbody. induction l as [|x l IH]; simpl; [now exists [] |].
  destruct (Hbody x) as [y Hy]. destruct IH as [ys Hys].
  destruct (body x) as [t p]; simpl in Hy; subst p.
  destruct (for_each body l) as [t' p']; simpl in Hys; subst p'.
  simpl. now eexists.
Qed.

Section EditHandlerFacts.
Variable W : World.
Context {parse_day : JsonType DayPlan}.
Variable encodeURIComponent : string -> string.

Lemma regenerateDayPlan_settles (skeleton : TripSkeleton) (dayIndex : Z)
  (modificationPrompt : string) :
  snd (regenerateDayPlan W encodeURIComponent skeleton dayIndex modificationPrompt)
  <> Pending.
Proof.
  unfold regenerateDayPlan. destruct (getGlmClient W) as [c|e]; simpl;
    [| discriminate].
  destruct (find _ _) as [daySkeleton|]; [| discriminate].
  destruct (fetchImages W _ 3 portrait) as [images|e]; simpl; [| discriminate].
  destruct (generateContent W RegenerateCall) as [response|e]; simpl;
    [| discriminate].
  destruct (parseAIJsonResponse response) as [dayData|e]; simpl; [| discriminate].
  match goal with
  | |- context [for_each ?body ?l] =>
      destruct (for_each_fulfils body l) as [located Hl]
  end.
  { intros activity. destruct (truthy_string _); [| now eexists].
    rewrite searchPlace_run. simpl.
    destruct (amap_lookup W _ _) as [[poi|]|e]; now eexists. }
  destruct (for_each _ _) as [t p]; simpl in Hl; subst p. simpl. discriminate.
Qed.


End EditHandlerFacts.

Section ConfirmedEditFacts.
Variable W : World.
Context {parse_day : JsonType DayPlan} {parse_reply : JsonType QAReply}.
Variable encodeURIComponent : string -> string.

(** X13. regenerateDayWithConfirmation never rejects, never alerts and
    leaves the plan and the ledger alone; without a plan or a non-empty
    document it does nothing. Otherwise it closes both day dialogs, ends
    with isRegenerating false, and either splices the regenerated day into
    the located section and says the day was updated, or leaves the
    document as it was and says that the modification failed. *)
Theorem regenerateDayWithConfirmation_settles (d : Z) (input : string)
  (st : AppState) :
  let run := regenerateDayWithConfirmation W encodeURIComponent d input st in
  exists st',
    snd run = Fulfilled st'
    /\ tripSkeleton st' = tripSkeleton st
    /\ versionHistory st' = versionHistory st
    /\ modifyingDay st' = modifyingDay st
    /\ alerts st' = alerts st
    /\ (tripSkeleton st = None \/ generatedHtml st = None
        \/ generatedHtml st = Some "" ->
        run = ([], Fulfilled st))
    /\ (forall skeleton generated,
           tripSkeleton st = Some skeleton ->
           generatedHtml st = Some generated -> generated <> "" ->
           isRegenerating st' = false /\ showDayConfirmation st' = false
           /\ showDaySelector st' = false
           /\ ((exists newDayHtml,
                   snd (regenerateDayPlan W encodeURIComponent skeleton d input)
                   = Fulfilled newDayHtml
                   /\ match_day_section generated d <> None
                   /\ generatedHtml st'
                      = Some (replace_day_section generated d newDayHtml)
                   /\ chatMessages st'
                      = (chatMessages st
                         ++ [ {| role := assistant;
                                 content := "第" ++ show_Z d
                                   ++ "天的行程已更新！还有其他需要调整的吗？" |} ])%list)
               \/ (generatedHtml st' = Some generated
                   /\ chatMessages st'
                      = (chatMessages st
                         ++ [ {| role := assistant;
                                 content := "修改失败，请重试。" |} ])%list))).
Proof.
  intros run. subst run. unfold regenerateDayWithConfirmation.
  destruct (tripSkeleton st) as [skeleton|] eqn:Es.
  2:{ exists st. split; [reflexivity |]. split; [exact Es |].
      do 3 (split; [reflexivity |]). split; [reflexivity |]. discriminate. }
  destruct (generatedHtml st) as [generated|] eqn:Eg.
  2:{ exists st. split; [reflexivity |]. split; [exact Es |].
      do 3 (split; [reflexivity |]). split; [reflexivity |].
      intros sk g _ Hg. discriminate Hg. }
  destruct (negb (truthy_string generated)) eqn:Eguard.
  { exists st. apply negb_true_iff in Eguard. unfold truthy_string in Eguard.
    apply negb_false_iff, String.eqb_eq in Eguard. subst generated.
    split; [reflexivity |]. split; [exact Es |].
    do 3 (split; [reflexivity |]). split; [reflexivity |].
    intros sk g _ [= <-] Hne. now destruct Hne. }
  apply negb_false_iff in Eguard. unfold truthy_string in Eguard.
  apply negb_true_iff, String.eqb_neq in Eguard.
  assert (Hguard : Some skeleton = None \/ Some generated = None
                   \/ Some generated = Some "" -> False).
  { intros [H|[H|H]]; congruence. }
  pose proof (regenerateDayPlan_settles W encodeURIComponent skeleton d input)
    as Hsettles.
  destruct (regenerateDayPlan W encodeURIComponent skeleton d input)
    as [t [newDayHtml|e|]] eqn:Er; simpl in Hsettles; [| | contradiction].
  - destruct (match_day_section generated d) as [[a b]|] eqn:Em; simpl.
    + eexists. split; [reflexivity |]. simpl.
      split; [exact Es |]. do 3 (split; [reflexivity |]).
      split; [intros H; now destruct (Hguard H) |].
      intros sk g [= <-] [= <-] _. do 3 (split; [reflexivity |]).
      left. exists newDayHtml. rewrite Er, Em.
      split; [reflexivity |]. split; [discriminate |]. now split.
    + eexists. split; [reflexivity |]. simpl.
      split; [exact Es |]. do 3 (split; [reflexivity |]).
      split; [intros H; now destruct (Hguard H) |].
      intros sk g [= <-] [= <-] _. do 3 (split; [reflexivity |]).
      right. now rewrite Eg.
  - simpl. eexists. split; [reflexivity |]. simpl.
    split; [exact Es |]. do 3 (split; [reflexivity |]).
    split; [intros H; now destruct (Hguard H) |].
    intros sk g [= <-] [= <-] _. do 3 (split; [reflexivity |]).
    right. now rewrite Eg.
Qed.

(** X14. handleQA never rejects and always appends exactly one assistant
    message: the reply of the parsed answer, or the fixed apology when the
    API key is missing (no call is made then), the call fails, or the
    answer does not parse. *)
Theorem handleQA_replies (st : AppState) :
  let apology :=
    "抱歉，我暂时无法回答这个问题。您可以尝试调整行程，或提供更多细节。" in
  exists trace text,
    handleQA W st
    = (trace, Fulfilled (addChatMessage {| role := assistant; content := text |} st))
    /\ (forall e, getGlmClient W = Throw e -> trace = [] /\ text = apology)
    /\ (getGlmClient W = Ok glmClient ->
        trace = [CallGenerateContent QACall]
        /\ (forall e, generateContent W QACall = Throw e -> text = apology)
        /\ (forall response e,
               generateContent W QACall = Ok response ->
               parseAIJsonResponse (A := QAReply) response = Throw e ->
               text = apology)
        /\ (forall response answer,
               generateContent W QACall = Ok response ->
               parseAIJsonResponse response = Ok answer ->
               text = reply answer)).
Proof.
  intros apology. unfold handleQA, generateQAReply.
  destruct (getGlmClient W) as [[]|e0]; simpl.
  - destruct (generateContent W QACall) as [response|e1]; simpl.
    + destruct (parseAIJsonResponse response) as [answer|e2] eqn:Ep; simpl;
        eexists _, _; (split; [reflexivity |]);
        (split; [discriminate |]); intros _; (split; [reflexivity |]);
        (split; [discriminate |]);
        (split; intros r x [= <-] Hx; rewrite Ep in Hx; try reflexivity; congruence).
    + eexists _, _. split; [reflexivity |]. split; [discriminate |].
      intros _. split; [reflexivity |]. repeat split; intros; congruence.
  - eexists _, _. split; [reflexivity |]. split; [now intros |]. discriminate.
Qed.

Lemma generateQAReply_fallback :
  let apology :=
    {| reply := "抱歉，我暂时无法回答这个问题。您可以尝试调整行程，或提供更多细节。";
       suggestions := Some ["调整某一天的行程"; "更换某个景点"] |} in
  (forall e, getGlmClient W = Throw e -> generateQAReply W = ([], Rejected e))
  /\ (getGlmClient W = Ok glmClient ->
      exists answer,
        generateQAReply W = ([CallGenerateContent QACall], Fulfilled answer)
        /\ answer = match generateContent W QACall with
                    | Ok response =>
                        match parseAIJsonResponse response with
                        | Ok parsed => parsed
                        | Throw _ => apology
                        end
                    | Throw _ => apology
                    end).
Proof.
  intros apology. unfold generateQAReply. split.
  - now intros e ->.
  - intros ->. simpl.
    destruct (generateContent W QACall) as [response|e1]; simpl;
      [destruct (parseAIJsonResponse response) as [answer|e2]; simpl |];
      eexists; split; reflexivity.
Qed.

End ConfirmedEditFacts.

(** ** Worked instances *)

(** The key of the cache joins the input and the media context with a
    dash: the analysis made for ("a-", "b") answers ("a", "-b") as well. *)
Lemma analyzeScene_cache_hit_witness :
  exists agent',
    analyzeScene Sample.calm (parse_analysis := Sample.not_json) ascii_toLowerCase
      (new_IntentAgent (Some glmClient)) "a-" (Some "b")
    = ([CallGenerateContent SceneCall],
       Fulfilled (parseAnalysisResponse (parse_analysis := Sample.not_json)
                    "no plan today" (quickPredict ascii_toLowerCase "a-"),
                  agent'))
    /\ analyzeScene Sample.calm (parse_analysis := Sample.not_json)
         ascii_toLowerCase agent' "a" (Some "-b")
       = ([], Fulfilled (parseAnalysisResponse (parse_analysis := Sample.not_json)
                           "no plan today" (quickPredict ascii_toLowerCase "a-"),
                         agent')).
Proof.
  apply (analyzeScene_cache_hit Sample.calm (parse_analysis := Sample.not_json)
           ascii_toLowerCase (new_IntentAgent (Some glmClient))
           "a-" "a" (Some "b") (Some "-b") "no plan today").
  - discriminate.
  - reflexivity.
  - reflexivity.
  - reflexivity.
Defined.

Lemma analyzeScene_consistent_witness :
  consistent (getFallbackAnalysis RELAXATION)
  /\ Forall (fun entry => consistent (snd entry))
            [("quiet days-", getFallbackAnalysis RELAXATION)]
  /\ Some glmClient = Some glmClient.
Proof.
  apply (analyzeScene_consistent Sample.calm (parse_analysis := Sample.not_json)
           ascii_toLowerCase (new_IntentAgent (Some glmClient)) "quiet days"
           None (getFallbackAnalysis RELAXATION)
           {| agent_client := Some glmClient;
              cache := [("quiet days-", getFallbackAnalysis RELAXATION)] |}).
  - constructor.
  - vm_compute. reflexivity.
Defined.

Lemma parseActivities_parsed_witness :
  let parsed :=
    parseActivities (parse_activities := SampleActivities.table) Sample.day1
      SampleActivities.text in
  List.length parsed = 1%nat
  /\ Forall (fun a => time a <> "" /\ activity_title a <> ""
                      /\ lat (location a) = None /\ lng (location a) = None
                      /\ tips a = None) parsed
  /\ Forall2 (fun raw a =>
                (forall s, raw_time raw = Some s -> s <> "" -> time a = s)
                /\ (forall s, raw_title raw = Some s -> s <> "" -> activity_title a = s)
                /\ (raw_time raw = None -> time a = "09:00")
                /\ (raw_title raw = None -> activity_title a = "活动")
                /\ description a = or_else (raw_description raw) ""
                /\ name (location a) = or_else (raw_location raw) ""
                /\ (raw_time raw = Some "" -> time a = "09:00")
                /\ (raw_title raw = Some "" -> activity_title a = "活动")
                /\ (forall s, raw_description raw = Some s -> description a = s)
                /\ (raw_description raw = None -> description a = "")
                /\ (forall s, raw_location raw = Some s -> name (location a) = s)
                /\ (raw_location raw = None -> name (location a) = "")
                /\ address (location a) = None)
             SampleActivities.raws parsed
  /\ (SampleActivities.raws = [] -> parsed = []).
Proof.
  apply (parseActivities_parsed (parse_activities := SampleActivities.table)
           Sample.day1 SampleActivities.text
           {| whole := SampleActivities.text; group1 := None |}
           SampleActivities.raws).
  - vm_compute. reflexivity.
  - vm_compute. reflexivity.
Defined.

Lemma generateDaysParallel_stops_after_failed_batch_witness :
  Forall (fun j => (j < 2)%nat)
         (worker_calls
            (fst (generateDaysParallel Sample.second_worker_down
                    (parse_activities := Sample.not_json)
                    Sample.plain Sample.no_digits
                    [Sample.day1; Sample.day2; Sample.day1; Sample.day2]
                    Sample.trip 2 4))).
Proof.
  apply Forall_forall. intros j Hj.
  apply (generateDaysParallel_stops_after_failed_batch Sample.second_worker_down
           (parse_activities := Sample.not_json) Sample.plain Sample.no_digits
           Sample.trip [Sample.day1; Sample.day2; Sample.day1; Sample.day2]
           2 4 1 Sample.day2 (Error "GLM API Error (500): upstream")
           ltac:(lia) eq_refl eq_refl j Hj).
Defined.

Lemma generateTravelPlanStream_complete_run_witness :
  exists visual plan outputs results,
    markup (yields (fst SampleEdit.stream))
    = ([HtmlStart visual; SkeletonPayload plan;
        OverviewHtml (palette visual) plan]
       ++ map (fun r => DayHtml (html r)) results
       ++ [FooterHtml (palette visual)])%list
    /\ (exists response data,
          generateContent SampleEdit.planner StructureCall = Ok response
          /\ parseAIJsonResponse (parse := SampleEdit.structures) response = Ok data
          /\ plan = spread visual data
          /\ days plan = days data)
    /\ worker_outputs
         (fun sk i => DayAgent_run SampleEdit.planner
                        (parse_activities := Sample.not_json)
                        Sample.plain Sample.no_digits sk plan i)
         0 (days plan) outputs
    /\ map skeleton outputs = days plan
    /\ results = Array_sort (fun a b => dayNumber a - dayNumber b) outputs
    /\ Permutation results outputs
    /\ List.length results = List.length (days plan)
    /\ Permutation (map skeleton results) (days plan)
    /\ ascending results
    /\ Forall (fun r => dayNumber r = day (skeleton r)
                        /\ In (skeleton r) (days plan)
                        /\ startsWith (html r)
                                      (generated_day_opening (dayNumber r))
                           = true) results
    /\ forallb (fun c => negb (is_failure_line c)) (yields (fst SampleEdit.stream))
       = true
    /\ exists before, yields (fst SampleEdit.stream) = (before ++ [Log LogComplete])%list.
Proof.
  apply (generateTravelPlanStream_complete_run SampleEdit.planner
           (parse_visual := SampleEdit.visuals)
           (parse_structure := SampleEdit.structures)
           (parse_activities := Sample.not_json)
           (parse_analysis := Sample.not_json)
           ascii_toLowerCase Sample.plain Sample.no_digits
           {| prompt := "Kyoto, 2 days, quiet" |} []).
  vm_compute. reflexivity.
Defined.

Lemma handleGenerate_document_witness :
  exists visual plan outputs results,
    SampleEdit.document
    = headerHtml visual ++ overviewHtml (palette visual) plan
      ++ String.concat "" (map html results) ++ footerHtml (palette visual)
    /\ (exists response data,
          generateContent SampleEdit.planner StructureCall = Ok response
          /\ parseAIJsonResponse (parse := SampleEdit.structures) response = Ok data
          /\ plan = spread visual data
          /\ days plan = days data)
    /\ worker_outputs
         (fun sk i => DayAgent_run SampleEdit.planner
                        (parse_activities := Sample.not_json)
                        Sample.plain Sample.no_digits sk plan i)
         0 (days plan) outputs
    /\ map skeleton outputs = days plan
    /\ results = Array_sort (fun a b => dayNumber a - dayNumber b) outputs
    /\ Permutation results outputs
    /\ List.length results = List.length (days plan)
    /\ Permutation (map skeleton results) (days plan)
    /\ ascending results
    /\ Forall (fun r => dayNumber r = day (skeleton r)
                        /\ In (skeleton r) (days plan)
                        /\ startsWith (html r)
                                      (generated_day_opening (dayNumber r))
                           = true) results.
Proof.
  apply (handleGenerate_document SampleEdit.planner
           (parse_visual := SampleEdit.visuals)
           (parse_structure := SampleEdit.structures)
           (parse_activities := Sample.not_json)
           (parse_analysis := Sample.not_json)
           ascii_toLowerCase Sample.plain Sample.no_digits (fun _ => "{}")
           {| prompt := "Kyoto, 2 days, quiet" |} []).
  vm_compute. reflexivity.
Defined.

Lemma replace_day_section_frame_witness :
  let before := slice SampleSplice.page 0 (Some 39) in
  let matched := slice SampleSplice.page 39 (Some 82) in
  let after := slice SampleSplice.page 82 None in
  0 <= 39 /\ 39 <= 82 /\ 82 <= len SampleSplice.page
  /\ SampleSplice.page = before ++ matched ++ after
  /\ startsWith (ascii_toLowerCase matched)
                (ascii_toLowerCase (day_section_opening 2)) = true
  /\ endsWith (ascii_toLowerCase matched) "</section>" = true
  /\ (forall newDayHtml,
        replace_day_section SampleSplice.page 2 newDayHtml
        = before ++ expand_replacement newDayHtml matched before after ++ after)
  /\ (forall newDayHtml,
        ~ has "$" newDayHtml ->
        replace_day_section SampleSplice.page 2 newDayHtml
        = before ++ newDayHtml ++ after).
Proof.
  apply (replace_day_section_frame SampleSplice.page 2 39 82).
  vm_compute. reflexivity.
Defined.

(** Day 2 goes, days 1 and the footer stay as they were. *)
Example replace_day_section_sample :
  replace_day_section SampleSplice.page 2 SampleSplice.relaxed
  = "<main><section id=" ++ quoted "day-1" ++ ">one</section>"
    ++ SampleSplice.relaxed ++ "<footer/></main>".
Proof. vm_compute. reflexivity. Qed.

(** A dollar sign followed by an ampersand in the new markup brings the old
    section back. *)
Example replace_day_section_dollar :
  replace_day_section SampleSplice.page 2 "$&" = SampleSplice.page.
Proof. vm_compute. reflexivity. Qed.

(** * The chat *)

(** ** The validation of a request and the intent of a follow-up *)

Section ValidationFacts.

Variable W : World.
Variable A : Assistant.
Context {parse_validation : JsonType RawValidation}.

(** X15. validateTripIntent turns down a prompt of fewer than two UTF-16
    code units by itself, without a call. For any longer prompt it never
    rejects and fails open: a missing API key, a failed call and an answer
    that does not parse all give isValid true with no message; the request
    is invalid only when the parsed answer's hasDestination is not true. *)
Theorem validateTripIntent_fails_open (prompt : string) :
  let run := validateTripIntent W A prompt in
  let pass := {| isValid := true; check_message := None |} in
  ((utf16_length prompt < 2)%nat ->
   run = ([], Fulfilled {| isValid := false;
                           check_message := Some "请输入您的旅行计划。" |}))
  /\ ((2 <= utf16_length prompt)%nat ->
      (exists check, snd run = Fulfilled check)
      /\ (forall e, getGlmClient W = Throw e -> run = ([], Fulfilled pass))
      /\ (getGlmClient W = Ok glmClient ->
          fst run = [CallAssistant ValidateCall]
          /\ (forall e, answer A ValidateCall = Throw e -> snd run = Fulfilled pass)
          /\ (forall response e,
                 answer A ValidateCall = Ok response ->
                 parseAIJsonResponse (A := RawValidation) response = Throw e ->
                 snd run = Fulfilled pass)
          /\ (forall response result,
                 answer A ValidateCall = Ok response ->
                 parseAIJsonResponse response = Ok result ->
                 snd run
                 = Fulfilled
                     {| isValid := match raw_hasDestination result with
                                   | Some true => true
                                   | _ => false
                                   end;
                        check_message := raw_validation_message result |}))).
Proof.
  intros run pass. subst run pass. unfold validateTripIntent. split.
  - intros Hshort. apply Nat.ltb_lt in Hshort. rewrite Hshort, orb_true_r.
    reflexivity.
  - intros Hlong.
    assert (Hp : truthy_string prompt = true).
    { destruct prompt; [simpl in Hlong; lia | reflexivity]. }
    apply Nat.ltb_ge in Hlong. rewrite Hp, Hlong. simpl.
    destruct (getGlmClient W) as [[]|e0]; simpl.
    + destruct (answer A ValidateCall) as [response|e1]; simpl.
      * destruct (parseAIJsonResponse response) as [result|e2] eqn:Ep; simpl.
        -- split; [now eexists |]. split; [discriminate |]. intros _.
           split; [reflexivity |]. split; [discriminate |].
           split; intros r x [= <-] Hx; rewrite Ep in Hx; [discriminate |].
           now injection Hx as <-.
        -- split; [now eexists |]. split; [discriminate |]. intros _.
           split; [reflexivity |]. split; [discriminate |].
           split; intros r x [= <-] Hx; rewrite Ep in Hx; [reflexivity |].
           discriminate.
      * split; [now eexists |]. split; [discriminate |]. intros _.
        split; [reflexivity |]. split; [reflexivity |].
        split; intros; discriminate.
    + split; [now eexists |]. split; [reflexivity |]. discriminate.
Qed.

End ValidationFacts.

(** One Chinese character is three bytes and one code unit: too short. *)
Example validateTripIntent_one_character :
  validateTripIntent Sample.calm
    {| answer := fun _ => Ok "{}"; Date_now := fun _ => 0; Math_random := 0%Q |}
    (parse_validation := Sample.not_json) "去"
  = ([], Fulfilled {| isValid := false;
                      check_message := Some "请输入您的旅行计划。" |}).
Proof. vm_compute. reflexivity. Qed.

Section EnhancedIntentFacts.

Variable W : World.
Variable A : Assistant.
Context {parse_intent : JsonType RawIntent}.

(** X16. Without an API key analyzeEnhancedIntent rejects before any call,
    since the client is obtained outside its try. With a key it makes one
    call and always fulfils: a failed call or an answer that does not
    parse gives the QA_QUERY fallback, a missing intent becomes
    REGENERATE_GLOBAL, targetDay falls back to suggestedDay, and the
    result never has confidence 0, target day 0 or an empty intent. *)
Theorem analyzeEnhancedIntent_defaults :
  let run := analyzeEnhancedIntent W A in
  (forall e, getGlmClient W = Throw e -> run = ([], Rejected e))
  /\ (getGlmClient W = Ok glmClient ->
      exists analysis,
        run = ([CallAssistant EnhancedCall], Fulfilled analysis)
        /\ ~ (intent_confidence analysis == 0)%Q
        /\ targetDay analysis <> Some 0
        /\ intent analysis <> ""
        /\ (forall e, answer A EnhancedCall = Throw e -> analysis = intent_fallback)
        /\ (forall response e,
               answer A EnhancedCall = Ok response ->
               parseAIJsonResponse (A := RawIntent) response = Throw e ->
               analysis = intent_fallback)
        /\ (forall response result,
               answer A EnhancedCall = Ok response ->
               parseAIJsonResponse response = Ok result ->
               (raw_intent result = None -> intent analysis = "REGENERATE_GLOBAL")
               /\ (forall s, raw_intent result = Some s -> s <> "" ->
                             intent analysis = s)
               /\ (forall d, raw_targetDay result = Some d -> d <> 0 ->
                             targetDay analysis = Some d)
               /\ (truthy_day (raw_targetDay result) = None ->
                   targetDay analysis = truthy_day (raw_suggestedDay result))
               /\ suggestedDay analysis = raw_suggestedDay result
               /\ dayConfidence analysis = raw_dayConfidence result
               /\ searchQuery analysis = raw_searchQuery result)).
Proof.
  intros run. subst run. unfold analyzeEnhancedIntent. split.
  - now intros e ->.
  - intros ->. simpl.
    assert (Hfallback : ~ (intent_confidence intent_fallback == 0)%Q
                        /\ targetDay intent_fallback <> Some 0
                        /\ intent intent_fallback <> "").
    { split; [intros H; discriminate H | split; discriminate]. }
    destruct (answer A EnhancedCall) as [response|e1]; simpl.
    + destruct (parseAIJsonResponse response) as [result|e2] eqn:Ep; simpl.
      * eexists. split; [reflexivity |]. cbn [intent_confidence targetDay intent].
        split.
        { destruct (raw_intent_confidence result) as [c|]; [| intros H; discriminate H].
          destruct (Qeq_bool c 0) eqn:E; [intros H; discriminate H |].
          intros H. apply Qeq_bool_iff in H. congruence. }
        split.
        { unfold truthy_day.
          destruct (raw_targetDay result) as [d|];
            [destruct (Z.eqb_spec d 0); [| congruence] |];
            (destruct (raw_suggestedDay result) as [d'|];
             [destruct (Z.eqb_spec d' 0); congruence | discriminate]). }
        split.
        { unfold or_else. destruct (raw_intent result) as [s|]; [| discriminate].
          destruct (String.eqb_spec s ""); [discriminate | assumption]. }
        split; [discriminate |]. split.
        { intros r x [= <-] Hx. rewrite Ep in Hx. discriminate. }
        intros r x [= <-] Hx. rewrite Ep in Hx. injection Hx as <-.
        cbn [intent targetDay suggestedDay dayConfidence searchQuery].
        split; [now intros -> |]. split.
        { intros s -> Hs. unfold or_else. now destruct (String.eqb_spec s ""). }
        split.
        { intros d -> Hd. unfold truthy_day. now destruct (Z.eqb_spec d 0). }
        split; [now intros -> |]. now repeat split.
      * exists intent_fallback. split; [reflexivity |].
        destruct Hfallback as (H1 & H2 & H3).
        repeat (split; trivial); intros; congruence.
    + exists intent_fallback. split; [reflexivity |].
      destruct Hfallback as (H1 & H2 & H3).
      repeat (split; trivial); intros; congruence.
Qed.

End EnhancedIntentFacts.

(** ** The follow-up handler *)

Section FollowUpFacts.

Variable W : World.
Variable A : Assistant.
Context {parse_intent : JsonType RawIntent} {parse_reply : JsonType QAReply}.

Lemma analyzeEnhancedIntent_run :
  (exists e, getGlmClient W = Throw e /\ analyzeEnhancedIntent W A = ([], Rejected e))
  \/ (exists analysis,
         getGlmClient W = Ok glmClient
         /\ analyzeEnhancedIntent W A
            = ([CallAssistant EnhancedCall], Fulfilled analysis)).
Proof.
  unfold analyzeEnhancedIntent. destruct (getGlmClient W) as [[]|e]; simpl.
  - right. destruct (answer A EnhancedCall) as [response|e1]; simpl;
      [destruct (parseAIJsonResponse response) as [result|e2]; simpl |];
      eexists; split; reflexivity.
  - left. now exists e.
Qed.

Lemma handleSearch_run (input : string) (analysis : EnhancedFollowUpAnalysis)
  (st : ChatState) :
  exists call first second,
    handleSearch W input analysis st
    = ([Core call],
       Fulfilled (say second (say first st))).
Proof.
  unfold handleSearch. cbv zeta.
  match goal with
  | |- context [searchPlace W ?k ?c] => rewrite (searchPlace_run W k c)
  end.
  unfold Task.embed. simpl.
  destruct (amap_lookup W _ _) as [[place|]|e]; simpl; now eexists _, _, _.
Qed.

Lemma handleQA_run (st : AppState) :
  exists trace text,
    handleQA W st
    = (trace, Fulfilled (addChatMessage {| role := assistant; content := text |} st)).
Proof.
  unfold handleQA, generateQAReply.
  destruct (getGlmClient W) as [[]|e0]; simpl.
  - destruct (generateContent W QACall) as [response|e1]; simpl.
    + destruct (parseAIJsonResponse response) as [answer|e2]; simpl; now eexists _, _.
    + now eexists _, _.
  - now eexists _, _.
Qed.

(** X17. handleFollowUpSubmit never rejects and never changes the
    document, the plan, the ledger or the loading state. Blank input or no
    plan is a no-op; otherwise the user's message is appended first,
    followed by at most two assistant messages, isAnalyzingIntent ends
    false, at most one timer (1000 ms) is set, and without an API key the
    only reply is the fixed apology and no call is made. *)
Theorem handleFollowUpSubmit_frame (input : string) (st : ChatState) :
  let run := handleFollowUpSubmit W A input st in
  exists st',
    snd run = Fulfilled st'
    /\ same_plan st st'
    /\ (trim input = "" \/ tripSkeleton (base st) = None ->
        run = ([], Fulfilled st))
    /\ (trim input <> "" -> tripSkeleton (base st) <> None ->
        isAnalyzingIntent st' = false
        /\ (exists replies,
               chatMessages (base st')
               = (chatMessages (base st)
                  ++ {| role := user; content := input |} :: replies)%list
               /\ Forall (fun m => role m = assistant) replies
               /\ (List.length replies <= 2)%nat
               /\ (forall e, getGlmClient W = Throw e ->
                             fst run = []
                             /\ map content replies
                                = ["抱歉，处理您的请求时出错了。请重试。"]))
        /\ (timers st' = timers st
            \/ timers st' = (timers st ++ [(1000, ResetToInput)])%list)).
Proof.
  intros run. subst run. unfold handleFollowUpSubmit.
  destruct (truthy_string (trim input)) eqn:Ein; simpl.
  2:{ exists st. split; [reflexivity |]. split; [now repeat split |].
      split; [reflexivity |]. intros Hne. unfold truthy_string in Ein.
      apply negb_false_iff, String.eqb_eq in Ein. contradiction. }
  unfold truthy_string in Ein. apply negb_true_iff, String.eqb_neq in Ein.
  destruct (tripSkeleton (base st)) as [sk|] eqn:Es.
  2:{ exists st. split; [reflexivity |]. split; [now repeat split |].
      split; [reflexivity |]. intros _ H. now destruct H. }
  set (st1 := with_app _ (setIsAnalyzingIntent true st)).
  assert (Hguard : trim input = "" \/ Some sk = None -> False).
  { intros [H|H]; congruence. }
  destruct analyzeEnhancedIntent_run as [(e & Hc & ->)|(analysis & Hc & ->)];
    simpl.
  - eexists. split; [reflexivity |]. simpl. split; [now repeat split; rewrite ?Es |].
    split; [intros H; now destruct (Hguard H) |]. intros _ _.
    split; [reflexivity |]. split; [| now left].
    eexists. rewrite <- app_assoc. split; [reflexivity |].
    split; [repeat constructor |]. split; [simpl; lia |].
    intros e' _. now split.
  - destruct (String.eqb (intent analysis) "REGENERATE_GLOBAL").
    { simpl. eexists. split; [reflexivity |]. simpl.
      split; [now repeat split; rewrite ?Es |].
      split; [intros H; now destruct (Hguard H) |]. intros _ _.
      split; [reflexivity |]. split; [| now right].
      eexists. rewrite <- app_assoc. split; [reflexivity |].
      split; [repeat constructor |]. split; [simpl; lia |].
      intros e' He'. congruence. }
    destruct (String.eqb (intent analysis) "UPDATE_LOCAL").
    { simpl. unfold handleUpdateLocal.
      destruct (confident_day analysis st1); simpl;
        (eexists; split; [reflexivity |]); simpl;
        (split; [now repeat split; rewrite ?Es |]);
        (split; [intros H; now destruct (Hguard H) |]); intros _ _;
        (split; [reflexivity |]); (split; [| now left]);
        exists []; (split; [reflexivity |]);
        (split; [constructor |]); (split; [simpl; lia |]);
        intros e' He'; congruence. }
    destruct (String.eqb (intent analysis) "SEARCH").
    { destruct (handleSearch_run input analysis st1) as (call & m1 & m2 & ->).
      simpl. eexists. split; [reflexivity |]. simpl.
      split; [now repeat split; rewrite ?Es |].
      split; [intros H; now destruct (Hguard H) |]. intros _ _.
      split; [reflexivity |]. split; [| now left].
      eexists. rewrite <- !app_assoc. split; [reflexivity |].
      split; [repeat constructor |]. split; [simpl; lia |].
      intros e' He'. congruence. }
    destruct (String.eqb (intent analysis) "CHAT").
    { simpl. eexists. split; [reflexivity |]. simpl.
      split; [now repeat split; rewrite ?Es |].
      split; [intros H; now destruct (Hguard H) |]. intros _ _.
      split; [reflexivity |]. split; [| now left].
      eexists. rewrite <- app_assoc. split; [reflexivity |].
      split; [repeat constructor |]. split; [simpl; lia |].
      intros e' He'. congruence. }
    match goal with
    | |- context [handleQA W ?s] =>
        destruct (handleQA_run s) as (trace & text & ->)
    end.
    unfold Task.embed. simpl. eexists. split; [reflexivity |]. simpl.
    split; [now repeat split; rewrite ?Es |].
    split; [intros H; now destruct (Hguard H) |]. intros _ _.
    split; [reflexivity |]. split; [| now left].
    eexists. rewrite <- app_assoc. split; [reflexivity |].
    split; [repeat constructor |]. split; [simpl; lia |].
    intros e' He'. congruence.
Qed.

End FollowUpFacts.

Section FollowUpRoutes.

Variable W : World.
Variable A : Assistant.
Context {parse_intent : JsonType RawIntent} {parse_reply : JsonType QAReply}.

Lemma analyzeEnhancedIntent_parsed (response : string) (raw : RawIntent) :
  getGlmClient W = Ok glmClient ->
  answer A EnhancedCall = Ok response ->
  parseAIJsonResponse response = Ok raw ->
  exists analysis,
    analyzeEnhancedIntent W A = ([CallAssistant EnhancedCall], Fulfilled analysis)
    /\ intent analysis = or_else (raw_intent raw) "REGENERATE_GLOBAL"
    /\ suggestedDay analysis = raw_suggestedDay raw
    /\ dayConfidence analysis = raw_dayConfidence raw.
Proof.
  intros Hc Ha Hp. unfold analyzeEnhancedIntent. rewrite Hc, Ha. simpl.
  rewrite Hp. simpl. eexists. split; [reflexivity |]. now repeat split.
Qed.

Lemma follow_up_guard (input : string) (st : ChatState) :
  trim input <> "" -> tripSkeleton (base st) <> None ->
  exists sk,
    tripSkeleton (base st) = Some sk
    /\ negb (truthy_string (trim input)) = false.
Proof.
  intros Hin Hsk. destruct (tripSkeleton (base st)) as [sk|]; [| now destruct Hsk].
  exists sk. split; [reflexivity |]. unfold truthy_string.
  apply negb_false_iff, negb_true_iff, String.eqb_neq. exact Hin.
Qed.

(** X18. A follow-up classified UPDATE_LOCAL makes one call and edits
    nothing: the chat gains only the user's message and no timer is set.
    It opens the confirmation dialog with the suggested day when the
    answer's dayConfidence is above 0.7 and its suggestedDay is a non-zero
    number, and the day selector in every other case. *)
Theorem handleFollowUpSubmit_local_edit (input : string) (st : ChatState)
  (response : string) (raw : RawIntent) :
  trim input <> "" ->
  tripSkeleton (base st) <> None ->
  getGlmClient W = Ok glmClient ->
  answer A EnhancedCall = Ok response ->
  parseAIJsonResponse response = Ok raw ->
  raw_intent raw = Some "UPDATE_LOCAL" ->
  exists st',
    handleFollowUpSubmit W A input st
    = ([CallAssistant EnhancedCall], Fulfilled st')
    /\ generatedHtml (base st') = generatedHtml (base st)
    /\ tripSkeleton (base st') = tripSkeleton (base st)
    /\ versionHistory (base st') = versionHistory (base st)
    /\ chatMessages (base st')
       = (chatMessages (base st) ++ [{| role := user; content := input |}])%list
    /\ timers st' = timers st
    /\ isAnalyzingIntent st' = false
    /\ (forall c d,
           raw_dayConfidence raw = Some c -> (0.7 < c)%Q ->
           raw_suggestedDay raw = Some d -> d <> 0 ->
           showDayConfirmation (base st') = true
           /\ suggestedDayForConfirmation st' = Some d
           /\ showDaySelector (base st') = showDaySelector (base st))
    /\ (raw_dayConfidence raw = None
        \/ (exists c, raw_dayConfidence raw = Some c /\ (c <= 0.7)%Q)
        \/ raw_suggestedDay raw = None
        \/ raw_suggestedDay raw = Some 0 ->
        showDaySelector (base st') = true
        /\ showDayConfirmation (base st') = showDayConfirmation (base st)
        /\ suggestedDayForConfirmation st' = suggestedDayForConfirmation st).
Proof.
  intros Hin Hsk Hc Ha Hp Hi.
  destruct (follow_up_guard input st Hin Hsk) as (sk & Es & Eg).
  destruct (analyzeEnhancedIntent_parsed response raw Hc Ha Hp)
    as (analysis & Erun & Eintent & Eday & Econf).
  rewrite Hi in Eintent. cbn in Eintent.
  unfold handleFollowUpSubmit. rewrite Eg, Es, Erun. simpl.
  rewrite Eintent. simpl. unfold handleUpdateLocal, confident_day.
  rewrite Eday, Econf. simpl. rewrite Es.
  destruct (raw_dayConfidence raw) as [c|] eqn:Ec.
  - destruct (raw_suggestedDay raw) as [d|] eqn:Ed; simpl.
    + destruct (Z.eqb_spec d 0) as [Hd|Hd].
      * eexists. split; [reflexivity |]. simpl. rewrite Es.
        repeat (split; [reflexivity |]). split.
        { intros c' d' _ _ [= <-] Hd'. contradiction. }
        intros _. now repeat split.
      * destruct (Qlt_le_dec 0.7 c) as [Hlt|Hle].
        -- eexists. split; [reflexivity |]. simpl. rewrite Es.
           repeat (split; [reflexivity |]). split.
           { intros c' d' [= <-] _ [= <-] _. now repeat split. }
           intros [H|[(c' & [= <-] & Hle)|[H|H]]]; try discriminate.
           ++ exfalso. apply (Qlt_not_le _ _ Hlt Hle).
           ++ congruence.
        -- eexists. split; [reflexivity |]. simpl. rewrite Es.
           repeat (split; [reflexivity |]). split.
           { intros c' d' [= <-] Hlt _ _. exfalso. apply (Qlt_not_le _ _ Hlt Hle). }
           intros _. now repeat split.
    + eexists. split; [reflexivity |]. simpl. rewrite Es.
      repeat (split; [reflexivity |]). split.
      { intros c' d' _ _ H. discriminate. }
      intros _. now repeat split.
  - eexists. split; [reflexivity |]. simpl. rewrite Es.
    repeat (split; [reflexivity |]). split.
    { intros c' d' H. discriminate. }
    intros _. now repeat split.
Qed.

(** X19. An answer whose intent is absent, empty or REGENERATE_GLOBAL
    makes handleFollowUpSubmit announce a new plan and set one timer of
    1000 ms; nothing is generated. When the timer fires, the plan, the
    document and the chat are cleared and the loading state is IDLE, while
    the ledger of versions is kept. *)
Theorem handleFollowUpSubmit_global_reset (input : string) (st : ChatState)
  (response : string) (raw : RawIntent) :
  trim input <> "" ->
  tripSkeleton (base st) <> None ->
  getGlmClient W = Ok glmClient ->
  answer A EnhancedCall = Ok response ->
  parseAIJsonResponse response = Ok raw ->
  raw_intent raw = None \/ raw_intent raw = Some ""
  \/ raw_intent raw = Some "REGENERATE_GLOBAL" ->
  exists st',
    handleFollowUpSubmit W A input st
    = ([CallAssistant EnhancedCall], Fulfilled st')
    /\ generatedHtml (base st') = generatedHtml (base st)
    /\ tripSkeleton (base st') = tripSkeleton (base st)
    /\ chatMessages (base st')
       = (chatMessages (base st)
          ++ [ {| role := user; content := input |};
               {| role := assistant;
                  content := "好的，我来重新为您规划整个行程..." |} ])%list
    /\ timers st' = (timers st ++ [(1000, ResetToInput)])%list
    /\ generatedHtml (base (fire ResetToInput st')) = None
    /\ tripSkeleton (base (fire ResetToInput st')) = None
    /\ chatMessages (base (fire ResetToInput st')) = []
    /\ loadingState (fire ResetToInput st') = IDLE
    /\ versionHistory (base (fire ResetToInput st')) = versionHistory (base st).
Proof.
  intros Hin Hsk Hc Ha Hp Hi.
  destruct (follow_up_guard input st Hin Hsk) as (sk & Es & Eg).
  destruct (analyzeEnhancedIntent_parsed response raw Hc Ha Hp)
    as (analysis & Erun & Eintent & _).
  assert (Eglobal : intent analysis = "REGENERATE_GLOBAL").
  { rewrite Eintent. destruct Hi as [-> | [-> | ->]]; reflexivity. }
  unfold handleFollowUpSubmit. rewrite Eg, Es, Erun. simpl.
  rewrite Eglobal. simpl. eexists. split; [reflexivity |]. simpl.
  rewrite Es, <- app_assoc. now repeat split.
Qed.

End FollowUpRoutes.

(** * The feedback and the ledger of versions *)

Import LedgerSpec FeedbackSpec.

(** ** The comparison of two versions *)

Lemma same_target_iff (c1 c2 : VersionChange) :
  Feedback.same_target c1 c2 = true <-> same_place c1 c2.
Proof.
  unfold Feedback.same_target, same_place, is_scope.
  destruct (change_day c1) as [a|], (change_day c2) as [b|],
    (change_type c1), (change_type c2); simpl;
    try (destruct (Z.eqb_spec a b));
    split; intros H; try discriminate; try reflexivity;
    try (destruct H; congruence); try (split; congruence).
Qed.

Lemma same_target_sym (c1 c2 : VersionChange) :
  Feedback.same_target c1 c2 = Feedback.same_target c2 c1.
Proof.
  apply eq_true_iff_eq. rewrite !same_target_iff. unfold same_place.
  split; intros [H1 H2]; now split.
Qed.

Lemma unmatched_in (l1 l2 : list VersionChange) (text : string) :
  In text
     (map change_description
        (filter (fun c2 => negb (existsb (fun c1 => Feedback.same_target c1 c2) l1))
                l2))
  <-> exists c2, In c2 l2 /\ change_description c2 = text
                 /\ forall c1, In c1 l1 -> ~ same_place c1 c2.
Proof.
  rewrite in_map_iff. split.
  - intros (c2 & <- & Hc). apply filter_In in Hc. destruct Hc as [Hin Hno].
    exists c2. split; [exact Hin |]. split; [reflexivity |].
    intros c1 H1 Hs. apply negb_true_iff in Hno.
    assert (existsb (fun c1 => Feedback.same_target c1 c2) l1 = true).
    { apply existsb_exists. exists c1. split; [exact H1 |].
      now apply same_target_iff. }
    congruence.
  - intros (c2 & Hin & <- & Hno). exists c2. split; [reflexivity |].
    apply filter_In. split; [exact Hin |]. apply negb_true_iff.
    destruct (existsb _ l1) eqn:E; [| reflexivity].
    apply existsb_exists in E. destruct E as (c1 & H1 & Hs).
    apply same_target_iff in Hs. now destruct (Hno c1 H1).
Qed.

Lemma unmatched_none (l0 l : list VersionChange) :
  (forall c, In c l -> exists c1, In c1 l0 /\ same_place c1 c) ->
  filter (fun c2 => negb (existsb (fun c1 => Feedback.same_target c1 c2) l0)) l = [].
Proof.
  induction l as [|c rest IH]; intros H; [reflexivity |]. simpl.
  destruct (H c (or_introl eq_refl)) as (c1 & H1 & Hs).
  assert (E : existsb (fun c1 => Feedback.same_target c1 c) l0 = true).
  { apply existsb_exists. exists c1. split; [exact H1 |]. now apply same_target_iff. }
  rewrite E. simpl. apply IH. intros c' Hc'. apply H. now right.
Qed.

Lemma unmatched_self (l : list VersionChange) :
  filter (fun c2 => negb (existsb (fun c1 => Feedback.same_target c1 c2) l)) l = [].
Proof.
  apply unmatched_none. intros c Hc. exists c. split; [exact Hc |]. now split.
Qed.

(** X20. compareVersions reports as added exactly the descriptions of the
    changes of the second version for which the first has no change of the
    same day and type, and as removed the converse; modified is always
    empty, and two versions with the same changes compare as empty. A
    change whose day and type occur on both sides is never reported,
    whatever its description. *)
Theorem compareVersions_by_place (version1 version2 : VersionHistory) :
  let diff := Feedback.compareVersions version1 version2 in
  modified diff = []
  /\ added diff = removed (Feedback.compareVersions version2 version1)
  /\ (forall text,
         In text (added diff)
         <-> exists c2, In c2 (changes version2) /\ change_description c2 = text
                        /\ forall c1, In c1 (changes version1) -> ~ same_place c1 c2)
  /\ (forall text,
         In text (removed diff)
         <-> exists c1, In c1 (changes version1) /\ change_description c1 = text
                        /\ forall c2, In c2 (changes version2) -> ~ same_place c2 c1)
  /\ (changes version1 = changes version2 -> added diff = [] /\ removed diff = []).
Proof.
  intros diff. subst diff. unfold Feedback.compareVersions. cbn [modified added removed].
  split; [reflexivity |]. split; [reflexivity |].
  split; [intros text; apply unmatched_in |].
  split; [intros text; apply unmatched_in |].
  intros ->. now rewrite unmatched_self.
Qed.

(** ** The analysis of a feedback *)

Section FeedbackAnalysisFacts.

Variable A : Assistant.
Context {parse_feedback : JsonType RawFeedbackAnalysis}.

Lemma stamp_from_facts (l : list RawChange) :
  forall k,
    map change_description (Feedback.stamp_from A k l) = map raw_change_description l
    /\ map change_type (Feedback.stamp_from A k l) = map raw_change_type l
    /\ map change_day (Feedback.stamp_from A k l) = map raw_change_day l
    /\ Forall2 (fun raw c =>
                  forall t, raw_change_timestamp raw = Some t -> t <> 0 ->
                            change_timestamp c = t)
               l (Feedback.stamp_from A k l)
    /\ ((forall site, Date_now A site <> 0) ->
        Forall (fun c => change_timestamp c <> 0) (Feedback.stamp_from A k l)).
Proof.
  induction l as [|raw rest IH]; intros k; simpl.
  - repeat split; constructor.
  - destruct (IH (S k)) as (H1 & H2 & H3 & H4 & H5).
    rewrite H1, H2, H3. repeat split.
    + constructor; [| exact H4]. intros t Et Ht. simpl. rewrite Et. simpl.
      now destruct (Z.eqb_spec t 0).
    + intros Hclock. constructor; [| now apply H5]. simpl.
      unfold truthy_day. destruct (raw_change_timestamp raw) as [t|];
        [destruct (Z.eqb_spec t 0) |]; auto.
Qed.

Lemma stamp_from_clock (l : list RawChange) :
  forall k j raw,
    nth_error l j = Some raw ->
    raw_change_timestamp raw = None \/ raw_change_timestamp raw = Some 0 ->
    option_map change_timestamp (nth_error (Feedback.stamp_from A k l) j)
    = Some (Date_now A (ChangeStamp (k + j))).
Proof.
  induction l as [|first rest IH]; intros k [|j] raw; simpl; try discriminate.
  - intros [= ->] [E|E]; rewrite E, Nat.add_0_r; reflexivity.
  - intros Hj Hraw. rewrite (IH (S k) j raw Hj Hraw).
    now replace (S k + j)%nat with (k + S j)%nat by lia.
Qed.

Lemma parseAnalysisResponse_unreadable (response : string) (targetDay : option Z) :
  unreadable response ->
  Feedback.parseAnalysisResponse A response targetDay
  = Feedback.getDefaultAnalysis A targetDay.
Proof.
  unfold unreadable, Feedback.parseAnalysisResponse.
  destruct (or_match _ _) as [m|]; [| reflexivity].
  destruct (JSON_parse (matched_json m)) as [parsed|e]; [| reflexivity].
  now intros ->.
Qed.

(** X21. If the clock never reads 0, every change of the analysis
    parseAnalysisResponse returns has a non-zero timestamp: a parsed
    change keeps its type, day and description and its own non-zero
    timestamp, in order, and gets the current time otherwise: the change
    at position k whose timestamp is missing or 0 is stamped with the
    reading of the clock taken for position k. When nothing
    matches, the match is not JSON or it has no suggestedChanges, the
    default analysis is returned: one local change on the target day, or
    one global change with requiresGlobalRegeneration when there is no
    target day, stamped with the current time and carrying the default
    description of its kind. *)
Theorem parseAnalysisResponse_stamps (response : string) (targetDay : option Z) :
  (forall site, Date_now A site <> 0) ->
  let analysis := Feedback.parseAnalysisResponse A response targetDay in
  Forall (fun c => change_timestamp c <> 0) (suggestedChanges analysis)
  /\ (forall m parsed l,
         or_match (match_json_fence response) (match_span response "{" "}") = Some m ->
         JSON_parse (matched_json m) = Ok parsed ->
         raw_suggestedChanges parsed = Some l ->
         map change_description (suggestedChanges analysis)
         = map raw_change_description l
         /\ map change_type (suggestedChanges analysis) = map raw_change_type l
         /\ map change_day (suggestedChanges analysis) = map raw_change_day l
         /\ Forall2 (fun raw c =>
                       forall t, raw_change_timestamp raw = Some t -> t <> 0 ->
                                 change_timestamp c = t)
                    l (suggestedChanges analysis)
         /\ targetDays analysis = raw_targetDays parsed
         /\ requiresGlobalRegeneration analysis = raw_requiresGlobalRegeneration parsed
         /\ (forall k raw,
                nth_error l k = Some raw ->
                raw_change_timestamp raw = None \/ raw_change_timestamp raw = Some 0 ->
                option_map change_timestamp (nth_error (suggestedChanges analysis) k)
                = Some (Date_now A (ChangeStamp k))))
  /\ (unreadable response ->
      exists change,
        suggestedChanges analysis = [change]
        /\ match truthy_day targetDay with
           | Some d =>
               change_type change = local /\ change_day change = Some d
               /\ targetDays analysis = Some [d]
               /\ requiresGlobalRegeneration analysis = Some false
           | None =>
               change_type change = global /\ change_day change = None
               /\ targetDays analysis = Some []
               /\ requiresGlobalRegeneration analysis = Some true
           end
        /\ change_timestamp change = Date_now A DefaultStamp
        /\ change_description change
           = match truthy_day targetDay with
             | Some _ => "根据用户反馈调整行程"
             | None => "根据用户反馈调整整体行程"
             end).
Proof.
  intros Hclock analysis. subst analysis. split; [| split].
  - unfold Feedback.parseAnalysisResponse.
    assert (Hd : Forall (fun c => change_timestamp c <> 0)
                        (suggestedChanges (Feedback.getDefaultAnalysis A targetDay))).
    { unfold Feedback.getDefaultAnalysis.
      destruct (truthy_day targetDay); simpl; constructor; simpl; auto. }
    destruct (or_match _ _) as [m|]; [| exact Hd].
    destruct (JSON_parse (matched_json m)) as [parsed|e]; [| exact Hd].
    destruct (raw_suggestedChanges parsed) as [l|]; [| exact Hd].
    simpl. now apply stamp_from_facts.
  - intros m parsed l Hm Hp Hl. unfold Feedback.parseAnalysisResponse.
    rewrite Hm, Hp, Hl. simpl.
    destruct (stamp_from_facts l 0%nat) as (H1 & H2 & H3 & H4 & _).
    repeat split; trivial.
    intros k raw Hk Hraw. exact (stamp_from_clock l 0%nat k raw Hk Hraw).
  - intros Hu. rewrite (parseAnalysisResponse_unreadable _ _ Hu).
    unfold Feedback.getDefaultAnalysis.
    destruct (truthy_day targetDay) as [d|]; simpl; eexists;
      (split; [reflexivity |]); now repeat split.
Qed.

End FeedbackAnalysisFacts.

(** ** The feedback handler *)

Lemma last_version_app (ledger : list VersionHistory) (v : VersionHistory) :
  last_version (ledger ++ [v]) = Some v.
Proof.
  unfold last_version. rewrite length_app. simpl.
  replace (List.length ledger + 1 - 1)%nat with (List.length ledger) by lia.
  rewrite nth_error_app2 by lia. now rewrite Nat.sub_diag.
Qed.

Lemma consecutive_app (ledger : list VersionHistory) (v : VersionHistory) :
  consecutive ledger -> version v = next_number ledger ->
  consecutive (ledger ++ [v]).
Proof.
  unfold next_number. induction ledger as [|a rest IH]; intros Hc Hv.
  - exact I.
  - destruct rest as [|b rest'].
    + simpl. split; [exact Hv | exact I].
    + destruct Hc as [Hab Hc]. split; [exact Hab |].
      apply IH; [exact Hc |]. rewrite Hv. unfold last_version.
      simpl List.length. rewrite !Nat.sub_succ, !Nat.sub_0_r. reflexivity.
Qed.

Section FeedbackHandlerFacts.

Variable W : World.
Variable A : Assistant.
Context {parse_feedback : JsonType RawFeedbackAnalysis} {parse_day : JsonType DayPlan}.
Variable encodeURIComponent : string -> string.

Lemma regenerate_feedback_day_run (skeleton : TripSkeleton)
  (generated : option string) (d : Z) (content : string) (st : ChatState) :
  exists st',
    regenerate_feedback_day W encodeURIComponent skeleton generated d content st
    = (map Core (fst (regenerateDayPlan W encodeURIComponent skeleton d content)),
       Fulfilled st')
    /\ tripSkeleton (base st') = tripSkeleton (base st)
    /\ versionHistory (base st') = versionHistory (base st)
    /\ timers st' = timers st
    /\ loadingState st' = loadingState st
    /\ showFeedbackCollector st' = showFeedbackCollector st
    /\ feedbackTargetDay st' = feedbackTargetDay st
    /\ isRegenerating (base st') = false
    /\ ((generatedHtml (base st') = generatedHtml (base st)
         /\ ((chatMessages (base st') = chatMessages (base st)
              /\ (exists newDayHtml,
                     snd (regenerateDayPlan W encodeURIComponent skeleton d content)
                     = Fulfilled newDayHtml)
              /\ (generated = None \/ generated = Some ""
                  \/ exists html, generated = Some html
                                  /\ match_day_section html d = None))
             \/ (chatMessages (base st')
                 = (chatMessages (base st)
                    ++ [said "修改失败，请重试。"])%list
                 /\ exists e,
                     snd (regenerateDayPlan W encodeURIComponent skeleton d content)
                     = Rejected e)))
        \/ (exists html newDayHtml,
               generated = Some html /\ html <> ""
               /\ match_day_section html d <> None
               /\ snd (regenerateDayPlan W encodeURIComponent skeleton d content)
                  = Fulfilled newDayHtml
               /\ generatedHtml (base st')
                  = Some (replace_day_section html d newDayHtml)
               /\ chatMessages (base st')
                  = (chatMessages (base st) ++ [updated_message d])%list)).
Proof.
  unfold regenerate_feedback_day. cbv zeta.
  pose proof (regenerateDayPlan_settles W encodeURIComponent skeleton d content)
    as Hsettles.
  destruct (regenerateDayPlan W encodeURIComponent skeleton d content)
    as [trace [newDayHtml|e|]]; unfold Task.embed; simpl in *.
  - destruct generated as [html|].
    + destruct (truthy_string html) eqn:Et.
      * destruct (match_day_section html d) eqn:Em; simpl.
        -- eexists. rewrite !app_nil_r. split; [reflexivity |]. simpl.
           do 7 (split; [reflexivity |]). right. exists html, newDayHtml.
           split; [reflexivity |]. split.
           { intros ->. discriminate Et. }
           split; [rewrite Em; discriminate |]. now repeat split.
        -- eexists. rewrite !app_nil_r. split; [reflexivity |]. simpl.
           do 7 (split; [reflexivity |]). left. split; [reflexivity |]. left.
           split; [reflexivity |]. split; [now exists newDayHtml |].
           right. right. now exists html.
      * simpl. eexists. rewrite !app_nil_r. split; [reflexivity |]. simpl.
        do 7 (split; [reflexivity |]). left. split; [reflexivity |]. left.
        split; [reflexivity |]. split; [now exists newDayHtml |].
        right. left. unfold truthy_string in Et.
        apply negb_false_iff, String.eqb_eq in Et. now subst.
    + simpl. eexists. rewrite !app_nil_r. split; [reflexivity |]. simpl.
      do 7 (split; [reflexivity |]). left. split; [reflexivity |]. left.
      split; [reflexivity |]. split; [now exists newDayHtml |]. now left.
  - eexists. rewrite !app_nil_r. split; [reflexivity |]. simpl.
    do 7 (split; [reflexivity |]). left. split; [reflexivity |]. right.
    split; [reflexivity |]. now exists e.
  - now destruct Hsettles.
Qed.

Lemma regenerate_feedback_day_alerts (skeleton : TripSkeleton)
  (generated : option string) (d : Z) (content : string) (st st' : ChatState) :
  snd (regenerate_feedback_day W encodeURIComponent skeleton generated d content st)
  = Fulfilled st' ->
  alerts (base st') = alerts (base st).
Proof.
  unfold regenerate_feedback_day. cbv zeta.
  destruct (regenerateDayPlan W encodeURIComponent skeleton d content)
    as [trace [newDayHtml|e|]]; unfold Task.embed; simpl.
  - destruct generated as [html|];
      [destruct (truthy_string html); [destruct (match_day_section html d) |] |];
      simpl; intros [= <-]; reflexivity.
  - intros [= <-]; reflexivity.
  - discriminate.
Qed.

(** The feedback handler shows no alert. *)
Lemma handleFeedbackSubmit_alerts (feedback : FeedbackDraft) (st st' : ChatState) :
  snd (handleFeedbackSubmit W A encodeURIComponent feedback st) = Fulfilled st' ->
  alerts (base st') = alerts (base st).
Proof.
  unfold handleFeedbackSubmit.
  destruct (tripSkeleton (base st)) as [sk|]; [| now intros [= <-]].
  cbv zeta.
  destruct (Feedback.createFeedbackAgent W None) as [agent|e]; simpl;
    [| discriminate].
  unfold Feedback.analyzeFeedback, Feedback.generateModificationResponse.
  destruct (answer A FeedbackCall) as [text|e1]; simpl; [| now intros [= <-]].
  destruct (answer A ResponseCall) as [reply|e2]; simpl; [| now intros [= <-]].
  destruct (requiresGlobalRegeneration _) as [[|]|]; simpl;
    try (now intros [= <-]);
    (destruct (truthy_day (draft_targetDay feedback)) as [d|]; simpl;
     [| now intros [= <-]];
     destruct (targetDays _) as [affected|]; simpl; [| now intros [= <-]];
     destruct (existsb (Z.eqb d) affected); simpl; [| now intros [= <-]]).
  all: match goal with
       | |- context [regenerate_feedback_day W encodeURIComponent ?sk ?g ?d ?c ?s] =>
           pose proof (regenerate_feedback_day_alerts sk g d c s) as Halerts;
           destruct (regenerate_feedback_day W encodeURIComponent sk g d c s)
             as [trace [st1|e|]]; simpl in *
       end; try discriminate; try (now intros [= <-]).
  all: intros [= <-]; simpl; now rewrite (Halerts st1 eq_refl).
Qed.

End FeedbackHandlerFacts.

Section FeedbackSubmitFacts.

Variable W : World.
Variable A : Assistant.
Context {parse_feedback : JsonType RawFeedbackAnalysis} {parse_day : JsonType DayPlan}.
Variable encodeURIComponent : string -> string.

Local Abbreviation run_of feedback st :=
  (handleFeedbackSubmit W A encodeURIComponent feedback st).
Local Abbreviation regenerated sk d feedback :=
  (regenerateDayPlan W encodeURIComponent sk d (draft_content feedback)).
Local Abbreviation analysis_of text feedback :=
  (Feedback.parseAnalysisResponse A text (truthy_day (draft_targetDay feedback))).
Local Abbreviation snapshot_of sk text feedback st :=
  (createVersionHistory (Date_now A VersionIdStamp) (Date_now A VersionStamp) sk
     (suggestedChanges (analysis_of text feedback)) (draft_author feedback)
     (last_version (versionHistory (base st)))).

Lemma not_global_branch {T : Type} (g : option bool) (X Y : T) :
  g <> Some true ->
  match g with Some true => X | _ => Y end = Y.
Proof. destruct g as [[|]|]; congruence. Qed.

Lemma handleFeedbackSubmit_unanswered (feedback : FeedbackDraft) (st : ChatState)
  (sk : TripSkeleton) :
  tripSkeleton (base st) = Some sk ->
  getGlmClient W = Ok glmClient ->
  (exists e, answer A FeedbackCall = Throw e)
  \/ (exists e, answer A ResponseCall = Throw e) ->
  exists trace,
    run_of feedback st = (trace, Fulfilled (say feedback_apology st))
    /\ (trace = [CallAssistant FeedbackCall]
        \/ trace = [CallAssistant FeedbackCall; CallAssistant ResponseCall]).
Proof.
  intros Es Hc Hfail. unfold handleFeedbackSubmit, Feedback.createFeedbackAgent.
  rewrite Es, Hc. unfold Feedback.analyzeFeedback, Feedback.generateModificationResponse.
  simpl. destruct (answer A FeedbackCall) as [text|e1] eqn:Ef; simpl.
  - destruct (answer A ResponseCall) as [reply|e2] eqn:Er; simpl.
    + destruct Hfail as [(e & H)|(e & H)]; discriminate.
    + eexists. split; [reflexivity |]. now right.
  - eexists. split; [reflexivity |]. now left.
Qed.

Lemma handleFeedbackSubmit_answered (feedback : FeedbackDraft) (st : ChatState)
  (sk : TripSkeleton) (text reply : string) :
  tripSkeleton (base st) = Some sk ->
  getGlmClient W = Ok glmClient ->
  answer A FeedbackCall = Ok text ->
  answer A ResponseCall = Ok reply ->
  let analysis := analysis_of text feedback in
  let global := requiresGlobalRegeneration analysis in
  let target := truthy_day (draft_targetDay feedback) in
  let old := chatMessages (base st) in
  let closed st' := showFeedbackCollector st' = false /\ feedbackTargetDay st' = None in
  exists trace st',
    run_of feedback st
    = (([CallAssistant FeedbackCall; CallAssistant ResponseCall] ++ trace)%list,
       Fulfilled st')
    /\ tripSkeleton (base st') = Some sk
    /\ versionHistory (base st')
       = (versionHistory (base st) ++ [snapshot_of sk text feedback st])%list
    /\ loadingState st' = loadingState st
    /\ ((global = Some true /\ trace = []
         /\ generatedHtml (base st') = generatedHtml (base st)
         /\ chatMessages (base st')
            = (old ++ [said reply; said "需要重新规划整体行程，请稍候..."])%list
         /\ timers st' = (timers st ++ [(1500, ResetToInput)])%list
         /\ closed st')
        \/ (global <> Some true /\ timers st' = timers st
            /\ ((trace = []
                 /\ (target = None
                     \/ exists d affected,
                         target = Some d /\ targetDays analysis = Some affected
                         /\ ~ In d affected)
                 /\ generatedHtml (base st') = generatedHtml (base st)
                 /\ chatMessages (base st') = (old ++ [said reply])%list
                 /\ closed st')
                \/ (trace = []
                    /\ (exists d, target = Some d) /\ targetDays analysis = None
                    /\ generatedHtml (base st') = generatedHtml (base st)
                    /\ chatMessages (base st')
                       = (old ++ [said reply; said feedback_apology])%list
                    /\ showFeedbackCollector st' = showFeedbackCollector st
                    /\ feedbackTargetDay st' = feedbackTargetDay st)
                \/ (exists d affected,
                       target = Some d /\ targetDays analysis = Some affected
                       /\ In d affected
                       /\ trace = map Core (fst (regenerated sk d feedback))
                       /\ closed st' /\ isRegenerating (base st') = false
                       /\ ((generatedHtml (base st') = generatedHtml (base st)
                            /\ chatMessages (base st') = (old ++ [said reply])%list
                            /\ (exists newDayHtml,
                                   snd (regenerated sk d feedback) = Fulfilled newDayHtml)
                            /\ (generatedHtml (base st) = None
                                \/ generatedHtml (base st) = Some ""
                                \/ exists html,
                                    generatedHtml (base st) = Some html
                                    /\ match_day_section html d = None))
                           \/ (generatedHtml (base st') = generatedHtml (base st)
                               /\ chatMessages (base st')
                                  = (old ++ [said reply; said "修改失败，请重试。"])%list
                               /\ exists e, snd (regenerated sk d feedback) = Rejected e)
                           \/ (exists html newDayHtml,
                                  generatedHtml (base st) = Some html /\ html <> ""
                                  /\ match_day_section html d <> None
                                  /\ snd (regenerated sk d feedback) = Fulfilled newDayHtml
                                  /\ generatedHtml (base st')
                                     = Some (replace_day_section html d newDayHtml)
                                  /\ chatMessages (base st')
                                     = (old ++ [said reply; updated_message d])%list)))))).
Proof.
  intros Es Hc Hf Hr analysis global target old closed.
  unfold handleFeedbackSubmit, Feedback.createFeedbackAgent.
  rewrite Es, Hc. unfold Feedback.analyzeFeedback, Feedback.generateModificationResponse.
  rewrite Hf, Hr. cbn [Task.lift Task.ret Task.bind Task.await Task.try_catch app].
  fold analysis. fold target. fold global.
  assert (Hnot : forall b, global = b -> b <> Some true -> global <> Some true)
    by (intros; congruence).
  set (st1 := with_app _ (say reply st)).
  assert (H1 : tripSkeleton (base st1) = Some sk) by exact Es.
  assert (H2 : versionHistory (base st1)
               = (versionHistory (base st) ++ [snapshot_of sk text feedback st])%list)
    by reflexivity.
  assert (H3 : chatMessages (base st1) = (old ++ [said reply])%list) by reflexivity.
  assert (H4 : generatedHtml (base st1) = generatedHtml (base st)) by reflexivity.
  assert (H5 : timers st1 = timers st) by reflexivity.
  assert (H6 : showFeedbackCollector st1 = showFeedbackCollector st) by reflexivity.
  assert (H7 : feedbackTargetDay st1 = feedbackTargetDay st) by reflexivity.
  assert (H8 : loadingState st1 = loadingState st) by reflexivity.
  clearbody st1.
  assert (Hcases : global = Some true \/ global <> Some true).
  { destruct global as [[|]|]; [now left | right; discriminate | right; discriminate]. }
  destruct Hcases as [Hg|Hg].
  - rewrite Hg. eexists [], _. split; [reflexivity |]. simpl.
    split; [exact H1 |]. split; [exact H2 |]. split; [exact H8 |]. left.
    split; [reflexivity |]. split; [reflexivity |]. split; [exact H4 |].
    split; [rewrite H3, <- app_assoc; reflexivity |].
    split; [now rewrite H5 |]. now split.
  - rewrite (not_global_branch global _ _ Hg).
    assert (Hquiet :
              (target = None
               \/ exists d affected,
                   target = Some d /\ targetDays analysis = Some affected
                   /\ ~ In d affected) ->
              tripSkeleton (base (close_collector st1)) = Some sk
              /\ versionHistory (base (close_collector st1))
                 = (versionHistory (base st) ++ [snapshot_of sk text feedback st])%list
              /\ loadingState (close_collector st1) = loadingState st
              /\ timers (close_collector st1) = timers st
              /\ generatedHtml (base (close_collector st1)) = generatedHtml (base st)
              /\ chatMessages (base (close_collector st1)) = (old ++ [said reply])%list
              /\ closed (close_collector st1)).
    { intros _. repeat split; assumption || reflexivity. }
    destruct target as [d|] eqn:Et.
    2:{ exists [], (close_collector st1). split; [reflexivity |].
        destruct Hquiet as (Q1 & Q2 & Q3 & Q4 & Q5 & Q6 & Q7); [now left |].
        split; [exact Q1 |]. split; [exact Q2 |]. split; [exact Q3 |].
        right. split; [exact Hg |]. split; [exact Q4 |]. left.
        split; [reflexivity |]. split; [now left |]. now repeat split. }
    destruct (targetDays analysis) as [affected|] eqn:Ea.
    2:{ exists [], (say feedback_apology st1). split; [reflexivity |].
        split; [exact H1 |]. split; [exact H2 |]. split; [exact H8 |].
        right. split; [exact Hg |]. split; [exact H5 |]. right. left.
        split; [reflexivity |]. split; [now exists d |]. split; [reflexivity |].
        split; [exact H4 |]. split.
        { simpl. rewrite H3, <- app_assoc. reflexivity. }
        now split. }
    destruct (existsb (Z.eqb d) affected) eqn:Ein.
    2:{ exists [], (close_collector st1). split; [reflexivity |].
        assert (Hout : ~ In d affected).
        { intros Hd.
          assert (existsb (Z.eqb d) affected = true).
          { apply existsb_exists. exists d. split; [exact Hd | apply Z.eqb_refl]. }
          congruence. }
        destruct Hquiet as (Q1 & Q2 & Q3 & Q4 & Q5 & Q6 & Q7).
        { right. now exists d, affected. }
        split; [exact Q1 |]. split; [exact Q2 |]. split; [exact Q3 |].
        right. split; [exact Hg |]. split; [exact Q4 |]. left.
        split; [reflexivity |]. split; [right; now exists d, affected |].
        now repeat split. }
    apply existsb_exists in Ein. destruct Ein as (d' & Hin & Hd').
    apply Z.eqb_eq in Hd'. subst d'.
    destruct (regenerate_feedback_day_run W encodeURIComponent sk
                (generatedHtml (base st)) d (draft_content feedback) st1)
      as (st2 & -> & G1 & G2 & G3 & G3' & G4 & G5 & G6 & G7).
    cbn [Task.bind Task.ret]. rewrite app_nil_r.
    exists (map Core (fst (regenerated sk d feedback))), (close_collector st2).
    split; [reflexivity |]. split; [exact (eq_trans G1 H1) |].
    split; [exact (eq_trans G2 H2) |].
    split; [exact (eq_trans G3' H8) |].
    right. split; [exact Hg |]. split; [exact (eq_trans G3 H5) |]. right. right.
    exists d, affected. do 4 (split; [reflexivity || assumption |]).
    split; [now split |]. split; [exact G6 |].
    destruct G7 as [(E1 & [(E2 & E3 & E4)|(E2 & E3)])|(html & newDayHtml & E1 & E2 & E3 & E4 & E5 & E6)].
    + left. split; [exact (eq_trans E1 H4) |]. split; [exact (eq_trans E2 H3) |].
      split; [exact E3 |]. exact E4.
    + right. left. split; [exact (eq_trans E1 H4) |]. split; [| exact E3].
      change (chatMessages (base st2)
              = (old ++ [said reply; said "修改失败，请重试。"])%list).
      rewrite E2, H3, <- app_assoc. reflexivity.
    + right. right. exists html, newDayHtml. do 4 (split; [assumption |]).
      split; [exact E5 |].
      change (chatMessages (base st2) = (old ++ [said reply; updated_message d])%list).
      rewrite E6, H3, <- app_assoc. reflexivity.
Qed.

Lemma handleFeedbackSubmit_no_plan (feedback : FeedbackDraft) (st : ChatState) :
  tripSkeleton (base st) = None -> run_of feedback st = ([], Fulfilled st).
Proof. intros Es. unfold handleFeedbackSubmit. now rewrite Es. Qed.

Lemma handleFeedbackSubmit_no_key (feedback : FeedbackDraft) (st : ChatState)
  (sk : TripSkeleton) (e : exn) :
  tripSkeleton (base st) = Some sk -> getGlmClient W = Throw e ->
  run_of feedback st = ([], Rejected e).
Proof.
  intros Es Hc. unfold handleFeedbackSubmit, Feedback.createFeedbackAgent.
  now rewrite Es, Hc.
Qed.

Lemma answers_cases :
  (exists text reply, answer A FeedbackCall = Ok text /\ answer A ResponseCall = Ok reply)
  \/ (exists e, answer A FeedbackCall = Throw e)
  \/ (exists e, answer A ResponseCall = Throw e).
Proof.
  destruct (answer A FeedbackCall) as [text|e]; [| right; left; now exists e].
  destruct (answer A ResponseCall) as [reply|e]; [| right; right; now exists e].
  left. now exists text, reply.
Qed.

(** X22. handleFeedbackSubmit does nothing without a plan, and without an
    API key it rejects with nothing written (createFeedbackAgent runs
    outside the try, and its own handler constructs again). With a key it
    always fulfils and keeps the plan: if either assistant call fails the
    only change is the apology in the chat; if both answer, exactly one
    snapshot is appended to the ledger, numbered one more than the last (1
    on an empty ledger), holding the current plan, the feedback's author
    and the changes of the analysis, and the reply is the first message
    added. *)
Theorem handleFeedbackSubmit_ledger (feedback : FeedbackDraft) (st : ChatState) :
  let run := run_of feedback st in
  (tripSkeleton (base st) = None -> run = ([], Fulfilled st))
  /\ (forall sk,
         tripSkeleton (base st) = Some sk ->
         (forall e, getGlmClient W = Throw e -> run = ([], Rejected e))
         /\ (getGlmClient W = Ok glmClient ->
             exists st',
               snd run = Fulfilled st'
               /\ tripSkeleton (base st') = Some sk
               /\ ((exists e, answer A FeedbackCall = Throw e)
                   \/ (exists e, answer A ResponseCall = Throw e) ->
                   st' = say feedback_apology st
                   /\ versionHistory (base st') = versionHistory (base st))
               /\ (forall text reply,
                      answer A FeedbackCall = Ok text ->
                      answer A ResponseCall = Ok reply ->
                      exists v more,
                        versionHistory (base st')
                        = (versionHistory (base st) ++ [v])%list
                        /\ version v = next_number (versionHistory (base st))
                        /\ version_skeleton v = Some sk
                        /\ author v = draft_author feedback
                        /\ changes v = suggestedChanges (analysis_of text feedback)
                        /\ chatMessages (base st')
                           = (chatMessages (base st) ++ said reply :: more)%list))).
Proof.
  intros run. subst run. split; [apply handleFeedbackSubmit_no_plan |].
  intros sk Es. split; [intros e He; now apply (handleFeedbackSubmit_no_key feedback st sk e) |].
  intros Hc. destruct answers_cases as [(text & reply & Hf & Hr)|Hfail].
  - destruct (handleFeedbackSubmit_answered feedback st sk text reply Es Hc Hf Hr)
      as (trace & st' & -> & H1 & H2 & _ & Hcase).
    exists st'. split; [reflexivity |]. split; [exact H1 |]. split.
    { intros [(e & H)|(e & H)]; congruence. }
    intros text' reply' Hf' Hr'. rewrite Hf in Hf'. rewrite Hr in Hr'.
    injection Hf' as <-. injection Hr' as <-.
    eexists.
    assert (Hmore : exists more,
               chatMessages (base st')
               = (chatMessages (base st) ++ said reply :: more)%list).
    { destruct Hcase as [(_ & _ & _ & E & _)
                        |(_ & _ & [(_ & _ & _ & E & _)
                                  |[(_ & _ & _ & _ & E & _)
                                   |(d & affected & _ & _ & _ & _ & _ & _
                                     & [(_ & E & _)|[(_ & E & _)
                                       |(html & h & _ & _ & _ & _ & _ & E)]])]])];
        rewrite E; eexists; reflexivity. }
    destruct Hmore as [more Hmore]. exists more.
    split; [exact H2 |]. now repeat split.
  - destruct (handleFeedbackSubmit_unanswered feedback st sk Es Hc Hfail)
      as (trace & -> & _).
    exists (say feedback_apology st). split; [reflexivity |].
    split; [exact Es |]. split; [now split |].
    intros text reply Hf Hr. destruct Hfail as [(e & H)|(e & H)]; congruence.
Qed.

(** X23. Invariant of the ledger: if each snapshot is numbered one more
    than the one before it, this still holds after handleFeedbackSubmit,
    which leaves the snapshots there are as they were and appends at most
    one. *)
Theorem handleFeedbackSubmit_numbering (feedback : FeedbackDraft)
  (st st' : ChatState) :
  consecutive (versionHistory (base st)) ->
  snd (run_of feedback st) = Fulfilled st' ->
  consecutive (versionHistory (base st'))
  /\ exists more,
       versionHistory (base st') = (versionHistory (base st) ++ more)%list
       /\ (List.length more <= 1)%nat.
Proof.
  intros Hc Hrun. destruct (tripSkeleton (base st)) as [sk|] eqn:Es.
  2:{ rewrite (handleFeedbackSubmit_no_plan feedback st Es) in Hrun.
      injection Hrun as <-. split; [exact Hc |]. exists [].
      rewrite app_nil_r. split; [reflexivity | simpl; lia]. }
  destruct (getGlmClient W) as [[]|e] eqn:Hk.
  2:{ rewrite (handleFeedbackSubmit_no_key feedback st sk e Es Hk) in Hrun.
      discriminate Hrun. }
  destruct answers_cases as [(text & reply & Hf & Hr)|Hfail].
  - destruct (handleFeedbackSubmit_answered feedback st sk text reply Es Hk Hf Hr)
      as (trace & st2 & E & _ & H2 & _).
    rewrite E in Hrun. injection Hrun as <-. rewrite H2. split.
    + apply consecutive_app; [exact Hc | reflexivity].
    + eexists. split; [reflexivity | simpl; lia].
  - destruct (handleFeedbackSubmit_unanswered feedback st sk Es Hk Hfail)
      as (trace & E & _).
    rewrite E in Hrun. injection Hrun as <-. split; [exact Hc |]. exists [].
    rewrite app_nil_r. split; [reflexivity | simpl; lia].
Qed.


(** X25. When the section of the target day cannot be found in the
    document, handleFeedbackSubmit still regenerates the day (the calls
    are made) and then drops the result without a word: the document is
    unchanged, the chat gains only the reply, the snapshot is still
    appended and the collector is closed. No failure message and no alert
    is shown. *)
Theorem handleFeedbackSubmit_drops_unlocated_day (feedback : FeedbackDraft)
  (st : ChatState) (sk : TripSkeleton) (text reply html newDayHtml : string)
  (d : Z) (affected : list Z) :
  tripSkeleton (base st) = Some sk ->
  getGlmClient W = Ok glmClient ->
  answer A FeedbackCall = Ok text ->
  answer A ResponseCall = Ok reply ->
  requiresGlobalRegeneration (analysis_of text feedback) <> Some true ->
  truthy_day (draft_targetDay feedback) = Some d ->
  targetDays (analysis_of text feedback) = Some affected ->
  In d affected ->
  generatedHtml (base st) = Some html ->
  match_day_section html d = None ->
  snd (regenerated sk d feedback) = Fulfilled newDayHtml ->
  exists st',
    run_of feedback st
    = (([CallAssistant FeedbackCall; CallAssistant ResponseCall]
        ++ map Core (fst (regenerated sk d feedback)))%list, Fulfilled st')
    /\ generatedHtml (base st') = Some html
    /\ chatMessages (base st') = (chatMessages (base st) ++ [said reply])%list
    /\ versionHistory (base st')
       = (versionHistory (base st) ++ [snapshot_of sk text feedback st])%list
    /\ isRegenerating (base st') = false
    /\ showFeedbackCollector st' = false
    /\ alerts (base st') = alerts (base st).
Proof.
  intros Es Hk Hf Hr Hg Et Ea Hin Eh Em Eregen.
  destruct (handleFeedbackSubmit_answered feedback st sk text reply Es Hk Hf Hr)
    as (trace & st' & E & _ & H2 & _ & Hcase).
  pose proof (handleFeedbackSubmit_alerts W A encodeURIComponent feedback st st'
                ltac:(now rewrite E)) as Halerts.
  exists st'.
  destruct Hcase as [(G & _)
                    |(_ & _ & [(_ & [G|(d' & aff' & G1 & G2 & G3)] & _)
                              |[(_ & _ & G & _)
                               |(d' & aff' & G1 & G2 & G3 & -> & (G4 & _) & G5
                                 & [(E1 & E2 & _)|[(_ & _ & (e & E3))
                                   |(html' & h & E1 & E2 & E3 & _)]])]])];
    try congruence;
    try (assert (d' = d) by congruence; subst d');
    try (assert (aff' = affected) by congruence; subst aff');
    try (assert (html' = html) by congruence; subst html');
    try contradiction; try congruence.
  split; [exact E |]. split; [congruence |]. now repeat split.
Qed.

(** X26. When both assistant calls answer but the analysis cannot be read,
    the default analysis decides. Feedback without a target day appends a
    snapshot with one global change, announces a new plan and sets a timer
    of 1500 ms whose firing clears the plan, the document and the chat but
    keeps the ledger; feedback on day d appends a snapshot with one local
    change on d and goes on to regenerate that day, with no timer. *)
Theorem handleFeedbackSubmit_unreadable_analysis (feedback : FeedbackDraft)
  (st : ChatState) (sk : TripSkeleton) (text reply : string) :
  tripSkeleton (base st) = Some sk ->
  getGlmClient W = Ok glmClient ->
  answer A FeedbackCall = Ok text ->
  answer A ResponseCall = Ok reply ->
  unreadable text ->
  exists trace st' v,
    run_of feedback st
    = (([CallAssistant FeedbackCall; CallAssistant ResponseCall] ++ trace)%list,
       Fulfilled st')
    /\ versionHistory (base st') = (versionHistory (base st) ++ [v])%list
    /\ match truthy_day (draft_targetDay feedback) with
       | None =>
           trace = []
           /\ map change_type (changes v) = [global]
           /\ chatMessages (base st')
              = (chatMessages (base st)
                 ++ [said reply; said "需要重新规划整体行程，请稍候..."])%list
           /\ timers st' = (timers st ++ [(1500, ResetToInput)])%list
           /\ generatedHtml (base st') = generatedHtml (base st)
           /\ tripSkeleton (base (fire ResetToInput st')) = None
           /\ generatedHtml (base (fire ResetToInput st')) = None
           /\ chatMessages (base (fire ResetToInput st')) = []
           /\ versionHistory (base (fire ResetToInput st'))
              = (versionHistory (base st) ++ [v])%list
       | Some d =>
           trace = map Core (fst (regenerated sk d feedback))
           /\ map change_type (changes v) = [local]
           /\ map change_day (changes v) = [Some d]
           /\ timers st' = timers st
       end.
Proof.
  intros Es Hk Hf Hr Hu.
  destruct (handleFeedbackSubmit_answered feedback st sk text reply Es Hk Hf Hr)
    as (trace & st' & E & _ & H2 & _ & Hcase).
  exists trace, st', (snapshot_of sk text feedback st).
  split; [exact E |]. split; [exact H2 |].
  rewrite (parseAnalysisResponse_unreadable A text _ Hu) in Hcase, H2 |- *.
  unfold Feedback.getDefaultAnalysis in Hcase, H2 |- *.
  assert (Hidem : forall t, truthy_day (truthy_day t) = truthy_day t).
  { intros [n|]; [| reflexivity]. simpl. destruct (Z.eqb_spec n 0); [reflexivity |].
    simpl. now destruct (Z.eqb_spec n 0). }
  rewrite Hidem in Hcase, H2 |- *.
  destruct (truthy_day (draft_targetDay feedback)) as [d|] eqn:Et;
    cbn [requiresGlobalRegeneration targetDays suggestedChanges] in Hcase, H2 |- *.
  - destruct Hcase as [(G & _)|(_ & Ht & Hcase)]; [discriminate G |].
    destruct Hcase as [(_ & [G|(d' & aff & G1 & G2 & G3)] & _)
                      |[(_ & _ & G & _)|(d' & aff & G1 & G2 & G3 & G4 & _)]];
      try discriminate.
    + injection G1 as <-. injection G2 as <-. destruct G3. now left.
    + injection G1 as <-. now repeat split.
  - destruct Hcase as [(_ & G1 & G2 & G3 & G4 & _)|(G & _)]; [| now destruct G].
    split; [exact G1 |]. split; [reflexivity |]. split; [exact G3 |].
    split; [exact G4 |]. split; [exact G2 |].
    do 3 (split; [reflexivity |]). exact H2.
Qed.

End FeedbackSubmitFacts.

(** ** Worked instances of the chat and of the feedback *)

(** The answer names day 2 with confidence 0.9: the confirmation opens. *)
Lemma handleFollowUpSubmit_local_edit_witness :
  exists st',
    handleFollowUpSubmit Sample.calm
      (SampleChat.helper SampleChat.local_edit_text "")
      (parse_intent := SampleChat.intents) (parse_reply := Sample.not_json)
      "make day 2 slower" (SampleChat.showing SampleSplice.page)
    = ([CallAssistant EnhancedCall], Fulfilled st')
    /\ generatedHtml (base st') = Some SampleSplice.page
    /\ showDayConfirmation (base st') = true
    /\ suggestedDayForConfirmation st' = Some 2.
Proof.
  destruct (handleFollowUpSubmit_local_edit Sample.calm
              (SampleChat.helper SampleChat.local_edit_text "")
              (parse_intent := SampleChat.intents) (parse_reply := Sample.not_json)
              "make day 2 slower" (SampleChat.showing SampleSplice.page)
              SampleChat.local_edit_text SampleChat.local_edit
              ltac:(discriminate) ltac:(discriminate) eq_refl eq_refl
              ltac:(vm_compute; reflexivity) eq_refl)
    as (st' & E & Hdoc & _ & _ & _ & _ & _ & Hconfirm & _).
  exists st'. split; [exact E |]. split; [exact Hdoc |].
  destruct (Hconfirm 0.9%Q 2 eq_refl ltac:(reflexivity) eq_refl ltac:(discriminate))
    as (H1 & H2 & _).
  now split.
Defined.

(** The answer is an empty object: the plan will be cleared. *)
Lemma handleFollowUpSubmit_global_reset_witness :
  exists st',
    handleFollowUpSubmit Sample.calm (SampleChat.helper "{}" "")
      (parse_intent := SampleChat.intents) (parse_reply := Sample.not_json)
      "hmm" (SampleChat.showing SampleSplice.page)
    = ([CallAssistant EnhancedCall], Fulfilled st')
    /\ timers st' = [(1000, ResetToInput)]
    /\ tripSkeleton (base (fire ResetToInput st')) = None
    /\ versionHistory (base (fire ResetToInput st')) = [SampleLedger.initial].
Proof.
  destruct (handleFollowUpSubmit_global_reset Sample.calm (SampleChat.helper "{}" "")
              (parse_intent := SampleChat.intents) (parse_reply := Sample.not_json)
              "hmm" (SampleChat.showing SampleSplice.page) "{}" SampleChat.no_intent
              ltac:(discriminate) ltac:(discriminate) eq_refl eq_refl
              ltac:(vm_compute; reflexivity) (or_introl eq_refl))
    as (st' & E & _ & _ & _ & Ht & _ & Hs & _ & _ & Hl).
  exists st'. now repeat split.
Defined.

Lemma parseAnalysisResponse_stamps_witness :
  Forall (fun c => change_timestamp c <> 0)
         (suggestedChanges
            (Feedback.parseAnalysisResponse
               (SampleChat.helper "" SampleChat.second_day_text)
               (parse_feedback := SampleChat.analyses)
               SampleChat.second_day_text (Some 2))).
Proof.
  apply (parseAnalysisResponse_stamps
           (SampleChat.helper "" SampleChat.second_day_text)
           (parse_feedback := SampleChat.analyses)
           SampleChat.second_day_text (Some 2)).
  intros site. discriminate.
Defined.

Lemma handleFeedbackSubmit_numbering_witness :
  match snd (handleFeedbackSubmit SampleEdit.planner
               (SampleChat.helper "" SampleChat.second_day_text)
               (parse_feedback := SampleChat.analyses)
               (parse_day := SampleEdit.day_plans) Sample.plain
               SampleChat.on_day_2 (SampleChat.showing SampleSplice.page)) with
  | Fulfilled st' => consecutive (versionHistory (base st'))
  | _ => False
  end.
Proof.
  destruct (snd (handleFeedbackSubmit SampleEdit.planner
                   (SampleChat.helper "" SampleChat.second_day_text)
                   (parse_feedback := SampleChat.analyses)
                   (parse_day := SampleEdit.day_plans) Sample.plain
                   SampleChat.on_day_2 (SampleChat.showing SampleSplice.page)))
    as [st'|e|] eqn:E.
  - exact (proj1 (handleFeedbackSubmit_numbering SampleEdit.planner
                    (SampleChat.helper "" SampleChat.second_day_text)
                    (parse_feedback := SampleChat.analyses)
                    (parse_day := SampleEdit.day_plans) Sample.plain
                    SampleChat.on_day_2 (SampleChat.showing SampleSplice.page) st'
                    I E)).
  - vm_compute in E. discriminate E.
  - vm_compute in E. discriminate E.
Defined.


(** The document has no section for day 2: the day is generated and
    dropped. *)
Lemma handleFeedbackSubmit_drops_unlocated_day_witness :
  exists st',
    snd (handleFeedbackSubmit SampleEdit.planner
           (SampleChat.helper "" SampleChat.second_day_text)
           (parse_feedback := SampleChat.analyses)
           (parse_day := SampleEdit.day_plans) Sample.plain
           SampleChat.on_day_2 (SampleChat.showing "<main>plan</main>"))
    = Fulfilled st'
    /\ generatedHtml (base st') = Some "<main>plan</main>"
    /\ chatMessages (base st') = [said "收到，马上调整。"]
    /\ alerts (base st') = [].
Proof.
  destruct (snd (regenerateDayPlan SampleEdit.planner
                   (parse_day := SampleEdit.day_plans) Sample.plain
                   Sample.trip 2 "slower")) as [newDayHtml|e|] eqn:E.
  - destruct (handleFeedbackSubmit_drops_unlocated_day SampleEdit.planner
                (SampleChat.helper "" SampleChat.second_day_text)
                (parse_feedback := SampleChat.analyses)
                (parse_day := SampleEdit.day_plans) Sample.plain
                SampleChat.on_day_2 (SampleChat.showing "<main>plan</main>")
                Sample.trip SampleChat.second_day_text "收到，马上调整。"
                "<main>plan</main>" newDayHtml 2 [2]
                eq_refl eq_refl eq_refl eq_refl
                ltac:(vm_compute; discriminate) eq_refl
                ltac:(vm_compute; reflexivity) (or_introl eq_refl) eq_refl
                ltac:(vm_compute; reflexivity) E)
      as (st' & Erun & Hdoc & Hchat & _ & _ & _ & Halerts).
    exists st'. split; [now rewrite Erun |].
    split; [exact Hdoc |]. split; [exact Hchat | exact Halerts].
  - vm_compute in E. discriminate E.
  - vm_compute in E. discriminate E.
Defined.

(** The answer to the analysis prompt holds no object and the feedback
    names no day: the plan will be cleared. *)
Lemma handleFeedbackSubmit_unreadable_analysis_witness :
  exists st',
    snd (handleFeedbackSubmit Sample.calm (SampleChat.helper "" "thanks, noted")
           (parse_feedback := SampleChat.analyses)
           (parse_day := SampleEdit.day_plans) Sample.plain
           SampleChat.on_the_trip (SampleChat.showing SampleSplice.page))
    = Fulfilled st'
    /\ timers st' = [(1500, ResetToInput)]
    /\ tripSkeleton (base (fire ResetToInput st')) = None.
Proof.
  destruct (handleFeedbackSubmit_unreadable_analysis Sample.calm
              (SampleChat.helper "" "thanks, noted")
              (parse_feedback := SampleChat.analyses)
              (parse_day := SampleEdit.day_plans) Sample.plain
              SampleChat.on_the_trip (SampleChat.showing SampleSplice.page)
              Sample.trip "thanks, noted" "收到，马上调整。"
              eq_refl eq_refl eq_refl eq_refl I)
    as (trace & st' & v & Erun & _ & _ & _ & _ & Ht & _ & Hs & _).
  exists st'. split; [now rewrite Erun |]. split; [exact Ht | exact Hs].
Defined.

(** * The image service *)

From Stdlib Require DecimalPos DecimalZ.

Section ImageFacts.

Import ImageService ImageSpec.

(** ** Sets of addresses *)

Lemma Array_includes_In (l : list string) (s : string) :
  Array_includes l s = true <-> In s l.
Proof.
  unfold Array_includes. rewrite existsb_exists. split.
  - intros (x & Hx & E). apply String.eqb_eq in E. now subst.
  - intros H. exists s. split; [exact H | apply String.eqb_refl].
Qed.

Lemma Array_includes_false (l : list string) (s : string) :
  Array_includes l s = false <-> ~ In s l.
Proof.
  rewrite <- Array_includes_In. destruct (Array_includes l s); split; congruence.
Qed.

Lemma Set_of_from (l seen : list string) :
  NoDup seen ->
  let out :=
    fold_left (fun seen x => if Array_includes seen x then seen else (seen ++ [x])%list)
              l seen in
  NoDup out
  /\ (forall x, In x out <-> In x seen \/ In x l)
  /\ (List.length seen <= List.length out <= List.length seen + List.length l)%nat.
Proof.
  revert seen. induction l as [|x rest IH]; intros seen Hseen; simpl.
  - split; [exact Hseen |]. split; [intros x; tauto | lia].
  - destruct (Array_includes seen x) eqn:Ex.
    + destruct (IH seen Hseen) as (H1 & H2 & H3). split; [exact H1 |]. split.
      * intros y. rewrite H2. apply Array_includes_In in Ex.
        split; [tauto |]. intros [H|[<-|H]]; tauto.
      * lia.
    + assert (Hn : NoDup (seen ++ [x])).
      { apply Array_includes_false in Ex. apply NoDup_app; [exact Hseen | | ].
        - constructor; [intros [] | constructor].
        - intros y Hy [<-|[]]. contradiction. }
      destruct (IH (seen ++ [x])%list Hn) as (H1 & H2 & H3).
      split; [exact H1 |]. split.
      * intros y. rewrite H2, in_app_iff. simpl. tauto.
      * rewrite length_app in H3. simpl in H3. lia.
Qed.

Lemma Set_of_NoDup (l : list string) : NoDup (Set_of l).
Proof. apply (Set_of_from l []). constructor. Qed.

Lemma Set_of_In (l : list string) (x : string) : In x (Set_of l) <-> In x l.
Proof.
  destruct (Set_of_from l [] (NoDup_nil _)) as (_ & H & _).
  rewrite (H x). simpl. tauto.
Qed.

Lemma Set_of_nonempty (l : list string) : l <> [] -> Set_of l <> [].
Proof.
  destruct l as [|x rest]; [congruence |]. intros _ E.
  assert (H : In x (Set_of (x :: rest))) by (apply Set_of_In; now left).
  rewrite E in H. destruct H.
Qed.

Lemma Set_of_NoDup_id (l : list string) : NoDup l -> Set_of l = l.
Proof.
  unfold Set_of.
  assert (H : forall seen,
             NoDup (seen ++ l) ->
             fold_left
               (fun seen x => if Array_includes seen x then seen else (seen ++ [x])%list)
               l seen = (seen ++ l)%list).
  { induction l as [|x rest IH]; intros seen Hn; simpl.
    - now rewrite app_nil_r.
    - assert (Ex : Array_includes seen x = false).
      { apply Array_includes_false. intros Hx.
        apply NoDup_remove_2 in Hn. apply Hn. apply in_app_iff. now left. }
      rewrite Ex, IH; rewrite <- app_assoc; [reflexivity | exact Hn]. }
  intros Hl. apply (H []). exact Hl.
Qed.

Lemma Array_slice0_NoDup (l : list string) (n : Z) :
  NoDup l -> NoDup (Array_slice0 l n).
Proof.
  intros H. unfold Array_slice0.
  assert (Hf : forall k, NoDup (firstn k l)).
  { intros k. rewrite <- (firstn_skipn k l) in H.
    now apply NoDup_app_remove_r in H. }
  destruct (0 <=? n); apply Hf.
Qed.

Lemma Array_slice0_In (l : list string) (n : Z) (x : string) :
  In x (Array_slice0 l n) -> In x l.
Proof.
  assert (Hf : forall k, In x (firstn k l) -> In x l).
  { intros k H. rewrite <- (firstn_skipn k l). apply in_app_iff. now left. }
  unfold Array_slice0. destruct (0 <=? n); apply Hf.
Qed.

Lemma Array_slice0_length (l : list string) (n : Z) :
  0 <= n ->
  List.length (Array_slice0 l n) = Nat.min (Z.to_nat n) (List.length l).
Proof.
  intros Hn. unfold Array_slice0. apply Z.leb_le in Hn. rewrite Hn.
  apply length_firstn.
Qed.

Lemma Array_slice0_all (l : list string) (n : Z) :
  Z.of_nat (List.length l) <= n -> Array_slice0 l n = l.
Proof.
  intros Hn. unfold Array_slice0.
  assert (H : (0 <=? n) = true) by (apply Z.leb_le; lia). rewrite H.
  apply firstn_all2. lia.
Qed.

(** ** The loops over the sources *)

Section LoopFacts.

Variable encodeURIComponent : string -> string.
Variable E : Env.
Variable keyword : string.
Variable count : Z.
Variable orientation : ImageOrientation.
Variable retries : Z.

Lemma requests_app (t1 t2 : list call) :
  requests (t1 ++ t2) = (requests t1 ++ requests t2)%list.
Proof. apply filter_app. Qed.

Lemma pauses_app (t1 t2 : list call) :
  pauses (t1 ++ t2) = (pauses t1 ++ pauses t2)%list.
Proof. apply flat_map_app. Qed.

Lemma attempt_once_run (source : SourceName) (attempt : nat)
  (result : list string) :
  exists pause result' stop,
    attempt_once E keyword count orientation retries source attempt result
    = ((CallSource source keyword (count - Z.of_nat (List.length result)) orientation
        :: map Delay pause)%list, Fulfilled (result', stop))
    /\ (forall x, In x result -> In x result')
    /\ (forall x, In x result' -> In x result \/ delivered E x)
    /\ (stop = true -> count <= Z.of_nat (List.length result'))
    /\ (pause = []
        \/ (pause = [1000 * (Z.of_nat attempt + 1)]
            /\ Z.of_nat attempt < retries
            /\ exists e, source_fetch E source attempt = Throw e))
    /\ (forall images,
           source_fetch E source attempt = Ok images ->
           pause = []
           /\ result' = (result ++ filter (fun img => negb (Array_includes result img))
                                         images)%list
           /\ stop = ((0 <? List.length images)%nat
                      && (count <=? Z.of_nat (List.length result'))))
    /\ (forall e, source_fetch E source attempt = Throw e ->
                  result' = result /\ stop = false).
Proof.
  unfold attempt_once.
  destruct (source_fetch E source attempt) as [images|e] eqn:Ef; simpl.
  - destruct (0 <? List.length images)%nat eqn:El; simpl.
    + exists [], (result ++ filter (fun img => negb (Array_includes result img)) images)%list.
      eexists. split; [reflexivity |].
      split; [intros x Hx; apply in_app_iff; now left |]. split.
      { intros x Hx. apply in_app_iff in Hx. destruct Hx as [H|H]; [now left |].
        right. apply filter_In in H. now exists source, attempt, images. }
      split; [intros H; now apply Z.leb_le |]. split; [now left |].
      split; [| discriminate]. intros im [= <-]. rewrite El. now repeat split.
    + exists [], result, false. split; [reflexivity |]. split; [trivial |].
      split; [now left |]. split; [discriminate |]. split; [now left |].
      split; [| discriminate]. intros im [= <-]. rewrite El.
      split; [reflexivity |]. split; [| reflexivity].
      apply Nat.ltb_ge in El. destruct images; [| simpl in El; lia].
      simpl. now rewrite app_nil_r.
  - destruct (Z.of_nat attempt <? retries) eqn:Er; simpl.
    + exists [1000 * (Z.of_nat attempt + 1)], result, false.
      split; [reflexivity |]. split; [trivial |]. split; [now left |].
      split; [discriminate |]. split.
      { right. split; [reflexivity |]. split; [now apply Z.ltb_lt | now exists e]. }
      split; [discriminate |]. now intros.
    + exists [], result, false. split; [reflexivity |]. split; [trivial |].
      split; [now left |]. split; [discriminate |]. split; [now left |].
      split; [discriminate |]. now intros.
Qed.

Lemma counted_refl (st : State) : counted st st [].
Proof. unfold counted. simpl. repeat split; lia. Qed.

Lemma requests_turn (request : call) (pause : list Z) :
  (exists s k n o, request = CallSource s k n o) ->
  requests (request :: map Delay pause) = [request]
  /\ pauses (request :: map Delay pause) = pause.
Proof.
  intros (s & k & n & o & ->). unfold requests, pauses. simpl.
  induction pause as [|ms rest IH]; [now split |]. simpl in *.
  destruct IH as [-> ->]. now split.
Qed.

Lemma attempts_run (source : SourceName) (remaining : nat) :
  forall attempt result st,
    exists trace result' st',
      attempts E keyword count orientation retries source attempt remaining result st
      = (trace, Fulfilled (result', st'))
      /\ counted st st' trace
      /\ (List.length (requests trace) <= remaining)%nat
      /\ paused retries trace
      /\ (forall x, In x result -> In x result')
      /\ (forall x, In x result' -> In x result \/ delivered E x).
Proof.
  induction remaining as [|remaining IH]; intros attempt result st; simpl.
  - exists [], result, st. split; [reflexivity |]. split; [apply counted_refl |].
    split; [simpl; lia |]. split; [split; [constructor | simpl; lia] |].
    split; [trivial | now left].
  - destruct (attempt_once_run source attempt result)
      as (pause & result1 & stop & -> & H1 & H2 & H3 & H4 & _).
    cbn [Task.bind fst snd]. unfold Task.ret.
    match goal with
    | |- context [CallSource ?s ?k ?n ?o :: map Delay pause] =>
        destruct (requests_turn (CallSource s k n o) pause) as [Rq Ps];
        [now exists s, k, n, o |]
    end.
    assert (Hpause : Forall (fun ms => 1000 <= ms <= 1000 * retries) pause).
    { destruct H4 as [->|(-> & Hlt & _)]; [constructor |].
      constructor; [lia | constructor]. }
    assert (Hlen : (List.length pause <= 1)%nat).
    { destruct H4 as [->|(-> & _)]; simpl; lia. }
    destruct stop.
    + rewrite app_nil_r. eexists _, result1, (count_call st).
      split; [reflexivity |]. split.
      { unfold counted. rewrite Rq. simpl. repeat split; lia. }
      split; [rewrite Rq; simpl; lia |].
      split; [split; [now rewrite Ps | rewrite Ps, Rq; simpl; lia] |].
      split; assumption.
    + destruct (IH (S attempt) result1 (count_call st))
        as (trace & result2 & st2 & -> & (C1 & C2 & C3 & C4 & C5 & C6) & Hn
            & (P1 & P2) & G1 & G2).
      eexists _, result2, st2. split; [reflexivity |].
      unfold counted, paused. rewrite !requests_app, !pauses_app, !Rq, !Ps. split.
      { unfold counted. rewrite length_app. simpl in *.
        repeat split; try congruence. rewrite C6. lia. }
      split; [rewrite length_app; simpl; lia |].
      split.
      { split; [now apply Forall_app | rewrite !length_app; simpl; lia]. }
      split; [auto |]. intros x Hx.
      destruct (G2 x Hx) as [H|H]; [| now right]. exact (H2 x H).
Qed.

Lemma each_source_run (sources : list SourceName) :
  forall result st,
    exists trace result' st',
      each_source E keyword count orientation retries sources result st
      = (trace, Fulfilled (result', st'))
      /\ counted st st' trace
      /\ (List.length (requests trace)
          <= List.length sources * Z.to_nat (retries + 1))%nat
      /\ paused retries trace
      /\ (forall x, In x result -> In x result')
      /\ (forall x, In x result' -> In x result \/ delivered E x).
Proof.
  induction sources as [|source rest IH]; intros result st; simpl.
  - exists [], result, st. split; [reflexivity |]. split; [apply counted_refl |].
    split; [simpl; lia |]. split; [split; [constructor | simpl; lia] |].
    split; [trivial | now left].
  - destruct (attempts_run source (Z.to_nat (retries + 1)) 0%nat result st)
      as (trace1 & result1 & st1 & -> & C & Hn & (P1 & P2) & G1 & G2).
    cbn [Task.bind fst snd]. unfold Task.ret.
    destruct (count <=? Z.of_nat (List.length result1)).
    + rewrite app_nil_r. exists trace1, result1, st1. split; [reflexivity |].
      split; [exact C |]. split; [lia |]. split; [now split |]. now split.
    + destruct (IH result1 st1)
        as (trace2 & result2 & st2 & -> & C' & Hn' & (P1' & P2') & G1' & G2').
      exists (trace1 ++ trace2)%list, result2, st2. split; [reflexivity |].
      unfold counted, paused. rewrite !requests_app, !pauses_app.
      destruct C as (C1 & C2 & C3 & C4 & C5 & C6).
      destruct C' as (D1 & D2 & D3 & D4 & D5 & D6). split.
      { unfold counted. rewrite length_app.
        repeat split; try congruence. rewrite D6, C6. lia. }
      split; [rewrite length_app; lia |].
      split.
      { split; [now apply Forall_app | rewrite !length_app; lia]. }
      split; [auto |]. intros x Hx.
      destruct (G2' x Hx) as [H|H]; [| now right]. exact (G2 x H).
Qed.

End LoopFacts.

(** ** The cache of the image service *)

Lemma tidy_storage (st st' : State) :
  localStorage st' = localStorage st -> tidy st -> tidy st'.
Proof. unfold tidy. now intros ->. Qed.

Lemma tidy_filter (p : string * ImageCacheEntry -> bool) (st : State) :
  tidy st -> tidy (with_storage (filter p (localStorage st)) st).
Proof.
  unfold tidy. simpl. intros H. apply Forall_forall. intros item Hi.
  apply filter_In in Hi. rewrite Forall_forall in H. now apply H.
Qed.

Section CacheFacts.

Variable encodeURIComponent : string -> string.
Variable E : Env.

Lemma cache_get_facts (keyword : string) (orientation : ImageOrientation)
  (st : State) :
  let looked := cache_get encodeURIComponent E keyword orientation st in
  enabled (snd looked) = enabled st
  /\ (tidy st -> tidy (snd looked))
  /\ apiCalls (stats (snd looked)) = apiCalls (stats st)
  /\ cacheMisses (stats (snd looked)) = cacheMisses (stats st)
  /\ failures (stats (snd looked)) = failures (stats st)
  /\ match fst looked with
     | Some cached =>
         (tidy st -> NoDup cached)
         /\ snd looked = count_hit st
         /\ enabled st = true
         /\ exists entry,
             getItem (makeKey encodeURIComponent keyword orientation)
                     (localStorage st) = Some entry
             /\ urls entry = cached
             /\ now E AtGet - timestamp entry <= CACHE_TTL
     | None =>
         cacheHits (stats (snd looked)) = cacheHits (stats st)
         /\ (getItem (makeKey encodeURIComponent keyword orientation)
                     (localStorage st) = None -> snd looked = st)
     end.
Proof.
  unfold cache_get. destruct (enabled st) eqn:Een; simpl.
  2:{ now repeat split. }
  destruct (getItem _ (localStorage st)) as [entry|] eqn:Eg.
  2:{ now repeat split. }
  unfold expired. destruct (CACHE_TTL <? now E AtGet - timestamp entry) eqn:Ex; simpl.
  - split; [exact Een |]. split; [apply tidy_filter |]. repeat split. discriminate.
  - split; [exact Een |]. split; [now apply tidy_storage |].
    do 3 (split; [reflexivity |]). split.
    + intros Ht. unfold tidy in Ht. rewrite Forall_forall in Ht.
      unfold getItem in Eg.
      destruct (find _ (localStorage st)) as [item|] eqn:Ef; [| discriminate].
      injection Eg as <-. apply find_some in Ef. now apply Ht.
    + split; [reflexivity |]. split; [reflexivity |]. exists entry.
      split; [reflexivity |]. split; [reflexivity |]. apply Z.ltb_ge in Ex. exact Ex.
Qed.

Lemma cache_set_facts (keyword : string) (orientation : ImageOrientation)
  (found : list string) (st : State) :
  let st' := cache_set encodeURIComponent E keyword orientation found st in
  enabled st' = enabled st
  /\ stats st' = stats st
  /\ (NoDup found -> tidy st -> tidy st').
Proof.
  unfold cache_set. destruct (enabled st) eqn:Een; simpl; [| now repeat split].
  destruct (storage_full E); [now repeat split |].
  unfold cleanup. simpl. rewrite Een. simpl. split; [exact Een |].
  split; [reflexivity |]. intros Hn Ht.
  apply (tidy_filter _ (with_storage _ st)). unfold tidy, setItem, removeItem. simpl.
  apply Forall_app. split.
  - apply Forall_forall. intros item Hi. apply filter_In in Hi.
    unfold tidy in Ht. rewrite Forall_forall in Ht. now apply Ht.
  - constructor; [exact Hn | constructor].
Qed.

Lemma find_after_set (key : string) (entry : ImageCacheEntry)
  (p : string * ImageCacheEntry -> bool) (items : list (string * ImageCacheEntry)) :
  p (key, entry) = true ->
  getItem key (filter p (setItem key entry items)) = Some entry.
Proof.
  intros Hp. unfold getItem, setItem, removeItem. rewrite filter_app. simpl.
  rewrite Hp.
  induction items as [|item rest IH]; simpl.
  - now rewrite String.eqb_refl.
  - destruct (String.eqb (fst item) key) eqn:Ek; simpl; [exact IH |].
    destruct (p item); simpl; [| exact IH]. now rewrite Ek.
Qed.

Lemma cache_set_get (keyword : string) (orientation : ImageOrientation)
  (found : list string) (st : State) :
  enabled st = true -> storage_full E = false ->
  now E AtCleanup - now E AtSet <= CACHE_TTL ->
  getItem (makeKey encodeURIComponent keyword orientation)
          (localStorage (cache_set encodeURIComponent E keyword orientation found st))
  = Some {| urls := found; timestamp := now E AtSet; entry_keyword := keyword;
            entry_orientation := orientation |}.
Proof.
  intros Een Ef Ht. unfold cache_set, cleanup. rewrite Een, Ef. simpl.
  rewrite Een. simpl. apply find_after_set. unfold expired. simpl.
  apply Z.ltb_ge in Ht. rewrite Ht. now rewrite andb_false_r.
Qed.

Section Sources.

Variable keyword : string.
Variable count : Z.
Variable orientation : ImageOrientation.
Variable retries : Z.

Lemma fetch_from_sources_run (useCache : bool) (st : State) :
  exists trace gathered st1,
    let found := Array_slice0 (Set_of gathered) count in
    fetch_from_sources encodeURIComponent E keyword count orientation retries
      useCache st
    = (trace, Fulfilled
                (found,
                 if (0 <? List.length found)%nat && useCache
                 then cache_set encodeURIComponent E keyword orientation found st1
                 else st1))
    /\ count <= Z.of_nat (List.length gathered)
    /\ (forall x, In x gathered -> delivered E x \/ fallback_address encodeURIComponent E keyword orientation x)
    /\ (List.length (requests trace) <= 3 * Z.to_nat (retries + 1))%nat
    /\ paused retries trace
    /\ enabled st1 = enabled st
    /\ localStorage st1 = localStorage st
    /\ cacheHits (stats st1) = cacheHits (stats st)
    /\ cacheMisses (stats st1) = cacheMisses (stats st) + 1
    /\ apiCalls (stats st1)
       = apiCalls (stats st) + Z.of_nat (List.length (requests trace))
    /\ (failures (stats st1) = failures (stats st)
        \/ failures (stats st1) = failures (stats st) + 1).
Proof.
  unfold fetch_from_sources.
  destruct (each_source_run E keyword count orientation retries
              [Unsplash; Pexels; Pixabay] [] (count_miss st))
    as (trace & result & st0 & -> & (C1 & C2 & C3 & C4 & C5 & C6) & Hn & Hp & _ & Hfrom).
  cbn [Task.bind fst snd]. simpl in Hn.
  destruct (Z.of_nat (List.length result) <? count) eqn:Elt.
  - unfold pollinationsFallback, Task.ret. cbn [Task.bind Task.try_catch fst snd].
    rewrite !app_nil_r.
    eexists trace, _, (count_failure st0). split; [reflexivity |].
    apply Z.ltb_lt in Elt. split.
    { rewrite length_app, length_map, length_seq. lia. }
    split.
    { intros x Hx. apply in_app_iff in Hx. destruct Hx as [H|H].
      - destruct (Hfrom x H) as [[]|Hd]. now left.
      - right. apply in_map_iff in H. destruct H as (i & <- & _). now exists i. }
    split; [lia |]. split; [exact Hp |]. simpl in *.
    repeat split; try congruence; lia.
  - unfold Task.ret. cbn [Task.bind fst snd]. rewrite !app_nil_r.
    exists trace, result, st0. split; [reflexivity |].
    apply Z.ltb_ge in Elt. split; [exact Elt |]. split.
    { intros x Hx. destruct (Hfrom x Hx) as [[]|Hd]. now left. }
    split; [lia |]. split; [exact Hp |]. simpl in *.
    repeat split; try congruence; lia.
Qed.

End Sources.

End CacheFacts.

(** ** Numbers in addresses *)

Lemma string_of_uint_digits (d : Decimal.uint) :
  all_digits (NilEmpty.string_of_uint d).
Proof. induction d; simpl; unfold digit; simpl; tauto. Qed.

Lemma show_Z_digits (n : Z) : 0 < n -> all_digits (show_Z n).
Proof.
  intros Hn. unfold show_Z. destruct n as [|p|p]; try lia. simpl.
  unfold NilZero.string_of_uint.
  destruct (Pos.to_uint p) eqn:Ep; try apply string_of_uint_digits.
  simpl. unfold digit. simpl. tauto.
Qed.

Lemma show_Z_inj (a b : Z) : 0 < a -> 0 < b -> show_Z a = show_Z b -> a = b.
Proof.
  intros Ha Hb H. unfold show_Z in H.
  assert (Hi : forall n, 0 < n -> Z.to_int n <> Decimal.Pos Decimal.Nil
                                  /\ Z.to_int n <> Decimal.Neg Decimal.Nil).
  { intros n Hn. destruct n as [|p|p]; try lia. simpl. split; [| discriminate].
    intros [= E]. now apply DecimalPos.Unsigned.to_uint_nonnil in E. }
  destruct (Hi a Ha) as [A1 A2]. destruct (Hi b Hb) as [B1 B2].
  apply (f_equal NilZero.int_of_string) in H.
  rewrite !NilZero.isi in H by assumption. injection H as H.
  apply (f_equal Z.of_int) in H. now rewrite !DecimalZ.of_to in H.
Qed.

Lemma digits_then_mark (a b r1 r2 : string) (c : ascii) :
  all_digits a -> all_digits b -> ~ digit c ->
  a ++ String c r1 = b ++ String c r2 -> a = b.
Proof.
  revert b. induction a as [|x a IH]; intros [|y b] Ha Hb Hc H; simpl in *.
  - reflexivity.
  - injection H as -> _. now destruct Hb.
  - injection H as -> _. now destruct Ha.
  - injection H as -> H. f_equal. apply (IH b); tauto.
Qed.

Lemma append_inj_l (p a b : string) : p ++ a = p ++ b -> a = b.
Proof. induction p as [|c p IH]; simpl; [trivial |]. intros [= H]. auto. Qed.

(** ** What [fetchImages] returns *)

Section FetchFacts.

Variable encodeURIComponent : string -> string.
Variable E : Env.

Lemma looked_facts (options : ImageFetchOptions) (st : State) :
  let looked :=
    if useCache_of options
    then cache_get encodeURIComponent E (keyword options) (orientation_of options) st
    else (None, st) in
  enabled (snd looked) = enabled st
  /\ (tidy st -> tidy (snd looked))
  /\ apiCalls (stats (snd looked)) = apiCalls (stats st)
  /\ cacheMisses (stats (snd looked)) = cacheMisses (stats st)
  /\ failures (stats (snd looked)) = failures (stats st)
  /\ match fst looked with
     | Some cached =>
         (tidy st -> NoDup cached)
         /\ snd looked = count_hit st
         /\ enabled st = true /\ useCache_of options = true
         /\ exists entry,
             getItem (makeKey encodeURIComponent (keyword options)
                              (orientation_of options))
                     (localStorage st) = Some entry
             /\ urls entry = cached
             /\ now E AtGet - timestamp entry <= CACHE_TTL
     | None =>
         cacheHits (stats (snd looked)) = cacheHits (stats st)
         /\ (uncached encodeURIComponent options st -> snd looked = st)
     end.
Proof.
  destruct (useCache_of options) eqn:Eu; cbv zeta.
  - pose proof (cache_get_facts encodeURIComponent E (keyword options)
                  (orientation_of options) st) as H.
    cbv zeta in H. destruct H as (H1 & H2 & H3 & H4 & H5 & H6).
    do 5 (split; [assumption |]).
    destruct (fst (cache_get _ _ _ _ st)) as [cached|] eqn:Ec.
    + destruct H6 as (G1 & G2 & G3 & G4). now repeat split.
    + destruct H6 as (G1 & G2). split; [exact G1 |].
      intros [Hu|[Hu|Hu]]; [congruence | | now apply G2].
      unfold cache_get. now rewrite Hu.
  - simpl. now repeat split.
Qed.

(** X27. fetchImages never rejects. If the lists in the cache are free of
    repetitions, so is the list returned and so are the lists in the cache
    afterwards; for count at least 0 at most count addresses are returned,
    for count at least 1 at least one, and each address comes from the
    cache entry of the request, from an answer of a source, or from the
    fallback generator. *)
Theorem fetchImages_result (options : ImageFetchOptions) (st : State) :
  tidy st ->
  exists trace found st',
    fetchImages encodeURIComponent E options st = (trace, Fulfilled (found, st'))
    /\ NoDup found
    /\ tidy st'
    /\ enabled st' = enabled st
    /\ (0 <= count_of options ->
        Z.of_nat (List.length found) <= count_of options)
    /\ (1 <= count_of options -> found <> [])
    /\ (forall x,
           In x found ->
           (exists entry,
               getItem (makeKey encodeURIComponent (keyword options)
                                (orientation_of options))
                       (localStorage st) = Some entry
               /\ In x (urls entry))
           \/ delivered E x
           \/ fallback_address encodeURIComponent E (keyword options)
                (orientation_of options) x).
Proof.
  intros Ht. unfold fetchImages. cbv zeta.
  pose proof (looked_facts options st) as L. cbv zeta in L.
  destruct L as (L1 & L2 & _ & _ & _ & L6).
  set (looked := if useCache_of options then _ else _) in *.
  assert (Hmiss :
            exists trace found st',
              fetch_from_sources encodeURIComponent E (keyword options)
                (count_of options) (orientation_of options) (retries_of options)
                (useCache_of options) (snd looked)
              = (trace, Fulfilled (found, st'))
              /\ NoDup found /\ tidy st' /\ enabled st' = enabled st
              /\ (0 <= count_of options ->
                  Z.of_nat (List.length found) <= count_of options)
              /\ (1 <= count_of options -> found <> [])
              /\ (forall x,
                     In x found ->
                     delivered E x
                     \/ fallback_address encodeURIComponent E (keyword options)
                          (orientation_of options) x)).
  { destruct (fetch_from_sources_run encodeURIComponent E (keyword options)
                (count_of options) (orientation_of options) (retries_of options)
                (useCache_of options) (snd looked))
      as (trace & gathered & st1 & Erun & Hlen & Hfrom & _ & _ & F1 & F2 & _).
    cbv zeta in Erun. rewrite Erun. eexists _, _, _. split; [reflexivity |].
    assert (Hn : NoDup (Array_slice0 (Set_of gathered) (count_of options))).
    { apply Array_slice0_NoDup, Set_of_NoDup. }
    assert (Ht1 : tidy st1) by (apply (tidy_storage (snd looked)); auto).
    split; [exact Hn |]. split.
    { destruct (_ && _); [| exact Ht1]. now apply cache_set_facts. }
    split.
    { destruct (_ && _); [| congruence].
      pose proof (cache_set_facts encodeURIComponent E (keyword options)
                    (orientation_of options)
                    (Array_slice0 (Set_of gathered) (count_of options)) st1) as H.
      cbv zeta in H. destruct H as (H & _). congruence. }
    split.
    { intros Hc. rewrite Array_slice0_length by exact Hc. lia. }
    split.
    { intros Hc Hempty.
      assert (Hs : Set_of gathered <> []).
      { apply Set_of_nonempty. destruct gathered; [simpl in Hlen; lia | discriminate]. }
      unfold Array_slice0 in Hempty.
      assert (Hp : (0 <=? count_of options) = true) by (apply Z.leb_le; lia).
      rewrite Hp in Hempty. destruct (Set_of gathered); [congruence |].
      destruct (Z.to_nat (count_of options)) eqn:Ez; [lia | discriminate]. }
    intros x Hx. apply Hfrom. apply Set_of_In. now apply Array_slice0_In in Hx. }
  destruct (fst looked) as [cached|] eqn:Ec.
  2:{ destruct Hmiss as (trace & found & st' & -> & H1 & H2 & H3 & H4 & H5 & H6).
      exists trace, found, st'. split; [reflexivity |]. do 5 (split; [assumption |]).
      intros x Hx. right. now apply H6. }
  destruct (count_of options <=? Z.of_nat (List.length cached)) eqn:El.
  2:{ destruct Hmiss as (trace & found & st' & -> & H1 & H2 & H3 & H4 & H5 & H6).
      exists trace, found, st'. split; [reflexivity |]. do 5 (split; [assumption |]).
      intros x Hx. right. now apply H6. }
  destruct L6 as (G1 & G2 & G3 & G4 & entry & G5 & G6 & G7).
  apply Z.leb_le in El.
  eexists [], _, _. split; [reflexivity |].
  split; [apply Array_slice0_NoDup; auto |]. split; [auto |]. split; [exact L1 |].
  split.
  { intros Hc. rewrite Array_slice0_length by exact Hc. lia. }
  split.
  { intros Hc Hempty. unfold Array_slice0 in Hempty.
    assert (Hp : (0 <=? count_of options) = true) by (apply Z.leb_le; lia).
    rewrite Hp in Hempty. destruct cached; [simpl in El; lia |].
    destruct (Z.to_nat (count_of options)) eqn:Ez; [lia | discriminate]. }
  intros x Hx. left. exists entry. split; [exact G5 |]. rewrite G6.
  now apply Array_slice0_In in Hx.
Qed.

(** X28. One fetchImages makes at most 3 * (retries + 1) requests to the
    sources, and apiCalls grows by exactly the number made; every wait
    between attempts lasts between 1000 ms and 1000 * retries ms, and
    there are no more waits than requests. A request answered from the
    cache makes no request, stores nothing and counts one hit; any other
    request counts one miss. *)
Theorem fetchImages_budget (options : ImageFetchOptions) (st : State) :
  exists trace found st',
    fetchImages encodeURIComponent E options st = (trace, Fulfilled (found, st'))
    /\ (List.length (requests trace) <= 3 * Z.to_nat (retries_of options + 1))%nat
    /\ paused (retries_of options) trace
    /\ apiCalls (stats st')
       = apiCalls (stats st) + Z.of_nat (List.length (requests trace))
    /\ ((trace = []
         /\ cacheHits (stats st') = cacheHits (stats st) + 1
         /\ cacheMisses (stats st') = cacheMisses (stats st)
         /\ failures (stats st') = failures (stats st)
         /\ localStorage st' = localStorage st)
        \/ (cacheMisses (stats st') = cacheMisses (stats st) + 1
            /\ (cacheHits (stats st') = cacheHits (stats st)
                \/ cacheHits (stats st') = cacheHits (stats st) + 1)
            /\ (failures (stats st') = failures (stats st)
                \/ failures (stats st') = failures (stats st) + 1))).
Proof.
  unfold fetchImages. cbv zeta.
  pose proof (looked_facts options st) as L. cbv zeta in L.
  destruct L as (_ & _ & L3 & L4 & L5 & L6).
  set (looked := if useCache_of options then _ else _) in *.
  assert (Hhits : cacheHits (stats (snd looked)) = cacheHits (stats st)
                  \/ cacheHits (stats (snd looked)) = cacheHits (stats st) + 1).
  { destruct (fst looked); [| now left]. destruct L6 as (_ & -> & _). now right. }
  assert (Hmiss :
            exists trace found st',
              fetch_from_sources encodeURIComponent E (keyword options)
                (count_of options) (orientation_of options) (retries_of options)
                (useCache_of options) (snd looked)
              = (trace, Fulfilled (found, st'))
              /\ (List.length (requests trace)
                  <= 3 * Z.to_nat (retries_of options + 1))%nat
              /\ paused (retries_of options) trace
              /\ apiCalls (stats st')
                 = apiCalls (stats st) + Z.of_nat (List.length (requests trace))
              /\ cacheMisses (stats st') = cacheMisses (stats st) + 1
              /\ (cacheHits (stats st') = cacheHits (stats st)
                  \/ cacheHits (stats st') = cacheHits (stats st) + 1)
              /\ (failures (stats st') = failures (stats st)
                  \/ failures (stats st') = failures (stats st) + 1)).
  { destruct (fetch_from_sources_run encodeURIComponent E (keyword options)
                (count_of options) (orientation_of options) (retries_of options)
                (useCache_of options) (snd looked))
      as (trace & gathered & st1 & Erun & _ & _ & Hn & Hp & _ & _ & S1 & S2 & S3 & S4).
    cbv zeta in Erun. rewrite Erun. eexists _, _, _. split; [reflexivity |].
    split; [exact Hn |]. split; [exact Hp |].
    assert (Hs : stats (if (0 <? List.length
                                   (Array_slice0 (Set_of gathered) (count_of options)))%nat
                             && useCache_of options
                        then cache_set encodeURIComponent E (keyword options)
                               (orientation_of options)
                               (Array_slice0 (Set_of gathered) (count_of options)) st1
                        else st1) = stats st1).
    { destruct (_ && _); [| reflexivity]. now apply cache_set_facts. }
    rewrite Hs. split; [lia |]. split; [lia |]. split; lia. }
  destruct (fst looked) as [cached|] eqn:Ec.
  2:{ destruct Hmiss as (trace & found & st' & -> & H1 & H2 & H3 & H4 & H5 & H6).
      exists trace, found, st'. split; [reflexivity |]. do 3 (split; [assumption |]).
      right. now repeat split. }
  destruct (count_of options <=? Z.of_nat (List.length cached)) eqn:El.
  2:{ destruct Hmiss as (trace & found & st' & -> & H1 & H2 & H3 & H4 & H5 & H6).
      exists trace, found, st'. split; [reflexivity |]. do 3 (split; [assumption |]).
      right. now repeat split. }
  destruct L6 as (_ & G2 & _).
  eexists [], _, _. split; [reflexivity |]. split; [simpl; lia |].
  split; [split; [constructor | simpl; lia] |]. rewrite G2. simpl.
  split; [lia |]. left. now repeat split.
Qed.

End FetchFacts.

Section UncachedFacts.

Variable encodeURIComponent : string -> string.
Variable E : Env.

Lemma looked_uncached (options : ImageFetchOptions) (st : State) :
  uncached encodeURIComponent options st ->
  (if useCache_of options
   then cache_get encodeURIComponent E (keyword options) (orientation_of options) st
   else (None, st)) = (None, st).
Proof.
  intros [Hu|[Hu|Hu]].
  - now rewrite Hu.
  - destruct (useCache_of options); [| reflexivity]. unfold cache_get. now rewrite Hu.
  - destruct (useCache_of options); [| reflexivity]. unfold cache_get.
    rewrite Hu. now destruct (enabled st).
Qed.

Lemma fetchImages_uncached (options : ImageFetchOptions) (st : State) :
  uncached encodeURIComponent options st ->
  fetchImages encodeURIComponent E options st
  = fetch_from_sources encodeURIComponent E (keyword options) (count_of options)
      (orientation_of options) (retries_of options) (useCache_of options) st.
Proof.
  intros Hu. unfold fetchImages. cbv zeta. now rewrite (looked_uncached options st Hu).
Qed.

Lemma pollinations_url_inj (keyword : string) (orientation : ImageOrientation)
  (i j : nat) :
  pollinations_url encodeURIComponent E keyword orientation i
  = pollinations_url encodeURIComponent E keyword orientation j ->
  i = j.
Proof.
  unfold pollinations_url. intros H.
  apply append_inj_l, append_inj_l in H.
  change ("+" ++ ?x) with (String "+" x) in H.
  simpl in H. injection H as H.
  apply digits_then_mark in H.
  - apply show_Z_inj in H; lia.
  - apply show_Z_digits. lia.
  - apply show_Z_digits. lia.
  - unfold digit. simpl. intros H'.
    repeat (destruct H' as [H'|H']; [discriminate H' |]). exact H'.
Qed.

Lemma pollinations_NoDup (keyword : string) (orientation : ImageOrientation)
  (n : nat) :
  NoDup (map (pollinations_url encodeURIComponent E keyword orientation) (seq 0 n)).
Proof.
  assert (H : forall l : list nat,
             NoDup l ->
             NoDup (map (pollinations_url encodeURIComponent E keyword orientation) l)).
  { induction l as [|i l IH]; intros Hl; simpl; [constructor |].
    inversion Hl as [|? ? Hi Hl']; subst. constructor; [| now apply IH].
    intros Hin. apply in_map_iff in Hin. destruct Hin as (j & Ej & Hj).
    apply pollinations_url_inj in Ej. now subst. }
  apply H, seq_NoDup.
Qed.

Section Barren.

Hypothesis nothing : barren E.

Variable keyword : string.
Variable count : Z.
Variable orientation : ImageOrientation.
Variable retries : Z.

Lemma attempts_barren (source : SourceName) (remaining : nat) :
  forall attempt result st,
    exists trace st',
      attempts E keyword count orientation retries source attempt remaining result st
      = (trace, Fulfilled (result, st'))
      /\ counted st st' trace
      /\ List.length (requests trace) = remaining.
Proof.
  induction remaining as [|remaining IH]; intros attempt result st; simpl.
  - exists [], st. split; [reflexivity |]. split; [apply counted_refl | reflexivity].
  - destruct (attempt_once_run E keyword count orientation retries source attempt result)
      as (pause & result1 & stop & -> & _ & _ & _ & _ & Hok & Hthrow).
    assert (Hsame : result1 = result /\ stop = false).
    { destruct (nothing source attempt) as [H|(e & H)].
      - destruct (Hok [] H) as (_ & -> & ->). simpl. now rewrite app_nil_r.
      - exact (Hthrow e H). }
    destruct Hsame as [-> ->]. cbn [Task.bind fst snd].
    match goal with
    | |- context [CallSource ?s ?k ?n ?o :: map Delay pause] =>
        destruct (requests_turn (CallSource s k n o) pause) as [Rq _];
        [now exists s, k, n, o |]
    end.
    destruct (IH (S attempt) result (count_call st))
      as (trace & st2 & -> & (C1 & C2 & C3 & C4 & C5 & C6) & Hn).
    eexists _, st2. split; [reflexivity |]. unfold counted.
    rewrite !requests_app, !Rq, !length_app. simpl in *.
    split; [| lia]. repeat split; try congruence. rewrite C6. lia.
Qed.

Lemma each_source_barren (sources : list SourceName) :
  forall st,
    exists trace st',
      each_source E keyword count orientation retries sources [] st
      = (trace, Fulfilled ([], st'))
      /\ counted st st' trace
      /\ List.length (requests trace)
         = ((if (count <=? 0)%Z then Nat.min 1 (List.length sources)
             else List.length sources) * Z.to_nat (retries + 1))%nat.
Proof.
  induction sources as [|source rest IH]; intros st; simpl.
  - exists [], st. split; [reflexivity |]. split; [apply counted_refl |].
    now destruct (count <=? 0).
  - destruct (attempts_barren source (Z.to_nat (retries + 1)) 0%nat [] st)
      as (trace1 & st1 & -> & C & Hn).
    cbn [Task.bind fst snd List.length]. unfold Task.ret. change (Z.of_nat 0) with 0.
    destruct (count <=? 0) eqn:Ec.
    + rewrite app_nil_r. exists trace1, st1. split; [reflexivity |].
      split; [exact C | lia].
    + destruct (IH st1) as (trace2 & st2 & -> & C' & Hn').
      exists (trace1 ++ trace2)%list, st2. split; [reflexivity |].
      destruct C as (C1 & C2 & C3 & C4 & C5 & C6).
      destruct C' as (D1 & D2 & D3 & D4 & D5 & D6).
      unfold counted. rewrite !requests_app, !length_app.
      split; [| lia]. repeat split; try congruence. rewrite D6, C6. lia.
Qed.

End Barren.

(** X29. When no source gives any address (every attempt fails or answers
    with nothing) and the cache cannot answer, fetchImages with count at
    least 0 returns exactly count fallback addresses, numbered from 1 and
    pairwise different, after 3 * (retries + 1) requests and one counted
    failure. For count 0 it still makes retries + 1 requests to the first
    source, and returns the empty list. *)
Theorem fetchImages_fallback_only (options : ImageFetchOptions) (st : State) :
  barren E ->
  uncached encodeURIComponent options st ->
  0 <= count_of options ->
  exists trace st',
    let found :=
      map (pollinations_url encodeURIComponent E (keyword options)
             (orientation_of options))
          (seq 0 (Z.to_nat (count_of options))) in
    fetchImages encodeURIComponent E options st = (trace, Fulfilled (found, st'))
    /\ NoDup found
    /\ List.length (requests trace)
       = ((if (count_of options =? 0)%Z then 1 else 3)
          * Z.to_nat (retries_of options + 1))%nat
    /\ apiCalls (stats st')
       = apiCalls (stats st) + Z.of_nat (List.length (requests trace))
    /\ failures (stats st')
       = failures (stats st) + (if count_of options =? 0 then 0 else 1).
Proof.
  intros Hb Hu Hc. rewrite (fetchImages_uncached options st Hu).
  unfold fetch_from_sources.
  destruct (each_source_barren Hb (keyword options) (count_of options)
              (orientation_of options) (retries_of options)
              [Unsplash; Pexels; Pixabay] (count_miss st))
    as (trace & st0 & -> & (C1 & C2 & C3 & C4 & C5 & C6) & Hn).
  cbn [Task.bind fst snd List.length]. change (Z.of_nat 0) with 0.
  pose proof (pollinations_NoDup (keyword options) (orientation_of options)
                (Z.to_nat (count_of options))) as Hnd.
  destruct (Z.eqb_spec (count_of options) 0) as [Ez|Ez].
  - rewrite Ez in *. simpl. rewrite app_nil_r.
    eexists trace, _. split; [reflexivity |]. split; [constructor |].
    simpl in Hn. split; [lia |]. simpl in *. split; lia.
  - assert (Hlt : (0 <? count_of options) = true) by (apply Z.ltb_lt; lia).
    assert (Hle : (count_of options <=? 0) = false) by (apply Z.leb_gt; lia).
    rewrite Hlt. rewrite Hle in Hn.
    unfold pollinationsFallback, Task.ret. cbn [Task.bind Task.try_catch fst snd app].
    rewrite !app_nil_r, Z.sub_0_r.
    rewrite (Set_of_NoDup_id _ Hnd).
    rewrite Array_slice0_all by (rewrite length_map, length_seq; lia).
    eexists trace, _. split; [reflexivity |]. split; [exact Hnd |].
    simpl in Hn. split; [lia |].
    assert (Hs : forall (flag : bool) (found0 : list string) (s : State),
               stats (if flag
                      then cache_set encodeURIComponent E (keyword options)
                             (orientation_of options) found0 s
                      else s) = stats s).
    { intros [|] f s; [now apply cache_set_facts | reflexivity]. }
    rewrite Hs. simpl in *. split; lia.
Qed.

End UncachedFacts.

(** ** Asking the cache again *)

Section RoundTrip.

Variable encodeURIComponent : string -> string.
Variables E1 E2 : Env.

(** X30. Round trip through the cache: after a first fetchImages with
    count at least 1 that found nothing cached (cache enabled and
    writable, useCache on), a second request for the same keyword and
    orientation within the time to live, asking for m addresses with m at
    most the number found, makes no request and returns the first m
    addresses of the first answer, counting one cache hit. *)
Theorem fetchImages_cached_again (options : ImageFetchOptions) (st : State) :
  useCache_of options = true ->
  enabled st = true ->
  storage_full E1 = false ->
  getItem (makeKey encodeURIComponent (keyword options) (orientation_of options))
          (localStorage st) = None ->
  1 <= count_of options ->
  now E1 AtCleanup - now E1 AtSet <= CACHE_TTL ->
  now E2 AtGet - now E1 AtSet <= CACHE_TTL ->
  exists trace found st',
    fetchImages encodeURIComponent E1 options st = (trace, Fulfilled (found, st'))
    /\ found <> []
    /\ forall m,
         0 <= m <= Z.of_nat (List.length found) ->
         fetchImages encodeURIComponent E2 (asking m options) st'
         = ([], Fulfilled (firstn (Z.to_nat m) found, count_hit st')).
Proof.
  intros Hu Hen Hfull Hnone Hc Hclean Hget.
  rewrite (fetchImages_uncached encodeURIComponent E1 options st)
    by (right; right; exact Hnone).
  destruct (fetch_from_sources_run encodeURIComponent E1 (keyword options)
              (count_of options) (orientation_of options) (retries_of options)
              (useCache_of options) st)
    as (trace & gathered & st1 & Erun & Hlen & _ & _ & _ & F1 & _).
  cbv zeta in Erun. rewrite Erun.
  set (found := Array_slice0 (Set_of gathered) (count_of options)) in *.
  assert (Hfound : found <> []).
  { intros Hempty.
    assert (Hs : Set_of gathered <> []).
    { apply Set_of_nonempty. destruct gathered; [simpl in Hlen; lia | discriminate]. }
    unfold found, Array_slice0 in Hempty.
    assert (Hp : (0 <=? count_of options) = true) by (apply Z.leb_le; lia).
    rewrite Hp in Hempty. destruct (Set_of gathered); [congruence |].
    destruct (Z.to_nat (count_of options)) eqn:Ez; [lia | discriminate]. }
  assert (Hpos : (0 <? List.length found)%nat = true).
  { apply Nat.ltb_lt. destruct found; [congruence | simpl; lia]. }
  rewrite Hpos, Hu. simpl.
  eexists trace, found, _. split; [reflexivity |]. split; [exact Hfound |].
  intros m Hm. unfold fetchImages. cbv zeta.
  change (useCache_of (asking m options)) with (useCache_of options).
  change (keyword (asking m options)) with (keyword options).
  change (orientation_of (asking m options)) with (orientation_of options).
  change (count_of (asking m options)) with m.
  rewrite Hu. unfold cache_get.
  assert (Hen1 : enabled st1 = true) by congruence.
  pose proof (cache_set_facts encodeURIComponent E1 (keyword options)
                (orientation_of options) found st1) as Hset.
  cbv zeta in Hset. destruct Hset as (Hen' & _).
  rewrite Hen', Hen1. simpl.
  rewrite (cache_set_get encodeURIComponent E1 (keyword options)
             (orientation_of options) found st1 Hen1 Hfull Hclean).
  unfold expired. simpl.
  assert (Hfresh : (CACHE_TTL <? now E2 AtGet - now E1 AtSet) = false)
    by (apply Z.ltb_ge; exact Hget).
  rewrite Hfresh. simpl.
  assert (Hmle : (m <=? Z.of_nat (List.length found)) = true) by (apply Z.leb_le; lia).
  rewrite Hmle. unfold Task.ret, Array_slice0.
  assert (Hm0 : (0 <=? m) = true) by (apply Z.leb_le; lia).
  now rewrite Hm0.
Qed.

End RoundTrip.

(** ** Worked instances of the image service *)

(** Two images are asked for and the first source gives one address
    twice: one address is returned, and the fallback is not used. *)
Example fetchImages_repeated_address :
  fetchImages Sample.plain SampleImages.repeating (SampleImages.grid 2)
    SampleImages.fresh
  = ([CallSource Unsplash "kyoto temple" 2 landscape],
     Fulfilled
       (["https://images.unsplash.com/photo-1"],
        cache_set Sample.plain SampleImages.repeating "kyoto temple" landscape
          ["https://images.unsplash.com/photo-1"]
          (count_call (count_miss SampleImages.fresh)))).
Proof. vm_compute. reflexivity. Qed.

Lemma fetchImages_result_witness :
  exists trace found st',
    fetchImages Sample.plain SampleImages.repeating (SampleImages.grid 2)
      SampleImages.fresh
    = (trace, Fulfilled (found, st'))
    /\ NoDup found /\ tidy st' /\ found <> [].
Proof.
  destruct (fetchImages_result Sample.plain SampleImages.repeating
              (SampleImages.grid 2) SampleImages.fresh (Forall_nil _))
    as (trace & found & st' & E & Hn & Ht & _ & _ & Hne & _).
  exists trace, found, st'. split; [exact E |]. split; [exact Hn |].
  split; [exact Ht |]. apply Hne. vm_compute. discriminate.
Defined.

Lemma fetchImages_fallback_only_witness :
  exists trace st',
    fetchImages Sample.plain SampleImages.offline (SampleImages.grid 3)
      SampleImages.fresh
    = (trace,
       Fulfilled
         (map (pollinations_url Sample.plain SampleImages.offline "kyoto temple"
                 landscape) [0; 1; 2]%nat, st'))
    /\ List.length (requests trace) = 9%nat
    /\ failures (stats st') = 1.
Proof.
  destruct (fetchImages_fallback_only Sample.plain SampleImages.offline
              (SampleImages.grid 3) SampleImages.fresh)
    as (trace & st' & E & _ & Hr & _ & Hf).
  - intros source attempt. right. now eexists.
  - right. right. reflexivity.
  - vm_compute. discriminate.
  - exists trace, st'. split; [exact E |]. split; [exact Hr | exact Hf].
Defined.

Lemma fetchImages_cached_again_witness :
  exists trace found st',
    fetchImages Sample.plain SampleImages.offline (SampleImages.grid 3)
      SampleImages.fresh
    = (trace, Fulfilled (found, st'))
    /\ found <> []
    /\ forall m,
         0 <= m <= Z.of_nat (List.length found) ->
         fetchImages Sample.plain SampleImages.offline
           (asking m (SampleImages.grid 3)) st'
         = ([], Fulfilled (firstn (Z.to_nat m) found, count_hit st')).
Proof.
  apply (fetchImages_cached_again Sample.plain SampleImages.offline
           SampleImages.offline (SampleImages.grid 3) SampleImages.fresh);
    try reflexivity; vm_compute; discriminate.
Defined.

End ImageFacts.
